(** * GX-Kernel: a shallow embedding of the kernel services

    The development follows the C sources of the kernel:

    - [kernel/ipc/event.c], [event.h], [event_hw_generic.c]      (module [Ev])
    - [kernel/ipc/semaphore.c], [semaphore.h],
      [semaphore_hw_generic.c]                                    (module [Sm])
    - [kernel/ipc/queue.c], [queue.h], [queue_hw_generic.c]       (module [Q])
    - [kernel/sched/task.c], [task.h]                             (module [T])
    - [kernel/time/timer.c], [timer.h]                            (module [Tm])

    Conventions.

    - [ULONG] is [unsigned long]; it is taken 32 bits wide, as on the
      STM32F4 target and as the constants [0xFFFFFFFFUL] used for "all
      events" and "infinite timeout" assume.  A [ULONG] is a [Z] and every
      operation that can leave the range is wrapped explicitly with [wrap].
    - The global objects ([ev_global_state], [sm_global_state], ...) are
      threaded explicitly: a C function [f(args)] becomes
      [f args st = (result, st')].
    - An output pointer such as [ULONG *events_r] is an [option Z]: [None]
      is the NULL pointer, [Some v] a valid cell holding [v]; the cell after
      the call is part of the result.
    - The build is the host build ([STM32F4] undefined), so the hardware
      operations are the [*_hw_generic_ops] tables.
    - An intrusive linked list threaded through a pool of control blocks
      is the list of the pool slots met when following [next] from the
      list head; a pointer to a control block is its slot index.
    - POSIX calls are answered by an explicit record [OS]; activity of other
      tasks while a caller is blocked is an explicit argument of the
      blocking call. *)

From Stdlib Require Import ZArith Bool Lia Sorted.
From stdpp Require Import base list.

#[local] Open Scope Z_scope.

(** ** Machine integers and C idioms *)

Definition ULONG_BITS : Z := 32.
Definition ULONG_MAX : Z := 2 ^ ULONG_BITS - 1.

(** Reduction modulo 2^32: the value of an [unsigned long] expression. *)
Definition wrap (x : Z) : Z := x mod 2 ^ ULONG_BITS.

(** The cast [(LONG)x] of a [ULONG] to the signed type of the same width. *)
Definition to_LONG (x : Z) : Z :=
  let y := wrap x in if y <? 2 ^ (ULONG_BITS - 1) then y else y - 2 ^ ULONG_BITS.

(** [~x] on a [ULONG]. *)
Definition ulnot (x : Z) : Z := wrap (Z.lnot x).

(** C truth value of an integer. *)
Definition truthy (x : Z) : bool := negb (x =? 0).

(** [x++] on a [ULONG]. *)
Definition incr (x : Z) : Z := wrap (x + 1).
(** [x--] on a [ULONG]. *)
Definition decr (x : Z) : Z := wrap (x - 1).

(** ** Error codes *)

(** Codes of [gxkernel.h]. *)
Definition ERR_TIMEOUT : Z := 0x01.
Definition ERR_OBJDEL : Z := 0x05.
Definition ERR_OBJID : Z := 0x06.
Definition ERR_OBJNF : Z := 0x09.
Definition ERR_NOQCB : Z := 0x33.
Definition ERR_NOMGB : Z := 0x34.
Definition ERR_QFULL : Z := 0x35.
Definition ERR_NOMSG : Z := 0x37.
Definition ERR_NOEVS : Z := 0x3C.
Definition ERR_NOSCB : Z := 0x41.
Definition ERR_NOSEM : Z := 0x42.
Definition ERR_ILLTICKS : Z := 0x4A.
Definition ERR_NOTIMERS : Z := 0x4B.
Definition ERR_BADTMID : Z := 0x4C.

(** The kernel sources return a few codes that no header of the
    repository defines.  Their values are parameters of the development;
    what a theorem needs to know about them is stated as a hypothesis. *)
Class ErrCodes : Type := {
  ERR_BADPARAM : Z;
  ERR_NOMEM : Z;
  ERR_NOTSUPPORTED : Z;
  ERR_SEMFULL : Z;
  ERR_NOTACTIVE : Z;
  ERR_BADTCB : Z;
  ERR_NORESOURCE : Z
}.

(** ** The operating system under the host build *)

(** Answers of the C library and of POSIX to the calls made while one
    kernel service runs. *)
Record OS : Type := {
  malloc_ok : bool;       (* malloc returns a block *)
  sync_init_ok : bool;    (* sem_init, pthread_mutex_init, pthread_cond_init return 0 *)
  sync_wait_ok : bool;    (* a wait that fails does so for a reason other than
                             ETIMEDOUT when this is false *)
  sem_post_ok : bool      (* sem_post returns 0 *)
}.

Definition os_ok : OS :=
  {| malloc_ok := true; sync_init_ok := true; sync_wait_ok := true; sem_post_ok := true |}.

(** A blocking service either returns or keeps its caller blocked for ever. *)
Inductive outcome (A : Type) : Type :=
| Returns (a : A)
| Blocked.
Arguments Returns {A} a.
Arguments Blocked {A}.

(** ** Events: [kernel/ipc/event.c] *)

Module Ev.

Definition MAX_TASK : Z := 64.

Definition EV_POOL_MAGIC : Z := 0x4556.
Definition EV_ALL_EVENTS : Z := 0xFFFFFFFF.
Definition EV_STATE_FREE : Z := 0.
Definition EV_STATE_WAITING : Z := 1.
Definition EV_STATE_SIGNALED : Z := 2.

(** [gxkernel.h] is included first, so its values win over the
    [#ifndef] defaults of [event.h]. *)
Definition EV_NOWAIT : Z := 0x01.
Definition EV_WAIT : Z := 0x00.
Definition EV_ANY : Z := 0x02.
Definition EV_ALL : Z := 0x00.

Definition EV_INFINITE_TIMEOUT : Z := 0xFFFFFFFF.

Definition EV_STAT_SEND : Z := 1.
Definition EV_STAT_RECEIVE : Z := 2.
Definition EV_STAT_WAIT_START : Z := 3.
Definition EV_STAT_WAIT_COMPLETE : Z := 4.
Definition EV_STAT_TIMEOUT : Z := 5.

(** [EV_GENERIC_CONTEXT] of [event_hw_generic.c]; the mutex and the
    condition variable carry no data of their own. *)
Record EV_GENERIC_CONTEXT : Type := mkCtx {
  signaled : Z;
  waiting : Z;
  signal_count : Z;
  ctx_wait_count : Z
}.

Record EV_ECB : Type := mkECB {
  magic : Z;
  task_id : Z;
  state : Z;
  pending_events : Z;
  waiting_events : Z;
  received_events : Z;
  wait_condition : Z;
  wait_flags : Z;
  timeout_ticks : Z;
  wait_start_time : Z;
  events_sent : Z;
  events_received : Z;
  wait_count : Z;
  timeout_count : Z;
  hw_context : option EV_GENERIC_CONTEXT
}.

(** [memset(ecb, 0, sizeof(EV_ECB))]. *)
Definition ecb_zero : EV_ECB :=
  mkECB 0 0 0 0 0 0 0 0 0 0 0 0 0 0 None.

Definition set_state (v : Z) (e : EV_ECB) : EV_ECB :=
  mkECB (magic e) (task_id e) v (pending_events e) (waiting_events e)
        (received_events e) (wait_condition e) (wait_flags e) (timeout_ticks e)
        (wait_start_time e) (events_sent e) (events_received e) (wait_count e)
        (timeout_count e) (hw_context e).
Definition set_pending_events (v : Z) (e : EV_ECB) : EV_ECB :=
  mkECB (magic e) (task_id e) (state e) v (waiting_events e)
        (received_events e) (wait_condition e) (wait_flags e) (timeout_ticks e)
        (wait_start_time e) (events_sent e) (events_received e) (wait_count e)
        (timeout_count e) (hw_context e).
Definition set_waiting_events (v : Z) (e : EV_ECB) : EV_ECB :=
  mkECB (magic e) (task_id e) (state e) (pending_events e) v
        (received_events e) (wait_condition e) (wait_flags e) (timeout_ticks e)
        (wait_start_time e) (events_sent e) (events_received e) (wait_count e)
        (timeout_count e) (hw_context e).
Definition set_received_events (v : Z) (e : EV_ECB) : EV_ECB :=
  mkECB (magic e) (task_id e) (state e) (pending_events e) (waiting_events e)
        v (wait_condition e) (wait_flags e) (timeout_ticks e)
        (wait_start_time e) (events_sent e) (events_received e) (wait_count e)
        (timeout_count e) (hw_context e).
Definition set_wait_condition (v : Z) (e : EV_ECB) : EV_ECB :=
  mkECB (magic e) (task_id e) (state e) (pending_events e) (waiting_events e)
        (received_events e) v (wait_flags e) (timeout_ticks e)
        (wait_start_time e) (events_sent e) (events_received e) (wait_count e)
        (timeout_count e) (hw_context e).
Definition set_wait_flags (v : Z) (e : EV_ECB) : EV_ECB :=
  mkECB (magic e) (task_id e) (state e) (pending_events e) (waiting_events e)
        (received_events e) (wait_condition e) v (timeout_ticks e)
        (wait_start_time e) (events_sent e) (events_received e) (wait_count e)
        (timeout_count e) (hw_context e).
Definition set_timeout_ticks (v : Z) (e : EV_ECB) : EV_ECB :=
  mkECB (magic e) (task_id e) (state e) (pending_events e) (waiting_events e)
        (received_events e) (wait_condition e) (wait_flags e) v
        (wait_start_time e) (events_sent e) (events_received e) (wait_count e)
        (timeout_count e) (hw_context e).
Definition set_wait_start_time (v : Z) (e : EV_ECB) : EV_ECB :=
  mkECB (magic e) (task_id e) (state e) (pending_events e) (waiting_events e)
        (received_events e) (wait_condition e) (wait_flags e) (timeout_ticks e)
        v (events_sent e) (events_received e) (wait_count e)
        (timeout_count e) (hw_context e).
Definition set_events_sent (v : Z) (e : EV_ECB) : EV_ECB :=
  mkECB (magic e) (task_id e) (state e) (pending_events e) (waiting_events e)
        (received_events e) (wait_condition e) (wait_flags e) (timeout_ticks e)
        (wait_start_time e) v (events_received e) (wait_count e)
        (timeout_count e) (hw_context e).
Definition set_events_received (v : Z) (e : EV_ECB) : EV_ECB :=
  mkECB (magic e) (task_id e) (state e) (pending_events e) (waiting_events e)
        (received_events e) (wait_condition e) (wait_flags e) (timeout_ticks e)
        (wait_start_time e) (events_sent e) v (wait_count e)
        (timeout_count e) (hw_context e).
Definition set_wait_count (v : Z) (e : EV_ECB) : EV_ECB :=
  mkECB (magic e) (task_id e) (state e) (pending_events e) (waiting_events e)
        (received_events e) (wait_condition e) (wait_flags e) (timeout_ticks e)
        (wait_start_time e) (events_sent e) (events_received e) v
        (timeout_count e) (hw_context e).
Definition set_timeout_count (v : Z) (e : EV_ECB) : EV_ECB :=
  mkECB (magic e) (task_id e) (state e) (pending_events e) (waiting_events e)
        (received_events e) (wait_condition e) (wait_flags e) (timeout_ticks e)
        (wait_start_time e) (events_sent e) (events_received e) (wait_count e)
        v (hw_context e).
Definition set_hw_context (v : option EV_GENERIC_CONTEXT) (e : EV_ECB) : EV_ECB :=
  mkECB (magic e) (task_id e) (state e) (pending_events e) (waiting_events e)
        (received_events e) (wait_condition e) (wait_flags e) (timeout_ticks e)
        (wait_start_time e) (events_sent e) (events_received e) (wait_count e)
        (timeout_count e) v.

(** The hardware operation tables a build can select in [ev_hw_init]. *)
Inductive EV_HW_OPS : Type := ev_hw_generic_ops.

(** [ev_global_state] together with the file-static state of
    [event_hw_generic.c].  [event_blocks] is the array
    [pool.event_blocks[MAX_TASK]]. *)
Record EV_STATE : Type := mkState {
  pool_magic : Z;
  max_tasks : Z;
  active_count : Z;
  event_blocks : list EV_ECB;
  hw_ops : option EV_HW_OPS;
  initialized : Z;
  total_events_sent : Z;
  total_events_received : Z;
  hw_initialized : Z;
  hw_total_events_created : Z;
  hw_total_signals : Z;
  hw_total_waits : Z
}.

(** The state at program start: [EV_STATE ev_global_state = {0}]. *)
Definition ev_boot : EV_STATE :=
  mkState 0 0 0 (replicate (Z.to_nat MAX_TASK) ecb_zero) None 0 0 0 0 0 0 0.

Definition set_event_blocks (v : list EV_ECB) (s : EV_STATE) : EV_STATE :=
  mkState (pool_magic s) (max_tasks s) (active_count s) v (hw_ops s)
          (initialized s) (total_events_sent s) (total_events_received s)
          (hw_initialized s) (hw_total_events_created s) (hw_total_signals s)
          (hw_total_waits s).
Definition set_total_events_sent (v : Z) (s : EV_STATE) : EV_STATE :=
  mkState (pool_magic s) (max_tasks s) (active_count s) (event_blocks s) (hw_ops s)
          (initialized s) v (total_events_received s)
          (hw_initialized s) (hw_total_events_created s) (hw_total_signals s)
          (hw_total_waits s).
Definition set_total_events_received (v : Z) (s : EV_STATE) : EV_STATE :=
  mkState (pool_magic s) (max_tasks s) (active_count s) (event_blocks s) (hw_ops s)
          (initialized s) (total_events_sent s) v
          (hw_initialized s) (hw_total_events_created s) (hw_total_signals s)
          (hw_total_waits s).
Definition set_hw_total_events_created (v : Z) (s : EV_STATE) : EV_STATE :=
  mkState (pool_magic s) (max_tasks s) (active_count s) (event_blocks s) (hw_ops s)
          (initialized s) (total_events_sent s) (total_events_received s)
          (hw_initialized s) v (hw_total_signals s)
          (hw_total_waits s).
Definition set_hw_total_signals (v : Z) (s : EV_STATE) : EV_STATE :=
  mkState (pool_magic s) (max_tasks s) (active_count s) (event_blocks s) (hw_ops s)
          (initialized s) (total_events_sent s) (total_events_received s)
          (hw_initialized s) (hw_total_events_created s) v
          (hw_total_waits s).
Definition set_hw_total_waits (v : Z) (s : EV_STATE) : EV_STATE :=
  mkState (pool_magic s) (max_tasks s) (active_count s) (event_blocks s) (hw_ops s)
          (initialized s) (total_events_sent s) (total_events_received s)
          (hw_initialized s) (hw_total_events_created s) (hw_total_signals s)
          v.

(** A pointer [EV_ECB *] into [event_blocks] is the index of the block.
    [get] reads the block, [upd] applies an assignment to it. *)
Definition get (i : nat) (s : EV_STATE) : EV_ECB :=
  default ecb_zero (event_blocks s !! i).
Definition upd (i : nat) (f : EV_ECB -> EV_ECB) (s : EV_STATE) : EV_STATE :=
  set_event_blocks (<[i := f (get i s)]> (event_blocks s)) s.

(** *** Macros of [event.h] *)

Definition EV_IS_VALID_ECB (e : EV_ECB) : bool := magic e =? EV_POOL_MAGIC.
Definition EV_CHECK_ANY_CONDITION (pending waiting : Z) : Z := Z.land pending waiting.
Definition EV_CHECK_ALL_CONDITION (pending waiting : Z) : Z :=
  if Z.land pending waiting =? waiting then 1 else 0.
Definition EV_IS_VALID_EVENT_MASK (mask : Z) : bool :=
  negb (mask =? 0) && (mask <=? EV_ALL_EVENTS).
Definition EV_IS_VALID_TASK_ID (tid : Z) : bool := tid <? MAX_TASK.
Definition EV_IS_VALID_FLAGS (flags : Z) : bool :=
  Z.land flags (ulnot (Z.lor EV_ANY EV_NOWAIT)) =? 0.

Section Code.
Context `{ErrCodes}.

(** *** Pool management *)

Definition ev_pool_init (s : EV_STATE) : EV_STATE :=
  mkState EV_POOL_MAGIC MAX_TASK 0
    ((fun i => mkECB EV_POOL_MAGIC (Z.of_nat i) EV_STATE_FREE
                     0 0 0 0 0 0 0 0 0 0 0 None) <$> seq 0 (Z.to_nat MAX_TASK))
    (hw_ops s) (initialized s) (total_events_sent s) (total_events_received s)
    (hw_initialized s) (hw_total_events_created s) (hw_total_signals s)
    (hw_total_waits s).

(** The result is the slot of the block, [None] for NULL. *)
Definition ev_pool_get_task_ecb (task_id : Z) : option nat :=
  if negb (EV_IS_VALID_TASK_ID task_id) then None else Some (Z.to_nat task_id).

Definition ev_pool_validate_task_id (task_id : Z) : Z :=
  if EV_IS_VALID_TASK_ID task_id then 0 else ERR_OBJID.

(** *** Event processing *)

Definition ev_check_conditions (ecb : EV_ECB) : Z :=
  let pending := pending_events ecb in
  let waiting := waiting_events ecb in
  if negb (EV_IS_VALID_ECB ecb) || negb (state ecb =? EV_STATE_WAITING) then 0
  else if wait_condition ecb =? EV_ALL
       then EV_CHECK_ALL_CONDITION pending waiting
       else EV_CHECK_ANY_CONDITION pending waiting.

Definition ev_update_statistics (ecb : nat) (operation : Z) (s : EV_STATE) : EV_STATE :=
  if negb (EV_IS_VALID_ECB (get ecb s)) then s
  else if operation =? EV_STAT_SEND then
    set_total_events_sent (incr (total_events_sent s))
      (upd ecb (fun e => set_events_sent (incr (events_sent e)) e) s)
  else if operation =? EV_STAT_RECEIVE then
    set_total_events_received (incr (total_events_received s))
      (upd ecb (fun e => set_events_received (incr (events_received e)) e) s)
  else if operation =? EV_STAT_WAIT_START then
    upd ecb (fun e => set_wait_count (incr (wait_count e)) e) s
  else if operation =? EV_STAT_TIMEOUT then
    upd ecb (fun e => set_timeout_count (incr (timeout_count e)) e) s
  else s.

Definition ev_update_pending (ecb : nat) (new_events : Z) (s : EV_STATE) : Z * EV_STATE :=
  if negb (EV_IS_VALID_ECB (get ecb s)) then (ERR_BADPARAM, s)
  else
    let s := upd ecb (fun e => set_pending_events (Z.lor (pending_events e) new_events) e) s in
    (0, ev_update_statistics ecb EV_STAT_SEND s).

Definition ev_clear_received (ecb : nat) (events_to_clear : Z) (s : EV_STATE) : Z * EV_STATE :=
  if negb (EV_IS_VALID_ECB (get ecb s)) then (ERR_BADPARAM, s)
  else
    (0, upd ecb (fun e =>
           set_received_events events_to_clear
             (set_pending_events (Z.land (pending_events e) (ulnot events_to_clear)) e)) s).

(** "This would integrate with the task system": both are placeholders
    that return 0. *)
Definition ev_get_current_task_id : Z := 0.
Definition ev_get_current_time : Z := 0.

(** *** Generic hardware layer ([event_hw_generic.c]) *)

Definition ev_hw_generic_init (os : OS) (s : EV_STATE) : Z * EV_STATE :=
  if truthy (hw_initialized s) then (0, s)
  else if negb (sync_init_ok os) then (ERR_NOTSUPPORTED, s)
  else
    (0, mkState (pool_magic s) (max_tasks s) (active_count s) (event_blocks s)
                (hw_ops s) (initialized s) (total_events_sent s)
                (total_events_received s) 1 0 0 0).

Definition ev_hw_generic_create_event (os : OS) (ecb : nat) (s : EV_STATE) : Z * EV_STATE :=
  if negb (malloc_ok os) then (ERR_NOMEM, s)
  else if negb (sync_init_ok os) then (ERR_NOTSUPPORTED, s)
  else
    let s := upd ecb (set_hw_context (Some (mkCtx 0 0 0 0))) s in
    (0, set_hw_total_events_created (incr (hw_total_events_created s)) s).

Definition ev_hw_generic_signal_event (ecb : nat) (s : EV_STATE) : Z * EV_STATE :=
  match hw_context (get ecb s) with
  | None => (ERR_BADPARAM, s)
  | Some ctx =>
      let ctx := mkCtx 1 (waiting ctx) (incr (signal_count ctx)) (ctx_wait_count ctx) in
      let s := upd ecb (set_hw_context (Some ctx)) s in
      (0, set_hw_total_signals (incr (hw_total_signals s)) s)
  end.

Definition ev_hw_generic_clear_event (ecb : nat) (s : EV_STATE) : Z * EV_STATE :=
  match hw_context (get ecb s) with
  | None => (ERR_BADPARAM, s)
  | Some ctx =>
      (0, upd ecb (set_hw_context
                     (Some (mkCtx 0 (waiting ctx) (signal_count ctx) (ctx_wait_count ctx)))) s)
  end.

Definition ev_hw_init (os : OS) (s : EV_STATE) : Z * EV_STATE :=
  let s := mkState (pool_magic s) (max_tasks s) (active_count s) (event_blocks s)
                   (Some ev_hw_generic_ops) (initialized s) (total_events_sent s)
                   (total_events_received s) (hw_initialized s)
                   (hw_total_events_created s) (hw_total_signals s) (hw_total_waits s) in
  ev_hw_generic_init os s.

(** The value of [ev_hw_init] is dropped by the source. *)
Definition ev_init_once (os : OS) (s : EV_STATE) : Z * EV_STATE :=
  if truthy (initialized s) then (0, s)
  else
    let s := ev_pool_init s in
    let s := snd (ev_hw_init os s) in
    (0, mkState (pool_magic s) (max_tasks s) (active_count s) (event_blocks s)
                (hw_ops s) 1 0 0 (hw_initialized s)
                (hw_total_events_created s) (hw_total_signals s) (hw_total_waits s)).

(** *** Wait management *)

Definition ev_start_wait (os : OS) (ecb : nat) (events flags timeout : Z)
    (s : EV_STATE) : Z * EV_STATE :=
  if negb (EV_IS_VALID_ECB (get ecb s)) then (ERR_BADPARAM, s)
  else
    let s := upd ecb (fun e =>
               set_state EV_STATE_WAITING
                 (set_wait_start_time ev_get_current_time
                   (set_timeout_ticks timeout
                     (set_wait_flags flags
                       (set_wait_condition
                          (if truthy (Z.land flags EV_ANY) then EV_ANY else EV_ALL)
                          (set_waiting_events events e)))))) s in
    let '(error, s) :=
      match hw_ops s with
      | Some ev_hw_generic_ops => ev_hw_generic_create_event os ecb s
      | None => (0, s)
      end in
    if negb (error =? 0) then (error, s)
    else (0, ev_update_statistics ecb EV_STAT_WAIT_START s).

Definition clear_wait_state (e : EV_ECB) : EV_ECB :=
  set_state EV_STATE_FREE
    (set_timeout_ticks 0 (set_wait_flags 0 (set_wait_condition 0 (set_waiting_events 0 e)))).

Definition ev_complete_wait (ecb : nat) (events_received : option Z)
    (s : EV_STATE) : Z * option Z * EV_STATE :=
  match events_received with
  | None => (ERR_BADPARAM, None, s)
  | Some _ =>
      if negb (EV_IS_VALID_ECB (get ecb s)) then (ERR_BADPARAM, events_received, s)
      else
        let out := Some (received_events (get ecb s)) in
        let s := upd ecb clear_wait_state s in
        (0, out, ev_update_statistics ecb EV_STAT_WAIT_COMPLETE s)
  end.

Definition ev_cancel_wait (ecb : nat) (s : EV_STATE) : Z * EV_STATE :=
  if negb (EV_IS_VALID_ECB (get ecb s)) then (ERR_BADPARAM, s)
  else
    let s := match hw_ops s with
             | Some ev_hw_generic_ops => snd (ev_hw_generic_clear_event ecb s)
             | None => s
             end in
    (0, upd ecb clear_wait_state s).

(** *** [ev_send] *)

Definition ev_send (os : OS) (tid events : Z) (s : EV_STATE) : Z * EV_STATE :=
  let '(error, s) := ev_init_once os s in
  if negb (error =? 0) then (error, s) else
  let error := ev_pool_validate_task_id tid in
  if negb (error =? 0) then (error, s) else
  let error := if EV_IS_VALID_EVENT_MASK events then 0 else ERR_BADPARAM in
  if negb (error =? 0) then (error, s) else
  match ev_pool_get_task_ecb tid with
  | None => (ERR_OBJID, s)
  | Some ecb =>
      let s := snd (ev_update_pending ecb events s) in
      if state (get ecb s) =? EV_STATE_WAITING then
        let events_satisfied := ev_check_conditions (get ecb s) in
        if truthy events_satisfied then
          let s := match hw_ops s with
                   | Some ev_hw_generic_ops => snd (ev_hw_generic_signal_event ecb s)
                   | None => s
                   end in
          let s :=
            if wait_condition (get ecb s) =? EV_ALL then
              let s := upd ecb (fun e =>
                         set_received_events
                           (Z.land (pending_events e) (waiting_events e)) e) s in
              snd (ev_clear_received ecb (waiting_events (get ecb s)) s)
            else
              let s := upd ecb (fun e =>
                         set_received_events
                           (Z.land (pending_events e) (waiting_events e)) e) s in
              snd (ev_clear_received ecb (received_events (get ecb s)) s) in
          (0, upd ecb (set_state EV_STATE_SIGNALED) s)
        else (0, s)
      else (0, s)
  end.

(** *** Waiting on the hardware event object

    [ev_hw_generic_wait_event] blocks its caller on a condition variable.
    [during] lists the [ev_send (tid, events)] calls that other tasks make
    while the caller is blocked and from which they have returned before
    the caller runs again; they run once the caller has registered
    itself ([waiting = 1]).  With [during = []] this is the function as
    one task runs it.  A sender that is still inside [ev_send] when the
    caller runs again is not of this form: the parts of the two
    functions that can alternate are [ev_send_signal], [ev_send_stores],
    [ev_receive_block] and [ev_receive_resume] below.  The loops
    [while (!ctx->signaled && error == 0)] end when a sender has set
    [signaled], when [pthread_cond_timedwait] reports [ETIMEDOUT] (timed
    branch only: the deadline is reached and no sender has signalled), or
    on another failure of the wait ([sync_wait_ok os = false]); with no
    signal, no deadline and no failure the caller stays blocked. *)
Definition ev_hw_generic_wait_event (os : OS) (during : list (Z * Z)) (ecb : nat)
    (timeout : Z) (s : EV_STATE) : outcome (Z * EV_STATE) :=
  match hw_context (get ecb s) with
  | None => Returns (ERR_BADPARAM, s)
  | Some ctx =>
      let ctx := mkCtx (signaled ctx) 1 (signal_count ctx) (incr (ctx_wait_count ctx)) in
      let s := upd ecb (set_hw_context (Some ctx)) s in
      let s := set_hw_total_waits (incr (hw_total_waits s)) s in
      let s := fold_left (fun s m => snd (ev_send os (fst m) (snd m) s)) during s in
      match hw_context (get ecb s) with
      | None => Returns (ERR_BADPARAM, s)
      | Some ctx =>
          let leave (sig : Z) :=
            upd ecb (set_hw_context
                       (Some (mkCtx sig 0 (signal_count ctx) (ctx_wait_count ctx)))) s in
          if truthy (signaled ctx) then Returns (0, leave 0)
          else if timeout =? EV_INFINITE_TIMEOUT then
            if sync_wait_ok os then Blocked
            else Returns (ERR_NOTSUPPORTED, leave (signaled ctx))
          else
            if sync_wait_ok os then Returns (ERR_TIMEOUT, leave (signaled ctx))
            else Returns (ERR_NOTSUPPORTED, leave (signaled ctx))
      end
  end.

(** *** [ev_receive] *)

Definition ev_receive (os : OS) (during : list (Z * Z)) (events flags timeout : Z)
    (events_r : option Z) (s : EV_STATE) : outcome (Z * option Z * EV_STATE) :=
  let '(error, s) := ev_init_once os s in
  if negb (error =? 0) then Returns (error, events_r, s) else
  match events_r with
  | None => Returns (ERR_BADPARAM, events_r, s)
  | Some _ =>
  let error := if EV_IS_VALID_EVENT_MASK events then 0 else ERR_BADPARAM in
  if negb (error =? 0) then Returns (error, events_r, s) else
  let error := if EV_IS_VALID_FLAGS flags then 0 else ERR_BADPARAM in
  if negb (error =? 0) then Returns (error, events_r, s) else
  let task_id := ev_get_current_task_id in
  match ev_pool_get_task_ecb task_id with
  | None => Returns (ERR_OBJID, events_r, s)
  | Some ecb =>
      (* Check if requested events are already pending *)
      let s := upd ecb (fun e =>
                 set_wait_condition
                   (if truthy (Z.land flags EV_ANY) then EV_ANY else EV_ALL)
                   (set_waiting_events events e)) s in
      let events_satisfied := ev_check_conditions (get ecb s) in
      if truthy events_satisfied then
        let out := Z.land (pending_events (get ecb s)) events in
        let s := if wait_condition (get ecb s) =? EV_ALL
                 then snd (ev_clear_received ecb events s)
                 else snd (ev_clear_received ecb out s) in
        Returns (0, Some out, ev_update_statistics ecb EV_STAT_RECEIVE s)
      else if truthy (Z.land flags EV_NOWAIT) then
        Returns (ERR_NOEVS, Some 0, s)
      else
        let '(error, s) := ev_start_wait os ecb events flags timeout s in
        if negb (error =? 0) then Returns (error, events_r, s) else
        match hw_ops s with
        | Some ev_hw_generic_ops =>
            match ev_hw_generic_wait_event os during ecb timeout s with
            | Blocked => Blocked
            | Returns (error, s) =>
                if error =? ERR_TIMEOUT then
                  let s := ev_update_statistics ecb EV_STAT_TIMEOUT s in
                  let s := snd (ev_cancel_wait ecb s) in
                  Returns (ERR_TIMEOUT, events_r, s)
                else Returns (ev_complete_wait ecb events_r s)
            end
        | None => Returns (ev_complete_wait ecb events_r s)
        end
  end
  end.

(** *** [ev_send] and [ev_receive] in the parts that two tasks can alternate

    [EV_ENTER_CRITICAL] and [EV_EXIT_CRITICAL] are empty, and the mutex
    of the event object is held inside [signal_event] and [wait_event]
    only.  The task that waits can run again as soon as [signal_event]
    has returned in the sender, before the stores that follow it in
    [ev_send]. *)

(** [ev_send] from its entry to the return of [signal_event].  The
    second component is the block [ecb] when the function is in the
    branch of the satisfied wait, where the stores of [ev_send_stores]
    are still to come; it is [None] when the function has returned. *)
Definition ev_send_signal (os : OS) (tid events : Z) (s : EV_STATE)
    : Z * option nat * EV_STATE :=
  let '(error, s) := ev_init_once os s in
  if negb (error =? 0) then (error, None, s) else
  let error := ev_pool_validate_task_id tid in
  if negb (error =? 0) then (error, None, s) else
  let error := if EV_IS_VALID_EVENT_MASK events then 0 else ERR_BADPARAM in
  if negb (error =? 0) then (error, None, s) else
  match ev_pool_get_task_ecb tid with
  | None => (ERR_OBJID, None, s)
  | Some ecb =>
      let s := snd (ev_update_pending ecb events s) in
      if state (get ecb s) =? EV_STATE_WAITING then
        let events_satisfied := ev_check_conditions (get ecb s) in
        if truthy events_satisfied then
          let s := match hw_ops s with
                   | Some ev_hw_generic_ops => snd (ev_hw_generic_signal_event ecb s)
                   | None => s
                   end in
          (0, Some ecb, s)
        else (0, None, s)
      else (0, None, s)
  end.

(** The rest of [ev_send] in that branch, from "Prepare received events
    based on wait condition" to the return. *)
Definition ev_send_stores (ecb : nat) (s : EV_STATE) : Z * EV_STATE :=
  let s :=
    if wait_condition (get ecb s) =? EV_ALL then
      let s := upd ecb (fun e =>
                 set_received_events
                   (Z.land (pending_events e) (waiting_events e)) e) s in
      snd (ev_clear_received ecb (waiting_events (get ecb s)) s)
    else
      let s := upd ecb (fun e =>
                 set_received_events
                   (Z.land (pending_events e) (waiting_events e)) e) s in
      snd (ev_clear_received ecb (received_events (get ecb s)) s) in
  (0, upd ecb (set_state EV_STATE_SIGNALED) s).

(** [wait_event] from its entry to its wait: the caller is registered on
    the event object; [None] when the block has no event object. *)
Definition ev_hw_generic_wait_event_enter (ecb : nat) (s : EV_STATE) : option EV_STATE :=
  match hw_context (get ecb s) with
  | None => None
  | Some ctx =>
      let ctx := mkCtx (signaled ctx) 1 (signal_count ctx) (incr (ctx_wait_count ctx)) in
      let s := upd ecb (set_hw_context (Some ctx)) s in
      Some (set_hw_total_waits (incr (hw_total_waits s)) s)
  end.

(** [wait_event] from the test of [signaled] on, when the caller runs
    again. *)
Definition ev_hw_generic_wait_event_leave (os : OS) (ecb : nat) (timeout : Z)
    (s : EV_STATE) : outcome (Z * EV_STATE) :=
  match hw_context (get ecb s) with
  | None => Returns (ERR_BADPARAM, s)
  | Some ctx =>
      let leave (sig : Z) :=
        upd ecb (set_hw_context
                   (Some (mkCtx sig 0 (signal_count ctx) (ctx_wait_count ctx)))) s in
      if truthy (signaled ctx) then Returns (0, leave 0)
      else if timeout =? EV_INFINITE_TIMEOUT then
        if sync_wait_ok os then Blocked
        else Returns (ERR_NOTSUPPORTED, leave (signaled ctx))
      else
        if sync_wait_ok os then Returns (ERR_TIMEOUT, leave (signaled ctx))
        else Returns (ERR_NOTSUPPORTED, leave (signaled ctx))
  end.

(** What [ev_receive] does with the value of [wait_event]. *)
Definition ev_receive_after_wait (ecb : nat) (events_r : option Z)
    (r : outcome (Z * EV_STATE)) : outcome (Z * option Z * EV_STATE) :=
  match r with
  | Blocked => Blocked
  | Returns (error, s) =>
      if error =? ERR_TIMEOUT then
        let s := ev_update_statistics ecb EV_STAT_TIMEOUT s in
        let s := snd (ev_cancel_wait ecb s) in
        Returns (ERR_TIMEOUT, events_r, s)
      else Returns (ev_complete_wait ecb events_r s)
  end.

(** [ev_receive] from its entry to the wait inside [wait_event]: either
    the function has returned ([inl]), or the caller waits on the event
    object of its block [ecb] ([inr]). *)
Definition ev_receive_block (os : OS) (events flags timeout : Z)
    (events_r : option Z) (s : EV_STATE)
    : (Z * option Z * EV_STATE) + (nat * EV_STATE) :=
  let '(error, s) := ev_init_once os s in
  if negb (error =? 0) then inl (error, events_r, s) else
  match events_r with
  | None => inl (ERR_BADPARAM, events_r, s)
  | Some _ =>
  let error := if EV_IS_VALID_EVENT_MASK events then 0 else ERR_BADPARAM in
  if negb (error =? 0) then inl (error, events_r, s) else
  let error := if EV_IS_VALID_FLAGS flags then 0 else ERR_BADPARAM in
  if negb (error =? 0) then inl (error, events_r, s) else
  let task_id := ev_get_current_task_id in
  match ev_pool_get_task_ecb task_id with
  | None => inl (ERR_OBJID, events_r, s)
  | Some ecb =>
      let s := upd ecb (fun e =>
                 set_wait_condition
                   (if truthy (Z.land flags EV_ANY) then EV_ANY else EV_ALL)
                   (set_waiting_events events e)) s in
      let events_satisfied := ev_check_conditions (get ecb s) in
      if truthy events_satisfied then
        let out := Z.land (pending_events (get ecb s)) events in
        let s := if wait_condition (get ecb s) =? EV_ALL
                 then snd (ev_clear_received ecb events s)
                 else snd (ev_clear_received ecb out s) in
        inl (0, Some out, ev_update_statistics ecb EV_STAT_RECEIVE s)
      else if truthy (Z.land flags EV_NOWAIT) then
        inl (ERR_NOEVS, Some 0, s)
      else
        let '(error, s) := ev_start_wait os ecb events flags timeout s in
        if negb (error =? 0) then inl (error, events_r, s) else
        match hw_ops s with
        | Some ev_hw_generic_ops =>
            match ev_hw_generic_wait_event_enter ecb s with
            | None =>
                if ERR_BADPARAM =? ERR_TIMEOUT then
                  let s := ev_update_statistics ecb EV_STAT_TIMEOUT s in
                  let s := snd (ev_cancel_wait ecb s) in
                  inl (ERR_TIMEOUT, events_r, s)
                else inl (ev_complete_wait ecb events_r s)
            | Some s => inr (ecb, s)
            end
        | None => inl (ev_complete_wait ecb events_r s)
        end
  end
  end.

(** The rest of [ev_receive] when the caller, which waits on the event
    object of [ecb], runs again. *)
Definition ev_receive_resume (os : OS) (ecb : nat) (timeout : Z) (events_r : option Z)
    (s : EV_STATE) : outcome (Z * option Z * EV_STATE) :=
  ev_receive_after_wait ecb events_r (ev_hw_generic_wait_event_leave os ecb timeout s).

End Code.

End Ev.

(** ** Semaphores: [kernel/ipc/semaphore.c] *)

Module Sm.

Definition SM_MAX_SEMAPHORES : Z := 64.
Definition SM_INVALID_ID : Z := 0.
Definition SM_POOL_MAGIC : Z := 0x534D.
Definition SM_MAX_COUNT : Z := 0x7FFFFFFF.

Definition SM_STATE_FREE : Z := 0.
Definition SM_STATE_ACTIVE : Z := 1.
Definition SM_STATE_DELETED : Z := 2.

(** Values of [gxkernel.h], which is included before [semaphore.h]. *)
Definition SM_GLOBAL : Z := 0x01.
Definition SM_LOCAL : Z := 0x00.
Definition SM_PRIOR : Z := 0x02.
Definition SM_FIFO : Z := 0x00.
Definition SM_NOWAIT : Z := 0x01.
Definition SM_WAIT : Z := 0x00.

Definition SM_STAT_WAIT : Z := 1.
Definition SM_STAT_SIGNAL : Z := 2.
Definition SM_STAT_TIMEOUT : Z := 3.

Definition SM_INFINITE_TIMEOUT : Z := 0xFFFFFFFF.
Definition SM_NO_TIMEOUT : Z := 0.

(** A [char name[4]]. *)
Definition Name : Type := (Z * Z * Z * Z)%type.
Definition name_zero : Name := (0, 0, 0, 0).

(** A node of the wait queue of a semaphore; the queue itself, a doubly
    linked list of malloc'ed nodes between [wait_queue_head] and
    [wait_queue_tail], is the list of its nodes from head to tail. *)
Record SM_WAIT_NODE : Type := mkNode {
  nd_task_id : Z;
  nd_priority : Z;
  nd_wait_start : Z
}.

(** [SM_GENERIC_CONTEXT] of [semaphore_hw_generic.c]; [posix_sem] is the
    value of the POSIX semaphore. *)
Record SM_GENERIC_CONTEXT : Type := mkCtx {
  posix_sem : Z;
  ctx_current_count : Z;
  ctx_max_count : Z;
  ctx_wait_count : Z;
  ctx_signal_count : Z
}.

Record SM_SCB : Type := mkSCB {
  magic : Z;
  semaphore_id : Z;
  name : Name;
  state : Z;
  flags : Z;
  current_count : Z;
  initial_count : Z;
  maximum_count : Z;
  wait_queue : list SM_WAIT_NODE;
  wait_count : Z;
  wait_mode : Z;
  total_waits : Z;
  total_signals : Z;
  total_timeouts : Z;
  max_wait_time : Z;
  hw_context : option SM_GENERIC_CONTEXT
}.

Definition set_current_count (v : Z) (r : SM_SCB) : SM_SCB :=
  mkSCB (magic r) (semaphore_id r) (name r) (state r) (flags r) v (initial_count r)
    (maximum_count r) (wait_queue r) (wait_count r) (wait_mode r) (total_waits r)
    (total_signals r) (total_timeouts r) (max_wait_time r) (hw_context r).
Definition set_wait_queue (v : list SM_WAIT_NODE) (r : SM_SCB) : SM_SCB :=
  mkSCB (magic r) (semaphore_id r) (name r) (state r) (flags r) (current_count r)
    (initial_count r) (maximum_count r) v (wait_count r) (wait_mode r) (total_waits r)
    (total_signals r) (total_timeouts r) (max_wait_time r) (hw_context r).
Definition set_wait_count (v : Z) (r : SM_SCB) : SM_SCB :=
  mkSCB (magic r) (semaphore_id r) (name r) (state r) (flags r) (current_count r)
    (initial_count r) (maximum_count r) (wait_queue r) v (wait_mode r) (total_waits r)
    (total_signals r) (total_timeouts r) (max_wait_time r) (hw_context r).
Definition set_total_waits (v : Z) (r : SM_SCB) : SM_SCB :=
  mkSCB (magic r) (semaphore_id r) (name r) (state r) (flags r) (current_count r)
    (initial_count r) (maximum_count r) (wait_queue r) (wait_count r) (wait_mode r) v
    (total_signals r) (total_timeouts r) (max_wait_time r) (hw_context r).
Definition set_total_signals (v : Z) (r : SM_SCB) : SM_SCB :=
  mkSCB (magic r) (semaphore_id r) (name r) (state r) (flags r) (current_count r)
    (initial_count r) (maximum_count r) (wait_queue r) (wait_count r) (wait_mode r)
    (total_waits r) v (total_timeouts r) (max_wait_time r) (hw_context r).
Definition set_total_timeouts (v : Z) (r : SM_SCB) : SM_SCB :=
  mkSCB (magic r) (semaphore_id r) (name r) (state r) (flags r) (current_count r)
    (initial_count r) (maximum_count r) (wait_queue r) (wait_count r) (wait_mode r)
    (total_waits r) (total_signals r) v (max_wait_time r) (hw_context r).
Definition set_max_wait_time (v : Z) (r : SM_SCB) : SM_SCB :=
  mkSCB (magic r) (semaphore_id r) (name r) (state r) (flags r) (current_count r)
    (initial_count r) (maximum_count r) (wait_queue r) (wait_count r) (wait_mode r)
    (total_waits r) (total_signals r) (total_timeouts r) v (hw_context r).
Definition set_hw_context (v : option SM_GENERIC_CONTEXT) (r : SM_SCB) : SM_SCB :=
  mkSCB (magic r) (semaphore_id r) (name r) (state r) (flags r) (current_count r)
    (initial_count r) (maximum_count r) (wait_queue r) (wait_count r) (wait_mode r)
    (total_waits r) (total_signals r) (total_timeouts r) (max_wait_time r) v.


(** [memset(scb, 0, sizeof(SM_SCB))]. *)
Definition scb_zero : SM_SCB :=
  mkSCB 0 0 name_zero 0 0 0 0 0 [] 0 0 0 0 0 0 None.

(** The hardware operation tables a build can select in [sm_hw_init]. *)
Inductive SM_HW_OPS : Type := sm_hw_generic_ops.

(** [sm_global_state] with its pool, and the file-static state of
    [semaphore_hw_generic.c].  [semaphores] is the array of control
    blocks; [free_list] and [active_list] are the two chains threaded
    through it by the [next] and [prev] fields. *)

Record SM_STATE : Type := mkState {
  pool_magic : Z;
  max_semaphores : Z;
  active_count : Z;
  next_id : Z;
  free_list : list nat;
  active_list : list nat;
  semaphores : list SM_SCB;
  hw_ops : option SM_HW_OPS;
  initialized : Z;
  total_created : Z;
  total_deleted : Z;
  hw_initialized : Z;
  hw_total_created : Z;
  hw_total_signals : Z;
  hw_total_waits : Z
}.

Definition st_active_count (v : Z) (r : SM_STATE) : SM_STATE :=
  mkState (pool_magic r) (max_semaphores r) v (next_id r) (free_list r) (active_list
    r) (semaphores r) (hw_ops r) (initialized r) (total_created r) (total_deleted r)
    (hw_initialized r) (hw_total_created r) (hw_total_signals r) (hw_total_waits r).
Definition st_next_id (v : Z) (r : SM_STATE) : SM_STATE :=
  mkState (pool_magic r) (max_semaphores r) (active_count r) v (free_list r)
    (active_list r) (semaphores r) (hw_ops r) (initialized r) (total_created r)
    (total_deleted r) (hw_initialized r) (hw_total_created r) (hw_total_signals r)
    (hw_total_waits r).
Definition st_free_list (v : list nat) (r : SM_STATE) : SM_STATE :=
  mkState (pool_magic r) (max_semaphores r) (active_count r) (next_id r) v
    (active_list r) (semaphores r) (hw_ops r) (initialized r) (total_created r)
    (total_deleted r) (hw_initialized r) (hw_total_created r) (hw_total_signals r)
    (hw_total_waits r).
Definition st_active_list (v : list nat) (r : SM_STATE) : SM_STATE :=
  mkState (pool_magic r) (max_semaphores r) (active_count r) (next_id r) (free_list r)
    v (semaphores r) (hw_ops r) (initialized r) (total_created r) (total_deleted r)
    (hw_initialized r) (hw_total_created r) (hw_total_signals r) (hw_total_waits r).
Definition st_semaphores (v : list SM_SCB) (r : SM_STATE) : SM_STATE :=
  mkState (pool_magic r) (max_semaphores r) (active_count r) (next_id r) (free_list r)
    (active_list r) v (hw_ops r) (initialized r) (total_created r) (total_deleted r)
    (hw_initialized r) (hw_total_created r) (hw_total_signals r) (hw_total_waits r).
Definition st_hw_ops (v : option SM_HW_OPS) (r : SM_STATE) : SM_STATE :=
  mkState (pool_magic r) (max_semaphores r) (active_count r) (next_id r) (free_list r)
    (active_list r) (semaphores r) v (initialized r) (total_created r) (total_deleted
    r) (hw_initialized r) (hw_total_created r) (hw_total_signals r) (hw_total_waits
    r).
Definition st_initialized (v : Z) (r : SM_STATE) : SM_STATE :=
  mkState (pool_magic r) (max_semaphores r) (active_count r) (next_id r) (free_list r)
    (active_list r) (semaphores r) (hw_ops r) v (total_created r) (total_deleted r)
    (hw_initialized r) (hw_total_created r) (hw_total_signals r) (hw_total_waits r).
Definition st_total_created (v : Z) (r : SM_STATE) : SM_STATE :=
  mkState (pool_magic r) (max_semaphores r) (active_count r) (next_id r) (free_list r)
    (active_list r) (semaphores r) (hw_ops r) (initialized r) v (total_deleted r)
    (hw_initialized r) (hw_total_created r) (hw_total_signals r) (hw_total_waits r).
Definition st_total_deleted (v : Z) (r : SM_STATE) : SM_STATE :=
  mkState (pool_magic r) (max_semaphores r) (active_count r) (next_id r) (free_list r)
    (active_list r) (semaphores r) (hw_ops r) (initialized r) (total_created r) v
    (hw_initialized r) (hw_total_created r) (hw_total_signals r) (hw_total_waits r).
Definition st_hw_total_created (v : Z) (r : SM_STATE) : SM_STATE :=
  mkState (pool_magic r) (max_semaphores r) (active_count r) (next_id r) (free_list r)
    (active_list r) (semaphores r) (hw_ops r) (initialized r) (total_created r)
    (total_deleted r) (hw_initialized r) v (hw_total_signals r) (hw_total_waits r).
Definition st_hw_total_signals (v : Z) (r : SM_STATE) : SM_STATE :=
  mkState (pool_magic r) (max_semaphores r) (active_count r) (next_id r) (free_list r)
    (active_list r) (semaphores r) (hw_ops r) (initialized r) (total_created r)
    (total_deleted r) (hw_initialized r) (hw_total_created r) v (hw_total_waits r).
Definition st_hw_total_waits (v : Z) (r : SM_STATE) : SM_STATE :=
  mkState (pool_magic r) (max_semaphores r) (active_count r) (next_id r) (free_list r)
    (active_list r) (semaphores r) (hw_ops r) (initialized r) (total_created r)
    (total_deleted r) (hw_initialized r) (hw_total_created r) (hw_total_signals r) v.

(** The state at program start: [SM_STATE sm_global_state = {0}]. *)
Definition sm_boot : SM_STATE :=
  mkState 0 0 0 0 [] [] (replicate (Z.to_nat SM_MAX_SEMAPHORES) scb_zero)
          None 0 0 0 0 0 0 0.

(** A pointer [SM_SCB *] is the slot of the block in [semaphores]. *)
Definition get (i : nat) (s : SM_STATE) : SM_SCB :=
  default scb_zero (semaphores s !! i).
Definition upd (i : nat) (f : SM_SCB -> SM_SCB) (s : SM_STATE) : SM_STATE :=
  st_semaphores (<[i := f (get i s)]> (semaphores s)) s.

(** *** Macros of [semaphore.h] *)

Definition SM_IS_VALID_SCB (scb : SM_SCB) : bool := magic scb =? SM_POOL_MAGIC.
Definition SM_IS_VALID_ID (id : Z) : bool := negb (id =? SM_INVALID_ID).
Definition SM_IS_VALID_COUNT (cnt : Z) : bool := (0 <=? cnt) && (cnt <=? SM_MAX_COUNT).
Definition SM_IS_VALID_FLAGS (flags : Z) : bool :=
  Z.land flags (ulnot (Z.lor (Z.lor SM_FIFO SM_PRIOR) SM_NOWAIT)) =? 0.

Section Code.
Context `{ErrCodes}.

(** *** Pool management *)

Definition sm_pool_init (s : SM_STATE) : SM_STATE :=
  mkState SM_POOL_MAGIC SM_MAX_SEMAPHORES 0 1
          (seq 0 (Z.to_nat SM_MAX_SEMAPHORES)) []
          (replicate (Z.to_nat SM_MAX_SEMAPHORES) scb_zero)
          (hw_ops s) (initialized s) (total_created s) (total_deleted s)
          (hw_initialized s) (hw_total_created s) (hw_total_signals s)
          (hw_total_waits s).

Definition sm_generate_id (s : SM_STATE) : Z * SM_STATE :=
  let id := next_id s in
  let s := st_next_id (incr (next_id s)) s in
  let s := if next_id s =? 0 then st_next_id 1 s else s in
  (id, s).

Definition sm_pool_alloc (s : SM_STATE) : option nat * SM_STATE :=
  match free_list s with
  | [] => (None, s)
  | scb :: rest =>
      let s := st_free_list rest s in
      let s := st_active_count (incr (active_count s)) s in
      let '(id, s) := sm_generate_id s in
      let s := upd scb (fun _ =>
                 mkSCB SM_POOL_MAGIC id name_zero SM_STATE_ACTIVE 0 0 0 0 [] 0 0 0 0 0 0 None) s in
      (Some scb, st_active_list (scb :: active_list s) s)
  end.

Definition sm_wait_queue_clear (scb : nat) (s : SM_STATE) : Z * SM_STATE :=
  if negb (SM_IS_VALID_SCB (get scb s)) then (ERR_BADPARAM, s)
  else (0, upd scb (fun b => set_wait_count 0 (set_wait_queue [] b)) s).

Definition sm_hw_generic_delete_semaphore (scb : nat) (s : SM_STATE) : Z * SM_STATE :=
  match hw_context (get scb s) with
  | None => (ERR_BADPARAM, s)
  | Some _ => (0, upd scb (set_hw_context None) s)
  end.

(** Unlinking [scb] from the active chain removes its slot from
    [active_list]; every caller passes a block of that chain. *)
Definition sm_pool_free (scb : nat) (s : SM_STATE) : Z * SM_STATE :=
  if negb (SM_IS_VALID_SCB (get scb s)) then (ERR_BADPARAM, s)
  else
    let s := st_active_list (filter (fun i => i <> scb) (active_list s)) s in
    let s := snd (sm_wait_queue_clear scb s) in
    let s := match hw_ops s with
             | Some sm_hw_generic_ops => snd (sm_hw_generic_delete_semaphore scb s)
             | None => s
             end in
    let s := upd scb (fun _ => scb_zero) s in
    let s := st_free_list (scb :: free_list s) s in
    (0, st_active_count (decr (active_count s)) s).

Definition sm_pool_find (semaphore_id : Z) (s : SM_STATE) : option nat :=
  if negb (SM_IS_VALID_ID semaphore_id) then None
  else
    List.find (fun i => (Sm.semaphore_id (get i s) =? semaphore_id)
                        && SM_IS_VALID_SCB (get i s))
              (active_list s).

(** *** Wait queue management *)

(** The walk [while (current != NULL && current->priority <= priority)]:
    the node is linked in before the first node of larger priority value. *)
Fixpoint insert_by_priority (node : SM_WAIT_NODE) (q : list SM_WAIT_NODE)
    : list SM_WAIT_NODE :=
  match q with
  | [] => [node]
  | current :: rest =>
      if nd_priority current <=? nd_priority node
      then current :: insert_by_priority node rest
      else node :: q
  end.

Definition sm_wait_queue_add (os : OS) (scb : nat) (task_id priority : Z)
    (s : SM_STATE) : Z * SM_STATE :=
  if negb (SM_IS_VALID_SCB (get scb s)) then (ERR_BADPARAM, s)
  else if negb (malloc_ok os) then (ERR_NOMEM, s)
  else
    let node := mkNode task_id priority 0 in
    let s := if wait_mode (get scb s) =? SM_PRIOR
             then upd scb (fun b => set_wait_queue (insert_by_priority node (wait_queue b)) b) s
             else upd scb (fun b => set_wait_queue (wait_queue b ++ [node]) b) s in
    (0, upd scb (fun b => set_wait_count (incr (wait_count b)) b) s).

(** Unlinks the first node of [task_id]. *)
Fixpoint remove_task (task_id : Z) (q : list SM_WAIT_NODE)
    : option (list SM_WAIT_NODE) :=
  match q with
  | [] => None
  | current :: rest =>
      if nd_task_id current =? task_id then Some rest
      else option_map (cons current) (remove_task task_id rest)
  end.

Definition sm_wait_queue_remove (scb : nat) (task_id : Z) (s : SM_STATE) : Z * SM_STATE :=
  if negb (SM_IS_VALID_SCB (get scb s)) then (ERR_BADPARAM, s)
  else
    match remove_task task_id (wait_queue (get scb s)) with
    | Some q =>
        (0, upd scb (fun b => set_wait_count (decr (wait_count b)) (set_wait_queue q b)) s)
    | None => (ERR_OBJNF, s)
    end.

Definition sm_wait_queue_get_next (scb : nat) (s : SM_STATE) : Z * SM_STATE :=
  if negb (SM_IS_VALID_SCB (get scb s)) then (0, s)
  else
    match wait_queue (get scb s) with
    | [] => (0, s)
    | node :: rest =>
        (nd_task_id node,
         upd scb (fun b => set_wait_count (decr (wait_count b)) (set_wait_queue rest b)) s)
    end.

(** *** Semaphore operations *)

Definition sm_increment_count (scb : nat) (s : SM_STATE) : Z * SM_STATE :=
  if negb (SM_IS_VALID_SCB (get scb s)) then (ERR_BADPARAM, s)
  else if current_count (get scb s) >=? to_LONG (maximum_count (get scb s))
  then (ERR_SEMFULL, s)
  else (0, upd scb (fun b => set_current_count (current_count b + 1) b) s).

Definition sm_decrement_count (scb : nat) (s : SM_STATE) : Z * SM_STATE :=
  if negb (SM_IS_VALID_SCB (get scb s)) then (ERR_BADPARAM, s)
  else if current_count (get scb s) <=? 0 then (ERR_NOSEM, s)
  else (0, upd scb (fun b => set_current_count (current_count b - 1) b) s).

Definition sm_check_available (scb : nat) (s : SM_STATE) : Z :=
  if negb (SM_IS_VALID_SCB (get scb s)) then 0
  else if current_count (get scb s) >? 0 then 1 else 0.

(** *** Utility functions *)

Definition sm_validate_count (count : Z) : Z :=
  if SM_IS_VALID_COUNT (to_LONG count) then 0 else ERR_BADPARAM.

Definition sm_validate_flags (flags : Z) : Z :=
  if SM_IS_VALID_FLAGS flags then 0 else ERR_BADPARAM.

Definition sm_name_copy (src : option Name) : Name :=
  match src with Some n => n | None => name_zero end.

(** Placeholders of the source. *)
Definition sm_get_current_task_id : Z := 0.
Definition sm_get_current_priority : Z := 128.

Definition sm_update_statistics (scb : nat) (operation wait_time : Z)
    (s : SM_STATE) : SM_STATE :=
  if negb (SM_IS_VALID_SCB (get scb s)) then s
  else if operation =? SM_STAT_WAIT then
    upd scb (fun b =>
      let b := set_total_waits (incr (total_waits b)) b in
      if wait_time >? max_wait_time b then set_max_wait_time wait_time b else b) s
  else if operation =? SM_STAT_SIGNAL then
    upd scb (fun b => set_total_signals (incr (total_signals b)) b) s
  else if operation =? SM_STAT_TIMEOUT then
    upd scb (fun b => set_total_timeouts (incr (total_timeouts b)) b) s
  else s.

(** *** Generic hardware layer ([semaphore_hw_generic.c]) *)

Definition sm_hw_generic_init (s : SM_STATE) : Z * SM_STATE :=
  if truthy (hw_initialized s) then (0, s)
  else
    (0, mkState (pool_magic s) (max_semaphores s) (active_count s) (next_id s)
                (free_list s) (active_list s) (semaphores s) (hw_ops s)
                (initialized s) (total_created s) (total_deleted s) 1 0 0 0).

Definition sm_hw_generic_create_semaphore (os : OS) (scb : nat)
    (initial_count max_count : Z) (s : SM_STATE) : Z * SM_STATE :=
  if negb (malloc_ok os) then (ERR_NOMEM, s)
  else if negb (sync_init_ok os) then (ERR_NOTSUPPORTED, s)
  else
    let s := upd scb (set_hw_context
                        (Some (mkCtx initial_count initial_count max_count 0 0))) s in
    (0, st_hw_total_created (incr (hw_total_created s)) s).

Definition sm_hw_generic_signal_semaphore (os : OS) (scb : nat)
    (s : SM_STATE) : Z * SM_STATE :=
  match hw_context (get scb s) with
  | None => (ERR_BADPARAM, s)
  | Some ctx =>
      if ctx_current_count ctx >=? ctx_max_count ctx then (ERR_SEMFULL, s)
      else if negb (sem_post_ok os) then (ERR_NOTSUPPORTED, s)
      else
        let ctx := mkCtx (posix_sem ctx + 1) (incr (ctx_current_count ctx))
                         (ctx_max_count ctx) (ctx_wait_count ctx)
                         (incr (ctx_signal_count ctx)) in
        let s := upd scb (set_hw_context (Some ctx)) s in
        (0, st_hw_total_signals (incr (hw_total_signals s)) s)
  end.

Definition sm_hw_init (s : SM_STATE) : Z * SM_STATE :=
  sm_hw_generic_init (st_hw_ops (Some sm_hw_generic_ops) s).

Definition sm_init_once (s : SM_STATE) : Z * SM_STATE :=
  if truthy (initialized s) then (0, s)
  else
    let s := sm_pool_init s in
    let s := snd (sm_hw_init s) in
    (0, st_initialized 1 (st_total_deleted 0 (st_total_created 0 s))).

(** *** Public services *)

Definition sm_create (os : OS) (name : option Name) (count flags : Z)
    (smid : option Z) (s : SM_STATE) : Z * option Z * SM_STATE :=
  let '(error, s) := sm_init_once s in
  if negb (error =? 0) then (error, smid, s) else
  match smid with
  | None => (ERR_BADPARAM, smid, s)
  | Some _ =>
  let error := sm_validate_count count in
  if negb (error =? 0) then (error, smid, s) else
  let error := sm_validate_flags flags in
  if negb (error =? 0) then (error, smid, s) else
  match sm_pool_alloc s with
  | (None, s) => (ERR_NOSCB, smid, s)
  | (Some scb, s) =>
      let maximum := if truthy (Z.land flags SM_PRIOR) then SM_MAX_COUNT else 8 in
      let s := upd scb (fun b =>
                 mkSCB (magic b) (semaphore_id b) (sm_name_copy name) (state b) flags
                       (to_LONG count) count maximum (wait_queue b) (wait_count b)
                       (if truthy (Z.land flags SM_PRIOR) then SM_PRIOR else SM_FIFO)
                       (total_waits b) (total_signals b) (total_timeouts b)
                       (max_wait_time b) (hw_context b)) s in
      let '(error, s) :=
        match hw_ops s with
        | Some sm_hw_generic_ops => sm_hw_generic_create_semaphore os scb count maximum s
        | None => (0, s)
        end in
      if negb (error =? 0) then (error, smid, snd (sm_pool_free scb s))
      else (0, Some (semaphore_id (get scb s)),
            st_total_created (incr (total_created s)) s)
  end
  end.

(** The loop [while (scb->wait_queue_head != NULL)] pops one node per
    turn; [n] bounds the turns by the length of the queue. *)
Fixpoint drain_wait_queue (n : nat) (scb : nat) (s : SM_STATE) : SM_STATE :=
  match n with
  | O => s
  | S n =>
      match wait_queue (get scb s) with
      | [] => s
      | _ => drain_wait_queue n scb (snd (sm_wait_queue_get_next scb s))
      end
  end.

Definition sm_delete (smid : Z) (s : SM_STATE) : Z * SM_STATE :=
  let s := snd (sm_init_once s) in
  match sm_pool_find smid s with
  | None => (ERR_OBJID, s)
  | Some scb =>
      if state (get scb s) =? SM_STATE_FREE then (ERR_OBJDEL, s)
      else
        let s := drain_wait_queue (length (wait_queue (get scb s))) scb s in
        let s := snd (sm_pool_free scb s) in
        (0, st_total_deleted (incr (total_deleted s)) s)
  end.

Definition sm_v (os : OS) (smid : Z) (s : SM_STATE) : Z * SM_STATE :=
  let s := snd (sm_init_once s) in
  match sm_pool_find smid s with
  | None => (ERR_OBJID, s)
  | Some scb =>
      if negb (state (get scb s) =? SM_STATE_ACTIVE) then (ERR_OBJDEL, s)
      else
        let '(error, s) :=
          if wait_count (get scb s) >? 0 then
            (* Wake up next waiting task *)
            let s := snd (sm_wait_queue_get_next scb s) in
            match hw_ops s with
            | Some sm_hw_generic_ops => (0, snd (sm_hw_generic_signal_semaphore os scb s))
            | None => (0, s)
            end
          else
            (* No waiting tasks - increment count *)
            sm_increment_count scb s in
        if negb (error =? 0) then (error, s)
        else (0, sm_update_statistics scb SM_STAT_SIGNAL 0 s)
  end.

(** [sm_hw_generic_wait_semaphore] blocks its caller on the POSIX
    semaphore.  [during] lists the [sm_v (smid)] calls that other tasks
    make while the caller is blocked.  [sem_wait] and [sem_timedwait]
    take the semaphore when its value is positive; otherwise
    [sem_timedwait] fails with [ETIMEDOUT] once its deadline is reached,
    and [sem_wait] keeps waiting; either may fail for another reason
    ([sync_wait_ok os = false]). *)
Definition sm_hw_generic_wait_semaphore (os : OS) (during : list Z) (scb : nat)
    (timeout : Z) (s : SM_STATE) : outcome (Z * SM_STATE) :=
  match hw_context (get scb s) with
  | None => Returns (ERR_BADPARAM, s)
  | Some ctx =>
      let ctx := mkCtx (posix_sem ctx) (ctx_current_count ctx) (ctx_max_count ctx)
                       (incr (ctx_wait_count ctx)) (ctx_signal_count ctx) in
      let s := upd scb (set_hw_context (Some ctx)) s in
      let s := st_hw_total_waits (incr (hw_total_waits s)) s in
      let s := fold_left (fun s id => snd (sm_v os id s)) during s in
      match hw_context (get scb s) with
      | None => Returns (ERR_BADPARAM, s)
      | Some ctx =>
          if posix_sem ctx >? 0 then
            let cur := if ctx_current_count ctx >? 0
                       then decr (ctx_current_count ctx) else ctx_current_count ctx in
            Returns (0, upd scb (set_hw_context
                                   (Some (mkCtx (posix_sem ctx - 1) cur (ctx_max_count ctx)
                                                (ctx_wait_count ctx) (ctx_signal_count ctx)))) s)
          else if negb (sync_wait_ok os) then Returns (ERR_NOTSUPPORTED, s)
          else if timeout =? SM_INFINITE_TIMEOUT then Blocked
          else Returns (ERR_TIMEOUT, s)
      end
  end.

Definition sm_p (os : OS) (during : list Z) (smid flags timeout : Z)
    (s : SM_STATE) : outcome (Z * SM_STATE) :=
  let s := snd (sm_init_once s) in
  match sm_pool_find smid s with
  | None => Returns (ERR_OBJID, s)
  | Some scb =>
      if negb (state (get scb s) =? SM_STATE_ACTIVE) then Returns (ERR_OBJDEL, s)
      else if truthy (sm_check_available scb s) then
        let '(error, s) := sm_decrement_count scb s in
        Returns (error, sm_update_statistics scb SM_STAT_WAIT 0 s)
      else if truthy (Z.land flags SM_NOWAIT) then Returns (ERR_NOSEM, s)
      else
        let task_id := sm_get_current_task_id in
        let priority := sm_get_current_priority in
        let '(error, s) := sm_wait_queue_add os scb task_id priority s in
        if negb (error =? 0) then Returns (error, s) else
        match hw_ops s with
        | Some sm_hw_generic_ops =>
            match sm_hw_generic_wait_semaphore os during scb timeout s with
            | Blocked => Blocked
            | Returns (error, s) =>
                if error =? ERR_TIMEOUT then
                  let s := snd (sm_wait_queue_remove scb task_id s) in
                  Returns (ERR_TIMEOUT, sm_update_statistics scb SM_STAT_TIMEOUT 0 s)
                else Returns (0, sm_update_statistics scb SM_STAT_WAIT 0 s)
            end
        | None => Returns (0, sm_update_statistics scb SM_STAT_WAIT 0 s)
        end
  end.

(** *** Identification by name *)

(** [sm_name_compare]: 1 when the four characters agree. *)
Definition sm_name_compare (name1 name2 : Name) : Z :=
  let '(a0, a1, a2, a3) := name1 in
  let '(b0, b1, b2, b3) := name2 in
  if (a0 =? b0) && (a1 =? b1) && (a2 =? b2) && (a3 =? b3) then 1 else 0.

(** The active chain is searched from its head. *)
Definition sm_pool_find_by_name (name : Name) (s : SM_STATE) : option nat :=
  List.find (fun i => SM_IS_VALID_SCB (get i s)
                      && truthy (sm_name_compare (Sm.name (get i s)) name))
            (active_list s).

(** [sm_ident (name, node, &smid)], for a name that is not NULL (the
    source reads its four characters); [node] is ignored. *)
Definition sm_ident (name : Name) (node : Z) (smid : option Z)
    (s : SM_STATE) : Z * option Z * SM_STATE :=
  let s := snd (sm_init_once s) in
  match smid with
  | None => (ERR_BADPARAM, smid, s)
  | Some _ =>
      match sm_pool_find_by_name name s with
      | None => (ERR_OBJNF, smid, s)
      | Some scb => (0, Some (semaphore_id (get scb s)), s)
      end
  end.

End Code.

End Sm.

(** ** Message queues: [kernel/ipc/queue.c] *)

Module Q.

(** [gxkCfg.h] *)
Definition MAX_Q : Z := 32.
Definition MAX_BUF : Z := 2048.

Definition Q_POOL_MAGIC : Z := 0x51455545.
Definition Q_INVALID_ID : Z := 0.
Definition Q_MIN_COUNT : Z := 4.
Definition Q_MAX_COUNT : Z := 1024.
Definition Q_MAX_BUFFERS : Z := MAX_BUF.

Definition Q_STAT_SEND : Z := 1.
Definition Q_STAT_RECEIVE : Z := 2.
Definition Q_STAT_BROADCAST : Z := 3.
Definition Q_STAT_URGENT : Z := 4.
Definition Q_STAT_OVERFLOW : Z := 5.

(** [gxkernel.h] *)
Definition Q_GLOBAL : Z := 0x01.
Definition Q_LOCAL : Z := 0x00.
Definition Q_PRIOR : Z := 0x02.
Definition Q_FIFO : Z := 0x00.
Definition Q_PRIBUF : Z := 0x08.
Definition Q_NOWAIT : Z := 0x01.
Definition Q_WAIT : Z := 0x00.

(** [Q_STATE_TYPE] *)
Definition Q_STATE_FREE : Z := 0.
Definition Q_STATE_ACTIVE : Z := 1.
Definition Q_STATE_DELETING : Z := 2.

(** [Q_MSGBUF]: a message of [Q_MSG_SIZE = 4] words. *)
Definition Q_MSGBUF : Type := (Z * Z * Z * Z)%type.
Definition msg_zero : Q_MSGBUF := (0, 0, 0, 0).

Definition Name : Type := Sm.Name.

Record Q_BUFDESC : Type := mkBuf {
  start : Z;
  end_ : Z;
  nextin : Z;
  nextout : Z
}.

Record Q_QCB : Type := mkQCB {
  name : Name;
  queue_id : Z;
  magic : Z;
  state : Z;
  count : Z;
  flags : Z;
  buf : Q_BUFDESC;
  current_messages : Z;
  high_water_mark : Z;
  semname : Name;
  semid : Z;
  total_sent : Z;
  total_received : Z;
  total_broadcasts : Z;
  total_overflows : Z
}.

Definition set_state (v : Z) (r : Q_QCB) : Q_QCB :=
  mkQCB (name r) (queue_id r) (magic r) v (count r) (flags r) (buf r)
    (current_messages r) (high_water_mark r) (semname r) (semid r) (total_sent r)
    (total_received r) (total_broadcasts r) (total_overflows r).
Definition set_buf (v : Q_BUFDESC) (r : Q_QCB) : Q_QCB :=
  mkQCB (name r) (queue_id r) (magic r) (state r) (count r) (flags r) v
    (current_messages r) (high_water_mark r) (semname r) (semid r) (total_sent r)
    (total_received r) (total_broadcasts r) (total_overflows r).
Definition set_current_messages (v : Z) (r : Q_QCB) : Q_QCB :=
  mkQCB (name r) (queue_id r) (magic r) (state r) (count r) (flags r) (buf r) v
    (high_water_mark r) (semname r) (semid r) (total_sent r) (total_received r)
    (total_broadcasts r) (total_overflows r).
Definition set_high_water_mark (v : Z) (r : Q_QCB) : Q_QCB :=
  mkQCB (name r) (queue_id r) (magic r) (state r) (count r) (flags r) (buf r)
    (current_messages r) v (semname r) (semid r) (total_sent r) (total_received r)
    (total_broadcasts r) (total_overflows r).
Definition set_semname (v : Name) (r : Q_QCB) : Q_QCB :=
  mkQCB (name r) (queue_id r) (magic r) (state r) (count r) (flags r) (buf r)
    (current_messages r) (high_water_mark r) v (semid r) (total_sent r)
    (total_received r) (total_broadcasts r) (total_overflows r).
Definition set_semid (v : Z) (r : Q_QCB) : Q_QCB :=
  mkQCB (name r) (queue_id r) (magic r) (state r) (count r) (flags r) (buf r)
    (current_messages r) (high_water_mark r) (semname r) v (total_sent r)
    (total_received r) (total_broadcasts r) (total_overflows r).
Definition set_total_sent (v : Z) (r : Q_QCB) : Q_QCB :=
  mkQCB (name r) (queue_id r) (magic r) (state r) (count r) (flags r) (buf r)
    (current_messages r) (high_water_mark r) (semname r) (semid r) v (total_received
    r) (total_broadcasts r) (total_overflows r).
Definition set_total_received (v : Z) (r : Q_QCB) : Q_QCB :=
  mkQCB (name r) (queue_id r) (magic r) (state r) (count r) (flags r) (buf r)
    (current_messages r) (high_water_mark r) (semname r) (semid r) (total_sent r) v
    (total_broadcasts r) (total_overflows r).
Definition set_total_broadcasts (v : Z) (r : Q_QCB) : Q_QCB :=
  mkQCB (name r) (queue_id r) (magic r) (state r) (count r) (flags r) (buf r)
    (current_messages r) (high_water_mark r) (semname r) (semid r) (total_sent r)
    (total_received r) v (total_overflows r).
Definition set_total_overflows (v : Z) (r : Q_QCB) : Q_QCB :=
  mkQCB (name r) (queue_id r) (magic r) (state r) (count r) (flags r) (buf r)
    (current_messages r) (high_water_mark r) (semname r) (semid r) (total_sent r)
    (total_received r) (total_broadcasts r) v.


(** [memset(qcb, 0, sizeof(Q_QCB))]. *)
Definition qcb_zero : Q_QCB :=
  mkQCB Sm.name_zero 0 0 0 0 0 (mkBuf 0 0 0 0) 0 0 Sm.name_zero 0 0 0 0 0.

(** The hardware operation tables a build can select in [q_hw_init]. *)
Inductive Q_HW_OPS : Type := q_hw_generic_ops.

(** [Q_POOL]: [queues] is the array of control blocks, [free_list] and
    [active_list] the chains threaded through it. *)

Record Q_POOL : Type := mkPool {
  pool_magic : Z;
  max_queues : Z;
  active_count : Z;
  next_id : Z;
  free_list : list nat;
  active_list : list nat;
  queues : list Q_QCB
}.

Definition pool_active_count (v : Z) (r : Q_POOL) : Q_POOL :=
  mkPool (pool_magic r) (max_queues r) v (next_id r) (free_list r) (active_list r)
    (queues r).
Definition pool_next_id (v : Z) (r : Q_POOL) : Q_POOL :=
  mkPool (pool_magic r) (max_queues r) (active_count r) v (free_list r) (active_list
    r) (queues r).
Definition pool_free_list (v : list nat) (r : Q_POOL) : Q_POOL :=
  mkPool (pool_magic r) (max_queues r) (active_count r) (next_id r) v (active_list r)
    (queues r).
Definition pool_active_list (v : list nat) (r : Q_POOL) : Q_POOL :=
  mkPool (pool_magic r) (max_queues r) (active_count r) (next_id r) (free_list r) v
    (queues r).
Definition pool_queues (v : list Q_QCB) (r : Q_POOL) : Q_POOL :=
  mkPool (pool_magic r) (max_queues r) (active_count r) (next_id r) (free_list r)
    (active_list r) v.


(** [Q_BUFFER_POOL]: the arena of message buffers. *)

Record Q_BUFFER_POOL : Type := mkBufPool {
  bp_magic : Z;
  total_buffers : Z;
  next_available : Z;
  buffers_allocated : Z;
  allocation_failures : Z;
  buffers : list Q_MSGBUF
}.

Definition bp_next_available (v : Z) (r : Q_BUFFER_POOL) : Q_BUFFER_POOL :=
  mkBufPool (bp_magic r) (total_buffers r) v (buffers_allocated r)
    (allocation_failures r) (buffers r).
Definition bp_buffers_allocated (v : Z) (r : Q_BUFFER_POOL) : Q_BUFFER_POOL :=
  mkBufPool (bp_magic r) (total_buffers r) (next_available r) v (allocation_failures
    r) (buffers r).
Definition bp_allocation_failures (v : Z) (r : Q_BUFFER_POOL) : Q_BUFFER_POOL :=
  mkBufPool (bp_magic r) (total_buffers r) (next_available r) (buffers_allocated r) v
    (buffers r).
Definition bp_buffers (v : list Q_MSGBUF) (r : Q_BUFFER_POOL) : Q_BUFFER_POOL :=
  mkBufPool (bp_magic r) (total_buffers r) (next_available r) (buffers_allocated r)
    (allocation_failures r) v.


(** [Q_STATE], followed by the file-static [q_hw_state] of
    [queue_hw_generic.c]. *)

Record Q_STATE : Type := mkState {
  st_magic : Z;
  initialized : Z;
  interrupts_disabled : Z;
  hw_ops : option Q_HW_OPS;
  queue_pool : Q_POOL;
  buffer_pool : Q_BUFFER_POOL;
  total_queues_created : Z;
  total_queues_deleted : Z;
  total_messages_sent : Z;
  total_messages_received : Z;
  total_buffer_overflows : Z;
  hw_initialized : Z;
  hw_total_operations : Z;
  hw_active_waits : Z
}.

Definition st_set_initialized (v : Z) (r : Q_STATE) : Q_STATE :=
  mkState (st_magic r) v (interrupts_disabled r) (hw_ops r) (queue_pool r)
    (buffer_pool r) (total_queues_created r) (total_queues_deleted r)
    (total_messages_sent r) (total_messages_received r) (total_buffer_overflows r)
    (hw_initialized r) (hw_total_operations r) (hw_active_waits r).
Definition st_set_interrupts_disabled (v : Z) (r : Q_STATE) : Q_STATE :=
  mkState (st_magic r) (initialized r) v (hw_ops r) (queue_pool r) (buffer_pool r)
    (total_queues_created r) (total_queues_deleted r) (total_messages_sent r)
    (total_messages_received r) (total_buffer_overflows r) (hw_initialized r)
    (hw_total_operations r) (hw_active_waits r).
Definition st_set_hw_ops (v : option Q_HW_OPS) (r : Q_STATE) : Q_STATE :=
  mkState (st_magic r) (initialized r) (interrupts_disabled r) v (queue_pool r)
    (buffer_pool r) (total_queues_created r) (total_queues_deleted r)
    (total_messages_sent r) (total_messages_received r) (total_buffer_overflows r)
    (hw_initialized r) (hw_total_operations r) (hw_active_waits r).
Definition st_set_queue_pool (v : Q_POOL) (r : Q_STATE) : Q_STATE :=
  mkState (st_magic r) (initialized r) (interrupts_disabled r) (hw_ops r) v
    (buffer_pool r) (total_queues_created r) (total_queues_deleted r)
    (total_messages_sent r) (total_messages_received r) (total_buffer_overflows r)
    (hw_initialized r) (hw_total_operations r) (hw_active_waits r).
Definition st_set_buffer_pool (v : Q_BUFFER_POOL) (r : Q_STATE) : Q_STATE :=
  mkState (st_magic r) (initialized r) (interrupts_disabled r) (hw_ops r) (queue_pool
    r) v (total_queues_created r) (total_queues_deleted r) (total_messages_sent r)
    (total_messages_received r) (total_buffer_overflows r) (hw_initialized r)
    (hw_total_operations r) (hw_active_waits r).
Definition st_set_total_queues_created (v : Z) (r : Q_STATE) : Q_STATE :=
  mkState (st_magic r) (initialized r) (interrupts_disabled r) (hw_ops r) (queue_pool
    r) (buffer_pool r) v (total_queues_deleted r) (total_messages_sent r)
    (total_messages_received r) (total_buffer_overflows r) (hw_initialized r)
    (hw_total_operations r) (hw_active_waits r).
Definition st_set_total_queues_deleted (v : Z) (r : Q_STATE) : Q_STATE :=
  mkState (st_magic r) (initialized r) (interrupts_disabled r) (hw_ops r) (queue_pool
    r) (buffer_pool r) (total_queues_created r) v (total_messages_sent r)
    (total_messages_received r) (total_buffer_overflows r) (hw_initialized r)
    (hw_total_operations r) (hw_active_waits r).
Definition st_set_total_messages_sent (v : Z) (r : Q_STATE) : Q_STATE :=
  mkState (st_magic r) (initialized r) (interrupts_disabled r) (hw_ops r) (queue_pool
    r) (buffer_pool r) (total_queues_created r) (total_queues_deleted r) v
    (total_messages_received r) (total_buffer_overflows r) (hw_initialized r)
    (hw_total_operations r) (hw_active_waits r).
Definition st_set_total_messages_received (v : Z) (r : Q_STATE) : Q_STATE :=
  mkState (st_magic r) (initialized r) (interrupts_disabled r) (hw_ops r) (queue_pool
    r) (buffer_pool r) (total_queues_created r) (total_queues_deleted r)
    (total_messages_sent r) v (total_buffer_overflows r) (hw_initialized r)
    (hw_total_operations r) (hw_active_waits r).
Definition st_set_total_buffer_overflows (v : Z) (r : Q_STATE) : Q_STATE :=
  mkState (st_magic r) (initialized r) (interrupts_disabled r) (hw_ops r) (queue_pool
    r) (buffer_pool r) (total_queues_created r) (total_queues_deleted r)
    (total_messages_sent r) (total_messages_received r) v (hw_initialized r)
    (hw_total_operations r) (hw_active_waits r).
Definition st_set_hw_initialized (v : Z) (r : Q_STATE) : Q_STATE :=
  mkState (st_magic r) (initialized r) (interrupts_disabled r) (hw_ops r) (queue_pool
    r) (buffer_pool r) (total_queues_created r) (total_queues_deleted r)
    (total_messages_sent r) (total_messages_received r) (total_buffer_overflows r) v
    (hw_total_operations r) (hw_active_waits r).
Definition st_set_hw_total_operations (v : Z) (r : Q_STATE) : Q_STATE :=
  mkState (st_magic r) (initialized r) (interrupts_disabled r) (hw_ops r) (queue_pool
    r) (buffer_pool r) (total_queues_created r) (total_queues_deleted r)
    (total_messages_sent r) (total_messages_received r) (total_buffer_overflows r)
    (hw_initialized r) v (hw_active_waits r).


(** The queue services use the semaphore services: they act on both
    global objects. *)
Record World : Type := mkWorld {
  qs : Q_STATE;
  sms : Sm.SM_STATE
}.

(** The state at program start: [Q_STATE q_global_state = {0}]. *)
Definition q_boot : Q_STATE :=
  mkState 0 0 0 None
          (mkPool 0 0 0 0 [] [] (replicate (Z.to_nat MAX_Q) qcb_zero))
          (mkBufPool 0 0 0 0 0 (replicate (Z.to_nat Q_MAX_BUFFERS) msg_zero))
          0 0 0 0 0 0 0 0.

Definition boot : World := mkWorld q_boot Sm.sm_boot.

Definition with_qs (f : Q_STATE -> Q_STATE) (w : World) : World :=
  mkWorld (f (qs w)) (sms w).

(** A pointer [Q_QCB *] is the slot of the block in [queues]. *)
Definition get (i : nat) (s : Q_STATE) : Q_QCB :=
  default qcb_zero (queues (queue_pool s) !! i).
Definition upd (i : nat) (f : Q_QCB -> Q_QCB) (s : Q_STATE) : Q_STATE :=
  st_set_queue_pool
    (pool_queues (<[i := f (get i s)]> (queues (queue_pool s))) (queue_pool s)) s.

(** *** Macros of [queue.h] *)

Definition Q_IS_VALID_QCB (qcb : Q_QCB) : bool := magic qcb =? Q_POOL_MAGIC.
Definition Q_IS_VALID_ID (id : Z) : bool := negb (id =? Q_INVALID_ID) && negb (id =? 0).
Definition Q_IS_VALID_COUNT (count : Z) : bool :=
  (Q_MIN_COUNT <=? count) && (count <=? Q_MAX_COUNT).
Definition Q_IS_VALID_FLAGS (flags : Z) : bool :=
  Z.land flags
    (ulnot (Z.lor (Z.lor (Z.lor (Z.lor Q_FIFO Q_PRIOR) Q_GLOBAL) Q_LOCAL) Q_PRIBUF)) =? 0.

Definition Q_BUFFER_FULL (qcb : Q_QCB) : bool :=
  (wrap (nextin (buf qcb) + 1) =? nextout (buf qcb))
  || ((nextin (buf qcb) =? end_ (buf qcb)) && (nextout (buf qcb) =? start (buf qcb))).

Definition Q_BUFFER_EMPTY (qcb : Q_QCB) : bool :=
  nextin (buf qcb) =? nextout (buf qcb).

(** The new value of [idx] after [Q_ADVANCE_INDEX(qcb, idx)]. *)
Definition Q_ADVANCE_INDEX (qcb : Q_QCB) (idx : Z) : Z :=
  if idx =? end_ (buf qcb) then start (buf qcb) else wrap (idx + 1).

Section Code.
Context `{ErrCodes}.

(** *** Queue pool *)

Definition q_pool_init (s : Q_STATE) : Q_STATE :=
  st_set_queue_pool
    (mkPool Q_POOL_MAGIC MAX_Q 0 1 (seq 0 (Z.to_nat MAX_Q)) []
            (replicate (Z.to_nat MAX_Q) qcb_zero)) s.

Definition q_generate_id (s : Q_STATE) : Z * Q_STATE :=
  let pool := queue_pool s in
  let id := next_id pool in
  let pool := pool_next_id (incr (next_id pool)) pool in
  let pool := if next_id pool =? 0 then pool_next_id 1 pool else pool in
  (id, st_set_queue_pool pool s).

Definition q_pool_alloc (s : Q_STATE) : option nat * Q_STATE :=
  match free_list (queue_pool s) with
  | [] => (None, s)
  | qcb :: rest =>
      let pool := queue_pool s in
      let pool := pool_active_count (incr (active_count pool)) (pool_free_list rest pool) in
      let s := st_set_queue_pool pool s in
      let '(id, s) := q_generate_id s in
      let s := upd qcb (fun _ =>
                 mkQCB Sm.name_zero id Q_POOL_MAGIC Q_STATE_ACTIVE 0 0 (mkBuf 0 0 0 0)
                       0 0 Sm.name_zero 0 0 0 0 0) s in
      (Some qcb,
       st_set_queue_pool
         (pool_active_list (qcb :: active_list (queue_pool s)) (queue_pool s)) s)
  end.

Definition q_pool_find (queue_id : Z) (s : Q_STATE) : option nat :=
  if negb (Q_IS_VALID_ID queue_id) then None
  else
    List.find (fun i => (Q.queue_id (get i s) =? queue_id) && Q_IS_VALID_QCB (get i s))
              (active_list (queue_pool s)).

(** *** Buffer pool *)

Definition q_buffer_pool_init (s : Q_STATE) : Q_STATE :=
  st_set_buffer_pool
    (mkBufPool Q_POOL_MAGIC Q_MAX_BUFFERS 0 0 0
               (replicate (Z.to_nat Q_MAX_BUFFERS) msg_zero)) s.

(** The result [Q_MAX_BUFFERS] is the "invalid index" of a failure. *)
Definition q_buffer_alloc (count : Z) (s : Q_STATE) : Z * Q_STATE :=
  let pool := buffer_pool s in
  if (count =? 0) || (wrap (next_available pool + count) >? total_buffers pool) then
    (Q_MAX_BUFFERS,
     st_set_buffer_pool (bp_allocation_failures (incr (allocation_failures pool)) pool) s)
  else
    let start_index := next_available pool in
    let pool := bp_next_available (wrap (next_available pool + count)) pool in
    let pool := bp_buffers_allocated (wrap (buffers_allocated pool + count)) pool in
    (start_index, st_set_buffer_pool pool s).

(** "Simple implementation doesn't actually reclaim memory": only the
    counter [buffers_allocated] changes. *)
Definition q_buffer_free (start_index count : Z) (s : Q_STATE) : Z * Q_STATE :=
  let pool := buffer_pool s in
  if (start_index >=? total_buffers pool) || (count =? 0) then (ERR_BADPARAM, s)
  else
    (0, st_set_buffer_pool
          (bp_buffers_allocated (wrap (buffers_allocated pool - count)) pool) s).

Definition q_buffer_available (s : Q_STATE) : Z :=
  wrap (total_buffers (buffer_pool s) - next_available (buffer_pool s)).

(** The result is the index of the buffer, [None] for NULL. *)
Definition q_buffer_get (index : Z) (s : Q_STATE) : option nat :=
  if index >=? total_buffers (buffer_pool s) then None else Some (Z.to_nat index).

(** *** Statistics *)

Definition q_update_statistics (qcb : nat) (operation value : Z) (s : Q_STATE) : Q_STATE :=
  if negb (Q_IS_VALID_QCB (get qcb s)) then s
  else if (operation =? Q_STAT_SEND) || (operation =? Q_STAT_URGENT) then
    st_set_total_messages_sent (incr (total_messages_sent s))
      (upd qcb (fun q => set_total_sent (incr (total_sent q)) q) s)
  else if operation =? Q_STAT_RECEIVE then
    st_set_total_messages_received (incr (total_messages_received s))
      (upd qcb (fun q => set_total_received (incr (total_received q)) q) s)
  else if operation =? Q_STAT_BROADCAST then
    upd qcb (fun q => set_total_broadcasts (incr (total_broadcasts q)) q) s
  else if operation =? Q_STAT_OVERFLOW then
    st_set_total_buffer_overflows (incr (total_buffer_overflows s))
      (upd qcb (fun q => set_total_overflows (incr (total_overflows q)) q) s)
  else s.

(** *** Message operations *)

Definition q_message_enqueue (qcb : nat) (msg : option Q_MSGBUF) (urgent : Z)
    (s : Q_STATE) : Z * Q_STATE :=
  match msg with
  | None => (ERR_BADPARAM, s)
  | Some m =>
  if negb (Q_IS_VALID_QCB (get qcb s)) then (ERR_BADPARAM, s)
  else if Q_BUFFER_FULL (get qcb s) then
    (ERR_QFULL, q_update_statistics qcb Q_STAT_OVERFLOW 1 s)
  else
    let b := buf (get qcb s) in
    let '(target_index, s) :=
      if truthy urgent then
        (* Urgent message goes to the front (output position - 1) *)
        let target := if nextout b =? start b then end_ b else wrap (nextout b - 1) in
        (target, upd qcb (set_buf (mkBuf (start b) (end_ b) (nextin b) target)) s)
      else
        (* Normal message goes to the back (input position) *)
        (nextin b,
         upd qcb (set_buf (mkBuf (start b) (end_ b)
                                 (Q_ADVANCE_INDEX (get qcb s) (nextin b)) (nextout b))) s) in
    match q_buffer_get target_index s with
    | None => (ERR_NOMGB, s)
    | Some buffer =>
        let s := st_set_buffer_pool
                   (bp_buffers (<[buffer := m]> (buffers (buffer_pool s))) (buffer_pool s)) s in
        let s := upd qcb (fun q => set_current_messages (incr (current_messages q)) q) s in
        let s := if current_messages (get qcb s) >? high_water_mark (get qcb s)
                 then upd qcb (fun q => set_high_water_mark (current_messages q) q) s
                 else s in
        (0, s)
    end
  end.

Definition q_message_dequeue (qcb : nat) (msg : option Q_MSGBUF)
    (s : Q_STATE) : Z * option Q_MSGBUF * Q_STATE :=
  match msg with
  | None => (ERR_BADPARAM, msg, s)
  | Some _ =>
  if negb (Q_IS_VALID_QCB (get qcb s)) then (ERR_BADPARAM, msg, s)
  else if Q_BUFFER_EMPTY (get qcb s) then (ERR_NOMSG, msg, s)
  else
    match q_buffer_get (nextout (buf (get qcb s))) s with
    | None => (ERR_NOMGB, msg, s)
    | Some buffer =>
        let m := default msg_zero (buffers (buffer_pool s) !! buffer) in
        let b := buf (get qcb s) in
        let s := upd qcb (set_buf (mkBuf (start b) (end_ b) (nextin b)
                                         (Q_ADVANCE_INDEX (get qcb s) (nextout b)))) s in
        let s := upd qcb (fun q => set_current_messages (decr (current_messages q)) q) s in
        (0, Some m, s)
    end
  end.

(** *** Synchronisation with the queue's semaphore *)

(** The character of a hexadecimal digit as [sprintf ("%02x")] prints it. *)
Definition hex_digit (d : Z) : Z := if d <? 10 then 48 + d else 87 + d.

(** [sprintf(qcb->semname, "q%02x", queue_id & 0xFF)]: the letter q, two
    digits and the terminating NUL. *)
Definition sem_name_of (queue_id : Z) : Name :=
  let v := Z.land queue_id 0xFF in
  (113, hex_digit (v / 16), hex_digit (v mod 16), 0).

Definition q_sync_create (os : OS) (qcb : nat) (w : World) : Z * World :=
  if negb (Q_IS_VALID_QCB (get qcb (qs w))) then (ERR_BADPARAM, w)
  else
    let w := with_qs (upd qcb (fun q => set_semname (sem_name_of (queue_id q)) q)) w in
    let q := get qcb (qs w) in
    let '(error, smid, sm) :=
      Sm.sm_create os (Some (semname q)) 0 (Z.lor Sm.SM_LOCAL Sm.SM_FIFO)
                   (Some (semid q)) (sms w) in
    (error, mkWorld (upd qcb (set_semid (default (semid q) smid)) (qs w)) sm).

Definition q_sync_delete (qcb : nat) (w : World) : Z * World :=
  if negb (Q_IS_VALID_QCB (get qcb (qs w))) || (semid (get qcb (qs w)) =? 0) then (0, w)
  else
    let '(error, sm) := Sm.sm_delete (semid (get qcb (qs w))) (sms w) in
    (error, mkWorld (qs w) sm).

Definition q_sync_wait_message (os : OS) (during : list Z) (qcb : nat)
    (flags timeout : Z) (w : World) : outcome (Z * World) :=
  if negb (Q_IS_VALID_QCB (get qcb (qs w))) then Returns (ERR_BADPARAM, w)
  else
    let sem_flags := if truthy (Z.land flags Q_NOWAIT) then Sm.SM_NOWAIT else Sm.SM_WAIT in
    match Sm.sm_p os during (semid (get qcb (qs w))) sem_flags timeout (sms w) with
    | Blocked => Blocked
    | Returns (error, sm) => Returns (error, mkWorld (qs w) sm)
    end.

Definition q_sync_signal_message (os : OS) (qcb : nat) (w : World) : Z * World :=
  if negb (Q_IS_VALID_QCB (get qcb (qs w))) then (ERR_BADPARAM, w)
  else
    let '(error, sm) := Sm.sm_v os (semid (get qcb (qs w))) (sms w) in
    (error, mkWorld (qs w) sm).

(** *** Critical sections *)

Definition q_disable_interrupts (s : Q_STATE) : Q_STATE :=
  st_set_interrupts_disabled (incr (interrupts_disabled s)) s.

Definition q_enable_interrupts (s : Q_STATE) : Q_STATE :=
  if interrupts_disabled s >? 0
  then st_set_interrupts_disabled (decr (interrupts_disabled s)) s else s.

(** *** Generic hardware layer ([queue_hw_generic.c]) *)

Definition q_hw_generic_init (os : OS) (s : Q_STATE) : Z * Q_STATE :=
  if truthy (hw_initialized s) then (0, s)
  else if negb (sync_init_ok os) then (ERR_NORESOURCE, s)
  else
    (0, mkState (st_magic s) (initialized s) (interrupts_disabled s) (hw_ops s)
                (queue_pool s) (buffer_pool s) (total_queues_created s)
                (total_queues_deleted s) (total_messages_sent s)
                (total_messages_received s) (total_buffer_overflows s) 1 0 0).

Definition q_hw_generic_create_queue (qcb : nat) (s : Q_STATE) : Z * Q_STATE :=
  if negb (Q_IS_VALID_QCB (get qcb s)) then (ERR_BADPARAM, s)
  else (0, st_set_hw_total_operations (incr (hw_total_operations s)) s).

Definition q_hw_generic_delete_queue (qcb : nat) (s : Q_STATE) : Z * Q_STATE :=
  if negb (Q_IS_VALID_QCB (get qcb s)) then (ERR_BADPARAM, s)
  else (0, st_set_hw_total_operations (incr (hw_total_operations s)) s).

Definition q_hw_generic_send_message (qcb : nat) (msg : option Q_MSGBUF)
    (s : Q_STATE) : Z * Q_STATE :=
  match msg with
  | None => (ERR_BADPARAM, s)
  | Some _ =>
      if negb (Q_IS_VALID_QCB (get qcb s)) then (ERR_BADPARAM, s)
      else
        let '(error, s) := q_message_enqueue qcb msg 0 s in
        if error =? 0
        then (error, st_set_hw_total_operations (incr (hw_total_operations s)) s)
        else (error, s)
  end.

(** "Generic implementation: just send one message". *)
Definition q_hw_generic_broadcast_message (qcb : nat) (msg : option Q_MSGBUF)
    (count : option Z) (s : Q_STATE) : Z * option Z * Q_STATE :=
  match msg, count with
  | Some _, Some _ =>
      if negb (Q_IS_VALID_QCB (get qcb s)) then (ERR_BADPARAM, count, s)
      else
        let '(error, s) := q_message_enqueue qcb msg 0 s in
        if error =? 0 then
          (error, Some (if hw_active_waits s >? 0 then 1 else 0),
           st_set_hw_total_operations (incr (hw_total_operations s)) s)
        else (error, Some 0, s)
  | _, _ => (ERR_BADPARAM, count, s)
  end.

Definition q_hw_init (os : OS) (s : Q_STATE) : Z * Q_STATE :=
  q_hw_generic_init os (st_set_hw_ops (Some q_hw_generic_ops) s).

(** [memset(state, 0, sizeof(Q_STATE))] clears the pools with the rest;
    the value of [q_hw_init] is dropped. *)
Definition q_init_once (os : OS) (s : Q_STATE) : Z * Q_STATE :=
  if truthy (initialized s) then (0, s)
  else
    let s := mkState Q_POOL_MAGIC 0 0 None (queue_pool q_boot) (buffer_pool q_boot)
                     0 0 0 0 0 (hw_initialized s) (hw_total_operations s)
                     (hw_active_waits s) in
    let s := q_pool_init s in
    let s := q_buffer_pool_init s in
    let s := snd (q_hw_init os s) in
    (0, st_set_initialized 1
          (st_set_total_buffer_overflows 0
            (st_set_total_messages_received 0
              (st_set_total_messages_sent 0
                (st_set_total_queues_deleted 0
                  (st_set_total_queues_created 0 s)))))).

(** Unlinking [qcb] from the active chain removes its slot from
    [active_list]; every caller passes a block of that chain. *)
Definition q_pool_free (qcb : nat) (w : World) : Z * World :=
  if negb (Q_IS_VALID_QCB (get qcb (qs w))) then (ERR_BADPARAM, w)
  else
    let rm (s : Q_STATE) :=
      st_set_queue_pool
        (pool_active_list (filter (fun i => i <> qcb) (active_list (queue_pool s)))
                          (queue_pool s)) s in
    let w := with_qs rm w in
    let q := get qcb (qs w) in
    let w := if negb (start (buf q) =? end_ (buf q))
             then with_qs (fun s => snd (q_buffer_free (start (buf q)) (count q) s)) w
             else w in
    let w := snd (q_sync_delete qcb w) in
    let w := match hw_ops (qs w) with
             | Some q_hw_generic_ops =>
                 with_qs (fun s => snd (q_hw_generic_delete_queue qcb s)) w
             | None => w
             end in
    let fin (s : Q_STATE) :=
      let s := upd qcb (fun _ => qcb_zero) s in
      let pool := queue_pool s in
      st_set_queue_pool
        (pool_active_count (decr (active_count pool))
           (pool_free_list (qcb :: free_list pool) pool)) s in
    (0, with_qs fin w).

(** *** Public services *)

Definition q_validate_count (count : Z) : Z :=
  if Q_IS_VALID_COUNT count then 0 else ERR_BADPARAM.

Definition q_validate_flags (flags : Z) : Z :=
  if Q_IS_VALID_FLAGS flags then 0 else ERR_BADPARAM.

Definition q_create (os : OS) (name : option Name) (count flags : Z)
    (qid : option Z) (w : World) : Z * option Z * World :=
  let '(error, s) := q_init_once os (qs w) in
  let w := mkWorld s (sms w) in
  if negb (error =? 0) then (error, qid, w) else
  match qid with
  | None => (ERR_BADPARAM, qid, w)
  | Some _ =>
  let error := q_validate_count count in
  if negb (error =? 0) then (error, qid, w) else
  let error := q_validate_flags flags in
  if negb (error =? 0) then (error, qid, w) else
  (* Check if buffer space is available *)
  if q_buffer_available (qs w) <? count then (ERR_NOMGB, qid, w) else
  match q_pool_alloc (qs w) with
  | (None, s) => (ERR_NOQCB, qid, mkWorld s (sms w))
  | (Some qcb, s) =>
      let w := mkWorld s (sms w) in
      let '(buffer_start, s) := q_buffer_alloc count (qs w) in
      let w := mkWorld s (sms w) in
      if buffer_start >=? Q_MAX_BUFFERS then (ERR_NOMGB, qid, snd (q_pool_free qcb w))
      else
        let init (q : Q_QCB) :=
          mkQCB (Sm.sm_name_copy name) (queue_id q) (magic q) (state q) count flags
                (mkBuf buffer_start (wrap (wrap (buffer_start + count) - 1))
                       buffer_start buffer_start)
                0 0 (semname q) (semid q) (total_sent q) (total_received q)
                (total_broadcasts q) (total_overflows q) in
        let w := with_qs (upd qcb init) w in
        let '(error, w) := q_sync_create os qcb w in
        if negb (error =? 0) then
          let w := with_qs (fun s => snd (q_buffer_free buffer_start count s)) w in
          (error, qid, snd (q_pool_free qcb w))
        else
          let '(error, w) :=
            match hw_ops (qs w) with
            | Some q_hw_generic_ops =>
                let '(e, s) := q_hw_generic_create_queue qcb (qs w) in
                (e, mkWorld s (sms w))
            | None => (0, w)
            end in
          if negb (error =? 0) then
            let w := snd (q_sync_delete qcb w) in
            let w := with_qs (fun s => snd (q_buffer_free buffer_start count s)) w in
            (error, qid, snd (q_pool_free qcb w))
          else
            (0, Some (queue_id (get qcb (qs w))),
             with_qs (fun s => st_set_total_queues_created
                                 (incr (total_queues_created s)) s) w)
  end
  end.

Definition q_delete (os : OS) (qid : Z) (w : World) : Z * World :=
  let w := with_qs (fun s => snd (q_init_once os s)) w in
  match q_pool_find qid (qs w) with
  | None => (ERR_OBJID, w)
  | Some qcb =>
      if negb (state (get qcb (qs w)) =? Q_STATE_ACTIVE) then (ERR_OBJDEL, w)
      else
        let w := with_qs q_disable_interrupts w in
        let w := with_qs (upd qcb (set_state Q_STATE_DELETING)) w in
        let w := snd (q_pool_free qcb w) in
        let w := with_qs (fun s => st_set_total_queues_deleted
                                     (incr (total_queues_deleted s)) s) w in
        (0, with_qs q_enable_interrupts w)
  end.

Definition q_send (os : OS) (qid : Z) (msg_buf : option Q_MSGBUF) (w : World) : Z * World :=
  let w := with_qs (fun s => snd (q_init_once os s)) w in
  match msg_buf with
  | None => (ERR_BADPARAM, w)
  | Some _ =>
  match q_pool_find qid (qs w) with
  | None => (ERR_OBJID, w)
  | Some qcb =>
      if negb (state (get qcb (qs w)) =? Q_STATE_ACTIVE) then (ERR_OBJDEL, w)
      else
        let w := with_qs q_disable_interrupts w in
        let '(error, w) :=
          match hw_ops (qs w) with
          | Some q_hw_generic_ops =>
              let '(e, s) := q_hw_generic_send_message qcb msg_buf (qs w) in
              (e, mkWorld s (sms w))
          | None =>
              let '(e, s) := q_message_enqueue qcb msg_buf 0 (qs w) in
              let w := mkWorld s (sms w) in
              if e =? 0 then (e, snd (q_sync_signal_message os qcb w)) else (e, w)
          end in
        let w := if error =? 0
                 then with_qs (q_update_statistics qcb Q_STAT_SEND 1) w else w in
        (error, with_qs q_enable_interrupts w)
  end
  end.

Definition q_urgent (os : OS) (qid : Z) (msg_buf : option Q_MSGBUF) (w : World) : Z * World :=
  let w := with_qs (fun s => snd (q_init_once os s)) w in
  match msg_buf with
  | None => (ERR_BADPARAM, w)
  | Some _ =>
  match q_pool_find qid (qs w) with
  | None => (ERR_OBJID, w)
  | Some qcb =>
      if negb (state (get qcb (qs w)) =? Q_STATE_ACTIVE) then (ERR_OBJDEL, w)
      else
        let w := with_qs q_disable_interrupts w in
        let '(error, s) := q_message_enqueue qcb msg_buf 1 (qs w) in
        let w := mkWorld s (sms w) in
        let w := if error =? 0 then
                   let w := snd (q_sync_signal_message os qcb w) in
                   with_qs (q_update_statistics qcb Q_STAT_URGENT 1) w
                 else w in
        (error, with_qs q_enable_interrupts w)
  end
  end.

Definition q_broadcast (os : OS) (qid : Z) (msg_buf : option Q_MSGBUF)
    (count : option Z) (w : World) : Z * option Z * World :=
  let '(error, s) := q_init_once os (qs w) in
  let w := mkWorld s (sms w) in
  if negb (error =? 0) then (error, count, w) else
  match count with
  | None => (ERR_BADPARAM, count, w)
  | Some _ =>
  match q_pool_find qid (qs w) with
  | None => (ERR_OBJID, count, w)
  | Some qcb =>
  match msg_buf with
  | None => (ERR_BADPARAM, count, w)
  | Some _ =>
      let w := with_qs q_disable_interrupts w in
      let '(error, count, w) :=
        match hw_ops (qs w) with
        | Some q_hw_generic_ops =>
            let '(e, c, s) := q_hw_generic_broadcast_message qcb msg_buf count (qs w) in
            (e, c, mkWorld s (sms w))
        | None =>
            (* Software implementation - currently just sends to one receiver *)
            let '(e, s) := q_message_enqueue qcb msg_buf 0 (qs w) in
            let w := mkWorld s (sms w) in
            if e =? 0 then (e, Some 1, snd (q_sync_signal_message os qcb w))
            else (e, Some 0, w)
        end in
      let w := if error =? 0
               then with_qs (q_update_statistics qcb Q_STAT_BROADCAST (default 0 count)) w
               else w in
      (error, count, with_qs q_enable_interrupts w)
  end
  end
  end.

(** [during] lists the [sm_v (smid)] calls that other tasks make while
    the caller is blocked on the queue's semaphore. *)
Definition q_receive (os : OS) (during : list Z) (qid flags timeout : Z)
    (msg_buf : option Q_MSGBUF) (w : World) : outcome (Z * option Q_MSGBUF * World) :=
  let w := with_qs (fun s => snd (q_init_once os s)) w in
  match msg_buf with
  | None => Returns (ERR_BADPARAM, msg_buf, w)
  | Some _ =>
  match q_pool_find qid (qs w) with
  | None => Returns (ERR_OBJID, msg_buf, w)
  | Some qcb =>
      if negb (state (get qcb (qs w)) =? Q_STATE_ACTIVE) then Returns (ERR_OBJDEL, msg_buf, w)
      else
        let w := with_qs q_disable_interrupts w in
        (* Check if message is immediately available *)
        if negb (Q_BUFFER_EMPTY (get qcb (qs w))) then
          let '(error, m, s) := q_message_dequeue qcb msg_buf (qs w) in
          let s := if error =? 0 then q_update_statistics qcb Q_STAT_RECEIVE 1 s else s in
          Returns (error, m, mkWorld (q_enable_interrupts s) (sms w))
        else if truthy (Z.land flags Q_NOWAIT) then
          Returns (ERR_NOMSG, msg_buf, with_qs q_enable_interrupts w)
        else
          let w := with_qs q_enable_interrupts w in
          match q_sync_wait_message os during qcb flags timeout w with
          | Blocked => Blocked
          | Returns (error, w) =>
              if negb (error =? 0) then Returns (error, msg_buf, w)
              else
                let w := with_qs q_disable_interrupts w in
                let '(error, m, s) := q_message_dequeue qcb msg_buf (qs w) in
                let s := if error =? 0 then q_update_statistics qcb Q_STAT_RECEIVE 1 s else s in
                Returns (error, m, mkWorld (q_enable_interrupts s) (sms w))
          end
  end
  end.

(** *** Services and helpers that read the queue *)

(** [q_message_peek]: the message at the output position, which stays
    in the ring. *)
Definition q_message_peek (qcb : nat) (msg : option Q_MSGBUF)
    (s : Q_STATE) : Z * option Q_MSGBUF :=
  match msg with
  | None => (ERR_BADPARAM, msg)
  | Some _ =>
  if negb (Q_IS_VALID_QCB (get qcb s)) then (ERR_BADPARAM, msg)
  else if Q_BUFFER_EMPTY (get qcb s) then (ERR_NOMSG, msg)
  else
    match q_buffer_get (nextout (buf (get qcb s))) s with
    | None => (ERR_NOMGB, msg)
    | Some buffer => (0, Some (default msg_zero (buffers (buffer_pool s) !! buffer)))
    end
  end.

Definition q_message_count (qcb : nat) (s : Q_STATE) : Z :=
  if negb (Q_IS_VALID_QCB (get qcb s)) then 0 else current_messages (get qcb s).

Definition q_message_space (qcb : nat) (s : Q_STATE) : Z :=
  if negb (Q_IS_VALID_QCB (get qcb s)) then 0
  else wrap (count (get qcb s) - current_messages (get qcb s)).

(** [q_name_compare]: 1 when the four characters agree. *)
Definition q_name_compare (name1 name2 : Name) : Z :=
  let '(a0, a1, a2, a3) := name1 in
  let '(b0, b1, b2, b3) := name2 in
  if (a0 =? b0) && (a1 =? b1) && (a2 =? b2) && (a3 =? b3) then 1 else 0.

(** The active chain is searched from its head. *)
Definition q_pool_find_by_name (name : Name) (s : Q_STATE) : option nat :=
  List.find (fun i => Q_IS_VALID_QCB (get i s)
                      && truthy (q_name_compare (Q.name (get i s)) name))
            (active_list (queue_pool s)).

(** [q_ident (name, node, &qid)], for a name that is not NULL (the
    source reads its four characters); [node] is ignored. *)
Definition q_ident (os : OS) (name : Name) (node : Z) (qid : option Z)
    (w : World) : Z * option Z * World :=
  let w := with_qs (fun s => snd (q_init_once os s)) w in
  match qid with
  | None => (ERR_BADPARAM, qid, w)
  | Some _ =>
      match q_pool_find_by_name name (qs w) with
      | None => (ERR_OBJNF, qid, w)
      | Some qcb => (0, Some (queue_id (get qcb (qs w))), w)
      end
  end.

End Code.

End Q.

(** ** Tasks and the scheduler: [kernel/sched/task.c] *)

Module T.

Definition T_MAX_TASKS : Z := 64.
Definition T_INVALID_ID : Z := 0.
Definition T_POOL_MAGIC : Z := 0x5443.

Definition T_STATE_FREE : Z := 0.
Definition T_STATE_CREATED : Z := 1.
Definition T_STATE_READY : Z := 2.
Definition T_STATE_RUNNING : Z := 3.
Definition T_STATE_SUSPENDED : Z := 4.
Definition T_STATE_BLOCKED : Z := 5.
Definition T_STATE_DELETED : Z := 6.

Definition T_MIN_PRIORITY : Z := 1.
Definition T_MAX_PRIORITY : Z := 255.
Definition T_DEFAULT_PRIORITY : Z := 128.

(** Mode bits of [gxkernel.h]. *)
Definition T_NOPREEMPT : Z := 0x00000001.
Definition T_PREEMPT : Z := 0x00000000.
Definition T_TSLICE : Z := 0x00000002.
Definition T_NOTSLICE : Z := 0x00000000.
Definition T_NOASR : Z := 0x00000004.
Definition T_ASR : Z := 0x00000000.
Definition T_NOISR : Z := 0x00000100.
Definition T_ISR : Z := 0x00000000.

(** [T_TCB].  The fields kept are those that the functions below read or
    write; the stack, register, timing and IPC fields are touched by none
    of them. *)

Record T_TCB : Type := mkTCB {
  magic : Z;
  task_id : Z;
  name : Sm.Name;
  state : Z;
  priority : Z;
  flags : Z;
  mode : Z
}.

Definition set_state (v : Z) (r : T_TCB) : T_TCB :=
  mkTCB (magic r) (task_id r) (name r) v (priority r) (flags r) (mode r).
Definition set_priority (v : Z) (r : T_TCB) : T_TCB :=
  mkTCB (magic r) (task_id r) (name r) (state r) v (flags r) (mode r).
Definition set_mode (v : Z) (r : T_TCB) : T_TCB :=
  mkTCB (magic r) (task_id r) (name r) (state r) (priority r) (flags r) v.


(** [memset(tcb, 0, sizeof(T_TCB))]. *)
Definition tcb_zero : T_TCB := mkTCB 0 0 Sm.name_zero 0 0 0 0.

(** The hardware operation tables a build can select in [t_hw_init]. *)
Inductive T_HW_OPS : Type := t_hw_generic_ops.

(** [T_STATE] with its pool and its scheduler.  [ready_lists] has one
    entry per index [0 .. T_MAX_PRIORITY]; entry [p] is the chain of the
    ready tasks of priority [p], from the head [ready_lists[p]] along
    [next]. *)

Record T_STATE : Type := mkState {
  pool_magic : Z;
  max_tasks : Z;
  active_count : Z;
  next_id : Z;
  free_list : list nat;
  tasks : list T_TCB;
  sched_magic : Z;
  current_task : option nat;
  ready_lists : list (list nat);
  ready_mask : Z;
  preemption_enabled : Z;
  context_switches : Z;
  hw_ops : option T_HW_OPS;
  initialized : Z;
  interrupts_disabled : Z;
  total_stack_used : Z
}.

Definition st_tasks (v : list T_TCB) (r : T_STATE) : T_STATE :=
  mkState (pool_magic r) (max_tasks r) (active_count r) (next_id r) (free_list r) v
    (sched_magic r) (current_task r) (ready_lists r) (ready_mask r)
    (preemption_enabled r) (context_switches r) (hw_ops r) (initialized r)
    (interrupts_disabled r) (total_stack_used r).
Definition st_current_task (v : option nat) (r : T_STATE) : T_STATE :=
  mkState (pool_magic r) (max_tasks r) (active_count r) (next_id r) (free_list r)
    (tasks r) (sched_magic r) v (ready_lists r) (ready_mask r) (preemption_enabled r)
    (context_switches r) (hw_ops r) (initialized r) (interrupts_disabled r)
    (total_stack_used r).
Definition st_ready_lists (v : list (list nat)) (r : T_STATE) : T_STATE :=
  mkState (pool_magic r) (max_tasks r) (active_count r) (next_id r) (free_list r)
    (tasks r) (sched_magic r) (current_task r) v (ready_mask r) (preemption_enabled r)
    (context_switches r) (hw_ops r) (initialized r) (interrupts_disabled r)
    (total_stack_used r).
Definition st_ready_mask (v : Z) (r : T_STATE) : T_STATE :=
  mkState (pool_magic r) (max_tasks r) (active_count r) (next_id r) (free_list r)
    (tasks r) (sched_magic r) (current_task r) (ready_lists r) v (preemption_enabled
    r) (context_switches r) (hw_ops r) (initialized r) (interrupts_disabled r)
    (total_stack_used r).
Definition st_hw_ops (v : option T_HW_OPS) (r : T_STATE) : T_STATE :=
  mkState (pool_magic r) (max_tasks r) (active_count r) (next_id r) (free_list r)
    (tasks r) (sched_magic r) (current_task r) (ready_lists r) (ready_mask r)
    (preemption_enabled r) (context_switches r) v (initialized r) (interrupts_disabled
    r) (total_stack_used r).
Definition st_initialized (v : Z) (r : T_STATE) : T_STATE :=
  mkState (pool_magic r) (max_tasks r) (active_count r) (next_id r) (free_list r)
    (tasks r) (sched_magic r) (current_task r) (ready_lists r) (ready_mask r)
    (preemption_enabled r) (context_switches r) (hw_ops r) v (interrupts_disabled r)
    (total_stack_used r).

(** The state at program start: [T_STATE t_global_state = {0}]. *)
Definition t_boot : T_STATE :=
  mkState 0 0 0 0 [] (replicate (Z.to_nat T_MAX_TASKS) tcb_zero)
          0 None (replicate (Z.to_nat (T_MAX_PRIORITY + 1)) []) 0 0 0
          None 0 0 0.

(** A pointer [T_TCB *] is the slot of the block in [tasks]. *)
Definition get (i : nat) (s : T_STATE) : T_TCB :=
  default tcb_zero (tasks s !! i).
Definition upd (i : nat) (f : T_TCB -> T_TCB) (s : T_STATE) : T_STATE :=
  st_tasks (<[i := f (get i s)]> (tasks s)) s.

(** The chain [ready_lists[index]]. *)
Definition ready_list (index : Z) (s : T_STATE) : list nat :=
  default [] (ready_lists s !! Z.to_nat index).
Definition set_ready_list (index : Z) (l : list nat) (s : T_STATE) : T_STATE :=
  st_ready_lists (<[Z.to_nat index := l]> (ready_lists s)) s.

(** *** Macros of [task.h] *)

Definition T_IS_VALID_TCB (tcb : T_TCB) : bool := magic tcb =? T_POOL_MAGIC.

Definition T_PRIORITY_TO_INDEX (pri : Z) : Z :=
  if pri <=? T_MAX_PRIORITY then pri else T_MAX_PRIORITY.

(** [1UL << n].  For [n] of [ULONG_BITS] or more the C shift is
    undefined; the value given here for that case, 0, is what the shift
    instruction of the Cortex-M4 target yields.  No theorem below
    depends on that case. *)
Definition bit (n : Z) : Z := wrap (Z.shiftl 1 n).

Definition T_SET_READY_BIT (pri : Z) (s : T_STATE) : T_STATE :=
  st_ready_mask (Z.lor (ready_mask s) (bit (T_PRIORITY_TO_INDEX pri))) s.
Definition T_CLEAR_READY_BIT (pri : Z) (s : T_STATE) : T_STATE :=
  st_ready_mask (Z.land (ready_mask s) (ulnot (bit (T_PRIORITY_TO_INDEX pri)))) s.

(** [__builtin_ctz]: the index of the lowest set bit of a non-zero
    [unsigned int]; [ctz_scan] looks at the bits from [i] upwards. *)
Fixpoint ctz_scan (n : nat) (i : Z) (m : Z) : Z :=
  match n with
  | O => i
  | S n => if Z.testbit m i then i else ctz_scan n (i + 1) m
  end.
Definition builtin_ctz (m : Z) : Z := ctz_scan 32 0 (wrap m).

Definition T_FIND_HIGHEST_PRIORITY (s : T_STATE) : Z := builtin_ctz (ready_mask s).

Definition T_MODE_SET (tcb : nat) (mask : Z) (s : T_STATE) : T_STATE :=
  upd tcb (fun t => set_mode (Z.lor (mode t) mask) t) s.
Definition T_MODE_CLEAR (tcb : nat) (mask : Z) (s : T_STATE) : T_STATE :=
  upd tcb (fun t => set_mode (Z.land (mode t) (ulnot mask)) t) s.

Section Code.
Context `{ErrCodes}.

(** *** Initialisation *)

Definition t_pool_init (s : T_STATE) : T_STATE :=
  mkState T_POOL_MAGIC T_MAX_TASKS 0 1
          (seq 0 (Z.to_nat T_MAX_TASKS)) (replicate (Z.to_nat T_MAX_TASKS) tcb_zero)
          (sched_magic s) (current_task s) (ready_lists s) (ready_mask s)
          (preemption_enabled s) (context_switches s)
          (hw_ops s) (initialized s) (interrupts_disabled s) (total_stack_used s).

Definition t_scheduler_init (s : T_STATE) : T_STATE :=
  mkState (pool_magic s) (max_tasks s) (active_count s) (next_id s)
          (free_list s) (tasks s)
          T_POOL_MAGIC None (replicate (Z.to_nat (T_MAX_PRIORITY + 1)) []) 0 1 0
          (hw_ops s) (initialized s) (interrupts_disabled s) (total_stack_used s).

(** [t_hw_init] selects the operation table; what its [init] does is
    confined to the file-static state of [task_hw_generic.c]. *)
Definition t_hw_init (s : T_STATE) : T_STATE := st_hw_ops (Some t_hw_generic_ops) s.

Definition t_init_once (s : T_STATE) : Z * T_STATE :=
  if truthy (initialized s) then (0, s)
  else (0, st_initialized 1 (t_hw_init (t_scheduler_init (t_pool_init s)))).

(** *** Scheduler *)

(** "Add to head of priority list". *)
Definition t_scheduler_add_ready (tcb : nat) (s : T_STATE) : T_STATE :=
  if negb (T_IS_VALID_TCB (get tcb s)) || negb (state (get tcb s) =? T_STATE_READY) then s
  else
    let priority := T_PRIORITY_TO_INDEX (priority (get tcb s)) in
    let head := ready_list priority s in
    let s := set_ready_list priority (tcb :: head) s in
    T_SET_READY_BIT priority s.

(** Unlinking through [prev] and [next].  A block that is linked in the
    chain of its priority is taken out of it.  A block that is linked
    nowhere has NULL links, so the branch [tcb->prev == NULL] stores its
    [next], NULL, in [ready_lists[priority]]. *)
Definition t_scheduler_remove_ready (tcb : nat) (s : T_STATE) : T_STATE :=
  if negb (T_IS_VALID_TCB (get tcb s)) then s
  else
    let priority := T_PRIORITY_TO_INDEX (priority (get tcb s)) in
    let l := ready_list priority s in
    let s := if bool_decide (tcb ∈ l)
             then set_ready_list priority (filter (fun i => i <> tcb) l) s
             else set_ready_list priority [] s in
    match ready_list priority s with
    | [] => T_CLEAR_READY_BIT priority s
    | _ => s
    end.

(** The result is the slot of the chosen block, [None] for NULL. *)
Definition t_scheduler_get_highest_ready (s : T_STATE) : option nat :=
  if ready_mask s =? 0 then None
  else
    let priority := T_FIND_HIGHEST_PRIORITY s in
    head (ready_list priority s).

(** *** Task states *)

Definition t_set_state (tcb : nat) (new_state : Z) (s : T_STATE) : T_STATE :=
  if negb (T_IS_VALID_TCB (get tcb s)) then s
  else
    let old_state := state (get tcb s) in
    let s := upd tcb (set_state new_state) s in
    if new_state =? T_STATE_READY then
      if negb (old_state =? T_STATE_READY) then t_scheduler_add_ready tcb s else s
    else if (new_state =? T_STATE_RUNNING) || (new_state =? T_STATE_SUSPENDED)
            || (new_state =? T_STATE_BLOCKED) || (new_state =? T_STATE_DELETED) then
      if old_state =? T_STATE_READY then t_scheduler_remove_ready tcb s else s
    else s.

(** *** [t_mode] *)

Definition t_mode (mask new_mode : Z) (old_mode : option Z)
    (s : T_STATE) : Z * option Z * T_STATE :=
  let s := snd (t_init_once s) in
  match current_task s with
  | None => (ERR_NOTACTIVE, old_mode, s)
  | Some current =>
      let old_mode := match old_mode with
                      | Some _ => Some (mode (get current s))
                      | None => None
                      end in
      (* Update mode based on mask *)
      let s := if truthy (Z.land mask T_PREEMPT) then
                 if truthy (Z.land new_mode T_PREEMPT)
                 then T_MODE_CLEAR current T_NOPREEMPT s
                 else T_MODE_SET current T_NOPREEMPT s
               else s in
      let s := if truthy (Z.land mask T_TSLICE) then
                 if truthy (Z.land new_mode T_TSLICE)
                 then T_MODE_SET current T_TSLICE s
                 else T_MODE_CLEAR current T_TSLICE s
               else s in
      let s := if truthy (Z.land mask T_ASR) then
                 if truthy (Z.land new_mode T_ASR)
                 then T_MODE_SET current T_ASR s
                 else T_MODE_CLEAR current T_ASR s
               else s in
      let s := if truthy (Z.land mask T_ISR) then
                 if truthy (Z.land new_mode T_ISR)
                 then T_MODE_SET current T_ISR s
                 else T_MODE_CLEAR current T_ISR s
               else s in
      (0, old_mode, s)
  end.

End Code.

(** A state with one task: slot 0 holds task 1 of the default priority,
    started and dispatched (it is the current task), with mode 0. *)
Definition t_one_running : T_STATE :=
  mkState T_POOL_MAGIC T_MAX_TASKS 1 2
          (seq 1 (Z.to_nat T_MAX_TASKS - 1))
          (mkTCB T_POOL_MAGIC 1 (84, 49, 0, 0) T_STATE_RUNNING T_DEFAULT_PRIORITY 0 0
             :: replicate (Z.to_nat T_MAX_TASKS - 1) tcb_zero)
          T_POOL_MAGIC (Some 0%nat) (replicate (Z.to_nat (T_MAX_PRIORITY + 1)) []) 0 1 1
          (Some t_hw_generic_ops) 1 0 512.

(** A state with two tasks of priority 10, created but not yet started
    (slots 0 and 1), and nothing ready. *)
Definition t_two_created : T_STATE :=
  mkState T_POOL_MAGIC T_MAX_TASKS 2 3
          (seq 2 (Z.to_nat T_MAX_TASKS - 2))
          (mkTCB T_POOL_MAGIC 1 (65, 0, 0, 0) T_STATE_CREATED 10 0 0
             :: mkTCB T_POOL_MAGIC 2 (66, 0, 0, 0) T_STATE_CREATED 10 0 0
             :: replicate (Z.to_nat T_MAX_TASKS - 2) tcb_zero)
          T_POOL_MAGIC None (replicate (Z.to_nat (T_MAX_PRIORITY + 1)) []) 0 1 0
          (Some t_hw_generic_ops) 1 0 1024.

End T.

(** ** Timers: [kernel/time/timer.c] *)

Module Tm.

Definition TM_MAX_TIMERS : Z := 64.
Definition TM_INVALID_ID : Z := 0.
Definition TM_POOL_MAGIC : Z := 0x544D.
Definition TM_TICKS_PER_SEC : Z := 100.

Definition TM_TYPE_ONESHOT : Z := 1.
Definition TM_TYPE_PERIODIC : Z := 2.
Definition TM_TYPE_ABSOLUTE : Z := 3.

Definition TM_STATE_FREE : Z := 0.
Definition TM_STATE_ACTIVE : Z := 1.
Definition TM_STATE_EXPIRED : Z := 2.
Definition TM_STATE_CANCELLED : Z := 3.

Definition TM_ACTION_EVENT : Z := 1.
Definition TM_ACTION_WAKEUP : Z := 2.

(** [TM_TCB], without its links: the chains are lists of slots. *)

Record TM_TCB : Type := mkTCB {
  magic : Z;
  timer_id : Z;
  state : Z;
  type : Z;
  action : Z;
  start_ticks : Z;
  delay_ticks : Z;
  expire_ticks : Z;
  period_ticks : Z;
  target_date : Z;
  target_time : Z;
  target_tick : Z;
  task_id : Z;
  events : Z
}.

Definition set_state (v : Z) (r : TM_TCB) : TM_TCB :=
  mkTCB (magic r) (timer_id r) v (type r) (action r) (start_ticks r) (delay_ticks r)
    (expire_ticks r) (period_ticks r) (target_date r) (target_time r) (target_tick r)
    (task_id r) (events r).
Definition set_expire_ticks (v : Z) (r : TM_TCB) : TM_TCB :=
  mkTCB (magic r) (timer_id r) (state r) (type r) (action r) (start_ticks r)
    (delay_ticks r) v (period_ticks r) (target_date r) (target_time r) (target_tick r)
    (task_id r) (events r).


(** [memset(tcb, 0, sizeof(TM_TCB))]. *)
Definition tcb_zero : TM_TCB := mkTCB 0 0 0 0 0 0 0 0 0 0 0 0 0 0.

Record TM_SYSTIME : Type := mkSystime {
  date : Z;
  time : Z;
  ticks : Z;
  tick_count : Z;
  ticks_per_sec : Z
}.

(** The hardware operation table selected in [tm_hw_init]. *)
Inductive TM_HW_OPS : Type := tm_hw_generic_ops.

(** [TM_STATE] with its pool.  [active_list] is the chain of the active
    timers from [pool.active_list] along [next]; [free_list] the chain of
    the free blocks. *)

Record TM_STATE : Type := mkState {
  pool_magic : Z;
  max_timers : Z;
  free_count : Z;
  next_id : Z;
  free_list : list nat;
  active_list : list nat;
  timers : list TM_TCB;
  systime : TM_SYSTIME;
  hw_ops : option TM_HW_OPS;
  initialized : Z;
  interrupt_count : Z
}.

Definition st_free_count (v : Z) (r : TM_STATE) : TM_STATE :=
  mkState (pool_magic r) (max_timers r) v (next_id r) (free_list r) (active_list r)
    (timers r) (systime r) (hw_ops r) (initialized r) (interrupt_count r).
Definition st_next_id (v : Z) (r : TM_STATE) : TM_STATE :=
  mkState (pool_magic r) (max_timers r) (free_count r) v (free_list r) (active_list r)
    (timers r) (systime r) (hw_ops r) (initialized r) (interrupt_count r).
Definition st_free_list (v : list nat) (r : TM_STATE) : TM_STATE :=
  mkState (pool_magic r) (max_timers r) (free_count r) (next_id r) v (active_list r)
    (timers r) (systime r) (hw_ops r) (initialized r) (interrupt_count r).
Definition st_active_list (v : list nat) (r : TM_STATE) : TM_STATE :=
  mkState (pool_magic r) (max_timers r) (free_count r) (next_id r) (free_list r) v
    (timers r) (systime r) (hw_ops r) (initialized r) (interrupt_count r).
Definition st_timers (v : list TM_TCB) (r : TM_STATE) : TM_STATE :=
  mkState (pool_magic r) (max_timers r) (free_count r) (next_id r) (free_list r)
    (active_list r) v (systime r) (hw_ops r) (initialized r) (interrupt_count r).
Definition st_systime (v : TM_SYSTIME) (r : TM_STATE) : TM_STATE :=
  mkState (pool_magic r) (max_timers r) (free_count r) (next_id r) (free_list r)
    (active_list r) (timers r) v (hw_ops r) (initialized r) (interrupt_count r).
Definition st_hw_ops (v : option TM_HW_OPS) (r : TM_STATE) : TM_STATE :=
  mkState (pool_magic r) (max_timers r) (free_count r) (next_id r) (free_list r)
    (active_list r) (timers r) (systime r) v (initialized r) (interrupt_count r).
Definition st_initialized (v : Z) (r : TM_STATE) : TM_STATE :=
  mkState (pool_magic r) (max_timers r) (free_count r) (next_id r) (free_list r)
    (active_list r) (timers r) (systime r) (hw_ops r) v (interrupt_count r).
Definition st_interrupt_count (v : Z) (r : TM_STATE) : TM_STATE :=
  mkState (pool_magic r) (max_timers r) (free_count r) (next_id r) (free_list r)
    (active_list r) (timers r) (systime r) (hw_ops r) (initialized r) v.

(** The state at program start: [TM_STATE tm_global_state = {0}]. *)
Definition tm_boot : TM_STATE :=
  mkState 0 0 0 0 [] [] (replicate (Z.to_nat TM_MAX_TIMERS) tcb_zero)
          (mkSystime 0 0 0 0 0) None 0 0.

(** A pointer [TM_TCB *] is the slot of the block in [timers]. *)
Definition get (i : nat) (s : TM_STATE) : TM_TCB :=
  default tcb_zero (timers s !! i).
Definition upd (i : nat) (f : TM_TCB -> TM_TCB) (s : TM_STATE) : TM_STATE :=
  st_timers (<[i := f (get i s)]> (timers s)) s.

Definition TM_IS_VALID_TCB (tcb : TM_TCB) : bool := magic tcb =? TM_POOL_MAGIC.
Definition TM_GET_CURRENT_TICKS (s : TM_STATE) : Z := tick_count (systime s).

(** What the timer services ask of the other kernel objects and of the
    hardware: the event and task services act on [ev_global_state] and
    [t_global_state], the alarm on the host's timer; none of them reads
    or writes the timer pool. *)
Inductive call : Type :=
| call_ev_send (tid events : Z)
| call_t_resume (tid : Z)
| call_t_suspend (tid : Z)
| call_set_alarm (target_ticks : Z).

(** The answers of the task services to the timer services: the value of
    [t_ident ()], described as "Current task ID", and of [t_suspend]. *)
Record TaskEnv : Type := {
  t_ident_value : Z;
  t_suspend_value : Z
}.

Section Code.
Context `{ErrCodes}.

(** *** Pool management *)

Definition tm_pool_init (s : TM_STATE) : TM_STATE :=
  mkState TM_POOL_MAGIC TM_MAX_TIMERS TM_MAX_TIMERS 1
          (seq 0 (Z.to_nat TM_MAX_TIMERS)) []
          (replicate (Z.to_nat TM_MAX_TIMERS) tcb_zero)
          (systime s) (hw_ops s) (initialized s) (interrupt_count s).

Definition tm_generate_id (s : TM_STATE) : Z * TM_STATE :=
  let id := next_id s in
  let s := st_next_id (incr (next_id s)) s in
  let s := if next_id s =? 0 then st_next_id 1 s else s in
  (id, s).

Definition tm_pool_alloc (s : TM_STATE) : option nat * TM_STATE :=
  if free_count s =? 0 then (None, s)
  else
    match free_list s with
    | [] => (None, s)
    | tcb :: rest =>
        let s := st_free_count (decr (free_count s)) (st_free_list rest s) in
        let '(id, s) := tm_generate_id s in
        (Some tcb,
         upd tcb (fun _ => mkTCB TM_POOL_MAGIC id TM_STATE_ACTIVE 0 0 0 0 0 0 0 0 0 0 0) s)
    end.

(** *** The active list *)

(** The walk
    [while (current != NULL && current->expire_ticks <= tcb->expire_ticks)]
    of [tm_list_insert]: [tcb] is linked in before the first timer that
    expires later. *)
Fixpoint insert_sorted (s : TM_STATE) (tcb : nat) (l : list nat) : list nat :=
  match l with
  | [] => [tcb]
  | current :: rest =>
      if expire_ticks (get current s) <=? expire_ticks (get tcb s)
      then current :: insert_sorted s tcb rest
      else tcb :: l
  end.

Definition tm_list_insert (tcb : nat) (s : TM_STATE) : TM_STATE :=
  if negb (TM_IS_VALID_TCB (get tcb s)) then s
  else st_active_list (insert_sorted s tcb (active_list s)) s.

(** A timer of the active chain is unlinked from it.  A block that is
    linked nowhere has NULL links, so the branch [tcb->prev == NULL]
    stores its [next], NULL, in [pool->active_list]. *)
Definition tm_list_remove (tcb : nat) (s : TM_STATE) : TM_STATE :=
  if negb (TM_IS_VALID_TCB (get tcb s)) then s
  else if bool_decide (tcb ∈ active_list s)
  then st_active_list (filter (fun i => i <> tcb) (active_list s)) s
  else st_active_list [] s.

Definition tm_list_get_expired (s : TM_STATE) : option nat :=
  match active_list s with
  | tcb :: _ =>
      if expire_ticks (get tcb s) <=? TM_GET_CURRENT_TICKS s then Some tcb else None
  | [] => None
  end.

Definition tm_pool_free (tcb : nat) (s : TM_STATE) : Z * TM_STATE :=
  if negb (TM_IS_VALID_TCB (get tcb s)) then (ERR_BADTCB, s)
  else
    let s := tm_list_remove tcb s in
    let s := upd tcb (fun _ => tcb_zero) s in
    let s := st_free_list (tcb :: free_list s) s in
    (0, st_free_count (incr (free_count s)) s).

(** The active chain is searched along [next]. *)
Definition tm_pool_find (timer_id : Z) (s : TM_STATE) : option nat :=
  if timer_id =? TM_INVALID_ID then None
  else
    List.find (fun i => (Tm.timer_id (get i s) =? timer_id) && TM_IS_VALID_TCB (get i s))
              (active_list s).

(** *** System time *)

Definition tm_time_init (s : TM_STATE) : TM_STATE :=
  st_systime (mkSystime 0x07e90101 0 0 0 TM_TICKS_PER_SEC) s.

Definition tm_time_update (s : TM_STATE) : TM_STATE :=
  let t := systime s in
  let t := mkSystime (date t) (time t) (incr (ticks t)) (incr (tick_count t))
                     (ticks_per_sec t) in
  let t :=
    if ticks t >=? ticks_per_sec t then
      let t := mkSystime (date t) (incr (time t)) 0 (tick_count t) (ticks_per_sec t) in
      if time t >=? 0x00181818
      then mkSystime (incr (date t)) 0 (ticks t) (tick_count t) (ticks_per_sec t)
      else t
    else t in
  st_systime t s.

Definition tm_time_to_ticks (date time ticks : Z) (s : TM_STATE) : Z :=
  let t := systime s in
  let current_ticks := tick_count t in
  if (date >? Tm.date t)
     || ((date =? Tm.date t) && (time >? Tm.time t))
     || ((date =? Tm.date t) && (time =? Tm.time t) && (ticks >? Tm.ticks t))
  then
    let time_diff := wrap (wrap (time - Tm.time t) * ticks_per_sec t) in
    wrap (wrap (current_ticks + time_diff) + wrap (ticks - Tm.ticks t))
  else current_ticks.

(** *** Timer processing *)

Definition tm_fire_timer (tcb : nat) (s : TM_STATE) : Z * list call * TM_STATE :=
  if negb (TM_IS_VALID_TCB (get tcb s)) then (ERR_BADTCB, [], s)
  else
    let s := upd tcb (set_state TM_STATE_EXPIRED) s in
    let t := get tcb s in
    if action t =? TM_ACTION_EVENT then
      (0, if negb (events t =? 0) then [call_ev_send (task_id t) (events t)] else [], s)
    else if action t =? TM_ACTION_WAKEUP then
      (0, [call_t_resume (task_id t)], s)
    else (0, [], s).

(** One turn of the loop of [tm_process_expired] on the expired timer
    [tcb]. *)
Definition tm_process_one (tcb : nat) (s : TM_STATE) : list call * TM_STATE :=
  let '(_, calls, s) := tm_fire_timer tcb s in
  if type (get tcb s) =? TM_TYPE_PERIODIC then
    let s := upd tcb (fun t =>
               set_expire_ticks (wrap (expire_ticks t + period_ticks t)) t) s in
    (* Reinsert in sorted order *)
    let s := tm_list_remove tcb s in
    (calls, tm_list_insert tcb s)
  else
    (* One-shot timer - remove and free *)
    (calls, snd (tm_pool_free tcb s)).

(** [while ((tcb = tm_list_get_expired()) != NULL)]: [n] bounds the
    number of turns; the last component tells whether the loop has come
    to its end within [n] turns. *)
Fixpoint tm_process_expired (n : nat) (s : TM_STATE) : Z * list call * TM_STATE * bool :=
  match tm_list_get_expired s with
  | None => (0, [], s, true)
  | Some tcb =>
      match n with
      | O => (0, [], s, false)
      | S n =>
          let '(calls, s) := tm_process_one tcb s in
          let '(processed, calls', s, fin) := tm_process_expired n s in
          (incr processed, calls ++ calls', s, fin)
      end
  end.

Definition tm_schedule_next (s : TM_STATE) : list call :=
  match hw_ops s, active_list s with
  | Some tm_hw_generic_ops, tcb :: _ => [call_set_alarm (expire_ticks (get tcb s))]
  | _, _ => []
  end.

(** *** Initialisation *)

Definition tm_hw_init (s : TM_STATE) : TM_STATE := st_hw_ops (Some tm_hw_generic_ops) s.

Definition tm_init_once (s : TM_STATE) : Z * TM_STATE :=
  if truthy (initialized s) then (0, s)
  else (0, st_initialized 1 (tm_hw_init (tm_time_init (tm_pool_init s)))).

Definition tm_validate_inputs (ticks events : Z) : Z :=
  if ticks =? 0 then ERR_ILLTICKS else 0.

Definition tm_create_timer (env : TaskEnv) (type action ticks events date time : Z)
    (tmid : option Z) (s : TM_STATE) : Z * option Z * list call * TM_STATE :=
  let '(error, s) := tm_init_once s in
  if negb (error =? 0) then (error, tmid, [], s) else
  match tmid with
  | None => (ERR_BADPARAM, tmid, [], s)
  | Some _ =>
  match tm_pool_alloc s with
  | (None, s) => (ERR_NOTIMERS, tmid, [], s)
  | (Some tcb, s) =>
      let start := TM_GET_CURRENT_TICKS s in
      let s := upd tcb (fun t =>
                 mkTCB (magic t) (timer_id t) (state t) type action start
                       (delay_ticks t) (expire_ticks t) (period_ticks t)
                       (target_date t) (target_time t) (target_tick t)
                       (t_ident_value env) events) s in
      if (type =? TM_TYPE_ONESHOT) || (type =? TM_TYPE_PERIODIC) then
        let s := upd tcb (fun t =>
                   mkTCB (magic t) (timer_id t) (state t) (Tm.type t) (Tm.action t)
                         (start_ticks t) ticks (wrap (start_ticks t + ticks))
                         (if type =? TM_TYPE_PERIODIC then ticks else period_ticks t)
                         (target_date t) (target_time t) (target_tick t)
                         (task_id t) (Tm.events t)) s in
        let s := tm_list_insert tcb s in
        (0, Some (timer_id (get tcb s)), tm_schedule_next s, s)
      else if type =? TM_TYPE_ABSOLUTE then
        let s := upd tcb (fun t =>
                   mkTCB (magic t) (timer_id t) (state t) (Tm.type t) (Tm.action t)
                         (start_ticks t) (delay_ticks t) (tm_time_to_ticks date time ticks s)
                         (period_ticks t) date time ticks
                         (task_id t) (Tm.events t)) s in
        let s := tm_list_insert tcb s in
        (0, Some (timer_id (get tcb s)), tm_schedule_next s, s)
      else
        (ERR_BADPARAM, tmid, [], snd (tm_pool_free tcb s))
  end
  end.

(** *** Public services *)

Definition tm_cancel (tmid : Z) (s : TM_STATE) : Z * list call * TM_STATE :=
  let s := snd (tm_init_once s) in
  match tm_pool_find tmid s with
  | None => (ERR_BADTMID, [], s)
  | Some tcb =>
      let s := upd tcb (set_state TM_STATE_CANCELLED) s in
      let s := snd (tm_pool_free tcb s) in
      (0, tm_schedule_next s, s)
  end.

Definition tm_evafter (env : TaskEnv) (ticks events : Z) (tmid : option Z)
    (s : TM_STATE) : Z * option Z * list call * TM_STATE :=
  let error := tm_validate_inputs ticks events in
  if negb (error =? 0) then (error, tmid, [], s)
  else tm_create_timer env TM_TYPE_ONESHOT TM_ACTION_EVENT ticks events 0 0 tmid s.

Definition tm_evevery (env : TaskEnv) (ticks events : Z) (tmid : option Z)
    (s : TM_STATE) : Z * option Z * list call * TM_STATE :=
  let error := tm_validate_inputs ticks events in
  if negb (error =? 0) then (error, tmid, [], s)
  else tm_create_timer env TM_TYPE_PERIODIC TM_ACTION_EVENT ticks events 0 0 tmid s.

Definition tm_evwhen (env : TaskEnv) (date time ticks events : Z) (tmid : option Z)
    (s : TM_STATE) : Z * option Z * list call * TM_STATE :=
  if events =? 0 then (ERR_BADPARAM, tmid, [], s)
  else tm_create_timer env TM_TYPE_ABSOLUTE TM_ACTION_EVENT ticks events date time tmid s.

Definition tm_get (date time ticks : option Z) (s : TM_STATE)
    : Z * (option Z * option Z * option Z) * TM_STATE :=
  let s := snd (tm_init_once s) in
  match date, time, ticks with
  | Some _, Some _, Some _ =>
      (0, (Some (Tm.date (systime s)), Some (Tm.time (systime s)),
           Some (Tm.ticks (systime s))), s)
  | _, _, _ => (ERR_BADPARAM, (date, time, ticks), s)
  end.

Definition tm_set (date time ticks : Z) (s : TM_STATE) : Z * TM_STATE :=
  let s := snd (tm_init_once s) in
  let t := systime s in
  (0, st_systime (mkSystime date time ticks (tick_count t) (ticks_per_sec t)) s).

(** [n] bounds the turns of the loop of [tm_process_expired]. *)
Definition tm_tick (n : nat) (s : TM_STATE) : Z * list call * TM_STATE :=
  if negb (truthy (initialized s)) then (0, [], s)
  else
    let s := st_interrupt_count (incr (interrupt_count s)) s in
    let s := tm_time_update s in
    let '(_, calls, s, _) := tm_process_expired n s in
    (0, calls ++ tm_schedule_next s, s).

Definition tm_wkafter (env : TaskEnv) (ticks : Z) (s : TM_STATE)
    : Z * list call * TM_STATE :=
  if ticks =? 0 then (ERR_ILLTICKS, [], s)
  else
    let '(error, _, calls, s) :=
      tm_create_timer env TM_TYPE_ONESHOT TM_ACTION_WAKEUP ticks 0 0 0 (Some 0) s in
    if negb (error =? 0) then (error, calls, s)
    else (t_suspend_value env, calls ++ [call_t_suspend (t_ident_value env)], s).

Definition tm_wkwhen (env : TaskEnv) (date time ticks : Z) (s : TM_STATE)
    : Z * list call * TM_STATE :=
  let '(error, _, calls, s) :=
    tm_create_timer env TM_TYPE_ABSOLUTE TM_ACTION_WAKEUP ticks 0 date time (Some 0) s in
  if negb (error =? 0) then (error, calls, s)
  else (t_suspend_value env, calls ++ [call_t_suspend (t_ident_value env)], s).

(** [tm_ticks_to_time (tick_count, &date, &time, &ticks)]: the date,
    time and tick of the second at which the tick counter reads
    [tick_count].  The division is that of C for [ticks_per_sec] other
    than 0, the value that [tm_time_init] never stores. *)
Definition tm_ticks_to_time (tick_count : Z) (s : TM_STATE) : Z * Z * Z :=
  let t := systime s in
  let tick_diff := wrap (tick_count - Tm.tick_count t) in
  let seconds := tick_diff / ticks_per_sec t in
  let date := Tm.date t in
  let time := wrap (Tm.time t + seconds) in
  let ticks := wrap (Tm.ticks t + tick_diff mod ticks_per_sec t) in
  let '(time, ticks) :=
    if ticks >=? ticks_per_sec t
    then (incr time, wrap (ticks - ticks_per_sec t))
    else (time, ticks) in
  if time >=? 0x00181818 then (incr date, wrap (time - 0x00181818), ticks)
  else (date, time, ticks).

End Code.

(** *** Reachable states and the order of the active list *)

(** The expiration ticks met when the active list is traversed from its
    head. *)
Definition expirations (s : TM_STATE) : list Z :=
  (fun i => expire_ticks (get i s)) <$> active_list s.

(** The states that the timer services reach from the state at program
    start when each service, and each tick, runs from its call to its
    return before the next one starts.  A step of [tm_tick] stands for
    every number of turns of its loop, so that the states between two
    turns are reachable as well.  A tick that the alarm starts inside
    another service is no step of [reachable]: [TmL] below has the chains
    with their links for that case. *)
Inductive reachable `{ErrCodes} : TM_STATE -> Prop :=
| reach_boot : reachable tm_boot
| reach_evafter env ticks events tmid s :
    reachable s -> reachable (snd (tm_evafter env ticks events tmid s))
| reach_evevery env ticks events tmid s :
    reachable s -> reachable (snd (tm_evevery env ticks events tmid s))
| reach_evwhen env date time ticks events tmid s :
    reachable s -> reachable (snd (tm_evwhen env date time ticks events tmid s))
| reach_wkafter env ticks s :
    reachable s -> reachable (snd (tm_wkafter env ticks s))
| reach_wkwhen env date time ticks s :
    reachable s -> reachable (snd (tm_wkwhen env date time ticks s))
| reach_cancel tmid s :
    reachable s -> reachable (snd (tm_cancel tmid s))
| reach_get date time ticks s :
    reachable s -> reachable (snd (tm_get date time ticks s))
| reach_set date time ticks s :
    reachable s -> reachable (snd (tm_set date time ticks s))
| reach_tick n s :
    reachable s -> reachable (snd (tm_tick n s)).

End Tm.


(** ** The timer chains with their links: [kernel/time/timer.c] *)

(** [Tm] keeps the active chain and the free chain as lists of slots; it
    describes a timer service from its call to its return.  The alarm of
    the host is a signal: [tm_hw_generic_init] installs
    [tm_hw_alarm_handler] for SIGALRM with an empty [sa_mask], the
    handler calls [tm_tick], and no function of [timer.c] masks the
    signal.  A tick can therefore run between two statements of a
    service, and what the service finds afterwards is told by the links.
    [TmL] has the blocks with [next] and [prev], and the functions on the
    chains statement by statement. *)

Module TmL.

(** [TM_TCB]: the fields of [Tm.TM_TCB] and the two links; a pointer
    [TM_TCB *] is the slot of the block, [None] is NULL. *)
Record TM_TCB : Type := mkTCB {
  dat : Tm.TM_TCB;
  next : option nat;
  prev : option nat
}.

Definition set_dat (f : Tm.TM_TCB -> Tm.TM_TCB) (r : TM_TCB) : TM_TCB :=
  mkTCB (f (dat r)) (next r) (prev r).
Definition set_next (v : option nat) (r : TM_TCB) : TM_TCB := mkTCB (dat r) v (prev r).
Definition set_prev (v : option nat) (r : TM_TCB) : TM_TCB := mkTCB (dat r) (next r) v.

(** [memset(tcb, 0, sizeof(TM_TCB))]. *)
Definition tcb_zero : TM_TCB := mkTCB Tm.tcb_zero None None.

(** [TM_STATE] with its pool; [free_list] and [active_list] are the
    heads of the two chains. *)
Record TM_STATE : Type := mkState {
  pool_magic : Z;
  max_timers : Z;
  free_count : Z;
  next_id : Z;
  free_list : option nat;
  active_list : option nat;
  timers : list TM_TCB;
  systime : Tm.TM_SYSTIME;
  hw_ops : option Tm.TM_HW_OPS;
  initialized : Z;
  interrupt_count : Z
}.

Definition st_free_count (v : Z) (r : TM_STATE) : TM_STATE :=
  mkState (pool_magic r) (max_timers r) v (next_id r) (free_list r) (active_list r)
    (timers r) (systime r) (hw_ops r) (initialized r) (interrupt_count r).
Definition st_next_id (v : Z) (r : TM_STATE) : TM_STATE :=
  mkState (pool_magic r) (max_timers r) (free_count r) v (free_list r) (active_list r)
    (timers r) (systime r) (hw_ops r) (initialized r) (interrupt_count r).
Definition st_free_list (v : option nat) (r : TM_STATE) : TM_STATE :=
  mkState (pool_magic r) (max_timers r) (free_count r) (next_id r) v (active_list r)
    (timers r) (systime r) (hw_ops r) (initialized r) (interrupt_count r).
Definition st_active_list (v : option nat) (r : TM_STATE) : TM_STATE :=
  mkState (pool_magic r) (max_timers r) (free_count r) (next_id r) (free_list r) v
    (timers r) (systime r) (hw_ops r) (initialized r) (interrupt_count r).
Definition st_timers (v : list TM_TCB) (r : TM_STATE) : TM_STATE :=
  mkState (pool_magic r) (max_timers r) (free_count r) (next_id r) (free_list r)
    (active_list r) v (systime r) (hw_ops r) (initialized r) (interrupt_count r).
Definition st_systime (v : Tm.TM_SYSTIME) (r : TM_STATE) : TM_STATE :=
  mkState (pool_magic r) (max_timers r) (free_count r) (next_id r) (free_list r)
    (active_list r) (timers r) v (hw_ops r) (initialized r) (interrupt_count r).
Definition st_hw_ops (v : option Tm.TM_HW_OPS) (r : TM_STATE) : TM_STATE :=
  mkState (pool_magic r) (max_timers r) (free_count r) (next_id r) (free_list r)
    (active_list r) (timers r) (systime r) v (initialized r) (interrupt_count r).
Definition st_initialized (v : Z) (r : TM_STATE) : TM_STATE :=
  mkState (pool_magic r) (max_timers r) (free_count r) (next_id r) (free_list r)
    (active_list r) (timers r) (systime r) (hw_ops r) v (interrupt_count r).
Definition st_interrupt_count (v : Z) (r : TM_STATE) : TM_STATE :=
  mkState (pool_magic r) (max_timers r) (free_count r) (next_id r) (free_list r)
    (active_list r) (timers r) (systime r) (hw_ops r) (initialized r) v.

(** The state at program start: [TM_STATE tm_global_state = {0}]. *)
Definition tm_boot : TM_STATE :=
  mkState 0 0 0 0 None None (replicate (Z.to_nat Tm.TM_MAX_TIMERS) tcb_zero)
          (Tm.mkSystime 0 0 0 0 0) None 0 0.

Definition get (i : nat) (s : TM_STATE) : TM_TCB :=
  default tcb_zero (timers s !! i).
Definition upd (i : nat) (f : TM_TCB -> TM_TCB) (s : TM_STATE) : TM_STATE :=
  st_timers (<[i := f (get i s)]> (timers s)) s.

Definition TM_IS_VALID_TCB (tcb : TM_TCB) : bool :=
  Tm.magic (dat tcb) =? Tm.TM_POOL_MAGIC.
Definition TM_GET_CURRENT_TICKS (s : TM_STATE) : Z := Tm.tick_count (systime s).

Definition expire_ticks (i : nat) (s : TM_STATE) : Z := Tm.expire_ticks (dat (get i s)).

Section Code.
Context `{ErrCodes}.

(** *** Pool management *)

(** The loop links block [i] to block [i + 1]; the last block ends the
    free chain. *)
Definition tm_pool_init (s : TM_STATE) : TM_STATE :=
  mkState Tm.TM_POOL_MAGIC Tm.TM_MAX_TIMERS Tm.TM_MAX_TIMERS 1
          (Some 0%nat) None
          ((fun i => mkTCB Tm.tcb_zero
                       (if (S i <? Z.to_nat Tm.TM_MAX_TIMERS)%nat then Some (S i) else None)
                       None)
             <$> seq 0 (Z.to_nat Tm.TM_MAX_TIMERS))
          (systime s) (hw_ops s) (initialized s) (interrupt_count s).

Definition tm_generate_id (s : TM_STATE) : Z * TM_STATE :=
  let id := next_id s in
  let s := st_next_id (incr (next_id s)) s in
  let s := if next_id s =? 0 then st_next_id 1 s else s in
  (id, s).

Definition tm_pool_alloc (s : TM_STATE) : option nat * TM_STATE :=
  if free_count s =? 0 then (None, s)
  else
    match free_list s with
    | None => (None, s)
    | Some tcb =>
        let s := st_free_list (next (get tcb s)) s in
        let s := st_free_count (decr (free_count s)) s in
        let s := upd tcb (fun _ => tcb_zero) s in
        let s := upd tcb (set_dat (fun t =>
                   Tm.mkTCB Tm.TM_POOL_MAGIC (Tm.timer_id t) (Tm.state t) (Tm.type t)
                     (Tm.action t) (Tm.start_ticks t) (Tm.delay_ticks t) (Tm.expire_ticks t)
                     (Tm.period_ticks t) (Tm.target_date t) (Tm.target_time t)
                     (Tm.target_tick t) (Tm.task_id t) (Tm.events t))) s in
        let '(id, s) := tm_generate_id s in
        let s := upd tcb (set_dat (fun t =>
                   Tm.mkTCB (Tm.magic t) id Tm.TM_STATE_ACTIVE (Tm.type t)
                     (Tm.action t) (Tm.start_ticks t) (Tm.delay_ticks t) (Tm.expire_ticks t)
                     (Tm.period_ticks t) (Tm.target_date t) (Tm.target_time t)
                     (Tm.target_tick t) (Tm.task_id t) (Tm.events t))) s in
        (Some tcb, s)
    end.

(** *** The active list *)

(** The walk of [tm_list_insert],
    [while (current != NULL && current->expire_ticks <= tcb->expire_ticks)],
    from the values [prev] and [current] of its two variables: the
    result is their values when the loop ends, [None] when it has not
    ended within [n] turns. *)
Fixpoint tm_list_insert_walk (n : nat) (tcb : nat) (prev current : option nat)
    (s : TM_STATE) : option (option nat * option nat) :=
  match current with
  | None => Some (prev, current)
  | Some c =>
      if expire_ticks c s <=? expire_ticks tcb s then
        match n with
        | O => None
        | S n => tm_list_insert_walk n tcb (Some c) (next (get c s)) s
        end
      else Some (prev, current)
  end.

(** The statements of [tm_list_insert] that follow the walk: the four
    stores that link [tcb] between [prev] and [current]. *)
Definition tm_list_insert_link (tcb : nat) (prev current : option nat)
    (s : TM_STATE) : TM_STATE :=
  let s := upd tcb (set_next current) s in
  let s := upd tcb (set_prev prev) s in
  let s := match prev with
           | Some p => upd p (set_next (Some tcb)) s
           | None => st_active_list (Some tcb) s
           end in
  match current with
  | Some c => upd c (set_prev (Some tcb)) s
  | None => s
  end.

Definition tm_list_insert (n : nat) (tcb : nat) (s : TM_STATE) : option TM_STATE :=
  if negb (TM_IS_VALID_TCB (get tcb s)) then Some s
  else
    match tm_list_insert_walk n tcb None (active_list s) s with
    | None => None
    | Some (prev, current) => Some (tm_list_insert_link tcb prev current s)
    end.

Definition tm_list_remove (tcb : nat) (s : TM_STATE) : TM_STATE :=
  if negb (TM_IS_VALID_TCB (get tcb s)) then s
  else
    let s := match prev (get tcb s) with
             | Some p => upd p (set_next (next (get tcb s))) s
             | None => st_active_list (next (get tcb s)) s
             end in
    let s := match next (get tcb s) with
             | Some nx => upd nx (set_prev (prev (get tcb s))) s
             | None => s
             end in
    let s := upd tcb (set_next None) s in
    upd tcb (set_prev None) s.

Definition tm_list_get_expired (s : TM_STATE) : option nat :=
  match active_list s with
  | Some tcb =>
      if expire_ticks tcb s <=? TM_GET_CURRENT_TICKS s then Some tcb else None
  | None => None
  end.

Definition tm_pool_free (tcb : nat) (s : TM_STATE) : Z * TM_STATE :=
  if negb (TM_IS_VALID_TCB (get tcb s)) then (ERR_BADTCB, s)
  else
    let s := tm_list_remove tcb s in
    let s := upd tcb (fun _ => tcb_zero) s in
    let s := upd tcb (set_dat (Tm.set_state Tm.TM_STATE_FREE)) s in
    let s := upd tcb (set_next (free_list s)) s in
    let s := st_free_list (Some tcb) s in
    (0, st_free_count (incr (free_count s)) s).

(** *** System time *)

Definition tm_time_init (s : TM_STATE) : TM_STATE :=
  st_systime (Tm.mkSystime 0x07e90101 0 0 0 Tm.TM_TICKS_PER_SEC) s.

Definition tm_time_update (s : TM_STATE) : TM_STATE :=
  let t := systime s in
  let t := Tm.mkSystime (Tm.date t) (Tm.time t) (incr (Tm.ticks t))
             (incr (Tm.tick_count t)) (Tm.ticks_per_sec t) in
  let t :=
    if Tm.ticks t >=? Tm.ticks_per_sec t then
      let t := Tm.mkSystime (Tm.date t) (incr (Tm.time t)) 0 (Tm.tick_count t)
                 (Tm.ticks_per_sec t) in
      if Tm.time t >=? 0x00181818
      then Tm.mkSystime (incr (Tm.date t)) 0 (Tm.ticks t) (Tm.tick_count t)
             (Tm.ticks_per_sec t)
      else t
    else t in
  st_systime t s.

Definition tm_time_to_ticks (date time ticks : Z) (s : TM_STATE) : Z :=
  let t := systime s in
  let current_ticks := Tm.tick_count t in
  if (date >? Tm.date t)
     || ((date =? Tm.date t) && (time >? Tm.time t))
     || ((date =? Tm.date t) && (time =? Tm.time t) && (ticks >? Tm.ticks t))
  then
    let time_diff := wrap (wrap (time - Tm.time t) * Tm.ticks_per_sec t) in
    wrap (wrap (current_ticks + time_diff) + wrap (ticks - Tm.ticks t))
  else current_ticks.

(** *** Timer processing *)

Definition tm_fire_timer (tcb : nat) (s : TM_STATE) : Z * list Tm.call * TM_STATE :=
  if negb (TM_IS_VALID_TCB (get tcb s)) then (ERR_BADTCB, [], s)
  else
    let s := upd tcb (set_dat (Tm.set_state Tm.TM_STATE_EXPIRED)) s in
    let t := dat (get tcb s) in
    if Tm.action t =? Tm.TM_ACTION_EVENT then
      (0, if negb (Tm.events t =? 0) then [Tm.call_ev_send (Tm.task_id t) (Tm.events t)]
          else [], s)
    else if Tm.action t =? Tm.TM_ACTION_WAKEUP then
      (0, [Tm.call_t_resume (Tm.task_id t)], s)
    else (0, [], s).

(** One turn of the loop of [tm_process_expired] on the expired timer
    [tcb]; [n] bounds the walk of [tm_list_insert]. *)
Definition tm_process_one (n : nat) (tcb : nat) (s : TM_STATE)
    : option (list Tm.call * TM_STATE) :=
  let '(_, calls, s) := tm_fire_timer tcb s in
  if Tm.type (dat (get tcb s)) =? Tm.TM_TYPE_PERIODIC then
    let s := upd tcb (set_dat (fun t =>
               Tm.set_expire_ticks (wrap (Tm.expire_ticks t + Tm.period_ticks t)) t)) s in
    let s := tm_list_remove tcb s in
    match tm_list_insert n tcb s with
    | None => None
    | Some s => Some (calls, s)
    end
  else
    Some (calls, snd (tm_pool_free tcb s)).

(** [while ((tcb = tm_list_get_expired()) != NULL)]: the result is
    [None] when the loop, or a walk inside it, has not ended within [n]
    turns. *)
Fixpoint tm_process_expired (n : nat) (fuel : nat) (s : TM_STATE)
    : option (Z * list Tm.call * TM_STATE) :=
  match tm_list_get_expired s with
  | None => Some (0, [], s)
  | Some tcb =>
      match fuel with
      | O => None
      | S fuel =>
          match tm_process_one n tcb s with
          | None => None
          | Some (calls, s) =>
              match tm_process_expired n fuel s with
              | None => None
              | Some (processed, calls', s) => Some (incr processed, calls ++ calls', s)
              end
          end
      end
  end.

Definition tm_schedule_next (s : TM_STATE) : list Tm.call :=
  match hw_ops s, active_list s with
  | Some Tm.tm_hw_generic_ops, Some tcb => [Tm.call_set_alarm (expire_ticks tcb s)]
  | _, _ => []
  end.

(** *** Initialisation *)

Definition tm_hw_init (s : TM_STATE) : TM_STATE := st_hw_ops (Some Tm.tm_hw_generic_ops) s.

Definition tm_init_once (s : TM_STATE) : Z * TM_STATE :=
  if truthy (initialized s) then (0, s)
  else (0, st_initialized 1 (tm_hw_init (tm_time_init (tm_pool_init s)))).

(** *** [tm_create_timer], in the three parts that a tick can separate *)

(** From the entry of [tm_create_timer] to the call of [tm_list_insert]:
    either the function has returned ([inl]), or the block [tcb] is
    filled in and about to be inserted ([inr]). *)
Definition tm_create_timer_begin (env : Tm.TaskEnv) (type action ticks events date time : Z)
    (tmid : option Z) (s : TM_STATE)
    : (Z * option Z * list Tm.call * TM_STATE) + (nat * TM_STATE) :=
  let '(error, s) := tm_init_once s in
  if negb (error =? 0) then inl (error, tmid, [], s) else
  match tmid with
  | None => inl (ERR_BADPARAM, tmid, [], s)
  | Some _ =>
  match tm_pool_alloc s with
  | (None, s) => inl (ERR_NOTIMERS, tmid, [], s)
  | (Some tcb, s) =>
      let start := TM_GET_CURRENT_TICKS s in
      let s := upd tcb (set_dat (fun t =>
                 Tm.mkTCB (Tm.magic t) (Tm.timer_id t) (Tm.state t) type action start
                       (Tm.delay_ticks t) (Tm.expire_ticks t) (Tm.period_ticks t)
                       (Tm.target_date t) (Tm.target_time t) (Tm.target_tick t)
                       (Tm.t_ident_value env) events)) s in
      if (type =? Tm.TM_TYPE_ONESHOT) || (type =? Tm.TM_TYPE_PERIODIC) then
        inr (tcb,
             upd tcb (set_dat (fun t =>
               Tm.mkTCB (Tm.magic t) (Tm.timer_id t) (Tm.state t) (Tm.type t) (Tm.action t)
                     (Tm.start_ticks t) ticks (wrap (Tm.start_ticks t + ticks))
                     (if type =? Tm.TM_TYPE_PERIODIC then ticks else Tm.period_ticks t)
                     (Tm.target_date t) (Tm.target_time t) (Tm.target_tick t)
                     (Tm.task_id t) (Tm.events t))) s)
      else if type =? Tm.TM_TYPE_ABSOLUTE then
        inr (tcb,
             upd tcb (set_dat (fun t =>
               Tm.mkTCB (Tm.magic t) (Tm.timer_id t) (Tm.state t) (Tm.type t) (Tm.action t)
                     (Tm.start_ticks t) (Tm.delay_ticks t)
                     (tm_time_to_ticks date time ticks s)
                     (Tm.period_ticks t) date time ticks
                     (Tm.task_id t) (Tm.events t))) s)
      else
        inl (ERR_BADPARAM, tmid, [], snd (tm_pool_free tcb s))
  end
  end.

(** From the return of [tm_list_insert] to the return of
    [tm_create_timer]. *)
Definition tm_create_timer_end (tcb : nat) (s : TM_STATE)
    : Z * option Z * list Tm.call * TM_STATE :=
  (0, Some (Tm.timer_id (dat (get tcb s))), tm_schedule_next s, s).

Definition tm_create_timer (n : nat) (env : Tm.TaskEnv)
    (type action ticks events date time : Z) (tmid : option Z) (s : TM_STATE)
    : option (Z * option Z * list Tm.call * TM_STATE) :=
  match tm_create_timer_begin env type action ticks events date time tmid s with
  | inl r => Some r
  | inr (tcb, s) =>
      match tm_list_insert n tcb s with
      | None => None
      | Some s => Some (tm_create_timer_end tcb s)
      end
  end.

(** *** Public services *)

Definition tm_evafter (n : nat) (env : Tm.TaskEnv) (ticks events : Z) (tmid : option Z)
    (s : TM_STATE) : option (Z * option Z * list Tm.call * TM_STATE) :=
  let error := Tm.tm_validate_inputs ticks events in
  if negb (error =? 0) then Some (error, tmid, [], s)
  else tm_create_timer n env Tm.TM_TYPE_ONESHOT Tm.TM_ACTION_EVENT ticks events 0 0 tmid s.

Definition tm_evevery (n : nat) (env : Tm.TaskEnv) (ticks events : Z) (tmid : option Z)
    (s : TM_STATE) : option (Z * option Z * list Tm.call * TM_STATE) :=
  let error := Tm.tm_validate_inputs ticks events in
  if negb (error =? 0) then Some (error, tmid, [], s)
  else tm_create_timer n env Tm.TM_TYPE_PERIODIC Tm.TM_ACTION_EVENT ticks events 0 0 tmid s.

(** [tm_tick], which [tm_hw_alarm_handler] calls. *)
Definition tm_tick (n : nat) (s : TM_STATE) : option (Z * list Tm.call * TM_STATE) :=
  if negb (truthy (initialized s)) then Some (0, [], s)
  else
    let s := st_interrupt_count (incr (interrupt_count s)) s in
    let s := tm_time_update s in
    match tm_process_expired n n s with
    | None => None
    | Some (_, calls, s) => Some (0, calls ++ tm_schedule_next s, s)
    end.

(** *** [tm_evafter] with a tick inside [tm_list_insert] *)

(** [tm_evafter (ticks, events, tmid)] during which the alarm goes off
    once, when the walk of [tm_list_insert] has ended and its first
    store has not been made: the handler runs [tm_tick] to its end, and
    [tm_list_insert] goes on with the values that its variables [prev]
    and [current] had. *)
Definition tm_evafter_with_tick (n : nat) (env : Tm.TaskEnv) (ticks events : Z)
    (tmid : option Z) (s : TM_STATE)
    : option (Z * option Z * list Tm.call * TM_STATE) :=
  let error := Tm.tm_validate_inputs ticks events in
  if negb (error =? 0) then Some (error, tmid, [], s)
  else
    match tm_create_timer_begin env Tm.TM_TYPE_ONESHOT Tm.TM_ACTION_EVENT
            ticks events 0 0 tmid s with
    | inl r => Some r
    | inr (tcb, s) =>
        if negb (TM_IS_VALID_TCB (get tcb s)) then Some (tm_create_timer_end tcb s)
        else
          match tm_list_insert_walk n tcb None (active_list s) s with
          | None => None
          | Some (prev, current) =>
              match tm_tick n s with
              | None => None
              | Some (_, calls, s) =>
                  let s := tm_list_insert_link tcb prev current s in
                  let '(error, tmid, calls', s) := tm_create_timer_end tcb s in
                  Some (error, tmid, calls ++ calls', s)
              end
          end
    end.

End Code.

(** *** The active chain from its head *)

(** The slots met from [current] along [next]; [None] when the chain has
    more than [n] blocks, as a chain that runs in a circle has. *)
Fixpoint chain (n : nat) (current : option nat) (s : TM_STATE) : option (list nat) :=
  match current with
  | None => Some []
  | Some c =>
      match n with
      | O => None
      | S n => option_map (cons c) (chain n (next (get c s)) s)
      end
  end.

(** The expiration ticks met when the active list is traversed from its
    head. *)
Definition expirations (n : nat) (s : TM_STATE) : option (list Z) :=
  option_map (fmap (fun i => expire_ticks i s)) (chain n (active_list s) s).

End TmL.
(** ** Values for closed examples *)

(** Some values for the codes that no header defines: non-zero and
    different from the codes of [gxkernel.h].  They serve to run the
    services on concrete inputs; no general statement depends on them. *)
Definition example_codes : ErrCodes :=
  {| ERR_BADPARAM := 0x70; ERR_NOMEM := 0x71; ERR_NOTSUPPORTED := 0x72;
     ERR_SEMFULL := 0x73; ERR_NOTACTIVE := 0x74; ERR_BADTCB := 0x75;
     ERR_NORESOURCE := 0x76 |}.

(** ** Notions used in the statements about queues *)

(** Consecutive [q_send] calls on one queue, one per message of [ms],
    with the list of their results. *)
Fixpoint q_send_all `{ErrCodes} (os : OS) (qid : Z) (ms : list Q.Q_MSGBUF)
    (w : Q.World) : list Z * Q.World :=
  match ms with
  | [] => ([], w)
  | m :: ms =>
      let '(e, w) := Q.q_send os qid (Some m) w in
      let '(es, w) := q_send_all os qid ms w in
      (e :: es, w)
  end.

(** The queue [qid] is active in an initialised host kernel; its control
    block [qcb] was created with capacity [c] and owns the arena slots
    [st .. st + c - 1], with the input position [nin] and the output
    position [nout]. *)
Definition q_ring (w : Q.World) (qid : Z) (qcb : nat) (st c nin nout : Z) : Prop :=
  let s := Q.qs w in
  Q.initialized s <> 0 /\
  Q.hw_ops s = Some Q.q_hw_generic_ops /\
  Q.q_pool_find qid s = Some qcb /\
  (qcb < length (Q.queues (Q.queue_pool s)))%nat /\
  Q.state (Q.get qcb s) = Q.Q_STATE_ACTIVE /\
  Q.count (Q.get qcb s) = c /\
  Q.buf (Q.get qcb s) = Q.mkBuf st (st + c - 1) nin nout /\
  0 <= st /\ 1 <= c /\
  st + c <= Q.total_buffers (Q.buffer_pool s) /\
  Q.total_buffers (Q.buffer_pool s) <= Q.Q_MAX_BUFFERS /\
  (Z.to_nat (Q.total_buffers (Q.buffer_pool s)) <= length (Q.buffers (Q.buffer_pool s)))%nat.

(** The message held by arena slot [i]. *)
Definition q_slot (w : Q.World) (i : Z) : option Q.Q_MSGBUF :=
  Q.buffers (Q.buffer_pool (Q.qs w)) !! Z.to_nat i.

(** What lets [q_create (name, count, flags, &qid)] go through: a valid
    capacity and valid flags, a free control block, [count] free arena
    slots, a free semaphore for the queue, and a host that grants the
    memory and the POSIX semaphore.  The conditions on the kernel are
    read after the first-call initialisation, if it is still to come. *)
Definition q_can_create `{ErrCodes} (os : OS) (count flags : Z) (w : Q.World) : Prop :=
  let s := snd (Q.q_init_once os (Q.qs w)) in
  let sm := snd (Sm.sm_init_once (Q.sms w)) in
  Q.Q_IS_VALID_COUNT count = true /\
  Q.Q_IS_VALID_FLAGS flags = true /\
  Q.hw_ops s = Some Q.q_hw_generic_ops /\
  (exists qcb rest, Q.free_list (Q.queue_pool s) = qcb :: rest /\
                    (qcb < length (Q.queues (Q.queue_pool s)))%nat) /\
  0 < Q.next_id (Q.queue_pool s) <= ULONG_MAX /\
  0 <= Q.next_available (Q.buffer_pool s) /\
  0 <= Q.buffers_allocated (Q.buffer_pool s) /\
  Q.buffers_allocated (Q.buffer_pool s) + count <= ULONG_MAX /\
  Q.next_available (Q.buffer_pool s) + count <= Q.total_buffers (Q.buffer_pool s) /\
  Q.total_buffers (Q.buffer_pool s) <= Q.Q_MAX_BUFFERS /\
  (Z.to_nat (Q.total_buffers (Q.buffer_pool s)) <= length (Q.buffers (Q.buffer_pool s)))%nat /\
  malloc_ok os = true /\
  sync_init_ok os = true /\
  Sm.free_list sm <> [].

(** [q_frame s s']: the state [s'] has the queues, the identities and the
    arena bookkeeping of [s]; the rings and the contents of the arena,
    which sending and receiving change, are left out. *)
Definition q_frame (s s' : Q.Q_STATE) : Prop :=
  Q.initialized s' = Q.initialized s /\
  Q.hw_ops s' = Q.hw_ops s /\
  Q.hw_active_waits s' = Q.hw_active_waits s /\
  Q.active_list (Q.queue_pool s') = Q.active_list (Q.queue_pool s) /\
  length (Q.queues (Q.queue_pool s')) = length (Q.queues (Q.queue_pool s)) /\
  Q.total_buffers (Q.buffer_pool s') = Q.total_buffers (Q.buffer_pool s) /\
  Q.next_available (Q.buffer_pool s') = Q.next_available (Q.buffer_pool s) /\
  Q.buffers_allocated (Q.buffer_pool s') = Q.buffers_allocated (Q.buffer_pool s) /\
  length (Q.buffers (Q.buffer_pool s')) = length (Q.buffers (Q.buffer_pool s)) /\
  forall i, Q.queue_id (Q.get i s') = Q.queue_id (Q.get i s) /\
            Q.magic (Q.get i s') = Q.magic (Q.get i s) /\
            Q.state (Q.get i s') = Q.state (Q.get i s) /\
            Q.count (Q.get i s') = Q.count (Q.get i s) /\
            Q.semid (Q.get i s') = Q.semid (Q.get i s).

(** [q_keeps s s']: [s'] has, besides, the rings and the arena contents
    of [s]. *)
Definition q_keeps (s s' : Q.Q_STATE) : Prop :=
  q_frame s s' /\
  (forall i, Q.buf (Q.get i s') = Q.buf (Q.get i s) /\
             Q.current_messages (Q.get i s') = Q.current_messages (Q.get i s)) /\
  Q.buffers (Q.buffer_pool s') = Q.buffers (Q.buffer_pool s).

(** The next position after [idx] in a ring over the slots [st .. en]. *)
Definition advance (st en idx : Z) : Z := if idx =? en then st else wrap (idx + 1).

(** The state of the examples about queues: a first [q_create] with
    capacity 4 on the kernel as it boots. *)
Definition w_created : Q.World :=
  snd (@Q.q_create example_codes os_ok (Some (81, 49, 32, 32)) 4 0 (Some 0) Q.boot).

(** ** The ring of a queue as a list of messages *)

(** The offset [k] places after the offset [o] in a ring of [c] slots. *)
Definition ring_pos (c o k : Z) : Z := if o + k <? c then o + k else o + k - c.

(** The active queue [qid], held by the control block [qcb] and created
    with capacity [c], holds the messages [ms], the oldest first: they
    lie in the ring from the output position on, the input position
    follows the last of them, and the block counts them. *)
Definition q_holds (w : Q.World) (qid : Z) (qcb : nat) (c : Z)
    (ms : list Q.Q_MSGBUF) : Prop :=
  exists st o,
    0 <= o < c /\
    Z.of_nat (length ms) <= c - 1 /\
    q_ring w qid qcb st c (st + ring_pos c o (Z.of_nat (length ms))) (st + o) /\
    Q.current_messages (Q.get qcb (Q.qs w)) = Z.of_nat (length ms) /\
    forall k m, ms !! k = Some m -> q_slot w (st + ring_pos c o (Z.of_nat k)) = Some m.

(** ** Notions used in the statements about semaphores *)

(** The identifier [smid] names the active semaphore held by the
    control block [scb] of an initialised kernel. *)
Definition sm_sem (s : Sm.SM_STATE) (smid : Z) (scb : nat) : Prop :=
  Sm.initialized s <> 0 /\
  Sm.sm_pool_find smid s = Some scb /\
  (scb < length (Sm.semaphores s))%nat /\
  Sm.state (Sm.get scb s) = Sm.SM_STATE_ACTIVE.

(** What lets [sm_create (name, count, flags, &smid)] go through: a
    count that is not negative as a [LONG], valid flags, a free control
    block, and a host that grants the memory and the POSIX semaphore.
    The conditions on the kernel are read after the first-call
    initialisation, if it is still to come. *)
Definition sm_can_create `{ErrCodes} (os : OS) (count flags : Z) (s : Sm.SM_STATE) : Prop :=
  let s0 := snd (Sm.sm_init_once s) in
  Sm.SM_IS_VALID_COUNT (to_LONG count) = true /\
  Sm.SM_IS_VALID_FLAGS flags = true /\
  (exists scb rest, Sm.free_list s0 = scb :: rest /\
                    (scb < length (Sm.semaphores s0))%nat) /\
  0 < Sm.next_id s0 <= ULONG_MAX /\
  malloc_ok os = true /\
  sync_init_ok os = true.

(** ** Notions used in the statements about timers *)

(** What the timer services keep true of the pool: the active list is
    in the order of the expiration ticks, its blocks carry the magic of
    the pool, the free chain has no block twice, and no free block is
    on the active list. *)
Definition tm_inv (s : Tm.TM_STATE) : Prop :=
  StronglySorted Z.le (Tm.expirations s) /\
  Forall (fun i => Tm.TM_IS_VALID_TCB (Tm.get i s) = true) (Tm.active_list s) /\
  NoDup (Tm.free_list s) /\
  Forall (fun i => i ∉ Tm.active_list s) (Tm.free_list s).

(** The task that creates the timers of the examples. *)
Definition env_example : Tm.TaskEnv := {| Tm.t_ident_value := 1; Tm.t_suspend_value := 0 |}.

(** ** Further states of the examples about queues *)

(** The queue of [w_created] after one message, and after three. *)
Definition w_one : Q.World :=
  snd (@Q.q_send example_codes os_ok 1 (Some (7, 7, 7, 7)) w_created).

Definition w_three : Q.World :=
  snd (@q_send_all example_codes os_ok 1
         [(1, 1, 1, 1); (2, 2, 2, 2); (3, 3, 3, 3)] w_created).

(** ** States of the examples about semaphores *)

(** A first semaphore created with count 2, with count 0, and the
    latter with one task on its wait queue. *)
Definition sm_two : Sm.SM_STATE :=
  snd (@Sm.sm_create example_codes os_ok (Some (83, 49, 32, 32)) 2 Sm.SM_FIFO (Some 0)
         Sm.sm_boot).

Definition sm_zero : Sm.SM_STATE :=
  snd (@Sm.sm_create example_codes os_ok (Some (83, 49, 32, 32)) 0 Sm.SM_FIFO (Some 0)
         Sm.sm_boot).

Definition sm_waited : Sm.SM_STATE :=
  snd (@Sm.sm_wait_queue_add example_codes os_ok 0 7 128 sm_zero).

(** ** Notions used in the statements about the clock *)

(** [n] calls of [tm_tick], with what they ask of the other services. *)
Fixpoint tm_ticks `{ErrCodes} (fuel n : nat) (s : Tm.TM_STATE)
    : list Tm.call * Tm.TM_STATE :=
  match n with
  | O => ([], s)
  | S n =>
      let '(_, calls, s) := Tm.tm_tick fuel s in
      let '(calls', s) := tm_ticks fuel n s in
      (calls ++ calls', s)
  end.

(** The kernel [s] is initialised and its timer pool can give out the
    block [tcb]: it heads the free chain, it is not on the active list,
    and the identifier that the next timer gets is carried by no timer
    of the active list. *)
Definition tm_can_create (s : Tm.TM_STATE) (tcb : nat) : Prop :=
  Tm.initialized s <> 0 /\
  (exists rest, Tm.free_list s = tcb :: rest) /\
  0 < Tm.free_count s <= ULONG_MAX /\
  (tcb < length (Tm.timers s))%nat /\
  (tcb ∉ Tm.active_list s) /\
  0 < Tm.next_id s <= ULONG_MAX /\
  Forall (fun i => Tm.timer_id (Tm.get i s) <> Tm.next_id s) (Tm.active_list s).

(** The only active timer of the initialised kernel [s] is the block
    [tcb], which holds [t], and the tick counter reads [now]. *)
Definition tm_one_timer (s : Tm.TM_STATE) (tcb : nat) (now : Z) (t : Tm.TM_TCB) : Prop :=
  Tm.initialized s <> 0 /\
  Tm.active_list s = [tcb] /\
  (tcb < length (Tm.timers s))%nat /\
  Tm.get tcb s = t /\
  Tm.tick_count (Tm.systime s) = now.

(** ** States of the examples about timers *)

(** The kernel after its first call of a timer service, with no timer,
    and the same with one periodic timer of 4 ticks. *)
Definition tm_ready : Tm.TM_STATE :=
  snd (@Tm.tm_get example_codes (Some 0) (Some 0) (Some 0) Tm.tm_boot).

Definition tm_periodic : Tm.TM_STATE :=
  snd (@Tm.tm_evevery example_codes env_example 4 2 (Some 0) tm_ready).


(** ** State of the examples about events *)

(** The event system once task 0 has been sent the events 0x3. *)
Definition ev_ready : Ev.EV_STATE :=
  snd (@Ev.ev_send example_codes os_ok 0 0x3 Ev.ev_boot).

(** ** Notion used in the statements about the scheduler *)

(** The ready mask is in step with the ready lists: the mask is a 32-bit
    value whose bit [p] is set exactly when the ready list of level [p]
    is not empty, for the levels that have a bit. *)
Definition t_sched_ok (s : T.T_STATE) : Prop :=
  length (T.ready_lists s) = 256%nat /\
  0 <= T.ready_mask s < 2 ^ 32 /\
  forall p, 0 <= p < 32 ->
    (Z.testbit (T.ready_mask s) p = true <-> T.ready_list p s <> []).

(** ** States of the example about a tick inside a timer service *)

(** The kernel with a periodic timer of 2 ticks (block 0) and a one-shot
    timer of [c] ticks (block 1), both created at tick 0, after one tick
    of the clock. *)
Definition tml_two_timers (c : Z) : option TmL.TM_STATE :=
  match @TmL.tm_evevery example_codes 64 env_example 2 1 (Some 0) TmL.tm_boot with
  | Some (_, _, _, s1) =>
      match @TmL.tm_evafter example_codes 64 env_example c 1 (Some 0) s1 with
      | Some (_, _, _, s2) =>
          match @TmL.tm_tick example_codes 64 s2 with
          | Some (_, _, s3) => Some s3
          | None => None
          end
      | None => None
      end
  | None => None
  end.

(** The same services on the lists of [Tm]. *)
Definition tm_two_timers (c : Z) : Tm.TM_STATE :=
  let s1 := snd (@Tm.tm_evevery example_codes env_example 2 1 (Some 0) Tm.tm_boot) in
  let s2 := snd (@Tm.tm_evafter example_codes env_example c 1 (Some 0) s1) in
  snd (@Tm.tm_tick example_codes 64 s2).
(** * Properties of the event services *)

Section EvFacts.
Context `{ErrCodes}.

Lemma ev_check_conditions_not_waiting (ecb : Ev.EV_ECB) :
  Ev.state ecb <> Ev.EV_STATE_WAITING -> Ev.ev_check_conditions ecb = 0.
Proof.
  intros Hst. unfold Ev.ev_check_conditions.
  destruct (Z.eqb_spec (Ev.state ecb) Ev.EV_STATE_WAITING) as [E | _]; [contradiction |].
  now rewrite orb_true_r.
Qed.

Lemma ev_get_upd_same i f s :
  (i < length (Ev.event_blocks s))%nat -> Ev.get i (Ev.upd i f s) = f (Ev.get i s).
Proof.
  intros Hi. unfold Ev.get, Ev.upd. simpl.
  now rewrite list_lookup_insert_eq.
Qed.

(** The first part of [ev_receive], up to the test of the pending events,
    when the caller's event block is not in the waiting state: the
    satisfied branch is not taken, whatever is pending. *)
Lemma ev_receive_nowait_when_not_waiting os during events flags timeout out s :
  Ev.initialized s <> 0 ->
  (0 < length (Ev.event_blocks s))%nat ->
  Ev.state (Ev.get 0 s) <> Ev.EV_STATE_WAITING ->
  Ev.EV_IS_VALID_EVENT_MASK events = true ->
  Ev.EV_IS_VALID_FLAGS flags = true ->
  Z.land flags Ev.EV_NOWAIT <> 0 ->
  Ev.ev_receive os during events flags timeout (Some out) s =
  Returns (ERR_NOEVS, Some 0,
           Ev.upd 0 (fun e =>
             Ev.set_wait_condition
               (if truthy (Z.land flags Ev.EV_ANY) then Ev.EV_ANY else Ev.EV_ALL)
               (Ev.set_waiting_events events e)) s).
Proof.
  intros Hinit Hlen Hst Hev Hfl Hnw.
  unfold Ev.ev_receive, Ev.ev_init_once.
  assert (Ht : truthy (Ev.initialized s) = true).
  { unfold truthy. now apply negb_true_iff, Z.eqb_neq. }
  rewrite Ht. cbn [negb Z.eqb]. rewrite Hev, Hfl. cbn [negb Z.eqb].
  change (Ev.ev_pool_get_task_ecb Ev.ev_get_current_task_id) with (Some 0%nat).
  cbv iota beta.
  rewrite ev_get_upd_same by exact Hlen.
  rewrite ev_check_conditions_not_waiting by (destruct (Ev.get 0 s); exact Hst).
  change (truthy 0) with false. cbv iota.
  assert (Hn : truthy (Z.land flags Ev.EV_NOWAIT) = true).
  { unfold truthy. now apply negb_true_iff, Z.eqb_neq. }
  now rewrite Hn.
Qed.

(** C1 (defect of the code).  Task 0 has the events 0x3 pending, sent by
    [ev_send]; it asks for event 0x1 with [EV_NOWAIT], a request that the
    pending events satisfy for ALL and for ANY.  [ev_receive] answers
    [ERR_NOEVS] with 0 in [*events_r] and leaves the pending events as
    they were: the branch that consumes pending events is not taken. *)
Theorem ev_receive_pending_nowait_returns_noevs :
  let s := snd (Ev.ev_send os_ok 0 0x3 Ev.ev_boot) in
  Ev.pending_events (Ev.get 0 s) = 0x3 /\
  Z.land (Ev.pending_events (Ev.get 0 s)) 0x1 = 0x1 /\
  (forall flags, flags = Ev.EV_NOWAIT \/ flags = Z.lor Ev.EV_ANY Ev.EV_NOWAIT ->
     exists s',
       Ev.ev_receive os_ok [] 0x1 flags 0 (Some 0) s = Returns (ERR_NOEVS, Some 0, s') /\
       Ev.pending_events (Ev.get 0 s') = 0x3).
Proof.
  cbv zeta.
  assert (Hs : exists s0, snd (Ev.ev_send os_ok 0 3 Ev.ev_boot) = s0 /\
            Ev.initialized s0 = 1 /\ length (Ev.event_blocks s0) = 64%nat /\
            Ev.state (Ev.get 0 s0) = Ev.EV_STATE_FREE /\
            Ev.pending_events (Ev.get 0 s0) = 3).
  { eexists. split; [reflexivity |]. vm_compute. repeat split; reflexivity. }
  destruct Hs as (s0 & -> & Hi & Hl & Hst & Hp).
  split; [exact Hp |]. split; [now rewrite Hp |].
  intros flags Hflags. eexists. split.
  - apply ev_receive_nowait_when_not_waiting.
    + rewrite Hi. discriminate.
    + rewrite Hl. lia.
    + rewrite Hst. discriminate.
    + reflexivity.
    + destruct Hflags as [-> | ->]; reflexivity.
    + destruct Hflags as [-> | ->]; discriminate.
  - rewrite ev_get_upd_same by (rewrite Hl; lia).
    destruct (Ev.get 0 s0); exact Hp.
Qed.

End EvFacts.

(** * Properties of the task services *)

Section TFacts.
Context `{ErrCodes}.

Lemma truthy_land_0 (x : Z) : truthy (Z.land x 0) = false.
Proof. now rewrite Z.land_0_r. Qed.

(** What [t_mode] does for a running task: the tests on [T_PREEMPT],
    [T_ASR] and [T_ISR], all three 0, never succeed, so that only the
    [T_TSLICE] bit follows [mask] and [new_mode]. *)
Lemma t_mode_only_tslice mask new_mode old s cur :
  T.initialized s <> 0 ->
  T.current_task s = Some cur ->
  T.t_mode mask new_mode (Some old) s =
  (0, Some (T.mode (T.get cur s)),
   if truthy (Z.land mask T.T_TSLICE) then
     if truthy (Z.land new_mode T.T_TSLICE)
     then T.T_MODE_SET cur T.T_TSLICE s
     else T.T_MODE_CLEAR cur T.T_TSLICE s
   else s).
Proof.
  intros Hinit Hcur. unfold T.t_mode, T.t_init_once.
  assert (Ht : truthy (T.initialized s) = true).
  { unfold truthy. now apply negb_true_iff, Z.eqb_neq. }
  rewrite Ht. cbn [snd]. rewrite Hcur.
  change T.T_PREEMPT with 0. change T.T_ASR with 0. change T.T_ISR with 0.
  rewrite !truthy_land_0. reflexivity.
Qed.

(** C5 (defect of the code).  A running task with mode 0 calls
    [t_mode (bit, bit, &old)] for [bit] one of [T_NOPREEMPT], [T_NOASR],
    [T_NOISR]: the call returns 0 and the old mode, and the mode is still
    0 afterwards, although the bit is selected by the mask and set in the
    new mode. *)
Theorem t_mode_masked_bit_not_updated bit :
  bit = T.T_NOPREEMPT \/ bit = T.T_NOASR \/ bit = T.T_NOISR ->
  Z.land bit bit <> 0 /\
  T.t_mode bit bit (Some 0) T.t_one_running = (0, Some 0, T.t_one_running) /\
  Z.land (T.mode (T.get 0 T.t_one_running)) bit = 0.
Proof.
  intros Hbit. split; [| split].
  - destruct Hbit as [-> | [-> | ->]]; discriminate.
  - rewrite (t_mode_only_tslice bit bit 0 T.t_one_running 0%nat);
      [| discriminate | reflexivity].
    destruct Hbit as [-> | [-> | ->]]; reflexivity.
  - reflexivity.
Qed.

End TFacts.

(** The theorem at [T_NOPREEMPT]. *)
Lemma t_mode_masked_bit_not_updated_witness :
  Z.land T.T_NOPREEMPT T.T_NOPREEMPT <> 0 /\
  @T.t_mode example_codes T.T_NOPREEMPT T.T_NOPREEMPT (Some 0) T.t_one_running
  = (0, Some 0, T.t_one_running) /\
  Z.land (T.mode (T.get 0 T.t_one_running)) T.T_NOPREEMPT = 0.
Proof.
  exact (@t_mode_masked_bit_not_updated example_codes T.T_NOPREEMPT (or_introl eq_refl)).
Defined.

(** ** The ready lists *)

Lemma t_ready_list_set_same p l s :
  (Z.to_nat p < length (T.ready_lists s))%nat ->
  T.ready_list p (T.set_ready_list p l s) = l.
Proof.
  intros Hp. unfold T.ready_list, T.set_ready_list. simpl.
  now rewrite list_lookup_insert_eq.
Qed.

Lemma t_ready_list_set_other p q l s :
  0 <= p -> 0 <= q -> p <> q ->
  T.ready_list q (T.set_ready_list p l s) = T.ready_list q s.
Proof.
  intros Hp Hq Hne. unfold T.ready_list, T.set_ready_list. simpl.
  rewrite list_lookup_insert_ne; [reflexivity | lia].
Qed.

Lemma T_PRIORITY_TO_INDEX_range pri :
  0 <= pri -> 0 <= T.T_PRIORITY_TO_INDEX pri <= 255.
Proof.
  intros Hp. unfold T.T_PRIORITY_TO_INDEX, T.T_MAX_PRIORITY.
  destruct (Z.leb_spec pri 255); lia.
Qed.

Lemma T_PRIORITY_TO_INDEX_idem pri :
  T.T_PRIORITY_TO_INDEX (T.T_PRIORITY_TO_INDEX pri) = T.T_PRIORITY_TO_INDEX pri.
Proof.
  unfold T.T_PRIORITY_TO_INDEX, T.T_MAX_PRIORITY.
  destruct (Z.leb_spec pri 255) as [Hle | Hgt].
  - destruct (Z.leb_spec pri 255); [reflexivity | lia].
  - reflexivity.
Qed.

(** [ctz_scan] stops at the lowest set bit. *)
Lemma ctz_scan_lowest m p n i :
  0 <= i <= p -> (Z.to_nat (p - i) < n)%nat ->
  Z.testbit m p = true ->
  (forall j, i <= j < p -> Z.testbit m j = false) ->
  T.ctz_scan n i m = p.
Proof.
  revert i. induction n as [| n IH]; intros i Hi Hn Hp Hlow; [lia |].
  cbn [T.ctz_scan]. destruct (Z.eq_dec i p) as [-> | Hne].
  - now rewrite Hp.
  - rewrite (Hlow i) by lia. apply IH; [lia | lia | exact Hp |].
    intros j Hj. apply Hlow. lia.
Qed.

Lemma wrap_small x : 0 <= x < 2 ^ 32 -> wrap x = x.
Proof. intros Hx. unfold wrap, ULONG_BITS. now apply Z.mod_small. Qed.

Lemma bit_small p : 0 <= p < 32 -> T.bit p = 2 ^ p.
Proof.
  intros Hp. unfold T.bit. rewrite Z.shiftl_1_l. apply wrap_small.
  split; [apply Z.pow_nonneg; lia | apply Z.pow_lt_mono_r; lia].
Qed.

(** C2 (amended).  [t_scheduler_add_ready] links a valid task in the
    ready state at the head of the ready list of its priority level and
    leaves the other levels alone; when no level of higher priority has
    its ready bit set (and the level has a bit in the 32-bit ready mask),
    the task that [t_scheduler_get_highest_ready] chooses next is that
    task, the one that became ready last. *)
Theorem t_scheduler_add_ready_at_head tcb s :
  T.T_IS_VALID_TCB (T.get tcb s) = true ->
  T.state (T.get tcb s) = T.T_STATE_READY ->
  0 <= T.priority (T.get tcb s) ->
  length (T.ready_lists s) = 256%nat ->
  let p := T.T_PRIORITY_TO_INDEX (T.priority (T.get tcb s)) in
  let s' := T.t_scheduler_add_ready tcb s in
  T.ready_list p s' = tcb :: T.ready_list p s /\
  (forall q, 0 <= q -> q <> p -> T.ready_list q s' = T.ready_list q s) /\
  (p < 32 -> 0 <= T.ready_mask s < 2 ^ 32 ->
   (forall j, 0 <= j < p -> Z.testbit (T.ready_mask s) j = false) ->
   T.t_scheduler_get_highest_ready s' = Some tcb).
Proof.
  intros Hvalid Hstate Hpri Hlen p s'.
  assert (Hp : 0 <= p <= 255) by (apply T_PRIORITY_TO_INDEX_range; exact Hpri).
  assert (Hs' : s' = T.T_SET_READY_BIT p (T.set_ready_list p (tcb :: T.ready_list p s) s)).
  { unfold s', T.t_scheduler_add_ready. rewrite Hvalid, Hstate. reflexivity. }
  assert (Hrl : forall q, T.ready_list q s'
                          = T.ready_list q (T.set_ready_list p (tcb :: T.ready_list p s) s)).
  { intros q. rewrite Hs'. reflexivity. }
  split; [| split].
  - rewrite Hrl. apply t_ready_list_set_same. rewrite Hlen. lia.
  - intros q Hq Hne. rewrite Hrl. apply t_ready_list_set_other; [lia | lia | congruence].
  - intros Hp32 Hmask Hlow.
    assert (Hm : T.ready_mask s' = Z.lor (T.ready_mask s) (2 ^ p)).
    { rewrite Hs'. unfold T.T_SET_READY_BIT. cbn.
      unfold p. rewrite T_PRIORITY_TO_INDEX_idem. fold p. now rewrite bit_small by lia. }
    assert (Hbitp : Z.testbit (T.ready_mask s') p = true).
    { rewrite Hm, Z.lor_spec, Z.pow2_bits_true by lia. apply orb_true_r. }
    assert (Hrange : 0 <= T.ready_mask s' < 2 ^ 32).
    { rewrite Hm. split.
      - apply Z.lor_nonneg. split; [lia | apply Z.pow_nonneg; lia].
      - destruct (Z.eq_dec (Z.lor (T.ready_mask s) (2 ^ p)) 0) as [-> | Hnz]; [lia |].
        apply Z.log2_lt_pow2.
        + assert (0 <= Z.lor (T.ready_mask s) (2 ^ p)).
          { apply Z.lor_nonneg. split; [lia | apply Z.pow_nonneg; lia]. }
          lia.
        + rewrite Z.log2_lor by (try lia; apply Z.pow_nonneg; lia).
          rewrite Z.log2_pow2 by lia.
          destruct (Z.eq_dec (T.ready_mask s) 0) as [E0 | Hn0].
          * rewrite E0. cbn. lia.
          * assert (Z.log2 (T.ready_mask s) < 32) by (apply Z.log2_lt_pow2; lia). lia. }
    unfold T.t_scheduler_get_highest_ready.
    destruct (Z.eqb_spec (T.ready_mask s') 0) as [E0 | _].
    { rewrite E0 in Hbitp. now rewrite Z.bits_0 in Hbitp. }
    unfold T.T_FIND_HIGHEST_PRIORITY, T.builtin_ctz. rewrite wrap_small by exact Hrange.
    rewrite (ctz_scan_lowest _ p); [| lia | cbn; lia | exact Hbitp |].
    + rewrite Hrl, t_ready_list_set_same by (rewrite Hlen; lia). reflexivity.
    + intros j Hj. rewrite Hm, Z.lor_spec, Hlow by lia.
      rewrite Z.pow2_bits_false by lia. reflexivity.
Qed.

(** The theorem applies to the second of two tasks of priority 10 that
    become ready one after the other. *)
Lemma t_scheduler_add_ready_at_head_witness :
  let s := T.upd 1 (T.set_state T.T_STATE_READY)
             (T.t_set_state 0 T.T_STATE_READY T.t_two_created) in
  T.ready_list 10 (T.t_scheduler_add_ready 1 s) = [1%nat; 0%nat] /\
  T.t_scheduler_get_highest_ready (T.t_scheduler_add_ready 1 s) = Some 1%nat.
Proof.
  pose (s := T.upd 1 (T.set_state T.T_STATE_READY)
               (T.t_set_state 0 T.T_STATE_READY T.t_two_created)).
  destruct (t_scheduler_add_ready_at_head 1 s) as (Hhead & _ & Hnext);
    [reflexivity | reflexivity | vm_compute; discriminate | reflexivity |].
  split.
  - exact Hhead.
  - apply Hnext; [reflexivity | vm_compute; split; [discriminate | reflexivity] |].
    intros j Hj.
    change (T.T_PRIORITY_TO_INDEX (T.priority (T.get 1 s))) with 10 in Hj.
    change (T.ready_mask s) with (2 ^ 10).
    apply Z.pow2_bits_false. lia.
Defined.

(** C2 as stated fails.  Two tasks of priority 10 become ready, slot 0
    first and slot 1 second: the second is linked in front of the first,
    not behind it, and the task chosen next is the second, not the one
    that became ready earliest. *)
Lemma t_scheduler_add_ready_not_at_tail :
  let s1 := T.t_set_state 0 T.T_STATE_READY T.t_two_created in
  let s2 := T.t_set_state 1 T.T_STATE_READY s1 in
  T.ready_list 10 s1 = [0%nat] /\
  T.ready_list 10 s2 = [1%nat; 0%nat] /\
  T.ready_list 10 s2 <> T.ready_list 10 s1 ++ [1%nat] /\
  T.t_scheduler_get_highest_ready s2 = Some 1%nat /\
  T.t_scheduler_get_highest_ready s2 <> Some 0%nat.
Proof.
  vm_compute. repeat split; discriminate.
Qed.

(** * Properties of the semaphore services *)

Section SmFacts.
Context `{ErrCodes}.

Lemma sm_get_upd_same i f s :
  (i < length (Sm.semaphores s))%nat -> Sm.get i (Sm.upd i f s) = f (Sm.get i s).
Proof.
  intros Hi. unfold Sm.get, Sm.upd. simpl. now rewrite list_lookup_insert_eq.
Qed.

Lemma sm_init_once_initialized s :
  Sm.initialized s <> 0 -> Sm.sm_init_once s = (0, s).
Proof.
  intros Hinit. unfold Sm.sm_init_once.
  assert (Ht : truthy (Sm.initialized s) = true).
  { unfold truthy. now apply negb_true_iff, Z.eqb_neq. }
  now rewrite Ht.
Qed.

(** A block found by [sm_pool_find] carries the identifier and the magic
    number. *)
Lemma sm_pool_find_valid smid s scb :
  Sm.sm_pool_find smid s = Some scb ->
  Sm.semaphore_id (Sm.get scb s) = smid /\ Sm.SM_IS_VALID_SCB (Sm.get scb s) = true.
Proof.
  unfold Sm.sm_pool_find. destruct (negb (Sm.SM_IS_VALID_ID smid)); [discriminate |].
  intros Hfind. apply List.find_some in Hfind. destruct Hfind as [_ Hp].
  apply andb_true_iff in Hp. destruct Hp as [Hid Hv].
  split; [now apply Z.eqb_eq | exact Hv].
Qed.

(** C4 (amended).  For an active semaphore with no waiting task, [sm_v]
    adds one to the count and returns 0 as long as the count is below
    the ceiling; when the count has reached the ceiling, [sm_v] returns
    [ERR_SEMFULL] to its caller and changes nothing. *)
Theorem sm_v_no_waiters os smid s scb :
  Sm.initialized s <> 0 ->
  Sm.sm_pool_find smid s = Some scb ->
  (scb < length (Sm.semaphores s))%nat ->
  Sm.state (Sm.get scb s) = Sm.SM_STATE_ACTIVE ->
  Sm.wait_count (Sm.get scb s) = 0 ->
  let count := Sm.current_count (Sm.get scb s) in
  let ceiling := to_LONG (Sm.maximum_count (Sm.get scb s)) in
  (count < ceiling ->
   exists s', Sm.sm_v os smid s = (0, s') /\
              Sm.current_count (Sm.get scb s') = count + 1) /\
  (ERR_SEMFULL <> 0 -> ceiling <= count -> Sm.sm_v os smid s = (ERR_SEMFULL, s)).
Proof.
  intros Hinit Hfind Hlen Hact Hwait count ceiling.
  destruct (sm_pool_find_valid _ _ _ Hfind) as [_ Hvalid].
  assert (Hv : Sm.sm_v os smid s =
               let '(error, s1) := Sm.sm_increment_count scb s in
               if negb (error =? 0) then (error, s1)
               else (0, Sm.sm_update_statistics scb Sm.SM_STAT_SIGNAL 0 s1)).
  { unfold Sm.sm_v. rewrite sm_init_once_initialized by exact Hinit. cbn [snd].
    rewrite Hfind, Hact, Hwait. reflexivity. }
  split.
  - intros Hlt. eexists. split.
    + rewrite Hv. unfold Sm.sm_increment_count. rewrite Hvalid. cbn [negb].
      fold count ceiling.
      destruct (Z.geb_spec count ceiling) as [Hge | _]; [lia |]. reflexivity.
    + unfold Sm.sm_update_statistics.
      rewrite !sm_get_upd_same by exact Hlen.
      assert (Hv2 : Sm.SM_IS_VALID_SCB
                      (Sm.set_current_count (Sm.current_count (Sm.get scb s) + 1)
                                            (Sm.get scb s)) = true) by exact Hvalid.
      rewrite Hv2. cbn [negb].
      change (Sm.SM_STAT_SIGNAL =? Sm.SM_STAT_WAIT) with false.
      change (Sm.SM_STAT_SIGNAL =? Sm.SM_STAT_SIGNAL) with true. cbv iota.
      rewrite sm_get_upd_same by (unfold Sm.upd; simpl; now rewrite length_insert).
      rewrite sm_get_upd_same by exact Hlen. reflexivity.
  - intros Hnz Hge. rewrite Hv. unfold Sm.sm_increment_count. rewrite Hvalid. cbn [negb].
    fold count ceiling.
    destruct (Z.geb_spec count ceiling) as [_ | Hlt]; [| lia].
    destruct (Z.eqb_spec ERR_SEMFULL 0) as [E | _]; [contradiction | reflexivity].
Qed.

End SmFacts.

(** The theorem applies to a semaphore created with count 8 under the
    default ceiling 8, and to one created with count 7. *)
Lemma sm_v_no_waiters_witness :
  let full := snd (@Sm.sm_create example_codes os_ok None 8 Sm.SM_FIFO (Some 0) Sm.sm_boot) in
  let room := snd (@Sm.sm_create example_codes os_ok None 7 Sm.SM_FIFO (Some 0) Sm.sm_boot) in
  @Sm.sm_v example_codes os_ok 1 full = (@ERR_SEMFULL example_codes, full) /\
  exists s', @Sm.sm_v example_codes os_ok 1 room = (0, s') /\
             Sm.current_count (Sm.get 0 s') = 8.
Proof.
  intros full room. split.
  - destruct (@sm_v_no_waiters example_codes os_ok 1 full 0%nat) as [_ Hfull];
      [discriminate | reflexivity | vm_compute; lia | reflexivity | reflexivity |].
    apply Hfull; [discriminate | vm_compute; discriminate].
  - destruct (@sm_v_no_waiters example_codes os_ok 1 room 0%nat) as [Hroom _];
      [discriminate | reflexivity | vm_compute; lia | reflexivity | reflexivity |].
    destruct Hroom as (s' & Hv & Hc); [reflexivity |].
    exists s'. split; [exact Hv | exact Hc].
Defined.

(** C4 as stated fails.  A semaphore is created with count 8, the
    default ceiling; it is active, no task waits on it and its count is
    at the ceiling.  Whatever non-zero value [ERR_SEMFULL] has, [sm_v]
    does not return 0 to its caller. *)
Lemma sm_v_at_ceiling_returns_error :
  ~ (forall C : ErrCodes, @ERR_SEMFULL C <> 0 ->
       let s := snd (Sm.sm_create os_ok None 8 Sm.SM_FIFO (Some 0) Sm.sm_boot) in
       Sm.sm_pool_find 1 s = Some 0%nat ->
       Sm.state (Sm.get 0 s) = Sm.SM_STATE_ACTIVE ->
       Sm.wait_count (Sm.get 0 s) = 0 ->
       Sm.current_count (Sm.get 0 s) = to_LONG (Sm.maximum_count (Sm.get 0 s)) ->
       fst (Sm.sm_v os_ok 1 s) = 0).
Proof.
  intros Hclaim.
  specialize (Hclaim example_codes). cbv zeta in Hclaim.
  assert (Hr : fst (@Sm.sm_v example_codes os_ok 1
                      (snd (@Sm.sm_create example_codes os_ok None 8 Sm.SM_FIFO (Some 0)
                                          Sm.sm_boot))) = 0).
  { apply Hclaim; [discriminate | vm_compute; reflexivity ..]. }
  vm_compute in Hr. discriminate.
Qed.

(** * Properties of the queue services *)

Section QFacts.
Context `{ErrCodes}.

Lemma truthy_true x : x <> 0 -> truthy x = true.
Proof. intros Hx. unfold truthy. now apply negb_true_iff, Z.eqb_neq. Qed.

Lemma q_init_once_initialized os s :
  Q.initialized s <> 0 -> Q.q_init_once os s = (0, s).
Proof.
  intros Hinit. unfold Q.q_init_once. now rewrite truthy_true.
Qed.

Lemma q_init_once_ok os s : fst (Q.q_init_once os s) = 0.
Proof. unfold Q.q_init_once. now destruct (truthy (Q.initialized s)). Qed.

Lemma Q_IS_VALID_COUNT_false count :
  count < 4 \/ 1024 < count -> Q.Q_IS_VALID_COUNT count = false.
Proof.
  intros Hc. unfold Q.Q_IS_VALID_COUNT, Q.Q_MIN_COUNT, Q.Q_MAX_COUNT.
  apply andb_false_iff. destruct Hc; [left | right]; apply Z.leb_gt; lia.
Qed.

(** The state that the first-call initialisation sets up. *)
Lemma q_init_once_fresh os s :
  Q.initialized s = 0 ->
  let s0 := snd (Q.q_init_once os s) in
  Q.initialized s0 = 1 /\
  Q.hw_ops s0 = Some Q.q_hw_generic_ops /\
  Q.queue_pool s0 = Q.mkPool Q.Q_POOL_MAGIC Q.MAX_Q 0 1 (seq 0 (Z.to_nat Q.MAX_Q)) []
                             (replicate (Z.to_nat Q.MAX_Q) Q.qcb_zero) /\
  Q.buffer_pool s0 = Q.mkBufPool Q.Q_POOL_MAGIC Q.Q_MAX_BUFFERS 0 0 0
                                 (replicate (Z.to_nat Q.Q_MAX_BUFFERS) Q.msg_zero).
Proof.
  intros Hinit. unfold Q.q_init_once. rewrite Hinit.
  change (truthy 0) with false. cbv iota.
  unfold Q.q_hw_init, Q.q_hw_generic_init.
  match goal with |- context [truthy ?x] => destruct (truthy x) end.
  - repeat split; reflexivity.
  - destruct (sync_init_ok os); repeat split; reflexivity.
Qed.

(** C10.  [q_create] with a capacity below 4 or above 1024 returns the
    validation error [ERR_BADPARAM], a non-zero code, before it touches
    the queue pool or the buffer arena: in an initialised kernel the
    state is exactly as before, whatever room the pool and the arena
    have (a NULL [qid] is refused the same way, one test earlier); in a
    kernel not yet initialised the state is that of the first-call
    initialisation, with no queue allocated and an empty arena. *)
Theorem q_create_rejects_invalid_count os name count flags qid w :
  ERR_BADPARAM <> 0 ->
  count < 4 \/ 1024 < count ->
  let w0 := Q.mkWorld (snd (Q.q_init_once os (Q.qs w))) (Q.sms w) in
  Q.q_create os name count flags qid w = (ERR_BADPARAM, qid, w0) /\
  (Q.initialized (Q.qs w) <> 0 -> w0 = w) /\
  (Q.initialized (Q.qs w) = 0 ->
     Q.active_list (Q.queue_pool (Q.qs w0)) = [] /\
     Q.active_count (Q.queue_pool (Q.qs w0)) = 0 /\
     Q.next_available (Q.buffer_pool (Q.qs w0)) = 0 /\
     Q.buffers_allocated (Q.buffer_pool (Q.qs w0)) = 0 /\
     Q.q_buffer_available (Q.qs w0) = Q.Q_MAX_BUFFERS).
Proof.
  intros Hnz Hcount w0. split; [| split].
  - unfold Q.q_create.
    destruct (Q.q_init_once os (Q.qs w)) as [error s] eqn:Hinit.
    assert (He : error = 0) by (pose proof (q_init_once_ok os (Q.qs w)) as E;
                                now rewrite Hinit in E).
    subst error. cbn [negb Z.eqb]. unfold w0. cbn [snd].
    destruct qid as [q |]; [| reflexivity].
    unfold Q.q_validate_count. rewrite Q_IS_VALID_COUNT_false by exact Hcount.
    destruct (Z.eqb_spec ERR_BADPARAM 0) as [E | _]; [contradiction | reflexivity].
  - intros Hinit. unfold w0. rewrite q_init_once_initialized by exact Hinit.
    now destruct w.
  - intros Hinit.
    destruct (q_init_once_fresh os (Q.qs w) Hinit) as (_ & _ & Hqp & Hbp).
    unfold Q.q_buffer_available, w0. cbn [Q.qs]. rewrite Hqp, Hbp.
    repeat split; reflexivity.
Qed.

End QFacts.

(** The theorem applies to [q_create] with capacity 3 right after
    program start and to capacity 1025 in an initialised kernel that has
    its 32 control blocks and 2044 arena slots free. *)
Lemma q_create_rejects_invalid_count_witness :
  fst (fst (@Q.q_create example_codes os_ok None 3 0 (Some 0) Q.boot)) = 0x70 /\
  let w := snd (@Q.q_delete example_codes os_ok 1
                  (snd (@Q.q_create example_codes os_ok None 4 0 (Some 0) Q.boot))) in
  @Q.q_create example_codes os_ok None 1025 0 (Some 0) w = (0x70, Some 0, w).
Proof.
  assert (Hnz : @ERR_BADPARAM example_codes <> 0) by discriminate.
  split.
  - assert (Hcount : 3 < 4 \/ 1024 < 3) by lia.
    pose proof (@q_create_rejects_invalid_count example_codes os_ok None 3 0 (Some 0)
                  Q.boot Hnz Hcount) as Hthm.
    cbv zeta in Hthm. destruct Hthm as (Hc & _).
    rewrite Hc. reflexivity.
  - intros w.
    assert (Hinit : Q.initialized (Q.qs w) <> 0) by (vm_compute; discriminate).
    clearbody w.
    assert (Hcount : 1025 < 4 \/ 1024 < 1025) by lia.
    pose proof (@q_create_rejects_invalid_count example_codes os_ok None 1025 0 (Some 0)
                  w Hnz Hcount) as Hthm.
    cbv zeta in Hthm. destruct Hthm as (Hc & Hsame & _).
    rewrite Hc, (Hsame Hinit). reflexivity.
Defined.

(** ** Queues: the ring of a queue under the services *)

Section QRing.
Context `{ErrCodes}.

Lemma q_get_upd_same i f s :
  (i < length (Q.queues (Q.queue_pool s)))%nat -> Q.get i (Q.upd i f s) = f (Q.get i s).
Proof.
  intros Hi. unfold Q.get, Q.upd. cbn. now rewrite list_lookup_insert_eq.
Qed.

Lemma q_get_upd_ne i j f s : i <> j -> Q.get i (Q.upd j f s) = Q.get i s.
Proof.
  intros Hne. unfold Q.get, Q.upd. cbn. now rewrite list_lookup_insert_ne.
Qed.

Lemma q_get_upd_core i j f s (P : Q.Q_QCB -> Z) :
  (forall q, P (f q) = P q) -> P (Q.get i (Q.upd j f s)) = P (Q.get i s).
Proof.
  intros Hf. destruct (Nat.eq_dec i j) as [-> | Hne].
  - destruct (Nat.lt_ge_cases j (length (Q.queues (Q.queue_pool s)))) as [Hlt | Hge].
    + now rewrite q_get_upd_same.
    + unfold Q.get, Q.upd. cbn. now rewrite list_insert_ge.
  - now rewrite q_get_upd_ne.
Qed.

Lemma q_frame_refl s : q_frame s s.
Proof. unfold q_frame. repeat split; reflexivity. Qed.

Lemma q_frame_trans s1 s2 s3 : q_frame s1 s2 -> q_frame s2 s3 -> q_frame s1 s3.
Proof.
  unfold q_frame.
  intros (A1 & A2 & A3 & A4 & A5 & A6 & A7 & A8 & A9 & A10)
         (B1 & B2 & B3 & B4 & B5 & B6 & B7 & B8 & B9 & B10).
  repeat split; try congruence;
    destruct (A10 i) as (? & ? & ? & ? & ?); destruct (B10 i) as (? & ? & ? & ? & ?);
    congruence.
Qed.

(** An assignment to a field of a control block other than its identity. *)
Lemma q_frame_upd j f s :
  (forall q, Q.queue_id (f q) = Q.queue_id q) ->
  (forall q, Q.magic (f q) = Q.magic q) ->
  (forall q, Q.state (f q) = Q.state q) ->
  (forall q, Q.count (f q) = Q.count q) ->
  (forall q, Q.semid (f q) = Q.semid q) ->
  q_frame s (Q.upd j f s).
Proof.
  intros F1 F2 F3 F4 F5. unfold q_frame.
  repeat split; try reflexivity.
  - unfold Q.upd. cbn. now rewrite length_insert.
  - now apply (q_get_upd_core i j f s Q.queue_id).
  - now apply (q_get_upd_core i j f s Q.magic).
  - now apply (q_get_upd_core i j f s Q.state).
  - now apply (q_get_upd_core i j f s Q.count).
  - now apply (q_get_upd_core i j f s Q.semid).
Qed.

(** A state that differs only outside the pools. *)
Lemma q_frame_pools s s' :
  Q.queue_pool s' = Q.queue_pool s -> Q.buffer_pool s' = Q.buffer_pool s ->
  Q.initialized s' = Q.initialized s -> Q.hw_ops s' = Q.hw_ops s ->
  Q.hw_active_waits s' = Q.hw_active_waits s ->
  q_frame s s'.
Proof.
  intros Hq Hb Hi Hh Ha. unfold q_frame, Q.get. rewrite Hq, Hb.
  repeat split; assumption.
Qed.

Lemma q_frame_disable s : q_frame s (Q.q_disable_interrupts s).
Proof. apply q_frame_pools; reflexivity. Qed.

Lemma q_frame_enable s : q_frame s (Q.q_enable_interrupts s).
Proof.
  unfold Q.q_enable_interrupts. destruct (_ >? _); [| apply q_frame_refl].
  apply q_frame_pools; reflexivity.
Qed.

Lemma q_frame_statistics qcb op v s : q_frame s (Q.q_update_statistics qcb op v s).
Proof.
  unfold Q.q_update_statistics.
  repeat match goal with
         | |- context [if ?b then _ else _] => destruct b
         end;
    try apply q_frame_refl;
    try (apply q_frame_upd; intros q; reflexivity);
    (eapply q_frame_trans; [apply q_frame_upd; intros q; reflexivity |
                            apply q_frame_pools; reflexivity]).
Qed.

Lemma find_ext {A} (f g : A -> bool) l :
  (forall x, f x = g x) -> List.find f l = List.find g l.
Proof.
  intros Hfg. induction l as [| x l IH]; [reflexivity |].
  cbn. rewrite Hfg, IH. reflexivity.
Qed.

Lemma q_frame_find qid s s' : q_frame s s' -> Q.q_pool_find qid s' = Q.q_pool_find qid s.
Proof.
  intros (_ & _ & _ & Hal & _ & _ & _ & _ & _ & Hget).
  unfold Q.q_pool_find. rewrite Hal. destruct (negb _); [reflexivity |].
  apply find_ext. intros i. destruct (Hget i) as (Hid & Hm & _).
  unfold Q.Q_IS_VALID_QCB. now rewrite Hid, Hm.
Qed.


Lemma q_frame_store i m s :
  q_frame s (Q.st_set_buffer_pool
               (Q.bp_buffers (<[i := m]> (Q.buffers (Q.buffer_pool s))) (Q.buffer_pool s)) s).
Proof.
  unfold q_frame. repeat split; try reflexivity. cbn. now rewrite length_insert.
Qed.


(** The update of the high-water mark that ends [q_message_enqueue]. *)
Lemma q_high_water_step qcb s :
  (qcb < length (Q.queues (Q.queue_pool s)))%nat ->
  let s' := if Q.current_messages (Q.get qcb s) >? Q.high_water_mark (Q.get qcb s)
            then Q.upd qcb (fun q => Q.set_high_water_mark (Q.current_messages q) q) s
            else s in
  q_frame s s' /\
  Q.buf (Q.get qcb s') = Q.buf (Q.get qcb s) /\
  Q.current_messages (Q.get qcb s') = Q.current_messages (Q.get qcb s) /\
  Q.buffers (Q.buffer_pool s') = Q.buffers (Q.buffer_pool s).
Proof.
  intros Hlen. cbv zeta. destruct (_ >? _).
  - split; [apply q_frame_upd; intros q; reflexivity |].
    rewrite q_get_upd_same by exact Hlen. repeat split.
  - split; [apply q_frame_refl | repeat split].
Qed.

(** A normal (not urgent) [q_message_enqueue] on a ring with room. *)
Lemma q_message_enqueue_ok qcb m s st en nin nout :
  Q.Q_IS_VALID_QCB (Q.get qcb s) = true ->
  (qcb < length (Q.queues (Q.queue_pool s)))%nat ->
  Q.buf (Q.get qcb s) = Q.mkBuf st en nin nout ->
  Q.Q_BUFFER_FULL (Q.get qcb s) = false ->
  0 <= nin < Q.total_buffers (Q.buffer_pool s) ->
  exists s',
    Q.q_message_enqueue qcb (Some m) 0 s = (0, s') /\
    q_frame s s' /\
    Q.buf (Q.get qcb s') = Q.mkBuf st en (advance st en nin) nout /\
    Q.buffers (Q.buffer_pool s') = <[Z.to_nat nin := m]> (Q.buffers (Q.buffer_pool s)) /\
    Q.current_messages (Q.get qcb s') = incr (Q.current_messages (Q.get qcb s)).
Proof.
  intros Hvalid Hlen Hbuf Hfull Hnin.
  unfold Q.q_message_enqueue. rewrite Hvalid, Hfull. cbn [negb].
  change (truthy 0) with false. cbv iota. rewrite Hbuf. cbn [Q.nextin Q.start Q.end_ Q.nextout].
  unfold Q.q_buffer_get.
  set (s1 := Q.upd qcb _ s).
  assert (F1 : q_frame s s1) by (apply q_frame_upd; intros q; reflexivity).
  assert (Htb : Q.total_buffers (Q.buffer_pool s1) = Q.total_buffers (Q.buffer_pool s))
    by reflexivity.
  rewrite Htb. destruct (Z.geb_spec nin (Q.total_buffers (Q.buffer_pool s))) as [Hge | _]; [lia |].
  set (s2 := Q.st_set_buffer_pool _ s1).
  set (s3 := Q.upd qcb _ s2).
  assert (L1 : (qcb < length (Q.queues (Q.queue_pool s1)))%nat).
  { unfold s1, Q.upd. cbn. now rewrite length_insert. }
  assert (G1 : Q.get qcb s1 = Q.set_buf (Q.mkBuf st en (Q.Q_ADVANCE_INDEX (Q.get qcb s) nin) nout)
                                        (Q.get qcb s)).
  { unfold s1. now rewrite q_get_upd_same. }
  assert (G3 : Q.get qcb s3 = Q.set_current_messages (incr (Q.current_messages (Q.get qcb s1)))
                                                     (Q.get qcb s1)).
  { unfold s3. rewrite q_get_upd_same by exact L1. reflexivity. }
  assert (F3 : q_frame s s3).
  { eapply q_frame_trans; [exact F1 |]. eapply q_frame_trans; [apply q_frame_store |].
    apply q_frame_upd; intros q; reflexivity. }
  assert (HA : Q.Q_ADVANCE_INDEX (Q.get qcb s) nin = advance st en nin).
  { unfold Q.Q_ADVANCE_INDEX, advance. now rewrite Hbuf. }
  assert (B3 : Q.buffers (Q.buffer_pool s3)
               = <[Z.to_nat nin := m]> (Q.buffers (Q.buffer_pool s))) by reflexivity.
  assert (L3 : (qcb < length (Q.queues (Q.queue_pool s3)))%nat).
  { destruct F3 as (_ & _ & _ & _ & Hl & _). now rewrite Hl. }
  destruct (q_high_water_step qcb s3 L3) as (F4 & Hb4 & Hc4 & Hbu4).
  eexists. split; [reflexivity |].
  split; [eapply q_frame_trans; eassumption |].
  rewrite Hb4, Hc4, Hbu4, G3, G1, HA. repeat split; reflexivity.
Qed.

(** [q_message_enqueue] on a full ring. *)
Lemma q_message_enqueue_full qcb m urgent s :
  Q.Q_IS_VALID_QCB (Q.get qcb s) = true ->
  Q.Q_BUFFER_FULL (Q.get qcb s) = true ->
  exists s',
    Q.q_message_enqueue qcb (Some m) urgent s = (ERR_QFULL, s') /\
    q_frame s s' /\
    Q.buf (Q.get qcb s') = Q.buf (Q.get qcb s) /\
    Q.buffers (Q.buffer_pool s') = Q.buffers (Q.buffer_pool s) /\
    Q.current_messages (Q.get qcb s') = Q.current_messages (Q.get qcb s).
Proof.
  intros Hvalid Hfull. unfold Q.q_message_enqueue. rewrite Hvalid, Hfull. cbn [negb].
  eexists. split; [reflexivity |]. split; [apply q_frame_statistics |].
  unfold Q.q_update_statistics. rewrite Hvalid. cbn [negb].
  change (Q.Q_STAT_OVERFLOW =? Q.Q_STAT_SEND) with false.
  change (Q.Q_STAT_OVERFLOW =? Q.Q_STAT_URGENT) with false.
  change (Q.Q_STAT_OVERFLOW =? Q.Q_STAT_RECEIVE) with false.
  change (Q.Q_STAT_OVERFLOW =? Q.Q_STAT_BROADCAST) with false.
  change (Q.Q_STAT_OVERFLOW =? Q.Q_STAT_OVERFLOW) with true. cbn [orb].
  repeat split;
    try (apply (q_get_upd_core qcb qcb _ s (fun q => Q.current_messages q)); reflexivity).
  destruct (Nat.lt_ge_cases qcb (length (Q.queues (Q.queue_pool s)))) as [Hlt | Hge].
  - change (Q.buf (Q.get qcb (Q.upd qcb (fun q => Q.set_total_overflows
              (incr (Q.total_overflows q)) q) s)) = Q.buf (Q.get qcb s)).
    now rewrite q_get_upd_same.
  - unfold Q.get, Q.upd. cbn. now rewrite list_insert_ge.
Qed.


Lemma q_keeps_refl s : q_keeps s s.
Proof. unfold q_keeps. split; [apply q_frame_refl | repeat split]. Qed.

Lemma q_keeps_trans s1 s2 s3 : q_keeps s1 s2 -> q_keeps s2 s3 -> q_keeps s1 s3.
Proof.
  intros (F1 & G1 & B1) (F2 & G2 & B2). split; [eapply q_frame_trans; eassumption |].
  split; [| congruence].
  intros i. destruct (G1 i), (G2 i). split; congruence.
Qed.

Lemma q_keeps_pools s s' :
  Q.queue_pool s' = Q.queue_pool s -> Q.buffer_pool s' = Q.buffer_pool s ->
  Q.initialized s' = Q.initialized s -> Q.hw_ops s' = Q.hw_ops s ->
  Q.hw_active_waits s' = Q.hw_active_waits s ->
  q_keeps s s'.
Proof.
  intros Hq Hb Hi Hh Ha. split; [now apply q_frame_pools |].
  unfold Q.get. rewrite Hq, Hb. repeat split.
Qed.

Lemma q_keeps_upd j f s :
  (forall q, Q.queue_id (f q) = Q.queue_id q) ->
  (forall q, Q.magic (f q) = Q.magic q) ->
  (forall q, Q.state (f q) = Q.state q) ->
  (forall q, Q.count (f q) = Q.count q) ->
  (forall q, Q.semid (f q) = Q.semid q) ->
  (forall q, Q.buf (f q) = Q.buf q) ->
  (forall q, Q.current_messages (f q) = Q.current_messages q) ->
  q_keeps s (Q.upd j f s).
Proof.
  intros F1 F2 F3 F4 F5 F6 F7. split; [now apply q_frame_upd |]. split; [| reflexivity].
  intros i. destruct (Nat.eq_dec i j) as [-> | Hne].
  - destruct (Nat.lt_ge_cases j (length (Q.queues (Q.queue_pool s)))) as [Hlt | Hge].
    + rewrite q_get_upd_same by exact Hlt. now rewrite F6, F7.
    + unfold Q.get, Q.upd. cbn. now rewrite list_insert_ge.
  - now rewrite q_get_upd_ne.
Qed.

Lemma q_keeps_disable s : q_keeps s (Q.q_disable_interrupts s).
Proof. apply q_keeps_pools; reflexivity. Qed.

Lemma q_keeps_enable s : q_keeps s (Q.q_enable_interrupts s).
Proof.
  unfold Q.q_enable_interrupts. destruct (_ >? _); [| apply q_keeps_refl].
  apply q_keeps_pools; reflexivity.
Qed.

Lemma q_keeps_statistics qcb op v s : q_keeps s (Q.q_update_statistics qcb op v s).
Proof.
  unfold Q.q_update_statistics.
  repeat match goal with
         | |- context [if ?b then _ else _] => destruct b
         end;
    try apply q_keeps_refl;
    try (apply q_keeps_upd; intros q; reflexivity);
    (eapply q_keeps_trans; [apply q_keeps_upd; intros q; reflexivity |
                            apply q_keeps_pools; reflexivity]).
Qed.

(** A ring is carried over to a state with the same frame, with the
    positions that the control block then has. *)
Lemma q_ring_frame s sm qid qcb st c nin nout s' sm' nin' nout' :
  q_ring (Q.mkWorld s sm) qid qcb st c nin nout ->
  q_frame s s' ->
  Q.buf (Q.get qcb s') = Q.mkBuf st (st + c - 1) nin' nout' ->
  q_ring (Q.mkWorld s' sm') qid qcb st c nin' nout'.
Proof.
  unfold q_ring. cbn [Q.qs].
  intros (R1 & R2 & R3 & R4 & R5 & R6 & R7 & R8 & R9 & R10 & R11 & R12) F Hbuf.
  pose proof (q_frame_find qid _ _ F) as Hfind.
  destruct F as (F1 & F2 & F3 & F4 & F5 & F6 & F7 & F8 & F9 & F10).
  destruct (F10 qcb) as (_ & _ & Hst & Hc & _).
  repeat split; try congruence; try lia.
Qed.

Lemma q_ring_valid s sm qid qcb st c nin nout :
  q_ring (Q.mkWorld s sm) qid qcb st c nin nout -> Q.Q_IS_VALID_QCB (Q.get qcb s) = true.
Proof.
  intros (_ & _ & Hfind & _). cbn [Q.qs] in Hfind.
  unfold Q.q_pool_find in Hfind. destruct (negb _); [discriminate |].
  apply List.find_some in Hfind. destruct Hfind as [_ Hp].
  now apply andb_true_iff in Hp.
Qed.

(** [q_send] on a ring with room: the message is stored at the input
    position, which advances. *)
Lemma q_send_ok os w qid qcb st c nin nout m :
  q_ring w qid qcb st c nin nout ->
  Q.Q_BUFFER_FULL (Q.get qcb (Q.qs w)) = false ->
  st <= nin <= st + c - 1 ->
  exists w',
    Q.q_send os qid (Some m) w = (0, w') /\
    q_ring w' qid qcb st c (advance st (st + c - 1) nin) nout /\
    Q.buffers (Q.buffer_pool (Q.qs w'))
    = <[Z.to_nat nin := m]> (Q.buffers (Q.buffer_pool (Q.qs w))).
Proof.
  destruct w as [s sm]. cbn [Q.qs]. intros Hring Hfull Hnin.
  pose proof (q_ring_valid _ _ _ _ _ _ _ _ Hring) as Hvalid.
  pose proof Hring as (R1 & R2 & R3 & R4 & R5 & R6 & R7 & R8 & R9 & R10 & R11 & R12).
  cbn [Q.qs] in *.
  destruct (q_message_enqueue_ok qcb m (Q.q_disable_interrupts s) st (st + c - 1) nin nout)
    as (s1 & He & F1 & Hb1 & Hbu1 & _); try assumption.
  { change (Q.total_buffers (Q.buffer_pool (Q.q_disable_interrupts s)))
      with (Q.total_buffers (Q.buffer_pool s)). lia. }
  unfold Q.q_send, Q.with_qs. cbn [Q.qs Q.sms].
  rewrite q_init_once_initialized by exact R1. cbn [snd].
  rewrite R3, R5. change (negb (Q.Q_STATE_ACTIVE =? Q.Q_STATE_ACTIVE)) with false. cbv iota.
  change (Q.hw_ops (Q.q_disable_interrupts s)) with (Q.hw_ops s). rewrite R2.
  unfold Q.q_hw_generic_send_message.
  change (Q.get qcb (Q.q_disable_interrupts s)) with (Q.get qcb s). rewrite Hvalid.
  cbn [negb]. rewrite He. cbn [Z.eqb Q.qs Q.sms].
  eexists. split; [reflexivity |]. cbn [Q.qs].
  match goal with
  | |- q_ring (Q.mkWorld ?s2 _) _ _ _ _ _ _ /\ _ =>
      assert (K : q_keeps s1 s2)
  end.
  { eapply q_keeps_trans; [| apply q_keeps_enable].
    eapply q_keeps_trans; [| apply q_keeps_statistics].
    apply q_keeps_pools; reflexivity. }
  destruct K as (F2 & G2 & B2). split.
  - eapply q_ring_frame; [exact Hring | |].
    + eapply q_frame_trans; [apply q_frame_disable |].
      eapply q_frame_trans; eassumption.
    + destruct (G2 qcb) as [-> _]. exact Hb1.
  - rewrite B2. exact Hbu1.
Qed.


(** [q_send] on a full ring: [ERR_QFULL], and the ring stays as it is. *)
Lemma q_send_full os w qid qcb st c nin nout m :
  q_ring w qid qcb st c nin nout ->
  Q.Q_BUFFER_FULL (Q.get qcb (Q.qs w)) = true ->
  exists w',
    Q.q_send os qid (Some m) w = (ERR_QFULL, w') /\
    q_ring w' qid qcb st c nin nout /\
    Q.buffers (Q.buffer_pool (Q.qs w')) = Q.buffers (Q.buffer_pool (Q.qs w)).
Proof.
  destruct w as [s sm]. cbn [Q.qs]. intros Hring Hfull.
  pose proof (q_ring_valid _ _ _ _ _ _ _ _ Hring) as Hvalid.
  pose proof Hring as (R1 & R2 & R3 & R4 & R5 & R6 & R7 & R8 & R9 & R10 & R11 & R12).
  cbn [Q.qs] in *.
  destruct (q_message_enqueue_full qcb m 0 (Q.q_disable_interrupts s))
    as (s1 & He & F1 & Hb1 & Hbu1 & _); try assumption.
  unfold Q.q_send, Q.with_qs. cbn [Q.qs Q.sms].
  rewrite q_init_once_initialized by exact R1. cbn [snd].
  rewrite R3, R5. change (negb (Q.Q_STATE_ACTIVE =? Q.Q_STATE_ACTIVE)) with false. cbv iota.
  change (Q.hw_ops (Q.q_disable_interrupts s)) with (Q.hw_ops s). rewrite R2.
  unfold Q.q_hw_generic_send_message.
  change (Q.get qcb (Q.q_disable_interrupts s)) with (Q.get qcb s). rewrite Hvalid.
  cbn [negb]. rewrite He.
  do 2 (cbv beta iota zeta; change (ERR_QFULL =? 0) with false). cbv iota. cbn [Q.qs Q.sms].
  eexists. split; [reflexivity |]. cbn [Q.qs].
  destruct (q_keeps_enable s1) as (F2 & G2 & B2). split.
  - eapply q_ring_frame; [exact Hring | |].
    + eapply q_frame_trans; [apply q_frame_disable |].
      eapply q_frame_trans; eassumption.
    + destruct (G2 qcb) as [-> _]. rewrite Hb1. exact R7.
  - rewrite B2. exact Hbu1.
Qed.

(** [q_message_dequeue] on a ring that is not empty. *)
Lemma q_message_dequeue_ok qcb x s st en nin nout :
  Q.Q_IS_VALID_QCB (Q.get qcb s) = true ->
  (qcb < length (Q.queues (Q.queue_pool s)))%nat ->
  Q.buf (Q.get qcb s) = Q.mkBuf st en nin nout ->
  nin <> nout ->
  0 <= nout < Q.total_buffers (Q.buffer_pool s) ->
  exists s',
    Q.q_message_dequeue qcb (Some x) s
    = (0, Some (default Q.msg_zero (Q.buffers (Q.buffer_pool s) !! Z.to_nat nout)), s') /\
    q_frame s s' /\
    Q.buf (Q.get qcb s') = Q.mkBuf st en nin (advance st en nout) /\
    Q.buffers (Q.buffer_pool s') = Q.buffers (Q.buffer_pool s).
Proof.
  intros Hvalid Hlen Hbuf Hne Hnout.
  unfold Q.q_message_dequeue, Q.Q_BUFFER_EMPTY, Q.q_buffer_get.
  rewrite Hvalid, Hbuf. cbn [negb Q.nextin Q.nextout Q.start Q.end_].
  destruct (Z.eqb_spec nin nout) as [E | _]; [contradiction |].
  destruct (Z.geb_spec nout (Q.total_buffers (Q.buffer_pool s))) as [Hge | _]; [lia |].
  eexists. split; [reflexivity |].
  set (s1 := Q.upd qcb _ s).
  assert (L1 : (qcb < length (Q.queues (Q.queue_pool s1)))%nat).
  { unfold s1, Q.upd. cbn. now rewrite length_insert. }
  split; [| split].
  - eapply q_frame_trans; apply q_frame_upd; intros q; reflexivity.
  - rewrite q_get_upd_same by exact L1. unfold s1. rewrite q_get_upd_same by exact Hlen.
    unfold Q.Q_ADVANCE_INDEX, advance. rewrite Hbuf. reflexivity.
  - reflexivity.
Qed.

(** [q_receive] on a ring that is not empty: the message at the output
    position is returned at once, and the output position advances. *)
Lemma q_receive_ok os during w qid qcb st c nin nout flags timeout x :
  q_ring w qid qcb st c nin nout ->
  nin <> nout ->
  st <= nout <= st + c - 1 ->
  exists w',
    Q.q_receive os during qid flags timeout (Some x) w
    = Returns (0, Some (default Q.msg_zero (q_slot w nout)), w') /\
    q_ring w' qid qcb st c nin (advance st (st + c - 1) nout) /\
    Q.buffers (Q.buffer_pool (Q.qs w')) = Q.buffers (Q.buffer_pool (Q.qs w)).
Proof.
  destruct w as [s sm]. unfold q_slot. cbn [Q.qs]. intros Hring Hne Hnout.
  pose proof (q_ring_valid _ _ _ _ _ _ _ _ Hring) as Hvalid.
  pose proof Hring as (R1 & R2 & R3 & R4 & R5 & R6 & R7 & R8 & R9 & R10 & R11 & R12).
  cbn [Q.qs] in *.
  destruct (q_message_dequeue_ok qcb x (Q.q_disable_interrupts s) st (st + c - 1) nin nout)
    as (s1 & He & F1 & Hb1 & Hbu1); try assumption.
  { change (Q.total_buffers (Q.buffer_pool (Q.q_disable_interrupts s)))
      with (Q.total_buffers (Q.buffer_pool s)). lia. }
  unfold Q.q_receive, Q.with_qs. cbn [Q.qs Q.sms].
  rewrite q_init_once_initialized by exact R1. cbn [snd].
  rewrite R3, R5. change (negb (Q.Q_STATE_ACTIVE =? Q.Q_STATE_ACTIVE)) with false. cbv iota.
  change (Q.get qcb (Q.q_disable_interrupts s)) with (Q.get qcb s).
  unfold Q.Q_BUFFER_EMPTY. rewrite R7. cbn [Q.nextin Q.nextout].
  destruct (Z.eqb_spec nin nout) as [E | _]; [contradiction |]. cbn [negb].
  rewrite He. cbn [Z.eqb].
  change (Q.buffers (Q.buffer_pool (Q.q_disable_interrupts s)))
    with (Q.buffers (Q.buffer_pool s)).
  eexists. split; [reflexivity |]. cbn [Q.qs].
  match goal with
  | |- q_ring (Q.mkWorld ?s2 _) _ _ _ _ _ _ /\ _ =>
      assert (K : q_keeps s1 s2)
  end.
  { eapply q_keeps_trans; [apply q_keeps_statistics | apply q_keeps_enable]. }
  destruct K as (F2 & G2 & B2). split.
  - eapply q_ring_frame; [exact Hring | |].
    + eapply q_frame_trans; [apply q_frame_disable |].
      eapply q_frame_trans; eassumption.
    + destruct (G2 qcb) as [-> _]. exact Hb1.
  - rewrite B2. exact Hbu1.
Qed.


Lemma wrap_id x : 0 <= x <= ULONG_MAX -> wrap x = x.
Proof. intros Hx. unfold wrap. apply Z.mod_small. unfold ULONG_MAX in Hx. lia. Qed.

Lemma q_init_once_is_initialized os s : Q.initialized (snd (Q.q_init_once os s)) <> 0.
Proof.
  destruct (Z.eq_dec (Q.initialized s) 0) as [E | Hne].
  - destruct (q_init_once_fresh os s E) as (Hi & _). cbv zeta in Hi. rewrite Hi. discriminate.
  - now rewrite q_init_once_initialized.
Qed.

(** [sm_create] of the semaphore of a queue goes through when the host
    grants memory and a POSIX semaphore and a semaphore block is free. *)
Lemma sm_create_for_queue_ok os name x sm :
  malloc_ok os = true -> sync_init_ok os = true ->
  Sm.free_list (snd (Sm.sm_init_once sm)) <> [] ->
  exists smid sm',
    Sm.sm_create os name 0 (Z.lor Sm.SM_LOCAL Sm.SM_FIFO) (Some x) sm = (0, Some smid, sm').
Proof.
  intros Hm Hs Hfree. unfold Sm.sm_create.
  assert (He : fst (Sm.sm_init_once sm) = 0).
  { unfold Sm.sm_init_once. now destruct (truthy _). }
  destruct (Sm.sm_init_once sm) as [e sm0]. cbn [fst snd] in *. subst e. cbn [Z.eqb negb].
  change (Sm.sm_validate_count 0) with 0.
  change (Sm.sm_validate_flags (Z.lor Sm.SM_LOCAL Sm.SM_FIFO)) with 0. cbn [Z.eqb negb].
  unfold Sm.sm_pool_alloc. destruct (Sm.free_list sm0) as [| scb rest]; [contradiction |].
  destruct (Sm.sm_generate_id _) as [id sm1]. cbv beta iota zeta.
  match goal with
  | |- context [match Sm.hw_ops ?s with _ => _ end] => destruct (Sm.hw_ops s) as [[] |]
  end.
  - unfold Sm.sm_hw_generic_create_semaphore. rewrite Hm, Hs. cbn [negb Z.eqb].
    eexists. eexists. reflexivity.
  - cbn [negb Z.eqb]. eexists. eexists. reflexivity.
Qed.

(** [q_create] goes through under [q_can_create]: the new queue owns
    the next [count] slots of the arena and its ring is empty. *)
Lemma q_create_ok_full os name count flags x w :
  q_can_create os count flags w ->
  let s0 := snd (Q.q_init_once os (Q.qs w)) in
  let st := Q.next_available (Q.buffer_pool s0) in
  exists qid qcb w1,
    Q.q_create os name count flags (Some x) w = (0, Some qid, w1) /\
    q_ring w1 qid qcb st count st st /\
    (Q.total_buffers (Q.buffer_pool (Q.qs w1)) = Q.total_buffers (Q.buffer_pool s0) /\
     Q.next_available (Q.buffer_pool (Q.qs w1)) = st + count /\
     Q.buffers_allocated (Q.buffer_pool (Q.qs w1))
     = Q.buffers_allocated (Q.buffer_pool s0) + count /\
     Q.buffers (Q.buffer_pool (Q.qs w1)) = Q.buffers (Q.buffer_pool s0)) /\
    Q.current_messages (Q.get qcb (Q.qs w1)) = 0 /\
    Q.name (Q.get qcb (Q.qs w1)) = Sm.sm_name_copy name /\
    Q.active_list (Q.queue_pool (Q.qs w1)) = qcb :: Q.active_list (Q.queue_pool s0) /\
    qid = Q.next_id (Q.queue_pool s0).
Proof.
  unfold q_can_create. destruct w as [s sm]. cbn [Q.qs Q.sms].
  intros (Hc & Hf & Hhw & (qcb & rest & Hfree & Hlen) & Hid & Hna & Hba & Hba2 & Hroom
          & Htot & Hbl & Hmal & Hsync & Hsm).
  set (s0 := snd (Q.q_init_once os s)) in *.
  set (st := Q.next_available (Q.buffer_pool s0)) in *.
  assert (Hi0 : Q.initialized s0 <> 0) by apply q_init_once_is_initialized.
  assert (Hcount : 4 <= count <= 1024).
  { unfold Q.Q_IS_VALID_COUNT, Q.Q_MIN_COUNT, Q.Q_MAX_COUNT in Hc.
    apply andb_true_iff in Hc. destruct Hc as [H1 H2].
    apply Z.leb_le in H1, H2. lia. }
  unfold Q.Q_MAX_BUFFERS, Q.MAX_BUF in Htot. unfold ULONG_MAX, ULONG_BITS in Hid, Hba2.
  unfold Q.q_create. cbn [Q.qs Q.sms].
  assert (He : fst (Q.q_init_once os s) = 0) by apply q_init_once_ok.
  destruct (Q.q_init_once os s) as [e s0'] eqn:Hinit. cbn [fst snd] in *. subst e.
  subst s0. cbn [Z.eqb negb].
  unfold Q.q_validate_count, Q.q_validate_flags. rewrite Hc, Hf. cbn [Z.eqb negb].
  (* room in the arena *)
  unfold Q.q_buffer_available.
  assert (Hav : wrap (Q.total_buffers (Q.buffer_pool s0')
                      - Q.next_available (Q.buffer_pool s0'))
                = Q.total_buffers (Q.buffer_pool s0') - Q.next_available (Q.buffer_pool s0')).
  { apply wrap_id. unfold ULONG_MAX, ULONG_BITS. unfold st in *. lia. }
  rewrite Hav. destruct (Z.ltb_spec (Q.total_buffers (Q.buffer_pool s0')
                                     - Q.next_available (Q.buffer_pool s0')) count)
    as [Hlt | _]; [unfold st in *; lia |].
  (* a control block *)
  unfold Q.q_pool_alloc. rewrite Hfree.
  unfold Q.q_generate_id. cbn [Q.queue_pool Q.st_set_queue_pool Q.next_id Q.pool_next_id
                               Q.pool_active_count Q.pool_free_list].
  set (qid := Q.next_id (Q.queue_pool s0')) in *.
  cbv beta iota zeta.
  match goal with
  | |- context [Q.q_buffer_alloc count ?sa] => set (s1 := sa)
  end.
  assert (G1 : Q.get qcb s1 = Q.mkQCB Sm.name_zero qid Q.Q_POOL_MAGIC Q.Q_STATE_ACTIVE 0 0
                                     (Q.mkBuf 0 0 0 0) 0 0 Sm.name_zero 0 0 0 0 0).
  { unfold s1, Q.get. cbn. rewrite list_lookup_insert_eq; [reflexivity |].
    destruct (_ =? 0); cbn; exact Hlen. }
  assert (B1 : Q.buffer_pool s1 = Q.buffer_pool s0').
  { unfold s1. destruct (_ =? 0); reflexivity. }
  assert (A1 : Q.active_list (Q.queue_pool s1) = qcb :: Q.active_list (Q.queue_pool s0')).
  { unfold s1. destruct (_ =? 0); reflexivity. }
  assert (L1 : length (Q.queues (Q.queue_pool s1)) = length (Q.queues (Q.queue_pool s0'))).
  { unfold s1. cbn. rewrite length_insert. destruct (_ =? 0); reflexivity. }
  assert (I1 : Q.initialized s1 = Q.initialized s0') by reflexivity.
  assert (H1 : Q.hw_ops s1 = Q.hw_ops s0') by reflexivity.
  clearbody s1.
  (* arena slots *)
  unfold Q.q_buffer_alloc. rewrite B1.
  assert (Hw1 : wrap (Q.next_available (Q.buffer_pool s0') + count) = st + count).
  { apply wrap_id. unfold ULONG_MAX, ULONG_BITS, st in *. lia. }
  rewrite Hw1.
  destruct (Z.eqb_spec count 0) as [E | _]; [lia |]. cbn [orb].
  destruct (Z.gtb_spec (st + count) (Q.total_buffers (Q.buffer_pool s0'))) as [Hgt | _];
    [lia |].
  cbv beta iota zeta. cbn [Q.qs Q.sms].
  fold st.
  unfold Q.Q_MAX_BUFFERS, Q.MAX_BUF.
  destruct (Z.geb_spec st 2048) as [Hge | _]; [lia |].
  assert (Hw2 : wrap (wrap (st + count) - 1) = st + count - 1).
  { rewrite (wrap_id (st + count)) by (unfold ULONG_MAX, ULONG_BITS; lia).
    apply wrap_id. unfold ULONG_MAX, ULONG_BITS. lia. }
  rewrite Hw2.
  assert (Hw3 : wrap (Q.buffers_allocated (Q.buffer_pool s0') + count)
                = Q.buffers_allocated (Q.buffer_pool s0') + count).
  { apply wrap_id. unfold ULONG_MAX, ULONG_BITS. lia. }
  cbn [Q.buffers_allocated Q.bp_next_available]. rewrite Hw3.
  match goal with
  | |- context [Q.with_qs (Q.upd qcb ?f) (Q.mkWorld ?sb sm)] =>
      set (s2 := sb); set (init := f)
  end.
  unfold Q.with_qs. cbn [Q.qs Q.sms].
  set (s3 := Q.upd qcb init s2).
  assert (L2 : (qcb < length (Q.queues (Q.queue_pool s2)))%nat).
  { change (Q.queue_pool s2) with (Q.queue_pool s1). now rewrite L1. }
  assert (G3 : Q.get qcb s3 = init (Q.get qcb s1)).
  { unfold s3. rewrite q_get_upd_same by exact L2. reflexivity. }
  assert (L3 : (qcb < length (Q.queues (Q.queue_pool s3)))%nat).
  { unfold s3, Q.upd. cbn. now rewrite length_insert. }
  (* the semaphore of the queue *)
  unfold Q.q_sync_create. cbn [Q.qs Q.sms].
  assert (V3 : Q.Q_IS_VALID_QCB (Q.get qcb s3) = true).
  { rewrite G3, G1. reflexivity. }
  rewrite V3. cbn [negb]. unfold Q.with_qs. cbn [Q.qs Q.sms].
  set (s4 := Q.upd qcb _ s3).
  destruct (sm_create_for_queue_ok os (Some (Q.semname (Q.get qcb s4)))
              (Q.semid (Q.get qcb s4)) sm Hmal Hsync Hsm) as (smid & sm' & Hsmc).
  rewrite Hsmc. cbn [Z.eqb negb Q.qs Q.sms].
  set (s5 := Q.upd qcb _ s4).
  assert (L4 : (qcb < length (Q.queues (Q.queue_pool s4)))%nat).
  { unfold s4, Q.upd. cbn. now rewrite length_insert. }
  assert (L5 : (qcb < length (Q.queues (Q.queue_pool s5)))%nat).
  { unfold s5, Q.upd. cbn. now rewrite length_insert. }
  assert (G5 : Q.get qcb s5
               = Q.set_semid (default (Q.semid (Q.get qcb s4)) (Some smid))
                   (Q.set_semname (Q.sem_name_of (Q.queue_id (Q.get qcb s3))) (Q.get qcb s3))).
  { unfold s5. rewrite q_get_upd_same by exact L4.
    unfold s4. rewrite q_get_upd_same by exact L3. reflexivity. }
  change (Q.hw_ops s5) with (Q.hw_ops s1). rewrite H1, Hhw.
  unfold Q.q_hw_generic_create_queue.
  assert (V5 : Q.Q_IS_VALID_QCB (Q.get qcb s5) = true).
  { rewrite G5, G3, G1. reflexivity. }
  rewrite V5. cbn [negb Z.eqb Q.qs Q.sms].
  match goal with
  | |- context [(0, Some (Q.queue_id (Q.get qcb ?sf)), _)] => set (s6 := sf)
  end.
  assert (G6 : Q.get qcb s6 = Q.get qcb s5) by reflexivity.
  exists qid, qcb. eexists. split.
  { rewrite G6, G5, G3, G1. reflexivity. }
  cbn [Q.qs].
  match goal with
  | |- q_ring (Q.mkWorld ?sf _) _ _ _ _ _ _ /\ _ => set (s7 := sf)
  end.
  assert (G7 : Q.get qcb s7 = Q.get qcb s5) by reflexivity.
  split; [| split; [repeat split; reflexivity |]].
  2: { rewrite G7, G5, G3, G1. repeat split; try reflexivity.
       change (Q.active_list (Q.queue_pool s7)) with (Q.active_list (Q.queue_pool s1)).
       exact A1. }
  unfold q_ring. cbn [Q.qs].
  assert (Hqid : Q.Q_IS_VALID_ID qid = true).
  { unfold Q.Q_IS_VALID_ID, Q.Q_INVALID_ID.
    destruct (Z.eqb_spec qid 0) as [E | _]; [lia | reflexivity]. }
  repeat split.
  - change (Q.initialized s7) with (Q.initialized s1). now rewrite I1.
  - change (Q.hw_ops s7) with (Q.hw_ops s1). now rewrite H1.
  - unfold Q.q_pool_find. rewrite Hqid. cbn [negb].
    change (Q.active_list (Q.queue_pool s7)) with (Q.active_list (Q.queue_pool s1)).
    rewrite A1. cbn [List.find]. rewrite G7, G5, G3, G1. cbn.
    now rewrite Z.eqb_refl.
  - exact L5.
  - rewrite G7, G5, G3, G1. reflexivity.
  - rewrite G7, G5, G3, G1. reflexivity.
  - rewrite G7, G5, G3, G1. reflexivity.
  - exact Hna.
  - lia.
  - change (Q.total_buffers (Q.buffer_pool s7)) with (Q.total_buffers (Q.buffer_pool s0')).
    lia.
  - change (Q.total_buffers (Q.buffer_pool s7)) with (Q.total_buffers (Q.buffer_pool s0')).
    unfold Q.Q_MAX_BUFFERS, Q.MAX_BUF. lia.
  - change (Q.total_buffers (Q.buffer_pool s7)) with (Q.total_buffers (Q.buffer_pool s0')).
    change (Q.buffers (Q.buffer_pool s7)) with (Q.buffers (Q.buffer_pool s0')).
    exact Hbl.
Qed.

Lemma q_create_ok os name count flags x w :
  q_can_create os count flags w ->
  let s0 := snd (Q.q_init_once os (Q.qs w)) in
  let st := Q.next_available (Q.buffer_pool s0) in
  exists qid qcb w1,
    Q.q_create os name count flags (Some x) w = (0, Some qid, w1) /\
    q_ring w1 qid qcb st count st st /\
    Q.total_buffers (Q.buffer_pool (Q.qs w1)) = Q.total_buffers (Q.buffer_pool s0) /\
    Q.next_available (Q.buffer_pool (Q.qs w1)) = st + count /\
    Q.buffers_allocated (Q.buffer_pool (Q.qs w1))
    = Q.buffers_allocated (Q.buffer_pool s0) + count /\
    Q.buffers (Q.buffer_pool (Q.qs w1)) = Q.buffers (Q.buffer_pool s0).
Proof.
  intros Hcan. cbv zeta.
  destruct (q_create_ok_full os name count flags x w Hcan)
    as (qid & qcb & w1 & Hcr & Hring & (Ht & Hn & Hb & Hbu) & _).
  exists qid, qcb, w1.
  split; [exact Hcr |]. split; [exact Hring |]. repeat split; assumption.
Qed.

End QRing.

(** The queue of the examples is queue 1, in control block 0, over the
    arena slots 0 to 3, and empty. *)
Lemma q_ring_w_created : q_ring w_created 1 0%nat 0 4 0 0.
Proof.
  unfold q_ring. vm_compute. repeat split; try discriminate; try reflexivity.
  all: try (intros Hc; discriminate Hc).
  all: lia.
Qed.

(** The kernel as it boots lets a queue of capacity 4 be created. *)
Lemma q_can_create_boot : @q_can_create example_codes os_ok 4 0 Q.boot.
Proof.
  unfold q_can_create. vm_compute.
  repeat split; try reflexivity; try discriminate; try lia.
  - eexists. eexists. split; [reflexivity | lia].
Qed.

(** ** Queues: broadcast *)

Section QBroadcast.
Context `{ErrCodes}.

(** C3, as the code has it: [q_broadcast] on the host build stores the
    message in the ring of the queue exactly like [q_send], whether or
    not a task is waiting; the count it reports is 1 when the hardware
    layer has a wait in progress and 0 otherwise.  With no waiter the
    message is therefore kept for the next [q_receive], and the count
    is 0. *)
Theorem q_broadcast_enqueues_message os w qid qcb st c nin nout m x :
  q_ring w qid qcb st c nin nout ->
  Q.Q_BUFFER_FULL (Q.get qcb (Q.qs w)) = false ->
  st <= nin <= st + c - 1 ->
  exists w',
    Q.q_broadcast os qid (Some m) (Some x) w
    = (0, Some (if Q.hw_active_waits (Q.qs w) >? 0 then 1 else 0), w') /\
    q_ring w' qid qcb st c (advance st (st + c - 1) nin) nout /\
    q_slot w' nin = Some m /\
    Q.current_messages (Q.get qcb (Q.qs w'))
    = incr (Q.current_messages (Q.get qcb (Q.qs w))).
Proof.
  destruct w as [s sm]. cbn [Q.qs]. intros Hring Hfull Hnin.
  pose proof (q_ring_valid _ _ _ _ _ _ _ _ Hring) as Hvalid.
  pose proof Hring as (R1 & R2 & R3 & R4 & R5 & R6 & R7 & R8 & R9 & R10 & R11 & R12).
  cbn [Q.qs] in *.
  destruct (q_message_enqueue_ok qcb m (Q.q_disable_interrupts s) st (st + c - 1) nin nout)
    as (s1 & He & F1 & Hb1 & Hbu1 & Hcm1); try assumption.
  { change (Q.total_buffers (Q.buffer_pool (Q.q_disable_interrupts s)))
      with (Q.total_buffers (Q.buffer_pool s)). lia. }
  unfold Q.q_broadcast, Q.with_qs. cbn [Q.qs Q.sms].
  assert (Hinit : Q.q_init_once os s = (0, s)).
  { unfold Q.q_init_once. destruct (truthy (Q.initialized s)) eqn:E; [reflexivity |].
    unfold truthy in E. apply negb_false_iff, Z.eqb_eq in E. contradiction. }
  rewrite Hinit. cbn [Z.eqb negb Q.qs Q.sms].
  rewrite R3.
  change (Q.hw_ops (Q.q_disable_interrupts s)) with (Q.hw_ops s). rewrite R2.
  unfold Q.q_hw_generic_broadcast_message.
  change (Q.get qcb (Q.q_disable_interrupts s)) with (Q.get qcb s). rewrite Hvalid.
  cbn [negb]. rewrite He. cbn [Z.eqb Q.qs Q.sms default].
  assert (Hw : Q.hw_active_waits s1 = Q.hw_active_waits s).
  { destruct F1 as (_ & _ & -> & _). reflexivity. }
  rewrite Hw.
  eexists. split; [reflexivity |]. cbn [Q.qs].
  match goal with
  | |- q_ring (Q.mkWorld ?s2 _) _ _ _ _ _ _ /\ _ =>
      assert (K : q_keeps s1 s2)
  end.
  { eapply q_keeps_trans; [| apply q_keeps_enable].
    eapply q_keeps_trans; [| apply q_keeps_statistics].
    apply q_keeps_pools; reflexivity. }
  destruct K as (F2 & G2 & B2). split; [| split].
  - eapply q_ring_frame; [exact Hring | |].
    + eapply q_frame_trans; [apply q_frame_disable |].
      eapply q_frame_trans; eassumption.
    + destruct (G2 qcb) as [-> _]. exact Hb1.
  - unfold q_slot. cbn [Q.qs]. rewrite B2, Hbu1.
    apply list_lookup_insert_eq.
    change (Q.buffers (Q.buffer_pool (Q.q_disable_interrupts s)))
      with (Q.buffers (Q.buffer_pool s)). lia.
  - destruct (G2 qcb) as [_ ->]. exact Hcm1.
Qed.

End QBroadcast.

Lemma q_broadcast_enqueues_message_witness :
  exists w',
    @Q.q_broadcast example_codes os_ok 1 (Some (7, 7, 7, 7)) (Some 9) w_created
    = (0, Some 0, w') /\
    q_slot w' 0 = Some (7, 7, 7, 7).
Proof.
  assert (Hfull : Q.Q_BUFFER_FULL (Q.get 0%nat (Q.qs w_created)) = false)
    by (vm_compute; reflexivity).
  assert (Hnin : 0 <= 0 <= 0 + 4 - 1) by lia.
  destruct (@q_broadcast_enqueues_message example_codes os_ok w_created 1 0%nat 0 4 0 0
              (7, 7, 7, 7) 9 q_ring_w_created Hfull Hnin)
    as (w' & Hb & _ & Hs & _).
  exists w'. split; [exact Hb | exact Hs].
Defined.

(** C3, the claim as written fails: with no task waiting on the queue,
    the broadcast returns 0 with count 0 and the message is in the ring,
    where the next [q_receive] finds it. *)
Lemma q_broadcast_without_waiters_keeps_message :
  let m := (7, 7, 7, 7) in
  Q.hw_active_waits (Q.qs w_created) = 0 /\
  exists w2 w3,
    @Q.q_broadcast example_codes os_ok 1 (Some m) (Some 9) w_created = (0, Some 0, w2) /\
    Q.buf (Q.get 0%nat (Q.qs w2)) <> Q.buf (Q.get 0%nat (Q.qs w_created)) /\
    Q.current_messages (Q.get 0%nat (Q.qs w2)) = 1 /\
    @Q.q_receive example_codes os_ok [] 1 Q.Q_NOWAIT 0 (Some (0, 0, 0, 0)) w2
    = Returns (0, Some m, w3).
Proof.
  cbv zeta. split; [vm_compute; reflexivity |].
  eexists. eexists. split; [vm_compute; reflexivity |].
  split; [vm_compute; discriminate |]. split; vm_compute; reflexivity.
Qed.

(** ** Queues: how many sends a queue takes *)

Section QCapacity.
Context `{ErrCodes}.

(** [Q_BUFFER_FULL] on a ring inside the arena. *)
Lemma q_ring_full w qid qcb st c nin nout :
  q_ring w qid qcb st c nin nout ->
  st <= nin <= st + c - 1 ->
  Q.Q_BUFFER_FULL (Q.get qcb (Q.qs w))
  = (nin + 1 =? nout) || ((nin =? st + c - 1) && (nout =? st)).
Proof.
  intros (R1 & R2 & R3 & R4 & R5 & R6 & R7 & R8 & R9 & R10 & R11 & R12) Hnin.
  unfold Q.Q_BUFFER_FULL. rewrite R7. cbn [Q.nextin Q.nextout Q.start Q.end_].
  rewrite wrap_id; [reflexivity |].
  unfold Q.Q_MAX_BUFFERS, Q.MAX_BUF in R11. unfold ULONG_MAX, ULONG_BITS. lia.
Qed.

Lemma q_slot_insert_ne w w' i j m :
  Q.buffers (Q.buffer_pool (Q.qs w'))
  = <[Z.to_nat j := m]> (Q.buffers (Q.buffer_pool (Q.qs w))) ->
  0 <= i -> 0 <= j -> i <> j ->
  q_slot w' i = q_slot w i.
Proof.
  intros Hb Hi Hj Hne. unfold q_slot. rewrite Hb.
  apply list_lookup_insert_ne. lia.
Qed.

(** Sends into a ring whose output position is its first slot: they all
    succeed as long as one slot stays unused, and they leave the first
    slot alone when the ring already holds a message. *)
Lemma q_send_all_ok os qid qcb st c ms :
  forall w k,
    q_ring w qid qcb st c (st + k) st ->
    0 <= k -> k + Z.of_nat (length ms) <= c - 1 ->
    exists w',
      q_send_all os qid ms w = (replicate (length ms) 0, w') /\
      q_ring w' qid qcb st c (st + k + Z.of_nat (length ms)) st /\
      (1 <= k -> q_slot w' st = q_slot w st).
Proof.
  induction ms as [| m ms IH]; intros w k Hring Hk Hlen.
  - exists w. cbn [q_send_all length replicate]. rewrite Z.add_0_r. auto.
  - cbn [length] in Hlen. rewrite Nat2Z.inj_succ in Hlen.
    pose proof Hring as (_ & _ & _ & _ & _ & _ & _ & R8 & _ & R10 & R11 & _).
    unfold Q.Q_MAX_BUFFERS, Q.MAX_BUF in R11.
    assert (Hnf : Q.Q_BUFFER_FULL (Q.get qcb (Q.qs w)) = false).
    { rewrite (q_ring_full _ _ _ _ _ _ _ Hring) by lia.
      apply orb_false_iff. split; [apply Z.eqb_neq; lia |].
      apply andb_false_iff. left. apply Z.eqb_neq. lia. }
    destruct (q_send_ok os w qid qcb st c (st + k) st m Hring Hnf) as (w1 & Hs & Hr1 & Hb1);
      [lia |].
    assert (Hadv : advance st (st + c - 1) (st + k) = st + (k + 1)).
    { unfold advance. destruct (Z.eqb_spec (st + k) (st + c - 1)) as [E | _]; [lia |].
      rewrite wrap_id; [lia | unfold ULONG_MAX, ULONG_BITS; lia]. }
    rewrite Hadv in Hr1.
    destruct (IH w1 (k + 1) Hr1) as (w2 & Hs2 & Hr2 & Hsl2); [lia | lia |].
    exists w2. cbn [q_send_all length replicate]. rewrite Hs, Hs2. split; [reflexivity |].
    split.
    + rewrite Nat2Z.inj_succ.
      replace (st + k + Z.succ (Z.of_nat (length ms)))
        with (st + (k + 1) + Z.of_nat (length ms)) by lia.
      exact Hr2.
    + intros Hk1. rewrite Hsl2 by lia.
      eapply q_slot_insert_ne; [exact Hb1 | lia | lia | lia].
Qed.

(** C6, as the code has it: a queue created with capacity [c] takes
    [c - 1] consecutive sends, since [Q_BUFFER_FULL] keeps one slot of
    the ring unused.  Sends 1 to [c - 1] return 0 and send [c] returns
    [ERR_QFULL]; one [q_receive] then returns the oldest message, and a
    retried send succeeds. *)
Theorem q_send_fills_capacity_minus_one os name c flags x w ms m during rflags rtimeout y :
  q_can_create os c flags w ->
  Z.of_nat (length ms) = c - 1 ->
  exists qid w1 w2 w3 w4 w5 oldest,
    Q.q_create os name c flags (Some x) w = (0, Some qid, w1) /\
    q_send_all os qid ms w1 = (replicate (length ms) 0, w2) /\
    Q.q_send os qid (Some m) w2 = (ERR_QFULL, w3) /\
    head ms = Some oldest /\
    Q.q_receive os during qid rflags rtimeout (Some y) w3 = Returns (0, Some oldest, w4) /\
    Q.q_send os qid (Some m) w4 = (0, w5).
Proof.
  intros Hcan Hlen.
  assert (Hc : 4 <= c <= 1024).
  { destruct Hcan as (Hv & _). unfold Q.Q_IS_VALID_COUNT, Q.Q_MIN_COUNT, Q.Q_MAX_COUNT in Hv.
    apply andb_true_iff in Hv. destruct Hv as [H1 H2]. apply Z.leb_le in H1, H2. lia. }
  destruct (q_create_ok os name c flags x w Hcan) as (qid & qcb & w1 & Hcr & Hr1 & _).
  set (st := Q.next_available _) in Hr1.
  pose proof Hr1 as (_ & _ & _ & _ & _ & _ & _ & R8 & _ & R10 & R11 & R12).
  unfold Q.Q_MAX_BUFFERS, Q.MAX_BUF in R11.
  destruct ms as [| m0 ms]; [cbn in Hlen; lia |].
  cbn [length] in Hlen. rewrite Nat2Z.inj_succ in Hlen.
  (* the first send *)
  assert (Hnf1 : Q.Q_BUFFER_FULL (Q.get qcb (Q.qs w1)) = false).
  { rewrite (q_ring_full _ _ _ _ _ _ _ Hr1) by lia.
    apply orb_false_iff. split; [apply Z.eqb_neq; lia |].
    apply andb_false_iff. left. apply Z.eqb_neq. lia. }
  destruct (q_send_ok os w1 qid qcb st c st st m0 Hr1 Hnf1) as (wa & Hsa & Hra & Hba); [lia |].
  assert (Hadv : advance st (st + c - 1) st = st + 1).
  { unfold advance. destruct (Z.eqb_spec st (st + c - 1)) as [E | _]; [lia |].
    apply wrap_id. unfold ULONG_MAX, ULONG_BITS. lia. }
  rewrite Hadv in Hra.
  assert (Hslot_a : q_slot wa st = Some m0).
  { unfold q_slot. rewrite Hba. apply list_lookup_insert_eq. lia. }
  (* the other sends *)
  destruct (q_send_all_ok os qid qcb st c ms wa 1 Hra) as (w2 & Hs2 & Hr2 & Hsl2); [lia | lia |].
  replace (st + 1 + Z.of_nat (length ms)) with (st + c - 1) in Hr2 by lia.
  (* the send that finds the ring full *)
  assert (Hfull : Q.Q_BUFFER_FULL (Q.get qcb (Q.qs w2)) = true).
  { rewrite (q_ring_full _ _ _ _ _ _ _ Hr2) by lia.
    apply orb_true_iff. right. now rewrite !Z.eqb_refl. }
  destruct (q_send_full os w2 qid qcb st c (st + c - 1) st m Hr2 Hfull) as (w3 & Hs3 & Hr3 & Hb3).
  (* the receive *)
  destruct (q_receive_ok os during w3 qid qcb st c (st + c - 1) st rflags rtimeout y Hr3)
    as (w4 & Hrc & Hr4 & _); [lia | lia |].
  assert (Hslot3 : q_slot w3 st = Some m0).
  { unfold q_slot. rewrite Hb3. fold (q_slot w2 st). rewrite Hsl2 by lia. exact Hslot_a. }
  rewrite Hslot3 in Hrc. cbn [default] in Hrc. rewrite Hadv in Hr4.
  (* the retried send *)
  assert (Hnf4 : Q.Q_BUFFER_FULL (Q.get qcb (Q.qs w4)) = false).
  { rewrite (q_ring_full _ _ _ _ _ _ _ Hr4) by lia.
    apply orb_false_iff. split; [apply Z.eqb_neq; lia |].
    apply andb_false_iff. right. apply Z.eqb_neq. lia. }
  destruct (q_send_ok os w4 qid qcb st c (st + c - 1) (st + 1) m Hr4 Hnf4) as (w5 & Hs5 & _);
    [lia |].
  exists qid, w1, w2, w3, w4, w5, m0.
  split; [exact Hcr |]. split.
  { cbn [q_send_all length replicate]. rewrite Hsa, Hs2. reflexivity. }
  split; [exact Hs3 |]. split; [reflexivity |]. split; [exact Hrc | exact Hs5].
Qed.

End QCapacity.

Lemma q_send_fills_capacity_minus_one_witness :
  exists qid w1 w2 w3 w4 w5 oldest,
    @Q.q_create example_codes os_ok None 4 0 (Some 0) Q.boot = (0, Some qid, w1) /\
    @q_send_all example_codes os_ok qid [(1, 1, 1, 1); (2, 2, 2, 2); (3, 3, 3, 3)] w1
    = (replicate 3 0, w2) /\
    @Q.q_send example_codes os_ok qid (Some (4, 4, 4, 4)) w2 = (ERR_QFULL, w3) /\
    head [(1, 1, 1, 1); (2, 2, 2, 2); (3, 3, 3, 3)] = Some oldest /\
    @Q.q_receive example_codes os_ok [] qid Q.Q_NOWAIT 0 (Some (0, 0, 0, 0)) w3
    = Returns (0, Some oldest, w4) /\
    @Q.q_send example_codes os_ok qid (Some (4, 4, 4, 4)) w4 = (0, w5).
Proof.
  assert (Hlen : Z.of_nat (length [(1, 1, 1, 1); (2, 2, 2, 2); (3, 3, 3, 3)]) = 4 - 1)
    by reflexivity.
  exact (@q_send_fills_capacity_minus_one example_codes os_ok None 4 0 0 Q.boot
           [(1, 1, 1, 1); (2, 2, 2, 2); (3, 3, 3, 3)] (4, 4, 4, 4) [] Q.Q_NOWAIT 0
           (0, 0, 0, 0) q_can_create_boot Hlen).
Defined.

(** C6, the claim as written fails: on a queue created with capacity 4
    the fourth consecutive send already returns [ERR_QFULL]. *)
Lemma q_send_number_c_returns_qfull :
  fst (@q_send_all example_codes os_ok 1
         [(1, 1, 1, 1); (2, 2, 2, 2); (3, 3, 3, 3); (4, 4, 4, 4)] w_created)
  = [0; 0; 0; ERR_QFULL].
Proof. vm_compute. reflexivity. Qed.

(** ** Queues: the arena across create and delete *)

Section QArena.
Context `{ErrCodes}.

(** [q_sync_delete] and the hardware hook leave the arena alone. *)
Lemma q_sync_delete_qs qcb w : Q.qs (snd (Q.q_sync_delete qcb w)) = Q.qs w.
Proof.
  unfold Q.q_sync_delete. destruct (_ || _); [reflexivity |].
  destruct (Sm.sm_delete _ _). reflexivity.
Qed.

Lemma q_hw_generic_delete_queue_arena qcb s :
  Q.buffer_pool (snd (Q.q_hw_generic_delete_queue qcb s)) = Q.buffer_pool s.
Proof. unfold Q.q_hw_generic_delete_queue. destruct (negb _); reflexivity. Qed.

(** [q_pool_free] gives the slots of the queue back to the counter
    [buffers_allocated] only. *)
Lemma q_pool_free_arena qcb w st en nin nout :
  Q.Q_IS_VALID_QCB (Q.get qcb (Q.qs w)) = true ->
  Q.buf (Q.get qcb (Q.qs w)) = Q.mkBuf st en nin nout ->
  st <> en ->
  st < Q.total_buffers (Q.buffer_pool (Q.qs w)) ->
  Q.count (Q.get qcb (Q.qs w)) <> 0 ->
  Q.buffer_pool (Q.qs (snd (Q.q_pool_free qcb w)))
  = Q.bp_buffers_allocated
      (wrap (Q.buffers_allocated (Q.buffer_pool (Q.qs w)) - Q.count (Q.get qcb (Q.qs w))))
      (Q.buffer_pool (Q.qs w)).
Proof.
  destruct w as [s sm]. cbn [Q.qs]. intros Hvalid Hbuf Hne Hst Hc.
  unfold Q.q_pool_free. cbn [Q.qs]. rewrite Hvalid. cbn [negb].
  unfold Q.with_qs. cbn [Q.qs Q.sms snd].
  set (s1 := Q.st_set_queue_pool _ s).
  assert (G : Q.get qcb s1 = Q.get qcb s) by reflexivity.
  rewrite !G, Hbuf. cbn [Q.start Q.end_].
  destruct (Z.eqb_spec st en) as [E | _]; [contradiction |]. cbn [negb].
  match goal with
  | |- Q.buffer_pool (Q.st_set_queue_pool _ (Q.upd _ _ ?X)) = ?r =>
      change (Q.buffer_pool X = r)
  end.
  assert (Hfree : Q.buffer_pool (snd (Q.q_buffer_free st (Q.count (Q.get qcb s)) s1))
                  = Q.bp_buffers_allocated
                      (wrap (Q.buffers_allocated (Q.buffer_pool s) - Q.count (Q.get qcb s)))
                      (Q.buffer_pool s)).
  { unfold Q.q_buffer_free.
    change (Q.buffer_pool s1) with (Q.buffer_pool s).
    destruct (Z.geb_spec st (Q.total_buffers (Q.buffer_pool s))) as [Hge | _]; [lia |].
    destruct (Z.eqb_spec (Q.count (Q.get qcb s)) 0) as [E | _]; [contradiction |].
    reflexivity. }
  match goal with
  | |- context [match Q.hw_ops ?X with _ => _ end] => destruct (Q.hw_ops X) as [[] |]
  end.
  - cbn [Q.qs]. rewrite q_hw_generic_delete_queue_arena, q_sync_delete_qs. exact Hfree.
  - rewrite q_sync_delete_qs. exact Hfree.
Qed.

(** [q_delete] of an active queue: the arena keeps its bump pointer;
    only the counter [buffers_allocated] goes down. *)
Lemma q_delete_ok os w qid qcb st c nin nout :
  q_ring w qid qcb st c nin nout ->
  2 <= c ->
  exists w',
    Q.q_delete os qid w = (0, w') /\
    Q.buffer_pool (Q.qs w')
    = Q.bp_buffers_allocated (wrap (Q.buffers_allocated (Q.buffer_pool (Q.qs w)) - c))
                             (Q.buffer_pool (Q.qs w)).
Proof.
  destruct w as [s sm]. cbn [Q.qs]. intros Hring Hc.
  pose proof (q_ring_valid _ _ _ _ _ _ _ _ Hring) as Hvalid.
  pose proof Hring as (R1 & R2 & R3 & R4 & R5 & R6 & R7 & R8 & R9 & R10 & R11 & R12).
  cbn [Q.qs] in *.
  unfold Q.q_delete, Q.with_qs. cbn [Q.qs Q.sms].
  rewrite q_init_once_initialized by exact R1. cbn [snd].
  rewrite R3, R5. change (negb (Q.Q_STATE_ACTIVE =? Q.Q_STATE_ACTIVE)) with false. cbv iota.
  eexists. split; [reflexivity |]. cbn [Q.qs].
  set (s1 := Q.upd qcb _ (Q.q_disable_interrupts s)).
  assert (G1 : Q.get qcb s1 = Q.set_state Q.Q_STATE_DELETING (Q.get qcb s)).
  { unfold s1. rewrite q_get_upd_same by exact R4. reflexivity. }
  pose proof (q_pool_free_arena qcb (Q.mkWorld s1 sm) st (st + c - 1) nin nout) as Hpf.
  cbn [Q.qs] in Hpf. rewrite G1 in Hpf.
  change (Q.count (Q.set_state Q.Q_STATE_DELETING (Q.get qcb s))) with (Q.count (Q.get qcb s))
    in Hpf.
  rewrite R6 in Hpf.
  change (Q.buffer_pool s1) with (Q.buffer_pool s) in Hpf.
  match goal with
  | |- Q.buffer_pool ?X = _ =>
      transitivity (Q.buffer_pool (Q.qs (snd (Q.q_pool_free qcb (Q.mkWorld s1 sm)))))
  end.
  - unfold Q.q_enable_interrupts. destruct (_ >? _); reflexivity.
  - apply Hpf; [exact Hvalid | exact R7 | lia | lia | lia].
Qed.


(** C8, as the code has it: [q_create] with capacity [c] takes [c]
    slots off the arena and [q_delete] does not return them.  The
    deletion only restores the counter [buffers_allocated]; the number
    of slots that [q_create] finds available stays [c] lower than it
    was before the create. *)
Theorem q_create_delete_keeps_slots os name c flags x w :
  q_can_create os c flags w ->
  exists qid w1 w2,
    Q.q_create os name c flags (Some x) w = (0, Some qid, w1) /\
    Q.q_delete os qid w1 = (0, w2) /\
    Q.q_buffer_available (Q.qs w1)
    = Q.q_buffer_available (snd (Q.q_init_once os (Q.qs w))) - c /\
    Q.q_buffer_available (Q.qs w2)
    = Q.q_buffer_available (snd (Q.q_init_once os (Q.qs w))) - c /\
    Q.buffers_allocated (Q.buffer_pool (Q.qs w2))
    = Q.buffers_allocated (Q.buffer_pool (snd (Q.q_init_once os (Q.qs w)))).
Proof.
  intros Hcan.
  assert (Hc : 4 <= c <= 1024).
  { destruct Hcan as (Hv & _). unfold Q.Q_IS_VALID_COUNT, Q.Q_MIN_COUNT, Q.Q_MAX_COUNT in Hv.
    apply andb_true_iff in Hv. destruct Hv as [H1 H2]. apply Z.leb_le in H1, H2. lia. }
  destruct (q_create_ok os name c flags x w Hcan)
    as (qid & qcb & w1 & Hcr & Hr1 & Htot & Hnext & Hba & _).
  destruct Hcan as (_ & _ & _ & _ & _ & Hna & Hba0 & Hba1 & Hroom & Hmax & _).
  set (s0 := snd (Q.q_init_once os (Q.qs w))) in *.
  unfold Q.Q_MAX_BUFFERS, Q.MAX_BUF in Hmax.
  destruct (q_delete_ok os w1 qid qcb _ c _ _ Hr1) as (w2 & Hdel & Hpool); [lia |].
  exists qid, w1, w2. split; [exact Hcr |]. split; [exact Hdel |].
  assert (Hav0 : Q.q_buffer_available s0
                 = Q.total_buffers (Q.buffer_pool s0) - Q.next_available (Q.buffer_pool s0)).
  { unfold Q.q_buffer_available. apply wrap_id. unfold ULONG_MAX, ULONG_BITS. lia. }
  assert (Hav1 : Q.q_buffer_available (Q.qs w1) = Q.q_buffer_available s0 - c).
  { rewrite Hav0. unfold Q.q_buffer_available. rewrite Htot, Hnext.
    rewrite wrap_id; [lia | unfold ULONG_MAX, ULONG_BITS; lia]. }
  split; [exact Hav1 |]. split.
  - rewrite <- Hav1. unfold Q.q_buffer_available. rewrite Hpool. reflexivity.
  - rewrite Hpool. cbn [Q.buffers_allocated Q.bp_buffers_allocated]. rewrite Hba.
    replace (Q.buffers_allocated (Q.buffer_pool s0) + c - c)
      with (Q.buffers_allocated (Q.buffer_pool s0)) by lia.
    apply wrap_id. lia.
Qed.

End QArena.

Lemma q_create_delete_keeps_slots_witness :
  exists qid w1 w2,
    @Q.q_create example_codes os_ok None 4 0 (Some 0) Q.boot = (0, Some qid, w1) /\
    @Q.q_delete example_codes os_ok qid w1 = (0, w2) /\
    Q.q_buffer_available (Q.qs w1)
    = Q.q_buffer_available (snd (@Q.q_init_once example_codes os_ok (Q.qs Q.boot))) - 4 /\
    Q.q_buffer_available (Q.qs w2)
    = Q.q_buffer_available (snd (@Q.q_init_once example_codes os_ok (Q.qs Q.boot))) - 4 /\
    Q.buffers_allocated (Q.buffer_pool (Q.qs w2))
    = Q.buffers_allocated
        (Q.buffer_pool (snd (@Q.q_init_once example_codes os_ok (Q.qs Q.boot)))).
Proof.
  exact (@q_create_delete_keeps_slots example_codes os_ok None 4 0 0 Q.boot q_can_create_boot).
Defined.

(** C8, the claim as written fails: after a create and a delete of a
    queue of capacity 1024 on the fresh kernel, 1024 of the 2048 slots
    are available, and after a second such cycle a [q_create] with
    capacity 4 is refused with [ERR_NOMGB] although no queue exists. *)
Lemma q_create_delete_exhausts_arena :
  exists q1 w1 w2 q2 w3 w4 w5,
    Q.q_buffer_available (snd (@Q.q_init_once example_codes os_ok (Q.qs Q.boot))) = 2048 /\
    @Q.q_create example_codes os_ok None 1024 0 (Some 0) Q.boot = (0, Some q1, w1) /\
    @Q.q_delete example_codes os_ok q1 w1 = (0, w2) /\
    Q.q_buffer_available (Q.qs w2) = 1024 /\
    @Q.q_create example_codes os_ok None 1024 0 (Some 0) w2 = (0, Some q2, w3) /\
    @Q.q_delete example_codes os_ok q2 w3 = (0, w4) /\
    Q.active_list (Q.queue_pool (Q.qs w4)) = [] /\
    @Q.q_create example_codes os_ok None 4 0 (Some 0) w4 = (ERR_NOMGB, Some 0, w5).
Proof.
  do 7 eexists.
  split; [vm_compute; reflexivity |].
  split; [vm_compute; reflexivity |].
  split; [vm_compute; reflexivity |].
  split; [vm_compute; reflexivity |].
  split; [vm_compute; reflexivity |].
  split; [vm_compute; reflexivity |].
  split; vm_compute; reflexivity.
Qed.

(** ** Blocking calls with timeout 0 *)

Section TimeoutZero.
Context `{ErrCodes}.

(** C7 (defect of the code): the three blocking calls, made with their
    WAIT flag and timeout 0 on an object that is not available while no
    other task signals it, return [ERR_TIMEOUT] (0x01) instead of
    waiting: a semaphore created with count 0, the empty queue of a
    fresh [q_create], and an event of which nothing is pending.  The
    calls wait without end only for the timeout 0xFFFFFFFF. *)
Theorem blocking_calls_with_timeout_zero_time_out :
  let s := snd (Sm.sm_create os_ok None 0 Sm.SM_FIFO (Some 0) Sm.sm_boot) in
  let w := snd (Q.q_create os_ok None 4 0 (Some 0) Q.boot) in
  (exists s', Sm.sm_p os_ok [] 1 Sm.SM_WAIT 0 s = Returns (ERR_TIMEOUT, s')) /\
  (exists w', Q.q_receive os_ok [] 1 Q.Q_WAIT 0 (Some (0, 0, 0, 0)) w
              = Returns (ERR_TIMEOUT, Some (0, 0, 0, 0), w')) /\
  (exists e', Ev.ev_receive os_ok [] 0x1 Ev.EV_WAIT 0 (Some 0) Ev.ev_boot
              = Returns (ERR_TIMEOUT, Some 0, e')) /\
  ERR_TIMEOUT = 0x01 /\
  Sm.sm_p os_ok [] 1 Sm.SM_WAIT 0xFFFFFFFF s = Blocked /\
  Q.q_receive os_ok [] 1 Q.Q_WAIT 0xFFFFFFFF (Some (0, 0, 0, 0)) w = Blocked /\
  Ev.ev_receive os_ok [] 0x1 Ev.EV_WAIT 0xFFFFFFFF (Some 0) Ev.ev_boot = Blocked.
Proof.
  cbv zeta.
  split; [eexists; vm_compute; reflexivity |].
  split; [eexists; vm_compute; reflexivity |].
  split; [eexists; vm_compute; reflexivity |].
  split; [reflexivity |].
  split; [vm_compute; reflexivity |].
  split; vm_compute; reflexivity.
Qed.

End TimeoutZero.

(** ** Timers: the order of the active list *)

(** *** Sorted lists of keys *)

Lemma ssorted_fmap_filter {A} (R : Z -> Z -> Prop) (f : A -> Z) (P : A -> Prop)
    `{forall x, Decision (P x)} (l : list A) :
  StronglySorted R (f <$> l) -> StronglySorted R (f <$> filter P l).
Proof.
  induction l as [| a l IH]; intros Hs; [exact Hs |].
  rewrite fmap_cons in Hs. apply StronglySorted_inv in Hs. destruct Hs as [Hl Ha].
  rewrite filter_cons. destruct (decide (P a)); [| auto].
  rewrite fmap_cons. constructor; [auto |].
  rewrite Forall_fmap in *. rewrite Forall_forall in *.
  intros x Hx. apply list_elem_of_filter in Hx. apply Ha. tauto.
Qed.

Lemma elem_of_insert_sorted s tcb l i :
  i ∈ Tm.insert_sorted s tcb l <-> i = tcb \/ i ∈ l.
Proof.
  induction l as [| c l IH]; cbn [Tm.insert_sorted].
  - rewrite list_elem_of_singleton, elem_of_nil. tauto.
  - destruct (_ <=? _).
    + rewrite !elem_of_cons, IH. tauto.
    + rewrite !elem_of_cons. tauto.
Qed.

(** The walk of [tm_list_insert] keeps a sorted chain sorted. *)
Lemma ssorted_insert_sorted s tcb l :
  StronglySorted Z.le ((fun i => Tm.expire_ticks (Tm.get i s)) <$> l) ->
  StronglySorted Z.le ((fun i => Tm.expire_ticks (Tm.get i s)) <$> Tm.insert_sorted s tcb l).
Proof.
  induction l as [| c l IH]; intros Hs; cbn [Tm.insert_sorted].
  - cbn. constructor; constructor.
  - rewrite fmap_cons in Hs. apply StronglySorted_inv in Hs. destruct Hs as [Hl Hc].
    destruct (Z.leb_spec (Tm.expire_ticks (Tm.get c s)) (Tm.expire_ticks (Tm.get tcb s)))
      as [Hle | Hgt].
    + rewrite fmap_cons. constructor; [auto |].
      rewrite Forall_fmap in *. rewrite Forall_forall in *.
      intros x Hx. apply elem_of_insert_sorted in Hx. destruct Hx as [-> | Hx]; [exact Hle |].
      now apply Hc.
    + rewrite !fmap_cons. constructor.
      * constructor; assumption.
      * constructor; [lia |].
        rewrite Forall_fmap in *. rewrite Forall_forall in *.
        intros x Hx. specialize (Hc x Hx). cbn in *. lia.
Qed.

(** *** Blocks under [upd] *)

Lemma tm_get_upd_ne i j f s : i <> j -> Tm.get i (Tm.upd j f s) = Tm.get i s.
Proof. intros Hne. unfold Tm.get, Tm.upd. cbn. now rewrite list_lookup_insert_ne. Qed.

Lemma tm_get_upd_field {B} (p : Tm.TM_TCB -> B) i j f s :
  (forall t, p (f t) = p t) -> p (Tm.get i (Tm.upd j f s)) = p (Tm.get i s).
Proof.
  intros Hp. destruct (decide (i = j)) as [-> | Hne]; [| now rewrite tm_get_upd_ne].
  unfold Tm.get, Tm.upd. cbn.
  destruct (decide (j < length (Tm.timers s))%nat) as [Hlt | Hge].
  - rewrite list_lookup_insert_eq by exact Hlt. cbn. apply Hp.
  - rewrite list_insert_ge by lia. reflexivity.
Qed.

(** *** The invariant along the internal functions *)

Lemma tm_inv_same s s' :
  Tm.timers s' = Tm.timers s -> Tm.active_list s' = Tm.active_list s ->
  Tm.free_list s' = Tm.free_list s -> tm_inv s -> tm_inv s'.
Proof.
  unfold tm_inv, Tm.expirations, Tm.get. intros -> -> ->. tauto.
Qed.

Lemma tm_inv_upd_keep j f s :
  (forall t, Tm.expire_ticks (f t) = Tm.expire_ticks t) ->
  (forall t, Tm.magic (f t) = Tm.magic t) ->
  tm_inv s -> tm_inv (Tm.upd j f s).
Proof.
  intros He Hm (I1 & I2 & I3 & I4). unfold tm_inv, Tm.expirations.
  change (Tm.active_list (Tm.upd j f s)) with (Tm.active_list s).
  change (Tm.free_list (Tm.upd j f s)) with (Tm.free_list s).
  repeat split; try assumption.
  - replace ((fun i => Tm.expire_ticks (Tm.get i (Tm.upd j f s))) <$> Tm.active_list s)
      with (Tm.expirations s); [exact I1 |].
    apply Forall_fmap_ext, Forall_forall. intros i _.
    symmetry. now apply (tm_get_upd_field Tm.expire_ticks).
  - rewrite Forall_forall in *. intros i Hi. unfold Tm.TM_IS_VALID_TCB.
    rewrite (tm_get_upd_field Tm.magic) by exact Hm. now apply I2.
Qed.

Lemma tm_inv_upd_inactive j f s :
  j ∉ Tm.active_list s -> tm_inv s -> tm_inv (Tm.upd j f s).
Proof.
  intros Hj (I1 & I2 & I3 & I4). unfold tm_inv, Tm.expirations.
  change (Tm.active_list (Tm.upd j f s)) with (Tm.active_list s).
  change (Tm.free_list (Tm.upd j f s)) with (Tm.free_list s).
  repeat split; try assumption.
  - replace ((fun i => Tm.expire_ticks (Tm.get i (Tm.upd j f s))) <$> Tm.active_list s)
      with (Tm.expirations s); [exact I1 |].
    apply Forall_fmap_ext, Forall_forall. intros i Hi.
    rewrite tm_get_upd_ne; [reflexivity |]. intros ->. contradiction.
  - rewrite Forall_forall in *. intros i Hi.
    rewrite tm_get_upd_ne; [now apply I2 |]. intros ->. contradiction.
Qed.

Lemma tm_inv_list_insert tcb s :
  tm_inv s -> tcb ∉ Tm.free_list s -> tm_inv (Tm.tm_list_insert tcb s).
Proof.
  intros (I1 & I2 & I3 & I4) Hfree. unfold Tm.tm_list_insert.
  destruct (Tm.TM_IS_VALID_TCB (Tm.get tcb s)) eqn:Hv; cbn [negb]; [| repeat split; assumption].
  unfold tm_inv, Tm.expirations. cbn [Tm.active_list Tm.st_active_list Tm.free_list].
  repeat split.
  - now apply (ssorted_insert_sorted s tcb).
  - rewrite Forall_forall in *. intros i Hi.
    apply elem_of_insert_sorted in Hi. destruct Hi as [-> | Hi]; [exact Hv | now apply I2].
  - exact I3.
  - rewrite Forall_forall in *. intros i Hi Hin.
    apply elem_of_insert_sorted in Hin. destruct Hin as [-> | Hin]; [contradiction |].
    exact (I4 i Hi Hin).
Qed.

Lemma tm_list_remove_free tcb s : Tm.free_list (Tm.tm_list_remove tcb s) = Tm.free_list s.
Proof. unfold Tm.tm_list_remove. destruct (negb _); [| destruct (bool_decide _)]; reflexivity. Qed.

Lemma tm_list_remove_timers tcb s : Tm.timers (Tm.tm_list_remove tcb s) = Tm.timers s.
Proof. unfold Tm.tm_list_remove. destruct (negb _); [| destruct (bool_decide _)]; reflexivity. Qed.

Lemma tm_list_remove_not_elem tcb s :
  Tm.TM_IS_VALID_TCB (Tm.get tcb s) = true -> tcb ∉ Tm.active_list (Tm.tm_list_remove tcb s).
Proof.
  intros Hv. unfold Tm.tm_list_remove. rewrite Hv. cbn [negb].
  destruct (bool_decide _); cbn [Tm.active_list Tm.st_active_list].
  - intros Hin. apply list_elem_of_filter in Hin. destruct Hin as [Hne _]. now apply Hne.
  - apply not_elem_of_nil.
Qed.

Lemma tm_inv_list_remove tcb s : tm_inv s -> tm_inv (Tm.tm_list_remove tcb s).
Proof.
  intros (I1 & I2 & I3 & I4). unfold Tm.tm_list_remove.
  destruct (negb _); [repeat split; assumption |].
  destruct (bool_decide _); unfold tm_inv, Tm.expirations;
    cbn [Tm.active_list Tm.st_active_list Tm.free_list].
  - repeat split.
    + now apply (ssorted_fmap_filter Z.le (fun i => Tm.expire_ticks (Tm.get i s))).
    + rewrite Forall_forall in *. intros i Hi. apply list_elem_of_filter in Hi.
      apply I2. tauto.
    + exact I3.
    + rewrite Forall_forall in *. intros i Hi Hin. apply list_elem_of_filter in Hin.
      apply (I4 i Hi). tauto.
  - repeat split; [constructor | constructor | exact I3 |].
    rewrite Forall_forall. intros i _. apply not_elem_of_nil.
Qed.

(** The chain without [tcb], whatever [tcb] holds meanwhile. *)
Lemma tm_inv_remove_after_upd tcb g s :
  (forall t, Tm.magic (g t) = Tm.magic t) ->
  tm_inv s -> tm_inv (Tm.tm_list_remove tcb (Tm.upd tcb g s)).
Proof.
  intros Hm Hinv.
  destruct (decide (tcb ∈ Tm.active_list s)) as [Hin | Hout];
    [| now apply tm_inv_list_remove, tm_inv_upd_inactive].
  destruct Hinv as (I1 & I2 & I3 & I4).
  assert (Hv : Tm.TM_IS_VALID_TCB (Tm.get tcb (Tm.upd tcb g s)) = true).
  { unfold Tm.TM_IS_VALID_TCB. rewrite (tm_get_upd_field Tm.magic) by exact Hm.
    rewrite Forall_forall in I2. now apply I2. }
  unfold Tm.tm_list_remove. rewrite Hv. cbn [negb].
  change (Tm.active_list (Tm.upd tcb g s)) with (Tm.active_list s).
  rewrite bool_decide_eq_true_2 by exact Hin.
  unfold tm_inv, Tm.expirations. cbn [Tm.active_list Tm.st_active_list Tm.free_list].
  change (Tm.free_list (Tm.upd tcb g s)) with (Tm.free_list s).
  assert (Hget : forall i, i ∈ filter (fun i => i <> tcb) (Tm.active_list s) ->
                           Tm.get i (Tm.st_active_list
                                       (filter (fun i => i <> tcb) (Tm.active_list s))
                                       (Tm.upd tcb g s))
                           = Tm.get i s).
  { intros i Hi. apply list_elem_of_filter in Hi. destruct Hi as [Hne _].
    change (Tm.get i (Tm.st_active_list ?l ?x)) with (Tm.get i x).
    now apply tm_get_upd_ne. }
  repeat split.
  - match goal with
    | |- StronglySorted _ (?h <$> ?l) =>
        replace (h <$> l) with ((fun i => Tm.expire_ticks (Tm.get i s)) <$> l)
    end.
    + now apply (ssorted_fmap_filter Z.le (fun i => Tm.expire_ticks (Tm.get i s))).
    + apply Forall_fmap_ext, Forall_forall. intros i Hi. now rewrite Hget.
  - rewrite Forall_forall in *. intros i Hi. rewrite Hget by exact Hi.
    apply list_elem_of_filter in Hi. apply I2. tauto.
  - exact I3.
  - rewrite Forall_forall in *. intros i Hi Hi'. apply list_elem_of_filter in Hi'.
    apply (I4 i Hi). tauto.
Qed.

Section TmInv.
Context `{ErrCodes}.

Lemma tm_inv_pool_free tcb s :
  tm_inv s -> tcb ∉ Tm.free_list s -> tm_inv (snd (Tm.tm_pool_free tcb s)).
Proof.
  intros Hinv Hfree. unfold Tm.tm_pool_free.
  destruct (Tm.TM_IS_VALID_TCB (Tm.get tcb s)) eqn:Hv; cbn [negb snd]; [| exact Hinv].
  pose proof (tm_inv_list_remove tcb s Hinv) as H1.
  pose proof (tm_list_remove_not_elem tcb s Hv) as Hout.
  pose proof (tm_list_remove_free tcb s) as Hfl.
  set (s1 := Tm.tm_list_remove tcb s) in *.
  pose proof (tm_inv_upd_inactive tcb (fun _ => Tm.tcb_zero) s1 Hout H1) as (J1 & J2 & J3 & J4).
  set (s2 := Tm.upd tcb _ s1) in *.
  unfold tm_inv, Tm.expirations in *.
  cbn [Tm.active_list Tm.free_list Tm.st_free_list Tm.st_free_count].
  change (Tm.free_list s2) with (Tm.free_list s1) in *.
  change (Tm.active_list s2) with (Tm.active_list s1) in *.
  rewrite Hfl in *.
  repeat split.
  - exact J1.
  - exact J2.
  - apply NoDup_cons_2; assumption.
  - apply Forall_cons_2; assumption.
Qed.

Lemma tm_inv_pool_alloc s :
  tm_inv s ->
  tm_inv (snd (Tm.tm_pool_alloc s)) /\
  forall tcb, fst (Tm.tm_pool_alloc s) = Some tcb ->
              (tcb ∉ Tm.free_list (snd (Tm.tm_pool_alloc s))) /\
              (tcb ∉ Tm.active_list (snd (Tm.tm_pool_alloc s))).
Proof.
  intros Hinv. unfold Tm.tm_pool_alloc.
  destruct (Tm.free_count s =? 0); [split; [exact Hinv | discriminate] |].
  destruct (Tm.free_list s) as [| tcb rest] eqn:Hfl; [split; [exact Hinv | discriminate] |].
  destruct Hinv as (I1 & I2 & I3 & I4). rewrite Hfl in I3, I4.
  apply NoDup_cons in I3. destruct I3 as [Hnotin Hnd].
  apply Forall_cons in I4. destruct I4 as [Hout I4].
  unfold Tm.tm_generate_id. cbv beta iota zeta. cbn [fst snd].
  match goal with
  | |- tm_inv (Tm.upd tcb ?f ?x) /\ _ => set (s1 := x); set (f0 := f)
  end.
  assert (A1 : Tm.active_list s1 = Tm.active_list s) by (unfold s1; destruct (_ =? 0); reflexivity).
  assert (F1 : Tm.free_list s1 = rest) by (unfold s1; destruct (_ =? 0); reflexivity).
  assert (T1 : Tm.timers s1 = Tm.timers s) by (unfold s1; destruct (_ =? 0); reflexivity).
  assert (Hinv1 : tm_inv s1).
  { unfold tm_inv, Tm.expirations, Tm.get. rewrite A1, F1, T1. repeat split; assumption. }
  split.
  - apply tm_inv_upd_inactive; [now rewrite A1 | exact Hinv1].
  - intros t Ht. injection Ht as <-.
    change (Tm.free_list (Tm.upd tcb f0 s1)) with (Tm.free_list s1).
    change (Tm.active_list (Tm.upd tcb f0 s1)) with (Tm.active_list s1).
    rewrite A1, F1. split; assumption.
Qed.

Lemma tm_inv_boot_pool s : tm_inv (Tm.tm_pool_init s).
Proof.
  unfold tm_inv, Tm.expirations. cbn [Tm.tm_pool_init Tm.active_list Tm.free_list].
  repeat split; [constructor | constructor | apply NoDup_seq |].
  rewrite Forall_forall. intros i _. apply not_elem_of_nil.
Qed.

Lemma tm_inv_init_once s : tm_inv s -> tm_inv (snd (Tm.tm_init_once s)).
Proof.
  intros Hinv. unfold Tm.tm_init_once. destruct (truthy _); [exact Hinv |].
  cbn [snd]. eapply tm_inv_same; [| | | apply (tm_inv_boot_pool s)]; reflexivity.
Qed.

Lemma tm_inv_process_one tcb s :
  tm_inv s -> tcb ∈ Tm.active_list s -> tm_inv (snd (Tm.tm_process_one tcb s)).
Proof.
  intros Hinv Hin.
  assert (Hfree : tcb ∉ Tm.free_list s).
  { destruct Hinv as (_ & _ & _ & I4). rewrite Forall_forall in I4.
    intros Hf. exact (I4 _ Hf Hin). }
  unfold Tm.tm_process_one, Tm.tm_fire_timer.
  destruct (negb (Tm.TM_IS_VALID_TCB (Tm.get tcb s))).
  - (* not fired *)
    destruct (_ =? Tm.TM_TYPE_PERIODIC); cbn [snd].
    + apply tm_inv_list_insert.
      * apply tm_inv_remove_after_upd; [reflexivity | exact Hinv].
      * now rewrite tm_list_remove_free.
    + now apply tm_inv_pool_free.
  - set (s1 := Tm.upd tcb (Tm.set_state Tm.TM_STATE_EXPIRED) s).
    assert (Hinv1 : tm_inv s1) by (apply tm_inv_upd_keep; [reflexivity | reflexivity | exact Hinv]).
    assert (Hfree1 : tcb ∉ Tm.free_list s1) by exact Hfree.
    assert (Hgoal : tm_inv (snd (
        if Tm.type (Tm.get tcb s1) =? Tm.TM_TYPE_PERIODIC
        then ([] : list Tm.call,
              Tm.tm_list_insert tcb
                (Tm.tm_list_remove tcb
                   (Tm.upd tcb (fun t => Tm.set_expire_ticks
                                           (wrap (Tm.expire_ticks t + Tm.period_ticks t)) t) s1)))
        else ([], snd (Tm.tm_pool_free tcb s1))))).
    { destruct (_ =? Tm.TM_TYPE_PERIODIC); cbn [snd].
      - apply tm_inv_list_insert.
        + apply tm_inv_remove_after_upd; [reflexivity | exact Hinv1].
        + now rewrite tm_list_remove_free.
      - now apply tm_inv_pool_free. }
    destruct (Tm.action (Tm.get tcb s1) =? Tm.TM_ACTION_EVENT);
      [| destruct (Tm.action (Tm.get tcb s1) =? Tm.TM_ACTION_WAKEUP)];
      destruct (Tm.type (Tm.get tcb s1) =? Tm.TM_TYPE_PERIODIC); exact Hgoal.
Qed.

Lemma tm_list_get_expired_elem s tcb :
  Tm.tm_list_get_expired s = Some tcb -> tcb ∈ Tm.active_list s.
Proof.
  unfold Tm.tm_list_get_expired. destruct (Tm.active_list s) as [| t l]; [discriminate |].
  destruct (_ <=? _); [| discriminate]. intros [= ->]. apply list_elem_of_here.
Qed.

(** Every number of turns of the loop of [tm_process_expired]. *)
Lemma tm_inv_process_expired n :
  forall s, tm_inv s -> tm_inv (snd (fst (Tm.tm_process_expired n s))).
Proof.
  induction n as [| n IH]; intros s Hinv; cbn [Tm.tm_process_expired].
  - destruct (Tm.tm_list_get_expired s); exact Hinv.
  - destruct (Tm.tm_list_get_expired s) as [tcb |] eqn:Hexp; [| exact Hinv].
    pose proof (tm_inv_process_one tcb s Hinv (tm_list_get_expired_elem _ _ Hexp)) as H1.
    destruct (Tm.tm_process_one tcb s) as [calls s1]. cbn [snd] in H1.
    specialize (IH s1 H1).
    destruct (Tm.tm_process_expired n s1) as [[[p c] s2] fin]. exact IH.
Qed.

Lemma tm_inv_tick n s : tm_inv s -> tm_inv (snd (Tm.tm_tick n s)).
Proof.
  intros Hinv. unfold Tm.tm_tick. destruct (negb _); [exact Hinv |].
  match goal with
  | |- context [Tm.tm_process_expired n ?x] =>
      pose proof (tm_inv_process_expired n x) as Hp
  end.
  destruct (Tm.tm_process_expired n _) as [[[p c] s2] fin]. cbn [fst snd] in *.
  apply Hp. eapply tm_inv_same; [| | | exact Hinv]; reflexivity.
Qed.

Lemma tm_inv_cancel tmid s : tm_inv s -> tm_inv (snd (Tm.tm_cancel tmid s)).
Proof.
  intros Hinv. unfold Tm.tm_cancel.
  pose proof (tm_inv_init_once s Hinv) as H0.
  set (s0 := snd (Tm.tm_init_once s)) in *.
  destruct (Tm.tm_pool_find tmid s0) as [tcb |] eqn:Hfind; [| exact H0].
  cbn [snd].
  assert (Hin : tcb ∈ Tm.active_list s0).
  { unfold Tm.tm_pool_find in Hfind. destruct (_ =? _); [discriminate |].
    apply List.find_some in Hfind. destruct Hfind as [Hin _].
    now apply list_elem_of_In. }
  apply tm_inv_pool_free.
  - apply tm_inv_upd_keep; [reflexivity | reflexivity | exact H0].
  - change (Tm.free_list (Tm.upd tcb (Tm.set_state Tm.TM_STATE_CANCELLED) s0))
      with (Tm.free_list s0).
    destruct H0 as (_ & _ & _ & I4). rewrite Forall_forall in I4.
    intros Hf. exact (I4 _ Hf Hin).
Qed.

Lemma tm_inv_create_timer env type action ticks events date time tmid s :
  tm_inv s ->
  tm_inv (snd (Tm.tm_create_timer env type action ticks events date time tmid s)).
Proof.
  intros Hinv. unfold Tm.tm_create_timer.
  pose proof (tm_inv_init_once s Hinv) as H0.
  destruct (Tm.tm_init_once s) as [e s0]. cbn [snd] in H0.
  destruct (negb (e =? 0)); [exact H0 |].
  destruct tmid as [x |]; [| exact H0].
  destruct (tm_inv_pool_alloc s0 H0) as [H1 Hnew].
  destruct (Tm.tm_pool_alloc s0) as [[tcb |] s1]; cbn [fst snd] in *; [| exact H1].
  destruct (Hnew tcb eq_refl) as [Hfree Hact].
  set (s2 := Tm.upd tcb _ s1).
  assert (H2 : tm_inv s2) by (apply tm_inv_upd_inactive; assumption).
  destruct ((type =? Tm.TM_TYPE_ONESHOT) || (type =? Tm.TM_TYPE_PERIODIC)).
  - cbn [snd]. apply tm_inv_list_insert; [| exact Hfree].
    apply tm_inv_upd_inactive; assumption.
  - destruct (type =? Tm.TM_TYPE_ABSOLUTE); cbn [snd].
    + apply tm_inv_list_insert; [| exact Hfree].
      apply tm_inv_upd_inactive; assumption.
    + apply tm_inv_pool_free; assumption.
Qed.

Lemma tm_inv_reachable s : Tm.reachable s -> tm_inv s.
Proof.
  induction 1 as [| env ticks events tmid s _ IH | env ticks events tmid s _ IH
                  | env date time ticks events tmid s _ IH | env ticks s _ IH
                  | env date time ticks s _ IH | tmid s _ IH | date time ticks s _ IH
                  | date time ticks s _ IH | n s _ IH].
  - unfold tm_inv, Tm.expirations. cbn.
    repeat split; constructor.
  - unfold Tm.tm_evafter. destruct (negb _); [exact IH | now apply tm_inv_create_timer].
  - unfold Tm.tm_evevery. destruct (negb _); [exact IH | now apply tm_inv_create_timer].
  - unfold Tm.tm_evwhen. destruct (_ =? 0); [exact IH | now apply tm_inv_create_timer].
  - unfold Tm.tm_wkafter. destruct (_ =? 0); [exact IH |].
    pose proof (tm_inv_create_timer env Tm.TM_TYPE_ONESHOT Tm.TM_ACTION_WAKEUP ticks 0 0 0
                  (Some 0) s IH) as Hc.
    destruct (Tm.tm_create_timer _ _ _ _ _ _ _ _ _) as [[[e o] c] s1]. cbn [snd] in Hc.
    destruct (negb _); exact Hc.
  - unfold Tm.tm_wkwhen.
    pose proof (tm_inv_create_timer env Tm.TM_TYPE_ABSOLUTE Tm.TM_ACTION_WAKEUP ticks 0
                  date time (Some 0) s IH) as Hc.
    destruct (Tm.tm_create_timer _ _ _ _ _ _ _ _ _) as [[[e o] c] s1]. cbn [snd] in Hc.
    destruct (negb _); exact Hc.
  - now apply tm_inv_cancel.
  - unfold Tm.tm_get. pose proof (tm_inv_init_once s IH) as H0.
    destruct date, time, ticks; exact H0.
  - unfold Tm.tm_set. cbn [snd].
    eapply tm_inv_same; [| | | exact (tm_inv_init_once s IH)]; reflexivity.
  - now apply tm_inv_tick.
Qed.

(** X30: as long as every timer service and every tick runs from its
    call to its return before the next one starts, the active list stays
    in order: in every state so reached, by [tm_evafter], [tm_evevery],
    [tm_evwhen], [tm_wkafter], [tm_wkwhen], [tm_cancel], [tm_get],
    [tm_set] and the tick with the re-insertion of the periodic timers,
    after any number of turns of its loop, the expiration ticks along
    the active list are non-decreasing. *)
Theorem tm_active_list_sorted s : Tm.reachable s -> Sorted Z.le (Tm.expirations s).
Proof.
  intros Hr. apply StronglySorted_Sorted. now destruct (tm_inv_reachable s Hr).
Qed.

End TmInv.

(** The theorem applies to the state reached by a one-shot timer of 10
    ticks, a periodic timer of 4 ticks and 9 ticks of the clock: the
    periodic timer has been put back twice and expires at tick 12, after
    the one-shot timer. *)
Lemma tm_active_list_sorted_witness :
  let s1 := snd (@Tm.tm_evafter example_codes env_example 10 1 (Some 0) Tm.tm_boot) in
  let s2 := snd (@Tm.tm_evevery example_codes env_example 4 2 (Some 0) s1) in
  let s3 := Nat.iter 9 (fun s => snd (@Tm.tm_tick example_codes 64 s)) s2 in
  Tm.expirations s3 = [10; 12] /\ Sorted Z.le (Tm.expirations s3).
Proof.
  intros s1 s2 s3. split; [vm_compute; reflexivity |].
  apply (@tm_active_list_sorted example_codes s3).
  unfold s3. cbn [Nat.iter].
  do 9 apply Tm.reach_tick.
  apply Tm.reach_evevery, Tm.reach_evafter, Tm.reach_boot.
Defined.

(** ** Timers: a tick inside [tm_list_insert] *)

(** Without a tick inside a service, the links tell what the lists of
    [Tm] tell: on the services of the example, one more timer and one
    more tick, the active chain of [TmL] is the active list of [Tm], with
    the same expiration ticks. *)
Lemma tml_chain_is_tm_active_list :
  exists s3 tmid calls s4 calls' s5,
    tml_two_timers 5 = Some s3 /\
    TmL.chain 64 (TmL.active_list s3) s3 = Some (Tm.active_list (tm_two_timers 5)) /\
    @TmL.tm_evafter example_codes 64 env_example 2 1 (Some 0) s3
    = Some (0, Some tmid, calls, s4) /\
    @TmL.tm_tick example_codes 64 s4 = Some (0, calls', s5) /\
    let t4 := snd (@Tm.tm_evafter example_codes env_example 2 1 (Some 0) (tm_two_timers 5)) in
    let t5 := snd (@Tm.tm_tick example_codes 64 t4) in
    TmL.chain 64 (TmL.active_list s4) s4 = Some (Tm.active_list t4) /\
    TmL.expirations 64 s4 = Some (Tm.expirations t4) /\
    TmL.chain 64 (TmL.active_list s5) s5 = Some (Tm.active_list t5) /\
    TmL.expirations 64 s5 = Some (Tm.expirations t5) /\
    Tm.expirations t5 = [3; 4; 5].
Proof.
  do 6 eexists. cbv zeta.
  split; [vm_compute; reflexivity |].
  split; [vm_compute; reflexivity |].
  split; [vm_compute; reflexivity |].
  split; [vm_compute; reflexivity |].
  repeat split; vm_compute; reflexivity.
Qed.

(** C9 (defect of the code).  The active list holds a periodic timer of
    2 ticks, due at tick 2, and a one-shot timer due at tick 5; the
    clock is at tick 1.  A task calls [tm_evafter (2, ...)], for a timer
    due at tick 3, and the alarm goes off inside [tm_list_insert], after
    its walk: [tm_tick] puts the periodic timer back, now due at tick 4,
    and [tm_list_insert] then links the new timer behind it.
    [tm_evafter] returns 0, and the expiration ticks along the active
    list are 4, 3, 5.  With the one-shot timer due at tick 4 instead,
    the periodic timer is put back behind it and the new timer is linked
    in between: the chain from the head runs in a circle. *)
Theorem tm_tick_inside_tm_list_insert_breaks_order :
  (exists s3 tmid calls s',
     tml_two_timers 5 = Some s3 /\
     TmL.expirations 64 s3 = Some [2; 5] /\
     TmL.TM_GET_CURRENT_TICKS s3 = 1 /\
     @TmL.tm_evafter_with_tick example_codes 64 env_example 2 1 (Some 0) s3
     = Some (0, Some tmid, calls, s') /\
     TmL.chain 64 (TmL.active_list s') s' = Some [0%nat; 2%nat; 1%nat] /\
     TmL.expirations 64 s' = Some [4; 3; 5] /\
     ~ Sorted Z.le [4; 3; 5]) /\
  (exists s3 tmid calls s',
     tml_two_timers 4 = Some s3 /\
     TmL.expirations 64 s3 = Some [2; 4] /\
     @TmL.tm_evafter_with_tick example_codes 64 env_example 2 1 (Some 0) s3
     = Some (0, Some tmid, calls, s') /\
     TmL.active_list s' = Some 1%nat /\
     TmL.next (TmL.get 1 s') = Some 0%nat /\
     TmL.next (TmL.get 0 s') = Some 2%nat /\
     TmL.next (TmL.get 2 s') = Some 1%nat /\
     TmL.expire_ticks 0 s' = 4 /\ TmL.expire_ticks 2 s' = 3 /\
     TmL.expirations 64 s' = None).
Proof.
  split.
  - do 4 eexists.
    split; [vm_compute; reflexivity |].
    split; [vm_compute; reflexivity |].
    split; [vm_compute; reflexivity |].
    split; [vm_compute; reflexivity |].
    split; [vm_compute; reflexivity |].
    split; [vm_compute; reflexivity |].
    intros Hs. inversion Hs as [| a l Hl Hh]; subst.
    inversion Hh as [| b l' Hle]; subst. lia.
  - do 4 eexists.
    split; [vm_compute; reflexivity |].
    split; [vm_compute; reflexivity |].
    split; [vm_compute; reflexivity |].
    repeat split; vm_compute; reflexivity.
Qed.
(** * Further properties of the queue services *)

(** ** Positions in a ring *)

Lemma ring_pos_range c o k : 0 <= o < c -> 0 <= k < c -> 0 <= ring_pos c o k < c.
Proof. intros Ho Hk. unfold ring_pos. destruct (Z.ltb_spec (o + k) c); lia. Qed.

Lemma ring_pos_0 c o : 0 <= o < c -> ring_pos c o 0 = o.
Proof. intros Ho. unfold ring_pos. destruct (Z.ltb_spec (o + 0) c); lia. Qed.

Lemma ring_pos_succ c o k :
  0 <= o < c -> 0 <= k -> k + 1 < c ->
  ring_pos c (ring_pos c o k) 1 = ring_pos c o (k + 1).
Proof.
  intros Ho Hk Hk1. unfold ring_pos.
  repeat match goal with |- context [?a <? ?b] => destruct (Z.ltb_spec a b) end; lia.
Qed.

Lemma ring_pos_shift c o k :
  0 <= o < c -> 0 <= k -> k + 1 < c ->
  ring_pos c (ring_pos c o 1) k = ring_pos c o (k + 1).
Proof.
  intros Ho Hk Hk1. unfold ring_pos.
  repeat match goal with |- context [?a <? ?b] => destruct (Z.ltb_spec a b) end; lia.
Qed.

Lemma ring_pos_inj c o j k :
  0 <= o < c -> 0 <= j < c -> 0 <= k < c -> ring_pos c o j = ring_pos c o k -> j = k.
Proof.
  intros Ho Hj Hk. unfold ring_pos.
  repeat match goal with |- context [?a <? ?b] => destruct (Z.ltb_spec a b) end; lia.
Qed.

(** The position before [o], where an urgent message goes. *)
Lemma ring_pos_back c o k :
  0 <= o < c -> 0 <= k -> k + 1 < c ->
  ring_pos c (if o =? 0 then c - 1 else o - 1) (k + 1) = ring_pos c o k.
Proof.
  intros Ho Hk Hk1. unfold ring_pos. destruct (Z.eqb_spec o 0);
  repeat match goal with |- context [?a <? ?b] => destruct (Z.ltb_spec a b) end; lia.
Qed.

Lemma advance_ring_pos st c i :
  0 <= st -> st + c <= 2048 -> 0 <= i < c ->
  advance st (st + c - 1) (st + i) = st + ring_pos c i 1.
Proof.
  intros Hst Hc Hi. unfold advance, ring_pos.
  destruct (Z.eqb_spec (st + i) (st + c - 1)); destruct (Z.ltb_spec (i + 1) c); try lia.
  rewrite wrap_id; [lia | unfold ULONG_MAX, ULONG_BITS; lia].
Qed.

Section QFifo.
Context `{ErrCodes}.

(** ** The services on a ring, with the count of the block *)

Lemma q_send_step os w qid qcb st c nin nout m :
  q_ring w qid qcb st c nin nout ->
  Q.Q_BUFFER_FULL (Q.get qcb (Q.qs w)) = false ->
  st <= nin <= st + c - 1 ->
  exists w',
    Q.q_send os qid (Some m) w = (0, w') /\
    q_ring w' qid qcb st c (advance st (st + c - 1) nin) nout /\
    Q.buffers (Q.buffer_pool (Q.qs w'))
    = <[Z.to_nat nin := m]> (Q.buffers (Q.buffer_pool (Q.qs w))) /\
    Q.current_messages (Q.get qcb (Q.qs w'))
    = incr (Q.current_messages (Q.get qcb (Q.qs w))).
Proof.
  destruct w as [s sm]. cbn [Q.qs]. intros Hring Hfull Hnin.
  pose proof (q_ring_valid _ _ _ _ _ _ _ _ Hring) as Hvalid.
  pose proof Hring as (R1 & R2 & R3 & R4 & R5 & R6 & R7 & R8 & R9 & R10 & R11 & R12).
  cbn [Q.qs] in *.
  destruct (q_message_enqueue_ok qcb m (Q.q_disable_interrupts s) st (st + c - 1) nin nout)
    as (s1 & He & F1 & Hb1 & Hbu1 & Hcm1); try assumption.
  { change (Q.total_buffers (Q.buffer_pool (Q.q_disable_interrupts s)))
      with (Q.total_buffers (Q.buffer_pool s)). lia. }
  unfold Q.q_send, Q.with_qs. cbn [Q.qs Q.sms].
  rewrite q_init_once_initialized by exact R1. cbn [snd].
  rewrite R3, R5. change (negb (Q.Q_STATE_ACTIVE =? Q.Q_STATE_ACTIVE)) with false. cbv iota.
  change (Q.hw_ops (Q.q_disable_interrupts s)) with (Q.hw_ops s). rewrite R2.
  unfold Q.q_hw_generic_send_message.
  change (Q.get qcb (Q.q_disable_interrupts s)) with (Q.get qcb s). rewrite Hvalid.
  cbn [negb]. rewrite He. cbn [Z.eqb Q.qs Q.sms].
  eexists. split; [reflexivity |]. cbn [Q.qs].
  match goal with
  | |- q_ring (Q.mkWorld ?s2 _) _ _ _ _ _ _ /\ _ =>
      assert (K : q_keeps s1 s2)
  end.
  { eapply q_keeps_trans; [| apply q_keeps_enable].
    eapply q_keeps_trans; [| apply q_keeps_statistics].
    apply q_keeps_pools; reflexivity. }
  destruct K as (F2 & G2 & B2). split; [| split].
  - eapply q_ring_frame; [exact Hring | |].
    + eapply q_frame_trans; [apply q_frame_disable |].
      eapply q_frame_trans; eassumption.
    + destruct (G2 qcb) as [-> _]. exact Hb1.
  - rewrite B2. exact Hbu1.
  - destruct (G2 qcb) as [_ ->]. exact Hcm1.
Qed.

Lemma q_send_full_step os w qid qcb st c nin nout m :
  q_ring w qid qcb st c nin nout ->
  Q.Q_BUFFER_FULL (Q.get qcb (Q.qs w)) = true ->
  exists w',
    Q.q_send os qid (Some m) w = (ERR_QFULL, w') /\
    q_ring w' qid qcb st c nin nout /\
    Q.buffers (Q.buffer_pool (Q.qs w')) = Q.buffers (Q.buffer_pool (Q.qs w)) /\
    Q.current_messages (Q.get qcb (Q.qs w')) = Q.current_messages (Q.get qcb (Q.qs w)).
Proof.
  destruct w as [s sm]. cbn [Q.qs]. intros Hring Hfull.
  pose proof (q_ring_valid _ _ _ _ _ _ _ _ Hring) as Hvalid.
  pose proof Hring as (R1 & R2 & R3 & R4 & R5 & R6 & R7 & R8 & R9 & R10 & R11 & R12).
  cbn [Q.qs] in *.
  destruct (q_message_enqueue_full qcb m 0 (Q.q_disable_interrupts s))
    as (s1 & He & F1 & Hb1 & Hbu1 & Hcm1); try assumption.
  unfold Q.q_send, Q.with_qs. cbn [Q.qs Q.sms].
  rewrite q_init_once_initialized by exact R1. cbn [snd].
  rewrite R3, R5. change (negb (Q.Q_STATE_ACTIVE =? Q.Q_STATE_ACTIVE)) with false. cbv iota.
  change (Q.hw_ops (Q.q_disable_interrupts s)) with (Q.hw_ops s). rewrite R2.
  unfold Q.q_hw_generic_send_message.
  change (Q.get qcb (Q.q_disable_interrupts s)) with (Q.get qcb s). rewrite Hvalid.
  cbn [negb]. rewrite He.
  do 2 (cbv beta iota zeta; change (ERR_QFULL =? 0) with false). cbv iota. cbn [Q.qs Q.sms].
  eexists. split; [reflexivity |]. cbn [Q.qs].
  destruct (q_keeps_enable s1) as (F2 & G2 & B2). split; [| split].
  - eapply q_ring_frame; [exact Hring | |].
    + eapply q_frame_trans; [apply q_frame_disable |].
      eapply q_frame_trans; eassumption.
    + destruct (G2 qcb) as [-> _]. rewrite Hb1. exact R7.
  - rewrite B2. exact Hbu1.
  - destruct (G2 qcb) as [_ ->]. exact Hcm1.
Qed.


Lemma q_message_dequeue_step qcb x s st en nin nout :
  Q.Q_IS_VALID_QCB (Q.get qcb s) = true ->
  (qcb < length (Q.queues (Q.queue_pool s)))%nat ->
  Q.buf (Q.get qcb s) = Q.mkBuf st en nin nout ->
  nin <> nout ->
  0 <= nout < Q.total_buffers (Q.buffer_pool s) ->
  exists s',
    Q.q_message_dequeue qcb (Some x) s
    = (0, Some (default Q.msg_zero (Q.buffers (Q.buffer_pool s) !! Z.to_nat nout)), s') /\
    q_frame s s' /\
    Q.buf (Q.get qcb s') = Q.mkBuf st en nin (advance st en nout) /\
    Q.buffers (Q.buffer_pool s') = Q.buffers (Q.buffer_pool s) /\
    Q.current_messages (Q.get qcb s') = decr (Q.current_messages (Q.get qcb s)).
Proof.
  intros Hvalid Hlen Hbuf Hne Hnout.
  unfold Q.q_message_dequeue, Q.Q_BUFFER_EMPTY, Q.q_buffer_get.
  rewrite Hvalid, Hbuf. cbn [negb Q.nextin Q.nextout Q.start Q.end_].
  destruct (Z.eqb_spec nin nout) as [E | _]; [contradiction |].
  destruct (Z.geb_spec nout (Q.total_buffers (Q.buffer_pool s))) as [Hge | _]; [lia |].
  eexists. split; [reflexivity |].
  set (s1 := Q.upd qcb _ s).
  assert (L1 : (qcb < length (Q.queues (Q.queue_pool s1)))%nat).
  { unfold s1, Q.upd. cbn. now rewrite length_insert. }
  split; [| split; [| split]].
  - eapply q_frame_trans; apply q_frame_upd; intros q; reflexivity.
  - rewrite q_get_upd_same by exact L1. unfold s1. rewrite q_get_upd_same by exact Hlen.
    unfold Q.Q_ADVANCE_INDEX, advance. rewrite Hbuf. reflexivity.
  - reflexivity.
  - rewrite q_get_upd_same by exact L1. unfold s1. rewrite q_get_upd_same by exact Hlen.
    reflexivity.
Qed.

Lemma q_receive_step os during w qid qcb st c nin nout flags timeout x :
  q_ring w qid qcb st c nin nout ->
  nin <> nout ->
  st <= nout <= st + c - 1 ->
  exists w',
    Q.q_receive os during qid flags timeout (Some x) w
    = Returns (0, Some (default Q.msg_zero (q_slot w nout)), w') /\
    q_ring w' qid qcb st c nin (advance st (st + c - 1) nout) /\
    Q.buffers (Q.buffer_pool (Q.qs w')) = Q.buffers (Q.buffer_pool (Q.qs w)) /\
    Q.current_messages (Q.get qcb (Q.qs w'))
    = decr (Q.current_messages (Q.get qcb (Q.qs w))).
Proof.
  destruct w as [s sm]. unfold q_slot. cbn [Q.qs]. intros Hring Hne Hnout.
  pose proof (q_ring_valid _ _ _ _ _ _ _ _ Hring) as Hvalid.
  pose proof Hring as (R1 & R2 & R3 & R4 & R5 & R6 & R7 & R8 & R9 & R10 & R11 & R12).
  cbn [Q.qs] in *.
  destruct (q_message_dequeue_step qcb x (Q.q_disable_interrupts s) st (st + c - 1) nin nout)
    as (s1 & He & F1 & Hb1 & Hbu1 & Hcm1); try assumption.
  { change (Q.total_buffers (Q.buffer_pool (Q.q_disable_interrupts s)))
      with (Q.total_buffers (Q.buffer_pool s)). lia. }
  unfold Q.q_receive, Q.with_qs. cbn [Q.qs Q.sms].
  rewrite q_init_once_initialized by exact R1. cbn [snd].
  rewrite R3, R5. change (negb (Q.Q_STATE_ACTIVE =? Q.Q_STATE_ACTIVE)) with false. cbv iota.
  change (Q.get qcb (Q.q_disable_interrupts s)) with (Q.get qcb s).
  unfold Q.Q_BUFFER_EMPTY. rewrite R7. cbn [Q.nextin Q.nextout].
  destruct (Z.eqb_spec nin nout) as [E | _]; [contradiction |]. cbn [negb].
  rewrite He. cbn [Z.eqb].
  change (Q.buffers (Q.buffer_pool (Q.q_disable_interrupts s)))
    with (Q.buffers (Q.buffer_pool s)).
  eexists. split; [reflexivity |]. cbn [Q.qs].
  match goal with
  | |- q_ring (Q.mkWorld ?s2 _) _ _ _ _ _ _ /\ _ =>
      assert (K : q_keeps s1 s2)
  end.
  { eapply q_keeps_trans; [apply q_keeps_statistics | apply q_keeps_enable]. }
  destruct K as (F2 & G2 & B2). split; [| split].
  - eapply q_ring_frame; [exact Hring | |].
    + eapply q_frame_trans; [apply q_frame_disable |].
      eapply q_frame_trans; eassumption.
    + destruct (G2 qcb) as [-> _]. exact Hb1.
  - rewrite B2. exact Hbu1.
  - destruct (G2 qcb) as [_ ->]. exact Hcm1.
Qed.

(** [q_receive] with [Q_NOWAIT] on an empty ring. *)
Lemma q_receive_empty_step os during w qid qcb st c n flags timeout x :
  q_ring w qid qcb st c n n ->
  truthy (Z.land flags Q.Q_NOWAIT) = true ->
  exists w',
    Q.q_receive os during qid flags timeout (Some x) w = Returns (ERR_NOMSG, Some x, w') /\
    q_ring w' qid qcb st c n n /\
    Q.buffers (Q.buffer_pool (Q.qs w')) = Q.buffers (Q.buffer_pool (Q.qs w)) /\
    Q.current_messages (Q.get qcb (Q.qs w')) = Q.current_messages (Q.get qcb (Q.qs w)) /\
    Q.sms w' = Q.sms w.
Proof.
  destruct w as [s sm]. cbn [Q.qs Q.sms]. intros Hring Hnw.
  pose proof Hring as (R1 & R2 & R3 & R4 & R5 & R6 & R7 & R8 & R9 & R10 & R11 & R12).
  cbn [Q.qs] in *.
  unfold Q.q_receive, Q.with_qs. cbn [Q.qs Q.sms].
  rewrite q_init_once_initialized by exact R1. cbn [snd].
  rewrite R3, R5. change (negb (Q.Q_STATE_ACTIVE =? Q.Q_STATE_ACTIVE)) with false. cbv iota.
  change (Q.get qcb (Q.q_disable_interrupts s)) with (Q.get qcb s).
  unfold Q.Q_BUFFER_EMPTY. rewrite R7. cbn [Q.nextin Q.nextout].
  rewrite Z.eqb_refl. cbn [negb]. rewrite Hnw.
  eexists. split; [reflexivity |]. cbn [Q.qs Q.sms].
  assert (K : q_keeps s (Q.q_enable_interrupts (Q.q_disable_interrupts s))).
  { eapply q_keeps_trans; [apply q_keeps_disable | apply q_keeps_enable]. }
  destruct K as (F2 & G2 & B2). split; [| split; [| split]].
  - eapply q_ring_frame; [exact Hring | exact F2 |].
    destruct (G2 qcb) as [-> _]. exact R7.
  - exact B2.
  - now destruct (G2 qcb) as [_ ->].
  - reflexivity.
Qed.

(** An urgent message goes to the slot before the output position. *)
Lemma q_message_enqueue_urgent_ok qcb m s st en nin nout :
  Q.Q_IS_VALID_QCB (Q.get qcb s) = true ->
  (qcb < length (Q.queues (Q.queue_pool s)))%nat ->
  Q.buf (Q.get qcb s) = Q.mkBuf st en nin nout ->
  Q.Q_BUFFER_FULL (Q.get qcb s) = false ->
  0 <= (if nout =? st then en else wrap (nout - 1)) < Q.total_buffers (Q.buffer_pool s) ->
  exists s',
    Q.q_message_enqueue qcb (Some m) 1 s = (0, s') /\
    q_frame s s' /\
    Q.buf (Q.get qcb s') = Q.mkBuf st en nin (if nout =? st then en else wrap (nout - 1)) /\
    Q.buffers (Q.buffer_pool s')
    = <[Z.to_nat (if nout =? st then en else wrap (nout - 1)) := m]>
        (Q.buffers (Q.buffer_pool s)) /\
    Q.current_messages (Q.get qcb s') = incr (Q.current_messages (Q.get qcb s)).
Proof.
  intros Hvalid Hlen Hbuf Hfull Htarget.
  unfold Q.q_message_enqueue. rewrite Hvalid, Hfull. cbn [negb].
  change (truthy 1) with true. cbv iota. rewrite Hbuf. cbn [Q.nextin Q.start Q.end_ Q.nextout].
  set (target := if nout =? st then en else wrap (nout - 1)) in *.
  unfold Q.q_buffer_get.
  set (s1 := Q.upd qcb _ s).
  assert (F1 : q_frame s s1) by (apply q_frame_upd; intros q; reflexivity).
  assert (Htb : Q.total_buffers (Q.buffer_pool s1) = Q.total_buffers (Q.buffer_pool s))
    by reflexivity.
  rewrite Htb.
  destruct (Z.geb_spec target (Q.total_buffers (Q.buffer_pool s))) as [Hge | _]; [lia |].
  set (s2 := Q.st_set_buffer_pool _ s1).
  set (s3 := Q.upd qcb _ s2).
  assert (L1 : (qcb < length (Q.queues (Q.queue_pool s1)))%nat).
  { unfold s1, Q.upd. cbn. now rewrite length_insert. }
  assert (G1 : Q.get qcb s1 = Q.set_buf (Q.mkBuf st en nin target) (Q.get qcb s)).
  { unfold s1. now rewrite q_get_upd_same. }
  assert (G3 : Q.get qcb s3 = Q.set_current_messages (incr (Q.current_messages (Q.get qcb s1)))
                                                     (Q.get qcb s1)).
  { unfold s3. rewrite q_get_upd_same by exact L1. reflexivity. }
  assert (F3 : q_frame s s3).
  { eapply q_frame_trans; [exact F1 |]. eapply q_frame_trans; [apply q_frame_store |].
    apply q_frame_upd; intros q; reflexivity. }
  assert (B3 : Q.buffers (Q.buffer_pool s3)
               = <[Z.to_nat target := m]> (Q.buffers (Q.buffer_pool s))) by reflexivity.
  assert (L3 : (qcb < length (Q.queues (Q.queue_pool s3)))%nat).
  { destruct F3 as (_ & _ & _ & _ & Hl & _). now rewrite Hl. }
  destruct (q_high_water_step qcb s3 L3) as (F4 & Hb4 & Hc4 & Hbu4).
  eexists. split; [reflexivity |].
  split; [eapply q_frame_trans; eassumption |].
  rewrite Hb4, Hc4, Hbu4, G3, G1. repeat split; reflexivity.
Qed.

Lemma q_sync_signal_message_qs os qcb w :
  Q.qs (snd (Q.q_sync_signal_message os qcb w)) = Q.qs w.
Proof.
  unfold Q.q_sync_signal_message. destruct (negb _); [reflexivity |].
  destruct (Sm.sm_v _ _ _). reflexivity.
Qed.

Lemma q_urgent_step os w qid qcb st c nin nout m :
  q_ring w qid qcb st c nin nout ->
  Q.Q_BUFFER_FULL (Q.get qcb (Q.qs w)) = false ->
  st <= nout <= st + c - 1 ->
  exists w',
    Q.q_urgent os qid (Some m) w = (0, w') /\
    q_ring w' qid qcb st c nin (if nout =? st then st + c - 1 else nout - 1) /\
    Q.buffers (Q.buffer_pool (Q.qs w'))
    = <[Z.to_nat (if nout =? st then st + c - 1 else nout - 1) := m]>
        (Q.buffers (Q.buffer_pool (Q.qs w))) /\
    Q.current_messages (Q.get qcb (Q.qs w'))
    = incr (Q.current_messages (Q.get qcb (Q.qs w))).
Proof.
  destruct w as [s sm]. cbn [Q.qs]. intros Hring Hfull Hnout.
  pose proof (q_ring_valid _ _ _ _ _ _ _ _ Hring) as Hvalid.
  pose proof Hring as (R1 & R2 & R3 & R4 & R5 & R6 & R7 & R8 & R9 & R10 & R11 & R12).
  cbn [Q.qs] in *.
  unfold Q.Q_MAX_BUFFERS, Q.MAX_BUF in R11.
  assert (Ht : (if nout =? st then st + c - 1 else wrap (nout - 1))
               = (if nout =? st then st + c - 1 else nout - 1)).
  { destruct (Z.eqb_spec nout st); [reflexivity |].
    apply wrap_id. unfold ULONG_MAX, ULONG_BITS. lia. }
  destruct (q_message_enqueue_urgent_ok qcb m (Q.q_disable_interrupts s) st (st + c - 1)
              nin nout) as (s1 & He & F1 & Hb1 & Hbu1 & Hcm1); try assumption.
  { change (Q.total_buffers (Q.buffer_pool (Q.q_disable_interrupts s)))
      with (Q.total_buffers (Q.buffer_pool s)).
    rewrite Ht. destruct (Z.eqb_spec nout st); lia. }
  rewrite Ht in Hb1, Hbu1.
  unfold Q.q_urgent, Q.with_qs. cbn [Q.qs Q.sms].
  rewrite q_init_once_initialized by exact R1. cbn [snd].
  rewrite R3, R5. change (negb (Q.Q_STATE_ACTIVE =? Q.Q_STATE_ACTIVE)) with false. cbv iota.
  rewrite He. cbn [Z.eqb Q.qs Q.sms].
  rewrite q_sync_signal_message_qs. cbn [Q.qs].
  eexists. split; [reflexivity |]. cbn [Q.qs].
  match goal with
  | |- q_ring (Q.mkWorld ?s2 _) _ _ _ _ _ _ /\ _ =>
      assert (K : q_keeps s1 s2)
  end.
  { eapply q_keeps_trans; [apply q_keeps_statistics | apply q_keeps_enable]. }
  destruct K as (F2 & G2 & B2). split; [| split].
  - eapply q_ring_frame; [exact Hring | |].
    + eapply q_frame_trans; [apply q_frame_disable |].
      eapply q_frame_trans; eassumption.
    + destruct (G2 qcb) as [-> _]. exact Hb1.
  - rewrite B2. exact Hbu1.
  - destruct (G2 qcb) as [_ ->]. exact Hcm1.
Qed.


(** ** The queue as a list of messages *)

Lemma q_holds_bounds w qid qcb c st nin nout :
  q_ring w qid qcb st c nin nout ->
  0 <= st /\ st + c <= 2048 /\
  (Z.to_nat (st + c) <= length (Q.buffers (Q.buffer_pool (Q.qs w))))%nat.
Proof.
  intros (_ & _ & _ & _ & _ & _ & _ & R8 & R9 & R10 & R11 & R12).
  unfold Q.Q_MAX_BUFFERS, Q.MAX_BUF in R11. lia.
Qed.

Lemma q_holds_full_test w qid qcb c st o n :
  q_ring w qid qcb st c (st + ring_pos c o n) (st + o) ->
  0 <= o < c -> 0 <= n <= c - 1 ->
  Q.Q_BUFFER_FULL (Q.get qcb (Q.qs w)) = (n =? c - 1).
Proof.
  intros Hring Ho Hn.
  pose proof (ring_pos_range c o n Ho ltac:(lia)) as Hp.
  rewrite (q_ring_full _ _ _ _ _ _ _ Hring) by lia.
  unfold ring_pos in *.
  destruct (Z.ltb_spec (o + n) c); destruct (Z.eqb_spec n (c - 1));
    repeat match goal with |- context [?a =? ?b] => destruct (Z.eqb_spec a b) end;
    cbn; try reflexivity; lia.
Qed.

(** X1: a queue that [q_create] has just made holds no message. *)
Theorem q_create_holds_nothing os name c flags x w :
  q_can_create os c flags w ->
  exists qid qcb w1,
    Q.q_create os name c flags (Some x) w = (0, Some qid, w1) /\
    q_holds w1 qid qcb c [].
Proof.
  intros Hcan.
  assert (Hc : 4 <= c <= 1024).
  { destruct Hcan as (Hv & _). unfold Q.Q_IS_VALID_COUNT, Q.Q_MIN_COUNT, Q.Q_MAX_COUNT in Hv.
    apply andb_true_iff in Hv. destruct Hv as [H1 H2]. apply Z.leb_le in H1, H2. lia. }
  destruct (q_create_ok_full os name c flags x w Hcan)
    as (qid & qcb & w1 & Hcr & Hring & _ & Hcm & _).
  exists qid, qcb, w1. split; [exact Hcr |].
  eexists. exists 0. cbn [length]. rewrite ring_pos_0 by lia. rewrite Z.add_0_r.
  split; [lia |]. split; [lia |]. split; [exact Hring |]. split; [exact Hcm |].
  intros k m Hk. discriminate Hk.
Qed.

(** X2: [q_send] on a queue that holds fewer than [c - 1] messages
    returns 0 and puts the message behind the others. *)
Theorem q_send_appends os w qid qcb c ms m :
  q_holds w qid qcb c ms ->
  Z.of_nat (length ms) < c - 1 ->
  exists w', Q.q_send os qid (Some m) w = (0, w') /\ q_holds w' qid qcb c (ms ++ [m]).
Proof.
  intros (st & o & Ho & Hlen & Hring & Hcm & Hslots) Hroom.
  destruct (q_holds_bounds _ _ _ _ _ _ _ Hring) as (Hst & Hc & Hbl).
  set (n := Z.of_nat (length ms)) in *.
  pose proof (ring_pos_range c o n Ho ltac:(lia)) as Hp.
  assert (Hnf : Q.Q_BUFFER_FULL (Q.get qcb (Q.qs w)) = false).
  { rewrite (q_holds_full_test _ _ _ _ _ _ _ Hring Ho) by lia. apply Z.eqb_neq. lia. }
  destruct (q_send_step os w qid qcb st c _ _ m Hring Hnf) as (w' & Hs & Hr' & Hb' & Hcm');
    [lia |].
  exists w'. split; [exact Hs |].
  rewrite advance_ring_pos in Hr' by lia. rewrite ring_pos_succ in Hr' by lia.
  exists st, o. rewrite length_app. cbn [length]. rewrite Nat2Z.inj_add. fold n.
  change (Z.of_nat 1) with 1.
  split; [exact Ho |]. split; [lia |]. split; [exact Hr' |]. split.
  { rewrite Hcm', Hcm. unfold incr. apply wrap_id. unfold ULONG_MAX, ULONG_BITS. lia. }
  intros k m' Hk. apply lookup_app_Some in Hk. destruct Hk as [Hk | [Hge Hk]].
  - pose proof (lookup_lt_Some _ _ _ Hk) as Hlt.
    pose proof (ring_pos_range c o (Z.of_nat k) Ho ltac:(lia)) as Hpk.
    unfold q_slot. rewrite Hb'. rewrite list_lookup_insert_ne.
    + exact (Hslots k m' Hk).
    + intros E.
      assert (E' : ring_pos c o n = ring_pos c o (Z.of_nat k)) by lia.
      apply ring_pos_inj in E'; lia.
  - destruct (k - length ms)%nat eqn:E; [| destruct n0; discriminate Hk].
    injection Hk as <-.
    assert (Hkn : Z.of_nat k = n) by lia. rewrite Hkn.
    unfold q_slot. rewrite Hb'. apply list_lookup_insert_eq. lia.
Qed.

(** X3: [q_send] on a queue that holds [c - 1] messages returns
    [ERR_QFULL] and leaves the messages alone. *)
Theorem q_send_rejected_when_full os w qid qcb c ms m :
  q_holds w qid qcb c ms ->
  Z.of_nat (length ms) = c - 1 ->
  exists w', Q.q_send os qid (Some m) w = (ERR_QFULL, w') /\ q_holds w' qid qcb c ms.
Proof.
  intros (st & o & Ho & Hlen & Hring & Hcm & Hslots) Hfullc.
  assert (Hf : Q.Q_BUFFER_FULL (Q.get qcb (Q.qs w)) = true).
  { rewrite (q_holds_full_test _ _ _ _ _ _ _ Hring Ho) by lia. apply Z.eqb_eq. lia. }
  destruct (q_send_full_step os w qid qcb st c _ _ m Hring Hf) as (w' & Hs & Hr' & Hb' & Hcm').
  exists w'. split; [exact Hs |]. exists st, o.
  split; [exact Ho |]. split; [exact Hlen |]. split; [exact Hr' |].
  split; [now rewrite Hcm' |].
  intros k m' Hk. unfold q_slot. rewrite Hb'. exact (Hslots k m' Hk).
Qed.

(** X4: [q_receive] on a queue that holds a message returns at once,
    whatever the flags and the timeout, with the oldest message, and
    the queue holds the others. *)
Theorem q_receive_takes_oldest os during w qid qcb c m ms flags timeout x :
  q_holds w qid qcb c (m :: ms) ->
  exists w',
    Q.q_receive os during qid flags timeout (Some x) w = Returns (0, Some m, w') /\
    q_holds w' qid qcb c ms.
Proof.
  intros (st & o & Ho & Hlen & Hring & Hcm & Hslots).
  destruct (q_holds_bounds _ _ _ _ _ _ _ Hring) as (Hst & Hc & Hbl).
  cbn [length] in *. rewrite Nat2Z.inj_succ in *.
  set (n := Z.of_nat (length ms)) in *.
  pose proof (ring_pos_range c o (Z.succ n) Ho ltac:(lia)) as Hp.
  assert (Hne : st + ring_pos c o (Z.succ n) <> st + o).
  { intros E. assert (E' : ring_pos c o (Z.succ n) = ring_pos c o 0)
      by (rewrite (ring_pos_0 c o Ho); lia).
    apply ring_pos_inj in E'; lia. }
  destruct (q_receive_step os during w qid qcb st c _ _ flags timeout x Hring Hne)
    as (w' & Hr & Hr' & Hb' & Hcm'); [lia |].
  assert (Hhead : q_slot w (st + o) = Some m).
  { specialize (Hslots 0%nat m eq_refl). change (Z.of_nat 0) with 0 in Hslots.
    now rewrite (ring_pos_0 c o Ho) in Hslots. }
  rewrite Hhead in Hr. cbn [default] in Hr.
  exists w'. split; [exact Hr |].
  rewrite advance_ring_pos in Hr' by lia.
  pose proof (ring_pos_range c o 1 Ho ltac:(lia)) as Hp1.
  exists st, (ring_pos c o 1). fold n.
  split; [exact Hp1 |]. split; [lia |]. split.
  { destruct (Z.eq_dec n 0) as [E0 | Hn0].
    - rewrite E0 in *. rewrite (ring_pos_0 c _ Hp1). exact Hr'.
    - rewrite ring_pos_shift by lia. replace (n + 1) with (Z.succ n) by lia. exact Hr'. }
  split.
  { rewrite Hcm', Hcm. unfold decr. replace (Z.succ n - 1) with n by lia.
    apply wrap_id. unfold ULONG_MAX, ULONG_BITS. lia. }
  intros k m' Hk. pose proof (lookup_lt_Some _ _ _ Hk) as Hlt.
  unfold q_slot. rewrite Hb'.
  rewrite ring_pos_shift by lia.
  specialize (Hslots (S k) m' Hk). rewrite Nat2Z.inj_succ in Hslots.
  replace (Z.of_nat k + 1) with (Z.succ (Z.of_nat k)) by lia. exact Hslots.
Qed.

(** X5: [q_receive] with [Q_NOWAIT] on a queue that holds no message
    returns [ERR_NOMSG] at once; the caller's buffer, the queue and the
    semaphores stay as they are. *)
Theorem q_receive_nowait_on_empty os during w qid qcb c flags timeout x :
  q_holds w qid qcb c [] ->
  Z.land flags Q.Q_NOWAIT <> 0 ->
  exists w',
    Q.q_receive os during qid flags timeout (Some x) w = Returns (ERR_NOMSG, Some x, w') /\
    q_holds w' qid qcb c [] /\
    Q.sms w' = Q.sms w.
Proof.
  intros (st & o & Ho & Hlen & Hring & Hcm & Hslots) Hnw.
  cbn [length] in *. change (Z.of_nat 0) with 0 in *. rewrite (ring_pos_0 c o Ho) in Hring.
  assert (Ht : truthy (Z.land flags Q.Q_NOWAIT) = true).
  { unfold truthy. now apply negb_true_iff, Z.eqb_neq. }
  destruct (q_receive_empty_step os during w qid qcb st c _ flags timeout x Hring Ht)
    as (w' & Hr & Hr' & Hb' & Hcm' & Hsm).
  exists w'. split; [exact Hr |]. split; [| exact Hsm].
  exists st, o. cbn [length]. change (Z.of_nat 0) with 0. rewrite (ring_pos_0 c o Ho).
  split; [exact Ho |]. split; [exact Hlen |]. split; [exact Hr' |].
  split; [now rewrite Hcm' |]. intros k m Hk. discriminate Hk.
Qed.

(** X6: [q_urgent] on a queue that holds fewer than [c - 1] messages
    returns 0 and puts the message before the others: the next
    [q_receive] returns it. *)
Theorem q_urgent_goes_first os w qid qcb c ms m :
  q_holds w qid qcb c ms ->
  Z.of_nat (length ms) < c - 1 ->
  exists w', Q.q_urgent os qid (Some m) w = (0, w') /\ q_holds w' qid qcb c (m :: ms).
Proof.
  intros (st & o & Ho & Hlen & Hring & Hcm & Hslots) Hroom.
  destruct (q_holds_bounds _ _ _ _ _ _ _ Hring) as (Hst & Hc & Hbl).
  set (n := Z.of_nat (length ms)) in *.
  assert (Hnf : Q.Q_BUFFER_FULL (Q.get qcb (Q.qs w)) = false).
  { rewrite (q_holds_full_test _ _ _ _ _ _ _ Hring Ho) by lia. apply Z.eqb_neq. lia. }
  destruct (q_urgent_step os w qid qcb st c _ _ m Hring Hnf) as (w' & Hs & Hr' & Hb' & Hcm');
    [lia |].
  exists w'. split; [exact Hs |].
  set (o' := if o =? 0 then c - 1 else o - 1).
  assert (Ho' : 0 <= o' < c) by (unfold o'; destruct (Z.eqb_spec o 0); lia).
  assert (Ht : (if st + o =? st then st + c - 1 else st + o - 1) = st + o').
  { unfold o'. destruct (Z.eqb_spec (st + o) st); destruct (Z.eqb_spec o 0); lia. }
  rewrite Ht in Hr', Hb'.
  exists st, o'. cbn [length]. rewrite Nat2Z.inj_succ. fold n.
  split; [exact Ho' |]. split; [lia |]. split.
  { replace (Z.succ n) with (n + 1) by lia. unfold o'. rewrite ring_pos_back by lia.
    exact Hr'. }
  split.
  { rewrite Hcm', Hcm. unfold incr. rewrite wrap_id; [lia |].
    unfold ULONG_MAX, ULONG_BITS. lia. }
  intros k m' Hk. destruct k as [| k].
  - injection Hk as <-. change (Z.of_nat 0) with 0. rewrite (ring_pos_0 c o' Ho').
    unfold q_slot. rewrite Hb'. apply list_lookup_insert_eq. lia.
  - cbn in Hk. pose proof (lookup_lt_Some _ _ _ Hk) as Hlt.
    rewrite Nat2Z.inj_succ. replace (Z.succ (Z.of_nat k)) with (Z.of_nat k + 1) by lia.
    unfold o'. rewrite ring_pos_back by lia.
    pose proof (ring_pos_range c o (Z.of_nat k) Ho ltac:(lia)) as Hpk.
    unfold q_slot. rewrite Hb'. rewrite list_lookup_insert_ne.
    + exact (Hslots k m' Hk).
    + intros E.
      assert (E' : ring_pos c o' (0 + 1) = ring_pos c o' (Z.of_nat k + 1 + 1)).
      { unfold o' at 2. rewrite (ring_pos_back c o (Z.of_nat k + 1)) by lia.
        (* the slot before [o] is not among the [n] slots from [o] *)
        unfold o'. unfold ring_pos in *.
        destruct (Z.eqb_spec o 0);
          repeat match goal with |- context [?a <? ?b] => destruct (Z.ltb_spec a b) end;
          repeat match goal with H : context [?a <? ?b] |- _ => destruct (Z.ltb_spec a b) end;
          lia. }
      apply ring_pos_inj in E'; lia.
Qed.


(** X7: what the reading helpers report of a queue that holds [ms]:
    [q_message_count] the number of messages, [q_message_space] the
    capacity less that number (1, not 0, for a queue that takes no
    further message), and [q_message_peek] the oldest message, or
    [ERR_NOMSG] when there is none. *)
Theorem q_message_readers w qid qcb c ms x :
  q_holds w qid qcb c ms ->
  Q.q_message_count qcb (Q.qs w) = Z.of_nat (length ms) /\
  Q.q_message_space qcb (Q.qs w) = c - Z.of_nat (length ms) /\
  Q.q_message_peek qcb (Some x) (Q.qs w)
  = match ms with
    | [] => (ERR_NOMSG, Some x)
    | m :: _ => (0, Some m)
    end.
Proof.
  intros (st & o & Ho & Hlen & Hring & Hcm & Hslots).
  destruct (q_holds_bounds _ _ _ _ _ _ _ Hring) as (Hst & Hc & Hbl).
  destruct w as [s sm]. cbn [Q.qs] in *.
  pose proof (q_ring_valid _ _ _ _ _ _ _ _ Hring) as Hvalid.
  pose proof Hring as (R1 & R2 & R3 & R4 & R5 & R6 & R7 & R8 & R9 & R10 & R11 & R12).
  cbn [Q.qs] in *.
  unfold Q.q_message_count, Q.q_message_space, Q.q_message_peek.
  rewrite Hvalid, Hcm, R6. cbn [negb].
  split; [reflexivity |]. split.
  { apply wrap_id. unfold ULONG_MAX, ULONG_BITS. lia. }
  unfold Q.Q_BUFFER_EMPTY, Q.q_buffer_get. rewrite R7. cbn [Q.nextin Q.nextout].
  destruct ms as [| m ms].
  - change (Z.of_nat (length (@nil Q.Q_MSGBUF))) with 0. rewrite (ring_pos_0 c o Ho).
    now rewrite Z.eqb_refl.
  - cbn [length] in *. rewrite Nat2Z.inj_succ in *.
    pose proof (ring_pos_range c o (Z.succ (Z.of_nat (length ms))) Ho ltac:(lia)) as Hp.
    destruct (Z.eqb_spec (st + ring_pos c o (Z.succ (Z.of_nat (length ms)))) (st + o)) as [E | _].
    { assert (E' : ring_pos c o (Z.succ (Z.of_nat (length ms))) = ring_pos c o 0)
        by (rewrite (ring_pos_0 c o Ho); lia).
      apply ring_pos_inj in E'; lia. }
    destruct (Z.geb_spec (st + o) (Q.total_buffers (Q.buffer_pool s))) as [Hge | _]; [lia |].
    specialize (Hslots 0%nat m eq_refl). change (Z.of_nat 0) with 0 in Hslots.
    rewrite (ring_pos_0 c o Ho) in Hslots. unfold q_slot in Hslots. cbn [Q.qs] in Hslots.
    now rewrite Hslots.
Qed.

Lemma q_name_compare_refl n : Q.q_name_compare n n = 1.
Proof.
  destruct n as [[[a0 a1] a2] a3]. unfold Q.q_name_compare. now rewrite !Z.eqb_refl.
Qed.

(** X8: after [q_create (name, ...)] has returned the identifier [qid],
    [q_ident (name, node, &qid')] finds that queue: it returns 0 and
    [qid], also when older queues carry the same name, since the search
    starts at the newest queue. *)
Theorem q_ident_finds_created os name c flags x w node y :
  q_can_create os c flags w ->
  exists qid w1 w2,
    Q.q_create os (Some name) c flags (Some x) w = (0, Some qid, w1) /\
    Q.q_ident os name node (Some y) w1 = (0, Some qid, w2).
Proof.
  intros Hcan.
  destruct (q_create_ok_full os (Some name) c flags x w Hcan)
    as (qid & qcb & w1 & Hcr & Hring & _ & _ & Hname & Hact & _).
  exists qid, w1. eexists. split; [exact Hcr |].
  destruct w1 as [s1 sm1]. cbn [Q.qs] in *.
  pose proof (q_ring_valid _ _ _ _ _ _ _ _ Hring) as Hvalid.
  pose proof Hring as (R1 & _ & R3 & _).
  cbn [Q.qs] in *.
  assert (Hid : Q.queue_id (Q.get qcb s1) = qid).
  { unfold Q.q_pool_find in R3. destruct (negb _); [discriminate |].
    apply List.find_some in R3. destruct R3 as [_ Hp].
    apply andb_true_iff in Hp. destruct Hp as [Hp _]. now apply Z.eqb_eq in Hp. }
  unfold Q.q_ident, Q.with_qs. cbn [Q.qs Q.sms].
  rewrite q_init_once_initialized by exact R1. cbn [snd].
  unfold Q.q_pool_find_by_name. rewrite Hact. cbn [List.find].
  rewrite Hvalid, Hname. cbn [Sm.sm_name_copy]. rewrite q_name_compare_refl.
  cbn [truthy andb]. change (truthy 1) with true. cbv iota. rewrite Hid. reflexivity.
Qed.

End QFifo.

(** ** The theorems about the list of messages on the queue of the examples *)

(** A ring of a concrete state is checked by computation. *)
Ltac q_ring_by_computation :=
  unfold q_ring; vm_compute; repeat split; try discriminate; try reflexivity;
  try (intros Hc; discriminate Hc); lia.

Lemma q_holds_w_created : q_holds w_created 1 0%nat 4 [].
Proof.
  exists 0, 0. split; [lia |]. split; [cbn; lia |]. split; [q_ring_by_computation |].
  split; [vm_compute; reflexivity |]. intros k m Hk. discriminate Hk.
Qed.

Lemma q_holds_w_one : q_holds w_one 1 0%nat 4 [(7, 7, 7, 7)].
Proof.
  exists 0, 0. split; [lia |]. split; [cbn; lia |]. split; [q_ring_by_computation |].
  split; [vm_compute; reflexivity |].
  intros [| k] m Hk; [| discriminate Hk]. injection Hk as <-. vm_compute. reflexivity.
Qed.

Lemma q_holds_w_three : q_holds w_three 1 0%nat 4 [(1, 1, 1, 1); (2, 2, 2, 2); (3, 3, 3, 3)].
Proof.
  exists 0, 0. split; [lia |]. split; [cbn; lia |]. split; [q_ring_by_computation |].
  split; [vm_compute; reflexivity |].
  intros [| [| [| k]]] m Hk; try discriminate Hk; injection Hk as <-; vm_compute; reflexivity.
Qed.

Lemma q_create_holds_nothing_witness :
  exists qid qcb w1,
    @Q.q_create example_codes os_ok None 4 0 (Some 0) Q.boot = (0, Some qid, w1) /\
    q_holds w1 qid qcb 4 [].
Proof.
  exact (@q_create_holds_nothing example_codes os_ok None 4 0 0 Q.boot q_can_create_boot).
Defined.

Lemma q_send_appends_witness :
  exists w', @Q.q_send example_codes os_ok 1 (Some (9, 9, 9, 9)) w_one = (0, w') /\
             q_holds w' 1 0%nat 4 [(7, 7, 7, 7); (9, 9, 9, 9)].
Proof.
  exact (@q_send_appends example_codes os_ok w_one 1 0%nat 4 [(7, 7, 7, 7)] (9, 9, 9, 9)
           q_holds_w_one eq_refl).
Defined.

Lemma q_send_rejected_when_full_witness :
  exists w', @Q.q_send example_codes os_ok 1 (Some (9, 9, 9, 9)) w_three = (ERR_QFULL, w') /\
             q_holds w' 1 0%nat 4 [(1, 1, 1, 1); (2, 2, 2, 2); (3, 3, 3, 3)].
Proof.
  exact (@q_send_rejected_when_full example_codes os_ok w_three 1 0%nat 4
           [(1, 1, 1, 1); (2, 2, 2, 2); (3, 3, 3, 3)] (9, 9, 9, 9) q_holds_w_three eq_refl).
Defined.

Lemma q_receive_takes_oldest_witness :
  exists w',
    @Q.q_receive example_codes os_ok [] 1 Q.Q_WAIT 0 (Some (0, 0, 0, 0)) w_three
    = Returns (0, Some (1, 1, 1, 1), w') /\
    q_holds w' 1 0%nat 4 [(2, 2, 2, 2); (3, 3, 3, 3)].
Proof.
  exact (@q_receive_takes_oldest example_codes os_ok [] w_three 1 0%nat 4 (1, 1, 1, 1)
           [(2, 2, 2, 2); (3, 3, 3, 3)] Q.Q_WAIT 0 (0, 0, 0, 0) q_holds_w_three).
Defined.

Lemma q_receive_nowait_on_empty_witness :
  exists w',
    @Q.q_receive example_codes os_ok [] 1 Q.Q_NOWAIT 0 (Some (5, 5, 5, 5)) w_created
    = Returns (ERR_NOMSG, Some (5, 5, 5, 5), w') /\
    q_holds w' 1 0%nat 4 [] /\
    Q.sms w' = Q.sms w_created.
Proof.
  refine (@q_receive_nowait_on_empty example_codes os_ok [] w_created 1 0%nat 4 Q.Q_NOWAIT 0
            (5, 5, 5, 5) q_holds_w_created _).
  discriminate.
Defined.

Lemma q_urgent_goes_first_witness :
  exists w', @Q.q_urgent example_codes os_ok 1 (Some (9, 9, 9, 9)) w_one = (0, w') /\
             q_holds w' 1 0%nat 4 [(9, 9, 9, 9); (7, 7, 7, 7)].
Proof.
  exact (@q_urgent_goes_first example_codes os_ok w_one 1 0%nat 4 [(7, 7, 7, 7)] (9, 9, 9, 9)
           q_holds_w_one eq_refl).
Defined.

Lemma q_message_readers_witness :
  Q.q_message_count 0%nat (Q.qs w_three) = 3 /\
  Q.q_message_space 0%nat (Q.qs w_three) = 4 - 3 /\
  @Q.q_message_peek example_codes 0%nat (Some (0, 0, 0, 0)) (Q.qs w_three) = (0, Some (1, 1, 1, 1)).
Proof.
  exact (@q_message_readers example_codes w_three 1 0%nat 4
           [(1, 1, 1, 1); (2, 2, 2, 2); (3, 3, 3, 3)] (0, 0, 0, 0) q_holds_w_three).
Defined.

Lemma q_ident_finds_created_witness :
  exists qid w1 w2,
    @Q.q_create example_codes os_ok (Some (81, 49, 32, 32)) 4 0 (Some 0) Q.boot
    = (0, Some qid, w1) /\
    @Q.q_ident example_codes os_ok (81, 49, 32, 32) 0 (Some 0) w1 = (0, Some qid, w2).
Proof.
  exact (@q_ident_finds_created example_codes os_ok (81, 49, 32, 32) 4 0 0 Q.boot 0 0
           q_can_create_boot).
Defined.

(** * Further properties of the semaphore services *)

Lemma sm_get_upd_ne i j f s : i <> j -> Sm.get i (Sm.upd j f s) = Sm.get i s.
Proof. intros Hne. unfold Sm.get, Sm.upd. cbn. now rewrite list_lookup_insert_ne. Qed.

(** A field that [f] keeps is kept by [upd j f] in every block. *)
Lemma sm_get_upd_field {B} (p : Sm.SM_SCB -> B) i j f s :
  (forall t, p (f t) = p t) -> p (Sm.get i (Sm.upd j f s)) = p (Sm.get i s).
Proof.
  intros Hp. destruct (decide (i = j)) as [-> | Hne]; [| now rewrite sm_get_upd_ne].
  unfold Sm.get, Sm.upd. cbn.
  destruct (decide (j < length (Sm.semaphores s))%nat) as [Hlt | Hge].
  - rewrite list_lookup_insert_eq by exact Hlt. cbn. apply Hp.
  - rewrite list_insert_ge by lia. reflexivity.
Qed.

Lemma sm_length_upd j f s : length (Sm.semaphores (Sm.upd j f s)) = length (Sm.semaphores s).
Proof. unfold Sm.upd. cbn. apply length_insert. Qed.

Lemma sm_pool_find_ext smid s s' :
  Sm.active_list s' = Sm.active_list s ->
  (forall i, Sm.semaphore_id (Sm.get i s') = Sm.semaphore_id (Sm.get i s)) ->
  (forall i, Sm.magic (Sm.get i s') = Sm.magic (Sm.get i s)) ->
  Sm.sm_pool_find smid s' = Sm.sm_pool_find smid s.
Proof.
  intros Ha Hid Hm. unfold Sm.sm_pool_find. rewrite Ha. destruct (negb _); [reflexivity |].
  apply find_ext. intros i. unfold Sm.SM_IS_VALID_SCB. now rewrite Hid, Hm.
Qed.

(** [sm_sem] looks at the identifier, the magic and the state of the
    blocks only. *)
Lemma sm_sem_upd s smid scb j f :
  (forall t, Sm.semaphore_id (f t) = Sm.semaphore_id t) ->
  (forall t, Sm.magic (f t) = Sm.magic t) ->
  (forall t, Sm.state (f t) = Sm.state t) ->
  sm_sem s smid scb -> sm_sem (Sm.upd j f s) smid scb.
Proof.
  intros Hid Hm Hst (S1 & S2 & S3 & S4). unfold sm_sem. repeat split.
  - exact S1.
  - rewrite (sm_pool_find_ext smid s); [exact S2 | reflexivity | |].
    + intros i. now apply (sm_get_upd_field Sm.semaphore_id).
    + intros i. now apply (sm_get_upd_field Sm.magic).
  - now rewrite sm_length_upd.
  - rewrite (sm_get_upd_field Sm.state) by exact Hst. exact S4.
Qed.

Section SmMore.
Context `{ErrCodes}.

(** The statistics are kept apart from the rest of a block. *)
Lemma sm_update_statistics_field {B} (p : Sm.SM_SCB -> B) scb op wt s i :
  (forall v t, p (Sm.set_total_waits v t) = p t) ->
  (forall v t, p (Sm.set_max_wait_time v t) = p t) ->
  (forall v t, p (Sm.set_total_signals v t) = p t) ->
  (forall v t, p (Sm.set_total_timeouts v t) = p t) ->
  p (Sm.get i (Sm.sm_update_statistics scb op wt s)) = p (Sm.get i s).
Proof.
  intros H1 H2 H3 H4. unfold Sm.sm_update_statistics.
  destruct (negb _); [reflexivity |].
  destruct (op =? Sm.SM_STAT_WAIT).
  { apply sm_get_upd_field. intros t. cbv zeta. destruct (_ >? _); now rewrite ?H2, ?H1. }
  destruct (op =? Sm.SM_STAT_SIGNAL); [apply sm_get_upd_field; intros t; apply H3 |].
  destruct (op =? Sm.SM_STAT_TIMEOUT); [apply sm_get_upd_field; intros t; apply H4 |].
  reflexivity.
Qed.

Lemma sm_sem_update_statistics s smid scb j op wt :
  sm_sem s smid scb -> sm_sem (Sm.sm_update_statistics j op wt s) smid scb.
Proof.
  intros Hsem. unfold Sm.sm_update_statistics.
  destruct (negb _); [exact Hsem |].
  destruct (op =? Sm.SM_STAT_WAIT).
  { apply sm_sem_upd; try exact Hsem; intros t; cbv zeta; destruct (_ >? _); reflexivity. }
  destruct (op =? Sm.SM_STAT_SIGNAL);
    [apply sm_sem_upd; try exact Hsem; intros t; reflexivity |].
  destruct (op =? Sm.SM_STAT_TIMEOUT);
    [apply sm_sem_upd; try exact Hsem; intros t; reflexivity |].
  exact Hsem.
Qed.

Ltac sm_stat_field := apply sm_update_statistics_field; intros; reflexivity.

(** [sm_p] on a semaphore whose count is positive. *)
Lemma sm_p_available_step os during smid flags timeout s scb :
  sm_sem s smid scb ->
  0 < Sm.current_count (Sm.get scb s) ->
  exists s',
    Sm.sm_p os during smid flags timeout s = Returns (0, s') /\
    sm_sem s' smid scb /\
    Sm.current_count (Sm.get scb s') = Sm.current_count (Sm.get scb s) - 1 /\
    Sm.wait_queue (Sm.get scb s') = Sm.wait_queue (Sm.get scb s) /\
    Sm.wait_count (Sm.get scb s') = Sm.wait_count (Sm.get scb s) /\
    Sm.maximum_count (Sm.get scb s') = Sm.maximum_count (Sm.get scb s).
Proof.
  intros Hsem Hpos. pose proof Hsem as (S1 & S2 & S3 & S4).
  destruct (sm_pool_find_valid _ _ _ S2) as [_ Hvalid].
  unfold Sm.sm_p. rewrite sm_init_once_initialized by exact S1. cbn [snd].
  rewrite S2, S4. change (negb (Sm.SM_STATE_ACTIVE =? Sm.SM_STATE_ACTIVE)) with false.
  cbv iota. unfold Sm.sm_check_available, Sm.sm_decrement_count. rewrite Hvalid. cbn [negb].
  destruct (Z.gtb_spec (Sm.current_count (Sm.get scb s)) 0) as [_ | Hle]; [| lia].
  change (truthy 1) with true. cbv iota.
  destruct (Z.leb_spec (Sm.current_count (Sm.get scb s)) 0) as [Hle | _]; [lia |].
  eexists. split; [reflexivity |].
  split; [| split; [| split; [| split]]].
  - apply sm_sem_update_statistics. apply sm_sem_upd; try exact Hsem; intros t; reflexivity.
  - rewrite sm_update_statistics_field by (intros; reflexivity).
    rewrite sm_get_upd_same by exact S3. reflexivity.
  - rewrite sm_update_statistics_field by (intros; reflexivity).
    rewrite sm_get_upd_same by exact S3. reflexivity.
  - rewrite sm_update_statistics_field by (intros; reflexivity).
    rewrite sm_get_upd_same by exact S3. reflexivity.
  - rewrite sm_update_statistics_field by (intros; reflexivity).
    rewrite sm_get_upd_same by exact S3. reflexivity.
Qed.

(** [sm_v] on a semaphore with no waiting task and room under the
    ceiling. *)
Lemma sm_v_increment_step os smid s scb :
  sm_sem s smid scb ->
  Sm.wait_count (Sm.get scb s) = 0 ->
  Sm.current_count (Sm.get scb s) < to_LONG (Sm.maximum_count (Sm.get scb s)) ->
  exists s',
    Sm.sm_v os smid s = (0, s') /\
    sm_sem s' smid scb /\
    Sm.current_count (Sm.get scb s') = Sm.current_count (Sm.get scb s) + 1 /\
    Sm.wait_queue (Sm.get scb s') = Sm.wait_queue (Sm.get scb s) /\
    Sm.wait_count (Sm.get scb s') = 0 /\
    Sm.maximum_count (Sm.get scb s') = Sm.maximum_count (Sm.get scb s).
Proof.
  intros Hsem Hwait Hroom. pose proof Hsem as (S1 & S2 & S3 & S4).
  destruct (sm_pool_find_valid _ _ _ S2) as [_ Hvalid].
  unfold Sm.sm_v. rewrite sm_init_once_initialized by exact S1. cbn [snd].
  rewrite S2, S4, Hwait.
  change (negb (Sm.SM_STATE_ACTIVE =? Sm.SM_STATE_ACTIVE)) with false.
  change (0 >? 0) with false. cbv iota.
  unfold Sm.sm_increment_count. rewrite Hvalid. cbn [negb].
  destruct (Z.geb_spec (Sm.current_count (Sm.get scb s))
              (to_LONG (Sm.maximum_count (Sm.get scb s)))) as [Hge | _]; [lia |].
  cbn [Z.eqb negb].
  eexists. split; [reflexivity |].
  split; [| split; [| split; [| split]]].
  - apply sm_sem_update_statistics. apply sm_sem_upd; try exact Hsem; intros t; reflexivity.
  - rewrite sm_update_statistics_field by (intros; reflexivity).
    rewrite sm_get_upd_same by exact S3. reflexivity.
  - rewrite sm_update_statistics_field by (intros; reflexivity).
    rewrite sm_get_upd_same by exact S3. reflexivity.
  - rewrite sm_update_statistics_field by (intros; reflexivity).
    rewrite sm_get_upd_same by exact S3. exact Hwait.
  - rewrite sm_update_statistics_field by (intros; reflexivity).
    rewrite sm_get_upd_same by exact S3. reflexivity.
Qed.

(** X9: [sm_p] on an active semaphore whose count is positive returns 0
    at once, whatever the flags and the timeout, and takes one off the
    count; the tasks that wait are left as they are. *)
Theorem sm_p_takes_available os during smid flags timeout s scb :
  sm_sem s smid scb ->
  0 < Sm.current_count (Sm.get scb s) ->
  exists s',
    Sm.sm_p os during smid flags timeout s = Returns (0, s') /\
    sm_sem s' smid scb /\
    Sm.current_count (Sm.get scb s') = Sm.current_count (Sm.get scb s) - 1 /\
    Sm.wait_queue (Sm.get scb s') = Sm.wait_queue (Sm.get scb s).
Proof.
  intros Hsem Hpos.
  destruct (sm_p_available_step os during smid flags timeout s scb Hsem Hpos)
    as (s' & Hp & Hsem' & Hc & Hq & _).
  exists s'. auto.
Qed.

(** X10: [sm_p] with [SM_NOWAIT] on an active semaphore whose count is
    not positive returns [ERR_NOSEM] and changes nothing: the caller is
    not put on the wait queue. *)
Theorem sm_p_nowait_unavailable os during smid flags timeout s scb :
  sm_sem s smid scb ->
  Sm.current_count (Sm.get scb s) <= 0 ->
  Z.land flags Sm.SM_NOWAIT <> 0 ->
  Sm.sm_p os during smid flags timeout s = Returns (ERR_NOSEM, s).
Proof.
  intros (S1 & S2 & S3 & S4) Hle Hnw.
  destruct (sm_pool_find_valid _ _ _ S2) as [_ Hvalid].
  unfold Sm.sm_p. rewrite sm_init_once_initialized by exact S1. cbn [snd].
  rewrite S2, S4. change (negb (Sm.SM_STATE_ACTIVE =? Sm.SM_STATE_ACTIVE)) with false.
  cbv iota. unfold Sm.sm_check_available. rewrite Hvalid. cbn [negb].
  destruct (Z.gtb_spec (Sm.current_count (Sm.get scb s)) 0) as [Hgt | _]; [lia |].
  change (truthy 0) with false. cbv iota.
  assert (Ht : truthy (Z.land flags Sm.SM_NOWAIT) = true).
  { unfold truthy. now apply negb_true_iff, Z.eqb_neq. }
  now rewrite Ht.
Qed.

(** X11: on an active semaphore with no waiting task and a count that
    is not negative and below the ceiling, [sm_v] followed by [sm_p]
    both return 0 and bring the count back to what it was. *)
Theorem sm_v_then_sm_p_restores_count os during smid flags timeout s scb :
  sm_sem s smid scb ->
  Sm.wait_count (Sm.get scb s) = 0 ->
  0 <= Sm.current_count (Sm.get scb s) < to_LONG (Sm.maximum_count (Sm.get scb s)) ->
  exists s1 s2,
    Sm.sm_v os smid s = (0, s1) /\
    Sm.sm_p os during smid flags timeout s1 = Returns (0, s2) /\
    sm_sem s2 smid scb /\
    Sm.current_count (Sm.get scb s2) = Sm.current_count (Sm.get scb s).
Proof.
  intros Hsem Hwait Hc.
  destruct (sm_v_increment_step os smid s scb Hsem Hwait) as (s1 & Hv & Hsem1 & Hc1 & _);
    [lia |].
  destruct (sm_p_available_step os during smid flags timeout s1 scb Hsem1)
    as (s2 & Hp & Hsem2 & Hc2 & _); [lia |].
  exists s1, s2. split; [exact Hv |]. split; [exact Hp |]. split; [exact Hsem2 | lia].
Qed.


(** ** The wait queue *)

(** Where the walk of [sm_wait_queue_add] links the node in. *)
Lemma insert_by_priority_split node q :
  exists before after,
    q = before ++ after /\
    Sm.insert_by_priority node q = before ++ node :: after /\
    Forall (fun n => Sm.nd_priority n <= Sm.nd_priority node) before /\
    (forall a rest, after = a :: rest -> Sm.nd_priority node < Sm.nd_priority a).
Proof.
  induction q as [| c q IH]; cbn [Sm.insert_by_priority].
  - exists [], []. repeat split; [constructor | intros a rest Ha; discriminate Ha].
  - destruct (Z.leb_spec (Sm.nd_priority c) (Sm.nd_priority node)) as [Hle | Hgt].
    + destruct IH as (before & after & Hq & Hi & Hb & Ha).
      exists (c :: before), after.
      split; [now rewrite Hq |]. split; [now rewrite Hi |].
      split; [constructor; assumption | exact Ha].
    + exists [], (c :: q). repeat split; [constructor |].
      intros a rest [= <- _]. exact Hgt.
Qed.

Lemma insert_by_priority_sorted node q :
  StronglySorted (fun a b => Sm.nd_priority a <= Sm.nd_priority b) q ->
  StronglySorted (fun a b => Sm.nd_priority a <= Sm.nd_priority b)
                 (Sm.insert_by_priority node q).
Proof.
  induction q as [| c q IH]; intros Hs; cbn [Sm.insert_by_priority].
  - constructor; constructor.
  - apply StronglySorted_inv in Hs. destruct Hs as [Hq Hc].
    destruct (Z.leb_spec (Sm.nd_priority c) (Sm.nd_priority node)) as [Hle | Hgt].
    + constructor; [auto |].
      destruct (insert_by_priority_split node q) as (before & after & Eq & Ei & _).
      rewrite Ei. rewrite Eq in Hc. rewrite Forall_app in *. destruct Hc as [Hb Ha].
      split; [exact Hb | constructor; assumption].
    + constructor; [constructor; assumption |].
      constructor; [lia |]. rewrite Forall_forall in *. intros x Hx.
      specialize (Hc x Hx). cbn in *. lia.
Qed.

(** X12: [sm_wait_queue_add] on a valid block, when the host grants the
    node, returns 0 and counts the waiting task.  In FIFO mode the task
    goes to the end of the wait queue; in priority mode it goes before
    the first task of larger priority value, behind the tasks of its
    own priority value, and a queue in priority order stays so. *)
Theorem sm_wait_queue_add_order os scb tid prio s :
  Sm.SM_IS_VALID_SCB (Sm.get scb s) = true ->
  (scb < length (Sm.semaphores s))%nat ->
  malloc_ok os = true ->
  let node := Sm.mkNode tid prio 0 in
  let q := Sm.wait_queue (Sm.get scb s) in
  exists s',
    Sm.sm_wait_queue_add os scb tid prio s = (0, s') /\
    Sm.wait_count (Sm.get scb s') = incr (Sm.wait_count (Sm.get scb s)) /\
    (Sm.wait_mode (Sm.get scb s) <> Sm.SM_PRIOR ->
     Sm.wait_queue (Sm.get scb s') = q ++ [node]) /\
    (Sm.wait_mode (Sm.get scb s) = Sm.SM_PRIOR ->
     (exists before after,
        q = before ++ after /\
        Sm.wait_queue (Sm.get scb s') = before ++ node :: after /\
        Forall (fun n => Sm.nd_priority n <= prio) before /\
        (forall a rest, after = a :: rest -> prio < Sm.nd_priority a)) /\
     (StronglySorted (fun a b => Sm.nd_priority a <= Sm.nd_priority b) q ->
      StronglySorted (fun a b => Sm.nd_priority a <= Sm.nd_priority b)
                     (Sm.wait_queue (Sm.get scb s')))).
Proof.
  intros Hvalid Hlen Hmal node q.
  unfold Sm.sm_wait_queue_add. rewrite Hvalid, Hmal. cbn [negb].
  eexists. split; [reflexivity |].
  destruct (Z.eqb_spec (Sm.wait_mode (Sm.get scb s)) Sm.SM_PRIOR) as [Hp | Hf].
  - rewrite !sm_get_upd_same by (rewrite ?sm_length_upd; exact Hlen).
    cbn [Sm.wait_count Sm.wait_queue Sm.set_wait_count Sm.set_wait_queue].
    split; [reflexivity |]. split; [intros Hne; contradiction |]. intros _.
    fold q. fold node. split.
    + destruct (insert_by_priority_split node q) as (before & after & Eq & Ei & Hb & Ha).
      exists before, after. auto.
    + apply insert_by_priority_sorted.
  - rewrite !sm_get_upd_same by (rewrite ?sm_length_upd; exact Hlen).
    cbn [Sm.wait_count Sm.wait_queue Sm.set_wait_count Sm.set_wait_queue].
    split; [reflexivity |]. split; [intros _; reflexivity |]. intros Hp. contradiction.
Qed.

Lemma sm_hw_generic_signal_field {B} (p : Sm.SM_SCB -> B) os scb s i :
  (forall v t, p (Sm.set_hw_context v t) = p t) ->
  p (Sm.get i (snd (Sm.sm_hw_generic_signal_semaphore os scb s))) = p (Sm.get i s).
Proof.
  intros Hp. unfold Sm.sm_hw_generic_signal_semaphore.
  destruct (Sm.hw_context (Sm.get scb s)); [| reflexivity].
  destruct (_ >=? _); [reflexivity |]. destruct (negb _); [reflexivity |].
  cbn [snd].
  change (Sm.get i (Sm.st_hw_total_signals ?v ?x)) with (Sm.get i x).
  apply sm_get_upd_field. intros t. apply Hp.
Qed.

Lemma sm_sem_hw_generic_signal os j s smid scb :
  sm_sem s smid scb -> sm_sem (snd (Sm.sm_hw_generic_signal_semaphore os j s)) smid scb.
Proof.
  intros Hsem. unfold Sm.sm_hw_generic_signal_semaphore.
  destruct (Sm.hw_context (Sm.get j s)); [| exact Hsem].
  destruct (_ >=? _); [exact Hsem |]. destruct (negb _); [exact Hsem |].
  cbn [snd].
  match goal with
  | |- sm_sem (Sm.st_hw_total_signals _ (Sm.upd j ?f s)) _ _ =>
      pose proof (sm_sem_upd s smid scb j f
                    (fun _ => eq_refl) (fun _ => eq_refl) (fun _ => eq_refl) Hsem) as Hu
  end.
  exact Hu.
Qed.

(** X13: [sm_v] on an active semaphore on which tasks wait returns 0
    and takes the first task off the wait queue; the count is not
    raised. *)
Theorem sm_v_hands_over_to_first_waiter os smid s scb node rest :
  sm_sem s smid scb ->
  0 < Sm.wait_count (Sm.get scb s) ->
  Sm.wait_queue (Sm.get scb s) = node :: rest ->
  exists s',
    Sm.sm_v os smid s = (0, s') /\
    sm_sem s' smid scb /\
    Sm.wait_queue (Sm.get scb s') = rest /\
    Sm.wait_count (Sm.get scb s') = decr (Sm.wait_count (Sm.get scb s)) /\
    Sm.current_count (Sm.get scb s') = Sm.current_count (Sm.get scb s).
Proof.
  intros Hsem Hwait Hq. pose proof Hsem as (S1 & S2 & S3 & S4).
  destruct (sm_pool_find_valid _ _ _ S2) as [_ Hvalid].
  unfold Sm.sm_v. rewrite sm_init_once_initialized by exact S1. cbn [snd].
  rewrite S2, S4. change (negb (Sm.SM_STATE_ACTIVE =? Sm.SM_STATE_ACTIVE)) with false.
  cbv iota.
  destruct (Z.gtb_spec (Sm.wait_count (Sm.get scb s)) 0) as [_ | Hle]; [| lia].
  unfold Sm.sm_wait_queue_get_next. rewrite Hvalid, Hq. cbn [negb snd].
  set (s1 := Sm.upd scb _ s).
  assert (Hsem1 : sm_sem s1 smid scb)
    by (apply sm_sem_upd; try exact Hsem; intros t; reflexivity).
  assert (G1 : Sm.get scb s1
               = Sm.set_wait_count (decr (Sm.wait_count (Sm.get scb s)))
                   (Sm.set_wait_queue rest (Sm.get scb s))).
  { unfold s1. now rewrite sm_get_upd_same. }
  assert (Hres : exists s2,
            (match Sm.hw_ops s1 with
             | Some Sm.sm_hw_generic_ops =>
                 (0, snd (Sm.sm_hw_generic_signal_semaphore os scb s1))
             | None => (0, s1)
             end) = (0, s2) /\
            sm_sem s2 smid scb /\
            Sm.wait_queue (Sm.get scb s2) = rest /\
            Sm.wait_count (Sm.get scb s2) = decr (Sm.wait_count (Sm.get scb s)) /\
            Sm.current_count (Sm.get scb s2) = Sm.current_count (Sm.get scb s)).
  { destruct (Sm.hw_ops s1) as [[] |].
    - eexists. split; [reflexivity |].
      split; [now apply sm_sem_hw_generic_signal |].
      rewrite !sm_hw_generic_signal_field by (intros; reflexivity).
      rewrite G1. repeat split.
    - exists s1. split; [reflexivity |]. split; [exact Hsem1 |].
      rewrite G1. repeat split. }
  destruct Hres as (s2 & -> & Hsem2 & Hq2 & Hw2 & Hc2). cbn [Z.eqb negb].
  eexists. split; [reflexivity |].
  split; [now apply sm_sem_update_statistics |].
  rewrite !sm_update_statistics_field by (intros; reflexivity). auto.
Qed.


(** ** Creation and identification *)

Lemma sm_create_ok_full os name count flags x s :
  sm_can_create os count flags s ->
  let s0 := snd (Sm.sm_init_once s) in
  exists smid scb s1,
    Sm.sm_create os name count flags (Some x) s = (0, Some smid, s1) /\
    sm_sem s1 smid scb /\
    Sm.current_count (Sm.get scb s1) = to_LONG count /\
    Sm.maximum_count (Sm.get scb s1)
    = (if truthy (Z.land flags Sm.SM_PRIOR) then Sm.SM_MAX_COUNT else 8) /\
    Sm.wait_queue (Sm.get scb s1) = [] /\
    Sm.wait_count (Sm.get scb s1) = 0 /\
    Sm.wait_mode (Sm.get scb s1)
    = (if truthy (Z.land flags Sm.SM_PRIOR) then Sm.SM_PRIOR else Sm.SM_FIFO) /\
    Sm.name (Sm.get scb s1) = Sm.sm_name_copy name /\
    Sm.active_list s1 = scb :: Sm.active_list s0 /\
    smid = Sm.next_id s0.
Proof.
  unfold sm_can_create.
  intros (Hc & Hf & (scb & rest & Hfree & Hlen) & Hid & Hmal & Hsync).
  cbv zeta.
  assert (Hi0 : Sm.initialized (snd (Sm.sm_init_once s)) <> 0).
  { unfold Sm.sm_init_once. destruct (truthy (Sm.initialized s)) eqn:E; cbn [snd].
    - unfold truthy in E. apply negb_true_iff, Z.eqb_neq in E. exact E.
    - discriminate. }
  assert (He : fst (Sm.sm_init_once s) = 0).
  { unfold Sm.sm_init_once. now destruct (truthy _). }
  unfold Sm.sm_create.
  destruct (Sm.sm_init_once s) as [e s0]. cbn [fst snd] in *. subst e. cbn [Z.eqb negb].
  unfold Sm.sm_validate_count, Sm.sm_validate_flags. rewrite Hc, Hf. cbn [Z.eqb negb].
  unfold Sm.sm_pool_alloc. rewrite Hfree. unfold Sm.sm_generate_id. cbv beta iota zeta.
  set (smid := Sm.next_id (Sm.st_active_count _ (Sm.st_free_list rest s0))).
  assert (Esmid : smid = Sm.next_id s0) by reflexivity.
  match goal with
  | |- context [Sm.st_active_list (scb :: ?l) (Sm.upd scb ?f ?x)] =>
      set (sa := Sm.st_active_list (scb :: l) (Sm.upd scb f x))
  end.
  assert (La : (scb < length (Sm.semaphores sa))%nat).
  { unfold sa. cbn. rewrite length_insert. destruct (_ =? 0); exact Hlen. }
  assert (Ga : Sm.get scb sa
               = Sm.mkSCB Sm.SM_POOL_MAGIC smid Sm.name_zero Sm.SM_STATE_ACTIVE 0 0 0 0 [] 0
                          0 0 0 0 0 None).
  { unfold sa, Sm.get. cbn. rewrite list_lookup_insert_eq; [reflexivity |].
    destruct (_ =? 0); exact Hlen. }
  assert (Aa : Sm.active_list sa = scb :: Sm.active_list s0).
  { unfold sa. cbn. destruct (_ =? 0); reflexivity. }
  assert (Ia : Sm.initialized sa = Sm.initialized s0).
  { unfold sa. cbn. destruct (_ =? 0); reflexivity. }
  clearbody sa.
  set (sb := Sm.upd scb _ sa).
  assert (Lb : (scb < length (Sm.semaphores sb))%nat) by (unfold sb; now rewrite sm_length_upd).
  assert (Gb : Sm.get scb sb
               = Sm.mkSCB Sm.SM_POOL_MAGIC smid (Sm.sm_name_copy name) Sm.SM_STATE_ACTIVE flags
                   (to_LONG count) count
                   (if truthy (Z.land flags Sm.SM_PRIOR) then Sm.SM_MAX_COUNT else 8) [] 0
                   (if truthy (Z.land flags Sm.SM_PRIOR) then Sm.SM_PRIOR else Sm.SM_FIFO)
                   0 0 0 0 None).
  { unfold sb. rewrite sm_get_upd_same by exact La. rewrite Ga. reflexivity. }
  assert (Hfin : forall sc,
            Sm.initialized sc = Sm.initialized s0 ->
            Sm.active_list sc = scb :: Sm.active_list s0 ->
            (scb < length (Sm.semaphores sc))%nat ->
            (exists h, Sm.get scb sc = Sm.set_hw_context h (Sm.get scb sb)) ->
            sm_sem sc smid scb /\
            Sm.current_count (Sm.get scb sc) = to_LONG count /\
            Sm.maximum_count (Sm.get scb sc)
            = (if truthy (Z.land flags Sm.SM_PRIOR) then Sm.SM_MAX_COUNT else 8) /\
            Sm.wait_queue (Sm.get scb sc) = [] /\
            Sm.wait_count (Sm.get scb sc) = 0 /\
            Sm.wait_mode (Sm.get scb sc)
            = (if truthy (Z.land flags Sm.SM_PRIOR) then Sm.SM_PRIOR else Sm.SM_FIFO) /\
            Sm.name (Sm.get scb sc) = Sm.sm_name_copy name /\
            Sm.active_list sc = scb :: Sm.active_list s0 /\
            smid = Sm.next_id s0).
  { intros sc Hi Ha Hl (h & Hg). rewrite Hg, Gb.
    cbn [Sm.current_count Sm.maximum_count Sm.wait_queue Sm.wait_count Sm.wait_mode Sm.name
         Sm.set_hw_context].
    repeat split; try assumption; try reflexivity.
    - now rewrite Hi.
    - unfold Sm.sm_pool_find, Sm.SM_IS_VALID_ID, Sm.SM_INVALID_ID.
      destruct (Z.eqb_spec smid 0) as [E | _]; [lia |]. cbn [negb].
      rewrite Ha. cbn [List.find]. rewrite Hg, Gb. cbn.
      now rewrite Z.eqb_refl.
    - rewrite Hg, Gb. reflexivity. }
  change (Sm.hw_ops sb) with (Sm.hw_ops sa).
  destruct (Sm.hw_ops sa) as [[] |].
  - unfold Sm.sm_hw_generic_create_semaphore. rewrite Hmal, Hsync. cbn [negb Z.eqb].
    exists smid, scb. eexists. split.
    { change (Sm.get scb (Sm.st_hw_total_created ?u ?y)) with (Sm.get scb y).
      rewrite sm_get_upd_same by exact Lb. rewrite Gb. reflexivity. }
    apply Hfin.
    + exact Ia.
    + exact Aa.
    + cbn. rewrite length_insert. exact Lb.
    + eexists.
      change (Sm.get scb (Sm.st_total_created ?v (Sm.st_hw_total_created ?u ?y)))
        with (Sm.get scb y).
      rewrite sm_get_upd_same by exact Lb. reflexivity.
  - cbn [negb Z.eqb]. exists smid, scb. eexists. split.
    { rewrite Gb. reflexivity. }
    apply Hfin.
    + exact Ia.
    + exact Aa.
    + exact Lb.
    + exists None.
      change (Sm.get scb (Sm.st_total_created ?v ?y)) with (Sm.get scb y).
      rewrite Gb. reflexivity.
Qed.

(** X14: [sm_create (name, count, flags, &smid)] with a valid count and
    valid flags, a free control block and a willing host returns 0 and
    an identifier of an active semaphore with the count asked for and
    no waiting task.  Its ceiling is 8, or [SM_MAX_COUNT] with
    [SM_PRIOR], whatever the count: a FIFO semaphore created with a
    count above 8 starts above its ceiling. *)
Theorem sm_create_makes_semaphore os name count flags x s :
  sm_can_create os count flags s ->
  exists smid scb s1,
    Sm.sm_create os name count flags (Some x) s = (0, Some smid, s1) /\
    sm_sem s1 smid scb /\
    Sm.current_count (Sm.get scb s1) = to_LONG count /\
    Sm.maximum_count (Sm.get scb s1)
    = (if truthy (Z.land flags Sm.SM_PRIOR) then Sm.SM_MAX_COUNT else 8) /\
    Sm.wait_queue (Sm.get scb s1) = [] /\
    Sm.wait_count (Sm.get scb s1) = 0.
Proof.
  intros Hcan.
  destruct (sm_create_ok_full os name count flags x s Hcan)
    as (smid & scb & s1 & Hcr & Hsem & Hc & Hm & Hq & Hw & _).
  exists smid, scb, s1. auto 10.
Qed.

Lemma sm_name_compare_refl n : Sm.sm_name_compare n n = 1.
Proof.
  destruct n as [[[a0 a1] a2] a3]. unfold Sm.sm_name_compare. now rewrite !Z.eqb_refl.
Qed.

(** X15: after [sm_create (name, ...)] has returned the identifier
    [smid], [sm_ident (name, node, &smid')] returns 0 and [smid], also
    when older semaphores carry the same name. *)
Theorem sm_ident_finds_created os name count flags x s node y :
  sm_can_create os count flags s ->
  exists smid s1,
    Sm.sm_create os (Some name) count flags (Some x) s = (0, Some smid, s1) /\
    Sm.sm_ident name node (Some y) s1 = (0, Some smid, s1).
Proof.
  intros Hcan.
  destruct (sm_create_ok_full os (Some name) count flags x s Hcan)
    as (smid & scb & s1 & Hcr & Hsem & _ & _ & _ & _ & _ & Hname & Hact & _).
  exists smid, s1. split; [exact Hcr |].
  destruct Hsem as (S1 & S2 & S3 & S4).
  destruct (sm_pool_find_valid _ _ _ S2) as [Hid Hvalid].
  unfold Sm.sm_ident. rewrite sm_init_once_initialized by exact S1. cbn [snd].
  unfold Sm.sm_pool_find_by_name. rewrite Hact. cbn [List.find].
  rewrite Hvalid, Hname. cbn [Sm.sm_name_copy]. rewrite sm_name_compare_refl.
  change (truthy 1) with true. cbn [andb]. rewrite Hid. reflexivity.
Qed.

End SmMore.

(** ** The theorems on the semaphores of the examples *)

Ltac sm_sem_by_computation :=
  unfold sm_sem; vm_compute; repeat split; try discriminate; try reflexivity; lia.

Lemma sm_sem_sm_two : sm_sem sm_two 1 0%nat.
Proof. sm_sem_by_computation. Qed.

Lemma sm_sem_sm_zero : sm_sem sm_zero 1 0%nat.
Proof. sm_sem_by_computation. Qed.

Lemma sm_sem_sm_waited : sm_sem sm_waited 1 0%nat.
Proof. sm_sem_by_computation. Qed.

Lemma sm_can_create_boot : @sm_can_create example_codes os_ok 2 Sm.SM_FIFO Sm.sm_boot.
Proof.
  unfold sm_can_create. vm_compute.
  repeat split; try reflexivity; try discriminate; try lia.
  eexists. eexists. split; [reflexivity | lia].
Qed.

Lemma sm_p_takes_available_witness :
  exists s',
    @Sm.sm_p example_codes os_ok [] 1 Sm.SM_WAIT 0 sm_two = Returns (0, s') /\
    sm_sem s' 1 0%nat /\
    Sm.current_count (Sm.get 0%nat s') = Sm.current_count (Sm.get 0%nat sm_two) - 1 /\
    Sm.wait_queue (Sm.get 0%nat s') = Sm.wait_queue (Sm.get 0%nat sm_two).
Proof.
  exact (@sm_p_takes_available example_codes os_ok [] 1 Sm.SM_WAIT 0 sm_two 0%nat
           sm_sem_sm_two eq_refl).
Defined.

Lemma sm_p_nowait_unavailable_witness :
  @Sm.sm_p example_codes os_ok [] 1 Sm.SM_NOWAIT 0 sm_zero = Returns (ERR_NOSEM, sm_zero).
Proof.
  refine (@sm_p_nowait_unavailable example_codes os_ok [] 1 Sm.SM_NOWAIT 0 sm_zero 0%nat
            sm_sem_sm_zero _ _).
  - vm_compute. discriminate.
  - discriminate.
Defined.

Lemma sm_v_then_sm_p_restores_count_witness :
  exists s1 s2,
    @Sm.sm_v example_codes os_ok 1 sm_two = (0, s1) /\
    @Sm.sm_p example_codes os_ok [] 1 Sm.SM_WAIT 0 s1 = Returns (0, s2) /\
    sm_sem s2 1 0%nat /\
    Sm.current_count (Sm.get 0%nat s2) = Sm.current_count (Sm.get 0%nat sm_two).
Proof.
  refine (@sm_v_then_sm_p_restores_count example_codes os_ok [] 1 Sm.SM_WAIT 0 sm_two 0%nat
            sm_sem_sm_two eq_refl _).
  vm_compute. split; [discriminate | reflexivity].
Defined.

Lemma sm_wait_queue_add_order_witness :
  exists s',
    @Sm.sm_wait_queue_add example_codes os_ok 0 9 128 sm_waited = (0, s') /\
    Sm.wait_count (Sm.get 0%nat s') = incr (Sm.wait_count (Sm.get 0%nat sm_waited)) /\
    Sm.wait_queue (Sm.get 0%nat s')
    = Sm.wait_queue (Sm.get 0%nat sm_waited) ++ [Sm.mkNode 9 128 0].
Proof.
  destruct (@sm_wait_queue_add_order example_codes os_ok 0%nat 9 128 sm_waited)
    as (s' & Ha & Hc & Hf & _).
  - reflexivity.
  - vm_compute. lia.
  - reflexivity.
  - exists s'. split; [exact Ha |]. split; [exact Hc |]. apply Hf. vm_compute. discriminate.
Defined.

Lemma sm_v_hands_over_to_first_waiter_witness :
  exists s',
    @Sm.sm_v example_codes os_ok 1 sm_waited = (0, s') /\
    sm_sem s' 1 0%nat /\
    Sm.wait_queue (Sm.get 0%nat s') = [] /\
    Sm.wait_count (Sm.get 0%nat s') = decr (Sm.wait_count (Sm.get 0%nat sm_waited)) /\
    Sm.current_count (Sm.get 0%nat s') = Sm.current_count (Sm.get 0%nat sm_waited).
Proof.
  exact (@sm_v_hands_over_to_first_waiter example_codes os_ok 1 sm_waited 0%nat
           (Sm.mkNode 7 128 0) [] sm_sem_sm_waited eq_refl eq_refl).
Defined.

Lemma sm_create_makes_semaphore_witness :
  exists smid scb s1,
    @Sm.sm_create example_codes os_ok None 2 Sm.SM_FIFO (Some 0) Sm.sm_boot
    = (0, Some smid, s1) /\
    sm_sem s1 smid scb /\
    Sm.current_count (Sm.get scb s1) = to_LONG 2 /\
    Sm.maximum_count (Sm.get scb s1)
    = (if truthy (Z.land Sm.SM_FIFO Sm.SM_PRIOR) then Sm.SM_MAX_COUNT else 8) /\
    Sm.wait_queue (Sm.get scb s1) = [] /\
    Sm.wait_count (Sm.get scb s1) = 0.
Proof.
  exact (@sm_create_makes_semaphore example_codes os_ok None 2 Sm.SM_FIFO 0 Sm.sm_boot
           sm_can_create_boot).
Defined.

Lemma sm_ident_finds_created_witness :
  exists smid s1,
    @Sm.sm_create example_codes os_ok (Some (83, 49, 32, 32)) 2 Sm.SM_FIFO (Some 0) Sm.sm_boot
    = (0, Some smid, s1) /\
    @Sm.sm_ident example_codes (83, 49, 32, 32) 0 (Some 0) s1 = (0, Some smid, s1).
Proof.
  exact (@sm_ident_finds_created example_codes os_ok (83, 49, 32, 32) 2 Sm.SM_FIFO 0
           Sm.sm_boot 0 0 sm_can_create_boot).
Defined.

(** * Further properties of the timer services *)

Lemma tm_get_upd_same i f s :
  (i < length (Tm.timers s))%nat -> Tm.get i (Tm.upd i f s) = f (Tm.get i s).
Proof. intros Hi. unfold Tm.get, Tm.upd. cbn. now rewrite list_lookup_insert_eq. Qed.

Lemma tm_length_upd j f s : length (Tm.timers (Tm.upd j f s)) = length (Tm.timers s).
Proof. unfold Tm.upd. cbn. apply length_insert. Qed.

(** The walk of [tm_list_insert] reads the expiration ticks only. *)
Lemma insert_sorted_ext s s' tcb l :
  (forall i, Tm.expire_ticks (Tm.get i s') = Tm.expire_ticks (Tm.get i s)) ->
  Tm.insert_sorted s' tcb l = Tm.insert_sorted s tcb l.
Proof.
  intros He. induction l as [| c l IH]; cbn [Tm.insert_sorted]; [reflexivity |].
  rewrite !He, IH. reflexivity.
Qed.

Lemma filter_insert_sorted s tcb l :
  tcb ∉ l -> filter (fun i => i <> tcb) (Tm.insert_sorted s tcb l) = l.
Proof.
  induction l as [| c l IH]; intros Hout; cbn [Tm.insert_sorted].
  - rewrite filter_cons_False by (intros Hne; now apply Hne). reflexivity.
  - apply not_elem_of_cons in Hout. destruct Hout as [Hne Hout].
    destruct (_ <=? _).
    + rewrite filter_cons_True by congruence. now rewrite IH.
    + rewrite filter_cons_False by (intros Hn; now apply Hn).
      rewrite filter_cons_True by congruence. f_equal.
      clear IH. induction l as [| d l IHl]; [reflexivity |].
      apply not_elem_of_cons in Hout. destruct Hout as [Hd Hout].
      rewrite filter_cons_True by congruence. now rewrite IHl.
Qed.

Section TmMore.
Context `{ErrCodes}.

Lemma tm_init_once_initialized s : Tm.initialized s <> 0 -> Tm.tm_init_once s = (0, s).
Proof.
  intros Hi. unfold Tm.tm_init_once.
  assert (Ht : truthy (Tm.initialized s) = true).
  { unfold truthy. now apply negb_true_iff, Z.eqb_neq. }
  now rewrite Ht.
Qed.

(** A relative timer is created: what [tm_create_timer] makes of the
    pool for the types [TM_TYPE_ONESHOT] and [TM_TYPE_PERIODIC]. *)
Lemma tm_create_relative_ok env type action ticks events x s tcb :
  tm_can_create s tcb ->
  type = Tm.TM_TYPE_ONESHOT \/ type = Tm.TM_TYPE_PERIODIC ->
  exists s1,
    Tm.tm_create_timer env type action ticks events 0 0 (Some x) s
    = (0, Some (Tm.next_id s), Tm.tm_schedule_next s1, s1) /\
    Tm.get tcb s1
    = Tm.mkTCB Tm.TM_POOL_MAGIC (Tm.next_id s) Tm.TM_STATE_ACTIVE type action
        (Tm.tick_count (Tm.systime s)) ticks
        (wrap (Tm.tick_count (Tm.systime s) + ticks))
        (if type =? Tm.TM_TYPE_PERIODIC then ticks else 0) 0 0 0
        (Tm.t_ident_value env) events /\
    (forall i, i <> tcb -> Tm.get i s1 = Tm.get i s) /\
    Tm.active_list s1 = Tm.insert_sorted s1 tcb (Tm.active_list s) /\
    Tm.free_list s1 = tail (Tm.free_list s) /\
    Tm.free_count s1 = Tm.free_count s - 1 /\
    Tm.systime s1 = Tm.systime s /\
    Tm.initialized s1 = Tm.initialized s /\
    Tm.hw_ops s1 = Tm.hw_ops s /\
    length (Tm.timers s1) = length (Tm.timers s).
Proof.
  intros (Hi & (rest & Hfl) & Hfc & Hlen & Hout & Hid & Hids) Htype.
  unfold Tm.tm_create_timer. rewrite tm_init_once_initialized by exact Hi.
  cbn [Z.eqb negb]. unfold Tm.tm_pool_alloc.
  destruct (Z.eqb_spec (Tm.free_count s) 0) as [E | _]; [lia |].
  rewrite Hfl. unfold Tm.tm_generate_id. cbv beta iota zeta.
  match goal with
  | |- context [Tm.upd tcb (fun _ => ?t0) ?x] => set (sa := Tm.upd tcb (fun _ => t0) x)
  end.
  assert (La : length (Tm.timers sa) = length (Tm.timers s)).
  { unfold sa. rewrite tm_length_upd. destruct (_ =? 0); reflexivity. }
  assert (Ga : Tm.get tcb sa
               = Tm.mkTCB Tm.TM_POOL_MAGIC (Tm.next_id s) Tm.TM_STATE_ACTIVE 0 0 0 0 0 0 0 0 0 0 0).
  { unfold sa. rewrite tm_get_upd_same; [reflexivity |]. destruct (_ =? 0); exact Hlen. }
  assert (Oa : forall i, i <> tcb -> Tm.get i sa = Tm.get i s).
  { intros i Hne. unfold sa. rewrite tm_get_upd_ne by exact Hne.
    destruct (_ =? 0); reflexivity. }
  assert (Aa : Tm.active_list sa = Tm.active_list s) by (unfold sa; destruct (_ =? 0); reflexivity).
  assert (Fa : Tm.free_list sa = rest) by (unfold sa; destruct (_ =? 0); reflexivity).
  assert (Ca : Tm.free_count sa = decr (Tm.free_count s))
    by (unfold sa; destruct (_ =? 0); reflexivity).
  assert (Ta : Tm.systime sa = Tm.systime s) by (unfold sa; destruct (_ =? 0); reflexivity).
  assert (Ia : Tm.initialized sa = Tm.initialized s)
    by (unfold sa; destruct (_ =? 0); reflexivity).
  assert (Ha : Tm.hw_ops sa = Tm.hw_ops s) by (unfold sa; destruct (_ =? 0); reflexivity).
  clearbody sa.
  assert (Hor : (type =? Tm.TM_TYPE_ONESHOT) || (type =? Tm.TM_TYPE_PERIODIC) = true).
  { destruct Htype as [-> | ->]; reflexivity. }
  rewrite Hor.
  set (sb := Tm.upd tcb _ sa).
  set (sc := Tm.upd tcb _ sb).
  assert (Lb : (tcb < length (Tm.timers sb))%nat)
    by (unfold sb; rewrite tm_length_upd, La; exact Hlen).
  assert (Gc : Tm.get tcb sc
               = Tm.mkTCB Tm.TM_POOL_MAGIC (Tm.next_id s) Tm.TM_STATE_ACTIVE type action
                   (Tm.tick_count (Tm.systime s)) ticks
                   (wrap (Tm.tick_count (Tm.systime s) + ticks))
                   (if type =? Tm.TM_TYPE_PERIODIC then ticks else 0) 0 0 0
                   (Tm.t_ident_value env) events).
  { unfold sc. rewrite tm_get_upd_same by exact Lb.
    unfold sb. rewrite tm_get_upd_same by (rewrite La; exact Hlen). rewrite Ga.
    unfold Tm.TM_GET_CURRENT_TICKS. rewrite Ta. reflexivity. }
  assert (Oc : forall i, i <> tcb -> Tm.get i sc = Tm.get i s).
  { intros i Hne. unfold sc, sb. rewrite !tm_get_upd_ne by exact Hne. now apply Oa. }
  unfold Tm.tm_list_insert.
  assert (Hv : Tm.TM_IS_VALID_TCB (Tm.get tcb sc) = true) by (rewrite Gc; reflexivity).
  rewrite Hv. cbn [negb].
  change (Tm.active_list sc) with (Tm.active_list sa). rewrite Aa.
  set (sd := Tm.st_active_list _ sc).
  assert (Gd : forall i, Tm.get i sd = Tm.get i sc) by reflexivity.
  exists sd. split.
  { rewrite Gd, Gc. reflexivity. }
  split; [now rewrite Gd |]. split; [intros i Hne; rewrite Gd; now apply Oc |].
  split.
  { unfold sd at 1. cbn [Tm.active_list Tm.st_active_list].
    symmetry. apply insert_sorted_ext. intros i. now rewrite Gd. }
  split; [change (Tm.free_list sd) with (Tm.free_list sa); rewrite Fa; reflexivity |].
  split.
  { change (Tm.free_count sd) with (Tm.free_count sa). rewrite Ca. unfold decr.
    apply wrap_id. lia. }
  split; [exact Ta |]. split; [exact Ia |]. split; [exact Ha |].
  change (length (Tm.timers sd)) with (length (Tm.timers sc)).
  unfold sc, sb. now rewrite !tm_length_upd.
Qed.


Lemma find_insert_sorted (f : nat -> bool) s tcb l :
  Forall (fun i => f i = false) l -> f tcb = true ->
  List.find f (Tm.insert_sorted s tcb l) = Some tcb.
Proof.
  intros Hl Ht. induction Hl as [| c l Hc Hl IH]; cbn [Tm.insert_sorted List.find].
  - now rewrite Ht.
  - destruct (_ <=? _); cbn [List.find].
    + now rewrite Hc.
    + now rewrite Ht.
Qed.

(** X16: a timer that [tm_evafter] has just created is taken back by
    [tm_cancel] on its identifier: both return 0, and the active list,
    the free chain with its count, the clock and the other blocks are
    what they were before the creation; the block of the timer is
    zeroed. *)
Theorem tm_evafter_then_cancel env ticks events x s tcb :
  tm_can_create s tcb ->
  ticks <> 0 ->
  exists tmid calls s1 calls' s2,
    Tm.tm_evafter env ticks events (Some x) s = (0, Some tmid, calls, s1) /\
    Tm.tm_cancel tmid s1 = (0, calls', s2) /\
    Tm.active_list s2 = Tm.active_list s /\
    Tm.free_list s2 = Tm.free_list s /\
    Tm.free_count s2 = Tm.free_count s /\
    Tm.systime s2 = Tm.systime s /\
    (forall i, i <> tcb -> Tm.get i s2 = Tm.get i s) /\
    Tm.get tcb s2 = Tm.tcb_zero.
Proof.
  intros Hcan Hticks.
  destruct (tm_create_relative_ok env Tm.TM_TYPE_ONESHOT Tm.TM_ACTION_EVENT ticks events x
              s tcb Hcan (or_introl eq_refl))
    as (s1 & Hcr & G1 & O1 & A1 & F1 & C1 & T1 & I1 & H1 & L1).
  destruct Hcan as (Hi & (rest & Hfl) & Hfc & Hlen & Hout & Hid & Hids).
  exists (Tm.next_id s), (Tm.tm_schedule_next s1), s1.
  assert (Hev : Tm.tm_evafter env ticks events (Some x) s
                = (0, Some (Tm.next_id s), Tm.tm_schedule_next s1, s1)).
  { unfold Tm.tm_evafter, Tm.tm_validate_inputs.
    destruct (Z.eqb_spec ticks 0) as [E | _]; [contradiction |]. exact Hcr. }
  (* the search of [tm_cancel] stops at the new block *)
  assert (Hfind : Tm.tm_pool_find (Tm.next_id s) s1 = Some tcb).
  { unfold Tm.tm_pool_find, Tm.TM_INVALID_ID.
    destruct (Z.eqb_spec (Tm.next_id s) 0) as [E | _]; [lia |].
    rewrite A1. apply find_insert_sorted.
    - rewrite Forall_forall in *. intros i Hin.
      assert (Hne : i <> tcb) by (intros ->; contradiction).
      rewrite (O1 i Hne). apply andb_false_iff. left. apply Z.eqb_neq. now apply Hids.
    - rewrite G1. cbn. now rewrite Z.eqb_refl. }
  unfold Tm.tm_cancel. rewrite tm_init_once_initialized by (rewrite I1; exact Hi).
  cbn [snd]. rewrite Hfind.
  set (sa := Tm.upd tcb (Tm.set_state Tm.TM_STATE_CANCELLED) s1).
  assert (La : (tcb < length (Tm.timers sa))%nat)
    by (unfold sa; rewrite tm_length_upd, L1; exact Hlen).
  assert (Ga : Tm.get tcb sa = Tm.set_state Tm.TM_STATE_CANCELLED (Tm.get tcb s1)).
  { unfold sa. rewrite tm_get_upd_same by (rewrite L1; exact Hlen). reflexivity. }
  assert (Hva : Tm.TM_IS_VALID_TCB (Tm.get tcb sa) = true) by (rewrite Ga, G1; reflexivity).
  unfold Tm.tm_pool_free. rewrite Hva. cbn [negb snd].
  unfold Tm.tm_list_remove. rewrite Hva. cbn [negb].
  change (Tm.active_list sa) with (Tm.active_list s1).
  assert (Hin : tcb ∈ Tm.active_list s1).
  { rewrite A1. apply elem_of_insert_sorted. now left. }
  rewrite (bool_decide_eq_true_2 _ Hin).
  assert (Hfilt : filter (fun i => i <> tcb) (Tm.active_list s1) = Tm.active_list s)
    by (rewrite A1; apply filter_insert_sorted; exact Hout).
  rewrite Hfilt.
  set (sb := Tm.upd tcb (fun _ => Tm.tcb_zero) (Tm.st_active_list (Tm.active_list s) sa)).
  eexists. eexists. split; [exact Hev |]. split; [reflexivity |].
  match goal with |- Tm.active_list ?S = _ /\ _ => set (sf := S) end.
  assert (Gf : forall i, Tm.get i sf = Tm.get i sb) by reflexivity.
  split; [reflexivity |].
  split.
  { change (Tm.free_list sf) with (tcb :: Tm.free_list s1). rewrite F1, Hfl. reflexivity. }
  split.
  { change (Tm.free_count sf) with (incr (Tm.free_count s1)). rewrite C1. unfold incr.
    replace (Tm.free_count s - 1 + 1) with (Tm.free_count s) by lia. apply wrap_id. lia. }
  split; [exact T1 |].
  split.
  - intros i Hne. rewrite Gf. unfold sb. rewrite tm_get_upd_ne by exact Hne.
    change (Tm.get i (Tm.st_active_list (Tm.active_list s) sa)) with (Tm.get i sa).
    unfold sa. rewrite tm_get_upd_ne by exact Hne. now apply O1.
  - rewrite Gf. unfold sb. rewrite tm_get_upd_same by exact La. reflexivity.
Qed.


(** ** One timer under the tick *)

Lemma tm_time_update_tick_count s :
  Tm.tick_count (Tm.systime (Tm.tm_time_update s)) = incr (Tm.tick_count (Tm.systime s)).
Proof.
  unfold Tm.tm_time_update. cbv zeta. cbn [Tm.systime Tm.st_systime Tm.ticks Tm.ticks_per_sec].
  destruct (_ >=? _); [| reflexivity].
  cbn [Tm.time]. destruct (_ >=? _); reflexivity.
Qed.

Lemma tm_process_expired_none fuel s :
  Tm.tm_list_get_expired s = None ->
  exists fin, Tm.tm_process_expired fuel s = (0, [], s, fin).
Proof.
  intros Hn. destruct fuel; cbn [Tm.tm_process_expired]; rewrite Hn; eexists; reflexivity.
Qed.

(** A tick before the timer is due. *)
Lemma tm_tick_idle fuel s tcb now t :
  tm_one_timer s tcb now t ->
  0 <= now -> now + 1 < Tm.expire_ticks t -> now + 1 <= ULONG_MAX ->
  exists s',
    Tm.tm_tick fuel s = (0, Tm.tm_schedule_next s', s') /\
    tm_one_timer s' tcb (now + 1) t /\
    Tm.free_list s' = Tm.free_list s /\
    Tm.free_count s' = Tm.free_count s /\
    Tm.hw_ops s' = Tm.hw_ops s.
Proof.
  intros (Hi & Ha & Hl & Hg & Hn) Hnow Hdue Hmax.
  unfold Tm.tm_tick.
  assert (Ht : truthy (Tm.initialized s) = true).
  { unfold truthy. now apply negb_true_iff, Z.eqb_neq. }
  rewrite Ht. cbn [negb].
  set (sa := Tm.tm_time_update _).
  assert (Ta : Tm.tick_count (Tm.systime sa) = now + 1).
  { unfold sa. rewrite tm_time_update_tick_count. cbn [Tm.systime Tm.st_interrupt_count].
    rewrite Hn. unfold incr. apply wrap_id. lia. }
  assert (Ga : forall i, Tm.get i sa = Tm.get i s) by reflexivity.
  assert (Aa : Tm.active_list sa = Tm.active_list s) by reflexivity.
  assert (Hnone : Tm.tm_list_get_expired sa = None).
  { unfold Tm.tm_list_get_expired, Tm.TM_GET_CURRENT_TICKS. rewrite Aa, Ha, Ga, Hg, Ta.
    destruct (Z.leb_spec (Tm.expire_ticks t) (now + 1)); [lia | reflexivity]. }
  destruct (tm_process_expired_none fuel sa Hnone) as (fin & ->).
  exists sa. split; [reflexivity |].
  split; [| repeat split].
  unfold tm_one_timer. rewrite Ga, Aa. repeat split; assumption.
Qed.

(** [n] ticks before the timer is due ask for nothing but alarms. *)
Lemma tm_ticks_idle fuel tcb t n :
  forall s now,
    tm_one_timer s tcb now t ->
    0 <= now -> now + Z.of_nat n < Tm.expire_ticks t -> now + Z.of_nat n <= ULONG_MAX ->
    exists calls s',
      tm_ticks fuel n s = (calls, s') /\
      Forall (fun c => exists a, c = Tm.call_set_alarm a) calls /\
      tm_one_timer s' tcb (now + Z.of_nat n) t /\
      Tm.free_list s' = Tm.free_list s /\
      Tm.free_count s' = Tm.free_count s /\
      Tm.hw_ops s' = Tm.hw_ops s.
Proof.
  induction n as [| n IH]; intros s now Hone Hnow Hdue Hmax.
  - exists [], s. cbn [tm_ticks]. change (Z.of_nat 0) with 0. rewrite Z.add_0_r.
    split; [reflexivity |]. split; [constructor |]. split; [exact Hone |]. repeat split.
  - rewrite Nat2Z.inj_succ in *.
    destruct (tm_tick_idle fuel s tcb now t Hone Hnow) as (s1 & Htick & Hone1 & F1 & C1 & H1);
      [lia | lia |].
    destruct (IH s1 (now + 1) Hone1) as (calls & s2 & Hticks & Hcalls & Hone2 & F2 & C2 & H2);
      [lia | lia | lia |].
    exists (Tm.tm_schedule_next s1 ++ calls), s2. cbn [tm_ticks]. rewrite Htick, Hticks.
    split; [reflexivity |]. split.
    { apply Forall_app. split; [| exact Hcalls].
      unfold Tm.tm_schedule_next. destruct (Tm.hw_ops s1) as [[] |]; [| constructor].
      destruct (Tm.active_list s1); constructor; [eexists; reflexivity | constructor]. }
    split.
    { replace (now + Z.succ (Z.of_nat n)) with (now + 1 + Z.of_nat n) by lia. exact Hone2. }
    repeat split; congruence.
Qed.

(** The tick at which a one-shot event timer is due. *)
Lemma tm_tick_fires_oneshot fuel s tcb now t :
  tm_one_timer s tcb now t ->
  0 <= now -> Tm.expire_ticks t <= now + 1 -> now + 1 <= ULONG_MAX ->
  Tm.magic t = Tm.TM_POOL_MAGIC ->
  Tm.type t <> Tm.TM_TYPE_PERIODIC ->
  Tm.action t = Tm.TM_ACTION_EVENT ->
  Tm.events t <> 0 ->
  exists s',
    Tm.tm_tick (S fuel) s = (0, [Tm.call_ev_send (Tm.task_id t) (Tm.events t)], s') /\
    Tm.active_list s' = [] /\
    Tm.free_list s' = tcb :: Tm.free_list s /\
    Tm.free_count s' = incr (Tm.free_count s) /\
    Tm.get tcb s' = Tm.tcb_zero.
Proof.
  intros (Hi & Ha & Hl & Hg & Hn) Hnow Hdue Hmax Hmagic Htype Hact Hev.
  unfold Tm.tm_tick.
  assert (Ht : truthy (Tm.initialized s) = true).
  { unfold truthy. now apply negb_true_iff, Z.eqb_neq. }
  rewrite Ht. cbn [negb].
  set (sa := Tm.tm_time_update _).
  assert (Ta : Tm.tick_count (Tm.systime sa) = now + 1).
  { unfold sa. rewrite tm_time_update_tick_count. cbn [Tm.systime Tm.st_interrupt_count].
    rewrite Hn. unfold incr. apply wrap_id. lia. }
  assert (Ga : forall i, Tm.get i sa = Tm.get i s) by reflexivity.
  assert (Aa : Tm.active_list sa = [tcb]) by exact Ha.
  assert (La : (tcb < length (Tm.timers sa))%nat) by exact Hl.
  assert (Fa : Tm.free_list sa = Tm.free_list s) by reflexivity.
  assert (Ca : Tm.free_count sa = Tm.free_count s) by reflexivity.
  clearbody sa.
  assert (Hsome : Tm.tm_list_get_expired sa = Some tcb).
  { unfold Tm.tm_list_get_expired, Tm.TM_GET_CURRENT_TICKS. rewrite Aa, Ga, Hg, Ta.
    destruct (Z.leb_spec (Tm.expire_ticks t) (now + 1)); [reflexivity | lia]. }
  cbn [Tm.tm_process_expired]. rewrite Hsome.
  (* the timer fires *)
  unfold Tm.tm_process_one, Tm.tm_fire_timer.
  assert (Hv : Tm.TM_IS_VALID_TCB (Tm.get tcb sa) = true).
  { rewrite Ga, Hg. unfold Tm.TM_IS_VALID_TCB. rewrite Hmagic. apply Z.eqb_refl. }
  rewrite Hv. cbn [negb].
  set (sb := Tm.upd tcb (Tm.set_state Tm.TM_STATE_EXPIRED) sa).
  assert (Gb : Tm.get tcb sb = Tm.set_state Tm.TM_STATE_EXPIRED t).
  { unfold sb. rewrite tm_get_upd_same by exact La. now rewrite Ga, Hg. }
  assert (Lb : (tcb < length (Tm.timers sb))%nat) by (unfold sb; now rewrite tm_length_upd).
  rewrite Gb. cbn [Tm.action Tm.events Tm.task_id Tm.type Tm.set_state].
  rewrite Hact. change (Tm.TM_ACTION_EVENT =? Tm.TM_ACTION_EVENT) with true. cbv iota.
  destruct (Z.eqb_spec (Tm.events t) 0) as [E | _]; [contradiction |]. cbn [negb].
  rewrite Gb. cbn [Tm.type Tm.set_state].
  destruct (Z.eqb_spec (Tm.type t) Tm.TM_TYPE_PERIODIC) as [E | _]; [contradiction |].
  (* the block is freed *)
  unfold Tm.tm_pool_free.
  assert (Hvb : Tm.TM_IS_VALID_TCB (Tm.get tcb sb) = true).
  { rewrite Gb. unfold Tm.TM_IS_VALID_TCB. cbn. rewrite Hmagic. apply Z.eqb_refl. }
  rewrite Hvb. cbn [negb snd]. unfold Tm.tm_list_remove. rewrite Hvb. cbn [negb].
  change (Tm.active_list sb) with (Tm.active_list sa). rewrite Aa.
  rewrite bool_decide_eq_true_2 by apply list_elem_of_here.
  rewrite filter_cons_False by (intros Hne; now apply Hne). rewrite filter_nil.
  set (sc := Tm.upd tcb (fun _ => Tm.tcb_zero) (Tm.st_active_list [] sb)).
  match goal with
  | |- context [Tm.tm_process_expired fuel ?S] => set (sd := S)
  end.
  assert (Ad : Tm.active_list sd = []) by reflexivity.
  assert (Hnone : Tm.tm_list_get_expired sd = None).
  { unfold Tm.tm_list_get_expired. now rewrite Ad. }
  destruct (tm_process_expired_none fuel sd Hnone) as (fin & ->).
  assert (Hsched : Tm.tm_schedule_next sd = []).
  { unfold Tm.tm_schedule_next. rewrite Ad. now destruct (Tm.hw_ops sd) as [[] |]. }
  rewrite Hsched.
  exists sd. split; [reflexivity |]. split; [exact Ad |].
  split; [change (Tm.free_list sd) with (tcb :: Tm.free_list sa); now rewrite Fa |].
  split; [change (Tm.free_count sd) with (incr (Tm.free_count sa)); now rewrite Ca |].
  change (Tm.get tcb sd) with (Tm.get tcb sc). unfold sc.
  rewrite tm_get_upd_same by exact Lb. reflexivity.
Qed.


(** The tick at which a periodic event timer is due. *)
Lemma tm_tick_fires_periodic fuel s tcb now t :
  tm_one_timer s tcb now t ->
  0 <= now -> Tm.expire_ticks t <= now + 1 ->
  now + 1 < Tm.expire_ticks t + Tm.period_ticks t <= ULONG_MAX ->
  Tm.magic t = Tm.TM_POOL_MAGIC ->
  Tm.type t = Tm.TM_TYPE_PERIODIC ->
  Tm.action t = Tm.TM_ACTION_EVENT ->
  Tm.events t <> 0 ->
  exists s',
    Tm.tm_tick (S fuel) s
    = (0, Tm.call_ev_send (Tm.task_id t) (Tm.events t) :: Tm.tm_schedule_next s', s') /\
    tm_one_timer s' tcb (now + 1)
      (Tm.set_expire_ticks (Tm.expire_ticks t + Tm.period_ticks t)
         (Tm.set_state Tm.TM_STATE_EXPIRED t)) /\
    Tm.free_list s' = Tm.free_list s /\
    Tm.free_count s' = Tm.free_count s.
Proof.
  intros (Hi & Ha & Hl & Hg & Hn) Hnow Hdue Hnext Hmagic Htype Hact Hev.
  unfold Tm.tm_tick.
  assert (Ht : truthy (Tm.initialized s) = true).
  { unfold truthy. now apply negb_true_iff, Z.eqb_neq. }
  rewrite Ht. cbn [negb].
  set (sa := Tm.tm_time_update _).
  assert (Ta : Tm.tick_count (Tm.systime sa) = now + 1).
  { unfold sa. rewrite tm_time_update_tick_count. cbn [Tm.systime Tm.st_interrupt_count].
    rewrite Hn. unfold incr. apply wrap_id. lia. }
  assert (Ga : forall i, Tm.get i sa = Tm.get i s) by reflexivity.
  assert (Aa : Tm.active_list sa = [tcb]) by exact Ha.
  assert (La : (tcb < length (Tm.timers sa))%nat) by exact Hl.
  assert (Fa : Tm.free_list sa = Tm.free_list s) by reflexivity.
  assert (Ca : Tm.free_count sa = Tm.free_count s) by reflexivity.
  assert (Ia : Tm.initialized sa = Tm.initialized s) by reflexivity.
  clearbody sa.
  assert (Hsome : Tm.tm_list_get_expired sa = Some tcb).
  { unfold Tm.tm_list_get_expired, Tm.TM_GET_CURRENT_TICKS. rewrite Aa, Ga, Hg, Ta.
    destruct (Z.leb_spec (Tm.expire_ticks t) (now + 1)); [reflexivity | lia]. }
  cbn [Tm.tm_process_expired]. rewrite Hsome.
  unfold Tm.tm_process_one, Tm.tm_fire_timer.
  assert (Hv : Tm.TM_IS_VALID_TCB (Tm.get tcb sa) = true).
  { rewrite Ga, Hg. unfold Tm.TM_IS_VALID_TCB. rewrite Hmagic. apply Z.eqb_refl. }
  rewrite Hv. cbn [negb].
  set (sb := Tm.upd tcb (Tm.set_state Tm.TM_STATE_EXPIRED) sa).
  assert (Gb : Tm.get tcb sb = Tm.set_state Tm.TM_STATE_EXPIRED t).
  { unfold sb. rewrite tm_get_upd_same by exact La. now rewrite Ga, Hg. }
  assert (Lb : (tcb < length (Tm.timers sb))%nat) by (unfold sb; now rewrite tm_length_upd).
  rewrite Gb. cbn [Tm.action Tm.events Tm.task_id Tm.type Tm.set_state].
  rewrite Hact. change (Tm.TM_ACTION_EVENT =? Tm.TM_ACTION_EVENT) with true. cbv iota.
  destruct (Z.eqb_spec (Tm.events t) 0) as [E | _]; [contradiction |]. cbn [negb].
  rewrite Gb. cbn [Tm.type Tm.set_state]. rewrite Htype.
  change (Tm.TM_TYPE_PERIODIC =? Tm.TM_TYPE_PERIODIC) with true. cbv iota.
  (* the timer is put back with its next expiration *)
  set (sc := Tm.upd tcb _ sb).
  assert (Gc : Tm.get tcb sc
               = Tm.set_expire_ticks (Tm.expire_ticks t + Tm.period_ticks t)
                   (Tm.set_state Tm.TM_STATE_EXPIRED t)).
  { unfold sc. rewrite tm_get_upd_same by exact Lb. rewrite Gb.
    cbn [Tm.expire_ticks Tm.period_ticks Tm.set_state].
    rewrite wrap_id; [reflexivity | lia]. }
  assert (Lc : (tcb < length (Tm.timers sc))%nat) by (unfold sc; now rewrite tm_length_upd).
  assert (Hvc : Tm.TM_IS_VALID_TCB (Tm.get tcb sc) = true).
  { rewrite Gc. unfold Tm.TM_IS_VALID_TCB. cbn. rewrite Hmagic. apply Z.eqb_refl. }
  unfold Tm.tm_list_remove. rewrite Hvc. cbn [negb].
  change (Tm.active_list sc) with (Tm.active_list sa). rewrite Aa.
  rewrite bool_decide_eq_true_2 by apply list_elem_of_here.
  rewrite filter_cons_False by (intros Hne; now apply Hne). rewrite filter_nil.
  unfold Tm.tm_list_insert.
  change (Tm.get tcb (Tm.st_active_list [] sc)) with (Tm.get tcb sc). rewrite Hvc.
  cbn [negb Tm.active_list Tm.st_active_list Tm.insert_sorted].
  set (sd := Tm.st_active_list [tcb] (Tm.st_active_list [] sc)).
  assert (Gd : Tm.get tcb sd = Tm.get tcb sc) by reflexivity.
  assert (Hnone : Tm.tm_list_get_expired sd = None).
  { unfold Tm.tm_list_get_expired, Tm.TM_GET_CURRENT_TICKS.
    cbn [Tm.active_list sd Tm.st_active_list]. rewrite Gd, Gc.
    change (Tm.systime sd) with (Tm.systime sa). rewrite Ta.
    cbn [Tm.expire_ticks Tm.set_expire_ticks].
    destruct (Z.leb_spec (Tm.expire_ticks t + Tm.period_ticks t) (now + 1));
      [lia | reflexivity]. }
  destruct (tm_process_expired_none fuel sd Hnone) as (fin & ->).
  exists sd. split; [reflexivity |].
  split; [| split; [exact Fa | exact Ca]].
  unfold tm_one_timer. rewrite Gd, Gc.
  repeat split; try reflexivity; try assumption.
  change (Tm.initialized sd) with (Tm.initialized sa). now rewrite Ia.
Qed.

(** X17: a timer made by [tm_evafter (ticks, events, &tmid)] when no
    other timer is active sends its events once, at tick number [ticks]
    after its creation: the ticks before it ask for nothing but
    alarms, the tick at which it is due sends [events] to the task
    that created it, and then the active list is empty and the block is
    back at the head of the free chain. *)
Theorem tm_evafter_fires_once env ticks events x s tcb fuel :
  tm_can_create s tcb ->
  Tm.active_list s = [] ->
  0 < ticks -> events <> 0 ->
  0 <= Tm.tick_count (Tm.systime s) ->
  Tm.tick_count (Tm.systime s) + ticks <= ULONG_MAX ->
  exists tmid calls0 s1 calls s2 s3,
    Tm.tm_evafter env ticks events (Some x) s = (0, Some tmid, calls0, s1) /\
    tm_ticks (S fuel) (Z.to_nat (ticks - 1)) s1 = (calls, s2) /\
    Forall (fun c => exists a, c = Tm.call_set_alarm a) calls /\
    Tm.tm_tick (S fuel) s2 = (0, [Tm.call_ev_send (Tm.t_ident_value env) events], s3) /\
    Tm.active_list s3 = [] /\
    Tm.free_list s3 = Tm.free_list s.
Proof.
  intros Hcan Hempty Hticks Hev Hnow Hmax.
  destruct (tm_create_relative_ok env Tm.TM_TYPE_ONESHOT Tm.TM_ACTION_EVENT ticks events x
              s tcb Hcan (or_introl eq_refl))
    as (s1 & Hcr & G1 & O1 & A1 & F1 & C1 & T1 & I1 & H1 & L1).
  destruct Hcan as (Hi & (rest & Hfl) & Hfc & Hlen & Hout & Hid & Hids).
  rewrite Hempty in A1. cbn [Tm.insert_sorted] in A1.
  set (t0 := Tm.tick_count (Tm.systime s)) in *.
  rewrite (wrap_id (t0 + ticks)) in G1 by lia.
  change (Tm.TM_TYPE_ONESHOT =? Tm.TM_TYPE_PERIODIC) with false in G1. cbv iota in G1.
  assert (Hone : tm_one_timer s1 tcb t0 (Tm.get tcb s1)).
  { unfold tm_one_timer. rewrite I1, T1, L1. repeat split; assumption. }
  destruct (tm_ticks_idle (S fuel) tcb (Tm.get tcb s1) (Z.to_nat (ticks - 1)) s1 t0 Hone Hnow)
    as (calls & s2 & Hidle & Hcalls & Hone2 & F2 & C2 & H2).
  { rewrite G1. cbn [Tm.expire_ticks]. lia. }
  { lia. }
  rewrite Z2Nat.id in Hone2 by lia.
  destruct (tm_tick_fires_oneshot fuel s2 tcb (t0 + (ticks - 1)) (Tm.get tcb s1) Hone2)
    as (s3 & Hfire & A3 & F3 & C3 & G3); try (rewrite G1; cbn; (lia || discriminate || assumption)).
  { lia. }
  { lia. }
  exists (Tm.next_id s), (Tm.tm_schedule_next s1), s1, calls, s2, s3.
  split.
  { unfold Tm.tm_evafter, Tm.tm_validate_inputs.
    destruct (Z.eqb_spec ticks 0) as [E | _]; [lia |]. exact Hcr. }
  split; [exact Hidle |]. split; [exact Hcalls |]. split.
  { rewrite Hfire, G1. reflexivity. }
  split; [exact A3 |]. rewrite F3, F2, F1, Hfl. reflexivity.
Qed.

(** X18: a periodic event timer that is alone on the active list sends
    its events at its expiration tick and not before, and stays on the
    active list, due one period later. *)
Theorem tm_periodic_timer_period fuel s tcb now t :
  tm_one_timer s tcb now t ->
  Tm.magic t = Tm.TM_POOL_MAGIC ->
  Tm.type t = Tm.TM_TYPE_PERIODIC ->
  Tm.action t = Tm.TM_ACTION_EVENT ->
  Tm.events t <> 0 ->
  0 <= now < Tm.expire_ticks t ->
  0 < Tm.period_ticks t ->
  Tm.expire_ticks t + Tm.period_ticks t <= ULONG_MAX ->
  exists calls s1 s2,
    tm_ticks (S fuel) (Z.to_nat (Tm.expire_ticks t - now - 1)) s = (calls, s1) /\
    Forall (fun c => exists a, c = Tm.call_set_alarm a) calls /\
    Tm.tm_tick (S fuel) s1
    = (0, Tm.call_ev_send (Tm.task_id t) (Tm.events t) :: Tm.tm_schedule_next s2, s2) /\
    tm_one_timer s2 tcb (Tm.expire_ticks t)
      (Tm.set_expire_ticks (Tm.expire_ticks t + Tm.period_ticks t)
         (Tm.set_state Tm.TM_STATE_EXPIRED t)).
Proof.
  intros Hone Hmagic Htype Hact Hev Hnow Hper Hmax.
  destruct (tm_ticks_idle (S fuel) tcb t (Z.to_nat (Tm.expire_ticks t - now - 1)) s now Hone)
    as (calls & s1 & Hidle & Hcalls & Hone1 & _); [lia | lia | lia |].
  rewrite Z2Nat.id in Hone1 by lia.
  destruct (tm_tick_fires_periodic fuel s1 tcb _ t Hone1) as (s2 & Hfire & Hone2 & _);
    try assumption; try lia.
  exists calls, s1, s2. split; [exact Hidle |]. split; [exact Hcalls |].
  split; [exact Hfire |].
  replace (now + (Tm.expire_ticks t - now - 1) + 1) with (Tm.expire_ticks t) in Hone2 by lia.
  exact Hone2.
Qed.

(** X19: [tm_set] followed by [tm_get] returns the date, the time and
    the ticks that were set.  [tm_set] moves the calendar only: on an
    initialised kernel the tick counter, by which the timers expire,
    and the timers are left as they are. *)
Theorem tm_set_then_get date time ticks d t k s :
  exists s1,
    Tm.tm_set date time ticks s = (0, s1) /\
    Tm.tm_get (Some d) (Some t) (Some k) s1 = (0, (Some date, Some time, Some ticks), s1) /\
    (Tm.initialized s <> 0 ->
     Tm.tick_count (Tm.systime s1) = Tm.tick_count (Tm.systime s) /\
     Tm.active_list s1 = Tm.active_list s /\
     Tm.timers s1 = Tm.timers s).
Proof.
  eexists. split; [reflexivity |]. split.
  - unfold Tm.tm_get.
    rewrite tm_init_once_initialized.
    + reflexivity.
    + cbn [Tm.initialized Tm.st_systime]. unfold Tm.tm_init_once.
      destruct (truthy (Tm.initialized s)) eqn:E; cbn [snd].
      * unfold truthy in E. now apply negb_true_iff, Z.eqb_neq in E.
      * discriminate.
  - intros Hi. rewrite tm_init_once_initialized by exact Hi. repeat split.
Qed.


(** ** Ticks and calendar time *)

Lemma wrap_add_l a b : wrap (wrap a + b) = wrap (a + b).
Proof. unfold wrap. apply Z.add_mod_idemp_l. unfold ULONG_BITS. lia. Qed.

Lemma wrap_add_r a b : wrap (a + wrap b) = wrap (a + b).
Proof. unfold wrap. apply Z.add_mod_idemp_r. unfold ULONG_BITS. lia. Qed.

Lemma wrap_mul_l a b : wrap (wrap a * b) = wrap (a * b).
Proof. unfold wrap. apply Z.mul_mod_idemp_l. unfold ULONG_BITS. lia. Qed.

Lemma wrap_target now a tps b :
  wrap (wrap (now + wrap (wrap a * tps)) + wrap b) = wrap (now + a * tps + b).
Proof.
  rewrite wrap_add_l, wrap_add_r.
  rewrite (Z.add_comm now), <- Z.add_assoc, wrap_add_l.
  rewrite <- wrap_add_l, wrap_mul_l, wrap_add_l.
  f_equal. lia.
Qed.

(** X20: for a tick count [tc] that is not in the past and falls on
    the current day, [tm_time_to_ticks] gives back [tc] from the date,
    time and ticks that [tm_ticks_to_time] computes for it. *)
Theorem tm_time_to_ticks_of_ticks_to_time tc s :
  let t := Tm.systime s in
  0 < Tm.ticks_per_sec t -> 2 * Tm.ticks_per_sec t <= ULONG_MAX ->
  0 <= Tm.ticks t < Tm.ticks_per_sec t ->
  0 <= Tm.time t ->
  0 <= Tm.tick_count t <= tc -> tc <= ULONG_MAX ->
  Tm.time t + (tc - Tm.tick_count t) / Tm.ticks_per_sec t + 1 < 0x00181818 ->
  let '(date, time, ticks) := Tm.tm_ticks_to_time tc s in
  Tm.tm_time_to_ticks date time ticks s = tc.
Proof.
  intros t Htps Htps2 Hticks Htime Hnow Htc Hday.
  unfold Tm.tm_ticks_to_time. fold t. cbv zeta.
  unfold ULONG_MAX, ULONG_BITS in *.
  assert (W : forall v, 0 <= v <= 2 ^ 32 - 1 -> wrap v = v).
  { intros v Hv. apply wrap_id. unfold ULONG_MAX, ULONG_BITS. lia. }
  rewrite (W (tc - Tm.tick_count t)) by lia.
  set (diff := tc - Tm.tick_count t) in *.
  set (tps := Tm.ticks_per_sec t) in *.
  set (seconds := diff / tps) in *.
  set (r := diff mod tps).
  assert (Hdm : diff = tps * seconds + r) by (apply Z.div_mod; lia).
  assert (Hr : 0 <= r < tps) by (apply Z.mod_pos_bound; lia).
  assert (Hs : 0 <= seconds) by (apply Z.div_pos; lia).
  rewrite (W (Tm.time t + seconds)) by lia.
  rewrite (W (Tm.ticks t + r)) by lia.
  unfold Tm.tm_time_to_ticks. fold t. fold tps.
  destruct (Z.geb_spec (Tm.ticks t + r) tps) as [Hc | Hnc]; cbv beta iota.
  - unfold incr. rewrite (W (Tm.time t + seconds + 1)) by lia.
    rewrite (W (Tm.ticks t + r - tps)) by lia.
    destruct (Z.geb_spec (Tm.time t + seconds + 1) 1579032) as [Hge | _]; [lia |].
    rewrite wrap_target.
    repeat match goal with
           | |- context [?a >? ?b] => destruct (Z.gtb_spec a b)
           | |- context [?a =? ?b] => destruct (Z.eqb_spec a b)
           end; cbn [orb andb]; try lia;
      (rewrite <- (W tc) by lia; f_equal; nia).
  - destruct (Z.geb_spec (Tm.time t + seconds) 1579032) as [Hge | _]; [lia |].
    rewrite wrap_target.
    repeat match goal with
           | |- context [?a >? ?b] => destruct (Z.gtb_spec a b)
           | |- context [?a =? ?b] => destruct (Z.eqb_spec a b)
           end; cbn [orb andb]; try lia;
      try (rewrite <- (W tc) by lia; f_equal; nia); nia.
Qed.

End TmMore.

(** ** The theorems on the timers of the examples *)

Lemma tm_can_create_tm_ready : tm_can_create tm_ready 0%nat.
Proof.
  unfold tm_can_create. vm_compute.
  repeat split; try discriminate; try reflexivity; try lia.
  - eexists. reflexivity.
  - intros Hin. inversion Hin.
  - constructor.
Qed.

Lemma tm_one_timer_tm_periodic :
  tm_one_timer tm_periodic 0%nat 0 (Tm.get 0%nat tm_periodic).
Proof.
  unfold tm_one_timer. repeat split; try (vm_compute; (reflexivity || discriminate || lia)).
Qed.

Lemma tm_evafter_then_cancel_witness :
  exists tmid calls s1 calls' s2,
    @Tm.tm_evafter example_codes env_example 5 1 (Some 0) tm_ready
    = (0, Some tmid, calls, s1) /\
    @Tm.tm_cancel example_codes tmid s1 = (0, calls', s2) /\
    Tm.active_list s2 = Tm.active_list tm_ready /\
    Tm.free_list s2 = Tm.free_list tm_ready /\
    Tm.free_count s2 = Tm.free_count tm_ready /\
    Tm.systime s2 = Tm.systime tm_ready /\
    (forall i, i <> 0%nat -> Tm.get i s2 = Tm.get i tm_ready) /\
    Tm.get 0%nat s2 = Tm.tcb_zero.
Proof.
  refine (@tm_evafter_then_cancel example_codes env_example 5 1 0 tm_ready 0%nat
            tm_can_create_tm_ready _).
  discriminate.
Defined.

Lemma tm_evafter_fires_once_witness :
  exists tmid calls0 s1 calls s2 s3,
    @Tm.tm_evafter example_codes env_example 3 1 (Some 0) tm_ready
    = (0, Some tmid, calls0, s1) /\
    @tm_ticks example_codes 1 (Z.to_nat (3 - 1)) s1 = (calls, s2) /\
    Forall (fun c => exists a, c = Tm.call_set_alarm a) calls /\
    @Tm.tm_tick example_codes 1 s2
    = (0, [Tm.call_ev_send (Tm.t_ident_value env_example) 1], s3) /\
    Tm.active_list s3 = [] /\
    Tm.free_list s3 = Tm.free_list tm_ready.
Proof.
  refine (@tm_evafter_fires_once example_codes env_example 3 1 0 tm_ready 0%nat 0%nat
            tm_can_create_tm_ready _ _ _ _ _).
  - reflexivity.
  - lia.
  - discriminate.
  - vm_compute. discriminate.
  - vm_compute. discriminate.
Defined.

Lemma tm_periodic_timer_period_witness :
  exists calls s1 s2,
    @tm_ticks example_codes 1 3 tm_periodic = (calls, s1) /\
    Forall (fun c => exists a, c = Tm.call_set_alarm a) calls /\
    @Tm.tm_tick example_codes 1 s1
    = (0, Tm.call_ev_send 1 2 :: Tm.tm_schedule_next s2, s2) /\
    tm_one_timer s2 0%nat 4
      (Tm.set_expire_ticks 8 (Tm.set_state Tm.TM_STATE_EXPIRED (Tm.get 0%nat tm_periodic))).
Proof.
  refine (@tm_periodic_timer_period example_codes 0%nat tm_periodic 0%nat 0
            (Tm.get 0%nat tm_periodic) tm_one_timer_tm_periodic _ _ _ _ _ _ _).
  - reflexivity.
  - reflexivity.
  - reflexivity.
  - vm_compute. discriminate.
  - vm_compute. split; [discriminate | reflexivity].
  - reflexivity.
  - vm_compute. discriminate.
Defined.

Lemma tm_time_to_ticks_of_ticks_to_time_witness :
  Tm.tm_ticks_to_time 250 tm_ready = (0x07e90101, 2, 50) /\
  Tm.tm_time_to_ticks 0x07e90101 2 50 tm_ready = 250.
Proof.
  assert (E : Tm.tm_ticks_to_time 250 tm_ready = (0x07e90101, 2, 50))
    by (vm_compute; reflexivity).
  split; [exact E |].
  pose proof (tm_time_to_ticks_of_ticks_to_time 250 tm_ready) as P.
  cbv zeta in P. rewrite E in P.
  apply P; vm_compute; try split; try discriminate; reflexivity.
Defined.


(** * More about the event services *)

Lemma ev_get_upd_ne i j f s : i <> j -> Ev.get j (Ev.upd i f s) = Ev.get j s.
Proof.
  intros Hne. unfold Ev.get, Ev.upd. simpl.
  now rewrite list_lookup_insert_ne.
Qed.

Lemma ev_length_upd i f s :
  length (Ev.event_blocks (Ev.upd i f s)) = length (Ev.event_blocks s).
Proof. unfold Ev.upd. simpl. apply length_insert. Qed.

Lemma ev_upd_upd i f g s :
  (i < length (Ev.event_blocks s))%nat ->
  Ev.upd i f (Ev.upd i g s) = Ev.upd i (fun e => f (g e)) s.
Proof.
  intros Hi. unfold Ev.upd at 1 3.
  rewrite (ev_get_upd_same i g s Hi).
  unfold Ev.upd, Ev.set_event_blocks. cbn [Ev.event_blocks Ev.pool_magic Ev.max_tasks
    Ev.active_count Ev.hw_ops Ev.initialized Ev.total_events_sent Ev.total_events_received
    Ev.hw_initialized Ev.hw_total_events_created Ev.hw_total_signals Ev.hw_total_waits].
  now rewrite list_insert_insert_eq.
Qed.

Section EvMore.
Context `{ErrCodes}.

(** [ev_send] to a task that is not waiting: the events are added to the
    pending ones and counted. *)
Lemma ev_send_not_waiting_step os tid events s :
  Ev.initialized s <> 0 ->
  0 <= tid < Ev.MAX_TASK ->
  (Z.to_nat tid < length (Ev.event_blocks s))%nat ->
  Ev.EV_IS_VALID_ECB (Ev.get (Z.to_nat tid) s) = true ->
  Ev.state (Ev.get (Z.to_nat tid) s) <> Ev.EV_STATE_WAITING ->
  Ev.EV_IS_VALID_EVENT_MASK events = true ->
  Ev.ev_send os tid events s =
  (0, Ev.set_total_events_sent (incr (Ev.total_events_sent s))
        (Ev.upd (Z.to_nat tid)
           (fun e => Ev.set_events_sent (incr (Ev.events_sent e))
                       (Ev.set_pending_events (Z.lor (Ev.pending_events e) events) e)) s)).
Proof.
  intros Hinit Htid Hlen Hvalid Hst Hev.
  unfold Ev.ev_send, Ev.ev_init_once.
  assert (Ht : truthy (Ev.initialized s) = true).
  { unfold truthy. now apply negb_true_iff, Z.eqb_neq. }
  rewrite Ht. cbn [negb Z.eqb].
  unfold Ev.ev_pool_validate_task_id, Ev.ev_pool_get_task_ecb, Ev.EV_IS_VALID_TASK_ID.
  destruct (Z.ltb_spec tid Ev.MAX_TASK) as [_ | ?]; [| lia].
  cbn [negb Z.eqb]. rewrite Hev. cbn [negb Z.eqb].
  set (i := Z.to_nat tid) in *.
  unfold Ev.ev_update_pending. rewrite Hvalid. cbn [negb snd].
  unfold Ev.ev_update_statistics.
  rewrite ev_get_upd_same by exact Hlen.
  assert (Hv2 : Ev.EV_IS_VALID_ECB
                  (Ev.set_pending_events
                     (Z.lor (Ev.pending_events (Ev.get i s)) events) (Ev.get i s)) = true).
  { destruct (Ev.get i s); exact Hvalid. }
  rewrite Hv2. cbn [negb]. change (Ev.EV_STAT_SEND =? Ev.EV_STAT_SEND) with true. cbv iota.
  change (Ev.get i (Ev.set_total_events_sent ?v ?x)) with (Ev.get i x).
  rewrite ev_get_upd_same by (rewrite ev_length_upd; exact Hlen).
  rewrite ev_get_upd_same by exact Hlen.
  assert (Hs2 : (Ev.state
       (Ev.set_events_sent
          (incr (Ev.events_sent
                (Ev.set_pending_events (Z.lor (Ev.pending_events (Ev.get i s)) events) (Ev.get i s))))
          (Ev.set_pending_events (Z.lor (Ev.pending_events (Ev.get i s)) events) (Ev.get i s)))
        =? Ev.EV_STATE_WAITING) = false).
  { apply Z.eqb_neq. destruct (Ev.get i s); exact Hst. }
  rewrite Hs2. f_equal. f_equal.
  now rewrite ev_upd_upd by exact Hlen.
Qed.


Lemma ev_init_once_initialized os s :
  Ev.initialized s <> 0 -> Ev.ev_init_once os s = (0, s).
Proof.
  intros Hinit. unfold Ev.ev_init_once.
  assert (Ht : truthy (Ev.initialized s) = true).
  { unfold truthy. now apply negb_true_iff, Z.eqb_neq. }
  now rewrite Ht.
Qed.

(** The counters that [ev_update_statistics] advances are the only
    fields of an event block that it writes. *)
Lemma ev_update_statistics_field {B} (p : Ev.EV_ECB -> B) i op s j :
  (forall v t, p (Ev.set_events_sent v t) = p t) ->
  (forall v t, p (Ev.set_events_received v t) = p t) ->
  (forall v t, p (Ev.set_wait_count v t) = p t) ->
  (forall v t, p (Ev.set_timeout_count v t) = p t) ->
  p (Ev.get j (Ev.ev_update_statistics i op s)) = p (Ev.get j s).
Proof.
  intros H1 H2 H3 H4. unfold Ev.ev_update_statistics.
  assert (Hu : forall f, (forall t, p (f t) = p t) ->
                         p (Ev.get j (Ev.upd i f s)) = p (Ev.get j s)).
  { intros f Hf. destruct (Nat.eq_dec i j) as [<- | Hne].
    - destruct (Nat.lt_ge_cases i (length (Ev.event_blocks s))) as [Hi | Hi].
      + rewrite ev_get_upd_same by exact Hi. apply Hf.
      + unfold Ev.get, Ev.upd. simpl. now rewrite list_insert_ge.
    - now rewrite ev_get_upd_ne. }
  destruct (negb _); [reflexivity |].
  destruct (_ =? _).
  { change (Ev.get j (Ev.set_total_events_sent ?v ?x)) with (Ev.get j x).
    apply Hu. intros t. apply H1. }
  destruct (_ =? _).
  { change (Ev.get j (Ev.set_total_events_received ?v ?x)) with (Ev.get j x).
    apply Hu. intros t. apply H2. }
  destruct (_ =? _); [apply Hu; intros t; apply H3 |].
  destruct (_ =? _); [apply Hu; intros t; apply H4 |].
  reflexivity.
Qed.

Lemma ev_update_statistics_frame i op s :
  Ev.hw_ops (Ev.ev_update_statistics i op s) = Ev.hw_ops s /\
  Ev.initialized (Ev.ev_update_statistics i op s) = Ev.initialized s /\
  length (Ev.event_blocks (Ev.ev_update_statistics i op s)) = length (Ev.event_blocks s).
Proof.
  unfold Ev.ev_update_statistics.
  destruct (negb _); [auto |].
  destruct (_ =? _); [cbn; now rewrite length_insert |].
  destruct (_ =? _); [cbn; now rewrite length_insert |].
  destruct (_ =? _); [cbn; now rewrite length_insert |].
  destruct (_ =? _); [cbn; now rewrite length_insert |].
  auto.
Qed.

(** What the caller's event block holds once [ev_start_wait] has
    registered the wait. *)
Lemma ev_start_wait_ok os i events flags timeout s :
  malloc_ok os = true -> sync_init_ok os = true ->
  (i < length (Ev.event_blocks s))%nat ->
  Ev.EV_IS_VALID_ECB (Ev.get i s) = true ->
  Ev.hw_ops s = Some Ev.ev_hw_generic_ops ->
  exists s',
    Ev.ev_start_wait os i events flags timeout s = (0, s') /\
    Ev.hw_ops s' = Ev.hw_ops s /\
    Ev.initialized s' = Ev.initialized s /\
    length (Ev.event_blocks s') = length (Ev.event_blocks s) /\
    Ev.magic (Ev.get i s') = Ev.magic (Ev.get i s) /\
    Ev.state (Ev.get i s') = Ev.EV_STATE_WAITING /\
    Ev.pending_events (Ev.get i s') = Ev.pending_events (Ev.get i s) /\
    Ev.waiting_events (Ev.get i s') = events /\
    Ev.wait_condition (Ev.get i s')
    = (if truthy (Z.land flags Ev.EV_ANY) then Ev.EV_ANY else Ev.EV_ALL) /\
    Ev.hw_context (Ev.get i s') = Some (Ev.mkCtx 0 0 0 0).
Proof.
  intros Hm Hsi Hi Hvalid Hhw.
  unfold Ev.ev_start_wait. rewrite Hvalid. cbn [negb].
  set (s1 := Ev.upd i _ s).
  change (Ev.hw_ops s1) with (Ev.hw_ops s). rewrite Hhw.
  unfold Ev.ev_hw_generic_create_event. rewrite Hm, Hsi. cbn [negb Z.eqb].
  eexists. split; [reflexivity |].
  destruct (ev_update_statistics_frame i Ev.EV_STAT_WAIT_START
    (Ev.set_hw_total_events_created
       (incr (Ev.hw_total_events_created
               (Ev.upd i (Ev.set_hw_context (Some (Ev.mkCtx 0 0 0 0))) s1)))
       (Ev.upd i (Ev.set_hw_context (Some (Ev.mkCtx 0 0 0 0))) s1))) as (F1 & F2 & F3).
  split; [rewrite F1; exact Hhw |].
  split; [exact F2 |].
  split; [etransitivity; [exact F3 |]; cbn; now rewrite !length_insert |].
  rewrite !ev_update_statistics_field by (intros; reflexivity).
  change (Ev.get i (Ev.set_hw_total_events_created ?v ?x)) with (Ev.get i x).
  unfold s1. rewrite ev_upd_upd by exact Hi.
  rewrite ev_get_upd_same by exact Hi.
  destruct (Ev.get i s). cbn. repeat split.
Qed.


(** [ev_send] to a task that waits, when the events now pending satisfy
    its condition: the events asked for go from the pending to the
    received ones, the event object is signalled and the block is marked
    as signalled. *)
Lemma ev_send_satisfies_wait os tid events s ctx :
  Ev.initialized s <> 0 ->
  0 <= tid < Ev.MAX_TASK ->
  (Z.to_nat tid < length (Ev.event_blocks s))%nat ->
  Ev.EV_IS_VALID_ECB (Ev.get (Z.to_nat tid) s) = true ->
  Ev.state (Ev.get (Z.to_nat tid) s) = Ev.EV_STATE_WAITING ->
  Ev.hw_ops s = Some Ev.ev_hw_generic_ops ->
  Ev.hw_context (Ev.get (Z.to_nat tid) s) = Some ctx ->
  Ev.EV_IS_VALID_EVENT_MASK events = true ->
  let p := Z.lor (Ev.pending_events (Ev.get (Z.to_nat tid) s)) events in
  let w := Ev.waiting_events (Ev.get (Z.to_nat tid) s) in
  (if Ev.wait_condition (Ev.get (Z.to_nat tid) s) =? Ev.EV_ALL
   then Z.land p w = w else Z.land p w <> 0) ->
  exists s',
    Ev.ev_send os tid events s = (0, s') /\
    Ev.hw_ops s' = Ev.hw_ops s /\
    Ev.initialized s' = Ev.initialized s /\
    length (Ev.event_blocks s') = length (Ev.event_blocks s) /\
    Ev.magic (Ev.get (Z.to_nat tid) s') = Ev.magic (Ev.get (Z.to_nat tid) s) /\
    Ev.state (Ev.get (Z.to_nat tid) s') = Ev.EV_STATE_SIGNALED /\
    Ev.pending_events (Ev.get (Z.to_nat tid) s') = Z.land p (ulnot (Z.land p w)) /\
    Ev.received_events (Ev.get (Z.to_nat tid) s') = Z.land p w /\
    Ev.hw_context (Ev.get (Z.to_nat tid) s')
    = Some (Ev.mkCtx 1 (Ev.waiting ctx) (incr (Ev.signal_count ctx)) (Ev.ctx_wait_count ctx)).
Proof.
  intros Hinit Htid Hlen Hvalid Hst Hhw Hctx Hev p w Hsat.
  unfold Ev.ev_send. rewrite ev_init_once_initialized by exact Hinit.
  cbn [negb Z.eqb].
  unfold Ev.ev_pool_validate_task_id, Ev.ev_pool_get_task_ecb, Ev.EV_IS_VALID_TASK_ID.
  destruct (Z.ltb_spec tid Ev.MAX_TASK) as [_ | ?]; [| lia].
  cbn [negb Z.eqb]. rewrite Hev. cbn [negb Z.eqb].
  set (i := Z.to_nat tid) in *.
  unfold Ev.ev_update_pending. rewrite Hvalid. cbn [negb snd].
  set (s0 := Ev.upd i _ s).
  assert (G0 : Ev.get i s0
               = Ev.set_pending_events p (Ev.get i s)).
  { unfold s0. now rewrite ev_get_upd_same. }
  set (s1 := Ev.ev_update_statistics i Ev.EV_STAT_SEND s0).
  destruct (ev_update_statistics_frame i Ev.EV_STAT_SEND s0) as (F1 & F2 & F3).
  fold s1 in F1, F2, F3.
  assert (Hlen1 : (i < length (Ev.event_blocks s1))%nat).
  { rewrite F3. unfold s0. now rewrite ev_length_upd. }
  assert (M1 : Ev.magic (Ev.get i s1) = Ev.magic (Ev.get i s)).
  { unfold s1. rewrite ev_update_statistics_field by (intros; reflexivity).
    rewrite G0. now destruct (Ev.get i s). }
  assert (S1 : Ev.state (Ev.get i s1) = Ev.EV_STATE_WAITING).
  { unfold s1. rewrite ev_update_statistics_field by (intros; reflexivity).
    rewrite G0. destruct (Ev.get i s); exact Hst. }
  assert (P1 : Ev.pending_events (Ev.get i s1) = p).
  { unfold s1. rewrite ev_update_statistics_field by (intros; reflexivity).
    rewrite G0. now destruct (Ev.get i s). }
  assert (W1 : Ev.waiting_events (Ev.get i s1) = w).
  { unfold s1. rewrite ev_update_statistics_field by (intros; reflexivity).
    rewrite G0. now destruct (Ev.get i s). }
  assert (C1 : Ev.wait_condition (Ev.get i s1) = Ev.wait_condition (Ev.get i s)).
  { unfold s1. rewrite ev_update_statistics_field by (intros; reflexivity).
    rewrite G0. now destruct (Ev.get i s). }
  assert (X1 : Ev.hw_context (Ev.get i s1) = Some ctx).
  { unfold s1. rewrite ev_update_statistics_field by (intros; reflexivity).
    rewrite G0. destruct (Ev.get i s); exact Hctx. }
  assert (V1 : Ev.EV_IS_VALID_ECB (Ev.get i s1) = true).
  { unfold Ev.EV_IS_VALID_ECB. rewrite M1. exact Hvalid. }
  assert (H0 : Ev.hw_ops s0 = Some Ev.ev_hw_generic_ops) by exact Hhw.
  assert (I0 : Ev.initialized s0 = Ev.initialized s) by reflexivity.
  assert (L0 : length (Ev.event_blocks s0) = length (Ev.event_blocks s))
    by apply ev_length_upd.
  clearbody s1. clear G0. clearbody s0.
  rewrite S1. change (Ev.EV_STATE_WAITING =? Ev.EV_STATE_WAITING) with true. cbv iota.
  assert (Hchk : truthy (Ev.ev_check_conditions (Ev.get i s1)) = true).
  { unfold Ev.ev_check_conditions. rewrite V1, S1, P1, W1, C1.
    change (Ev.EV_STATE_WAITING =? Ev.EV_STATE_WAITING) with true. cbn [negb orb].
    destruct (Ev.wait_condition (Ev.get i s) =? Ev.EV_ALL).
    - unfold Ev.EV_CHECK_ALL_CONDITION. rewrite Hsat, Z.eqb_refl. reflexivity.
    - unfold Ev.EV_CHECK_ANY_CONDITION, truthy. now apply negb_true_iff, Z.eqb_neq. }
  rewrite Hchk. rewrite F1, H0.
  unfold Ev.ev_hw_generic_signal_event. rewrite X1. cbn [snd].
  set (ctx' := Ev.mkCtx 1 (Ev.waiting ctx) (incr (Ev.signal_count ctx)) (Ev.ctx_wait_count ctx)).
  set (s2 := Ev.set_hw_total_signals _ (Ev.upd i (Ev.set_hw_context (Some ctx')) s1)).
  assert (G2 : Ev.get i s2 = Ev.set_hw_context (Some ctx') (Ev.get i s1)).
  { unfold s2. change (Ev.get i (Ev.set_hw_total_signals ?v ?x)) with (Ev.get i x).
    now rewrite ev_get_upd_same. }
  assert (Hlen2 : (i < length (Ev.event_blocks s2))%nat).
  { unfold s2. cbn. now rewrite length_insert. }
  assert (F2' : Ev.hw_ops s2 = Ev.hw_ops s1 /\ Ev.initialized s2 = Ev.initialized s1 /\
                length (Ev.event_blocks s2) = length (Ev.event_blocks s1)).
  { unfold s2. cbn. now rewrite length_insert. }
  clearbody s2.
  set (s3 := Ev.upd i (fun e => Ev.set_received_events
                                  (Z.land (Ev.pending_events e) (Ev.waiting_events e)) e) s2).
  assert (G3 : Ev.get i s3
               = Ev.set_received_events (Z.land p w)
                   (Ev.set_hw_context (Some ctx') (Ev.get i s1))).
  { unfold s3. rewrite ev_get_upd_same by exact Hlen2. rewrite G2.
    rewrite <- P1, <- W1. now destruct (Ev.get i s1). }
  assert (Hlen3 : (i < length (Ev.event_blocks s3))%nat).
  { unfold s3. now rewrite ev_length_upd. }
  assert (V3 : Ev.EV_IS_VALID_ECB (Ev.get i s3) = true).
  { rewrite G3. destruct (Ev.get i s1); exact V1. }
  assert (Hx : (if Ev.wait_condition (Ev.get i s2) =? Ev.EV_ALL
                then Ev.waiting_events (Ev.get i s3)
                else Ev.received_events (Ev.get i s3)) = Z.land p w).
  { rewrite G2, G3.
    replace (Ev.wait_condition (Ev.set_hw_context (Some ctx') (Ev.get i s1)))
      with (Ev.wait_condition (Ev.get i s)) by (rewrite <- C1; now destruct (Ev.get i s1)).
    destruct (Ev.wait_condition (Ev.get i s) =? Ev.EV_ALL).
    - rewrite Hsat. rewrite <- W1. now destruct (Ev.get i s1).
    - now destruct (Ev.get i s1). }
  assert (Hres : exists s4,
            (if Ev.wait_condition (Ev.get i s2) =? Ev.EV_ALL
             then snd (Ev.ev_clear_received i (Ev.waiting_events (Ev.get i s3)) s3)
             else snd (Ev.ev_clear_received i (Ev.received_events (Ev.get i s3)) s3)) = s4 /\
            s4 = Ev.upd i (fun e => Ev.set_received_events (Z.land p w)
                             (Ev.set_pending_events
                                (Z.land (Ev.pending_events e) (ulnot (Z.land p w))) e)) s3).
  { eexists. split; [reflexivity |].
    destruct (Ev.wait_condition (Ev.get i s2) =? Ev.EV_ALL);
      rewrite Hx; unfold Ev.ev_clear_received; rewrite V3; reflexivity. }
  destruct Hres as (s4 & E4 & D4).
  change (Ev.upd i
            (fun e => Ev.set_received_events
                        (Z.land (Ev.pending_events e) (Ev.waiting_events e)) e) s2)
    with s3.
  rewrite E4. clear E4. subst s4.
  eexists. split; [reflexivity |].
  destruct F2' as (A1 & A2 & A3).
  split; [transitivity (Ev.hw_ops s2); [reflexivity | now rewrite A1, F1, H0, Hhw] |].
  split; [transitivity (Ev.initialized s2); [reflexivity | now rewrite A2, F2, I0] |].
  split.
  { rewrite !ev_length_upd. unfold s3. now rewrite ev_length_upd, A3, F3. }
  rewrite ev_upd_upd by exact Hlen3.
  rewrite ev_get_upd_same by exact Hlen3. rewrite G3.
  rewrite <- M1.
  destruct (Ev.get i s1). cbn in P1 |- *. rewrite P1. repeat split.
Qed.


(** ** A wait and a send, part by part *)

(** [ev_send] is its two parts, one after the other. *)
Lemma ev_send_parts os tid events s :
  Ev.ev_send os tid events s
  = let '(error, more, s1) := Ev.ev_send_signal os tid events s in
    match more with
    | Some ecb => Ev.ev_send_stores ecb s1
    | None => (error, s1)
    end.
Proof.
  unfold Ev.ev_send, Ev.ev_send_signal, Ev.ev_send_stores.
  destruct (Ev.ev_init_once os s) as [e s0].
  destruct (negb (e =? 0)); [reflexivity |].
  destruct (negb (Ev.ev_pool_validate_task_id tid =? 0)); [reflexivity |].
  destruct (negb ((if Ev.EV_IS_VALID_EVENT_MASK events then 0 else ERR_BADPARAM) =? 0));
    [reflexivity |].
  destruct (Ev.ev_pool_get_task_ecb tid) as [ecb |]; [| reflexivity].
  destruct (Ev.state _ =? Ev.EV_STATE_WAITING); [| reflexivity].
  destruct (truthy _); reflexivity.
Qed.

(** [ev_receive] is its two parts, with the calls of [during] between
    them. *)
Lemma ev_receive_parts os during events flags timeout events_r s :
  Ev.ev_receive os during events flags timeout events_r s
  = match Ev.ev_receive_block os events flags timeout events_r s with
    | inl r => Returns r
    | inr (ecb, s1) =>
        Ev.ev_receive_resume os ecb timeout events_r
          (fold_left (fun s m => snd (Ev.ev_send os (fst m) (snd m) s)) during s1)
    end.
Proof.
  unfold Ev.ev_receive, Ev.ev_receive_block.
  destruct (Ev.ev_init_once os s) as [e s0].
  destruct (negb (e =? 0)); [reflexivity |].
  destruct events_r as [r |]; [| reflexivity].
  destruct (negb ((if Ev.EV_IS_VALID_EVENT_MASK events then 0 else ERR_BADPARAM) =? 0));
    [reflexivity |].
  destruct (negb ((if Ev.EV_IS_VALID_FLAGS flags then 0 else ERR_BADPARAM) =? 0));
    [reflexivity |].
  destruct (Ev.ev_pool_get_task_ecb Ev.ev_get_current_task_id) as [ecb |]; [| reflexivity].
  cbv zeta.
  destruct (truthy (Ev.ev_check_conditions _)); [reflexivity |].
  destruct (truthy (Z.land flags Ev.EV_NOWAIT)); [reflexivity |].
  destruct (Ev.ev_start_wait os ecb events flags timeout _) as [e1 s1].
  destruct (negb (e1 =? 0)); [reflexivity |].
  destruct (Ev.hw_ops s1) as [[] |]; [| reflexivity].
  unfold Ev.ev_hw_generic_wait_event, Ev.ev_hw_generic_wait_event_enter,
    Ev.ev_receive_resume, Ev.ev_receive_after_wait, Ev.ev_hw_generic_wait_event_leave.
  destruct (Ev.hw_context (Ev.get ecb s1)) as [ctx |].
  - cbv zeta. reflexivity.
  - destruct (ERR_BADPARAM =? ERR_TIMEOUT); reflexivity.
Qed.

(** [ev_start_wait] leaves the received events of every block alone. *)
Lemma ev_start_wait_received os i events flags timeout s j :
  Ev.received_events (Ev.get j (snd (Ev.ev_start_wait os i events flags timeout s)))
  = Ev.received_events (Ev.get j s).
Proof.
  assert (Hu : forall f s0, (forall t, Ev.received_events (f t) = Ev.received_events t) ->
             Ev.received_events (Ev.get j (Ev.upd i f s0))
             = Ev.received_events (Ev.get j s0)).
  { intros f s0 Hf. destruct (Nat.eq_dec i j) as [<- | Hne].
    - destruct (Nat.lt_ge_cases i (length (Ev.event_blocks s0))) as [Hi | Hi].
      + rewrite ev_get_upd_same by exact Hi. apply Hf.
      + unfold Ev.get, Ev.upd. simpl. now rewrite list_insert_ge.
    - now rewrite ev_get_upd_ne. }
  unfold Ev.ev_start_wait. destruct (negb _); [reflexivity |].
  set (s1 := Ev.upd i _ s).
  assert (R1 : Ev.received_events (Ev.get j s1) = Ev.received_events (Ev.get j s)).
  { unfold s1. apply Hu. intros t. reflexivity. }
  clearbody s1.
  assert (R2 : forall e s2, Ev.ev_hw_generic_create_event os i s1 = (e, s2) ->
                 Ev.received_events (Ev.get j s2) = Ev.received_events (Ev.get j s)).
  { intros e s2. unfold Ev.ev_hw_generic_create_event.
    destruct (negb (malloc_ok os)); [intros [= _ <-]; exact R1 |].
    destruct (negb (sync_init_ok os)); [intros [= _ <-]; exact R1 |].
    intros [= _ <-].
    change (Ev.get j (Ev.set_hw_total_events_created ?v ?x)) with (Ev.get j x).
    rewrite Hu by (intros t; reflexivity). exact R1. }
  destruct (Ev.hw_ops s1) as [[] |].
  - destruct (Ev.ev_hw_generic_create_event os i s1) as [e s2] eqn:E2.
    specialize (R2 e s2 eq_refl).
    destruct (negb (e =? 0)); cbn [snd]; [exact R2 |].
    rewrite ev_update_statistics_field by (intros; reflexivity). exact R2.
  - cbn [negb Z.eqb snd].
    rewrite ev_update_statistics_field by (intros; reflexivity). exact R1.
Qed.

(** Where [ev_receive] with [EV_WAIT] leaves the caller when its block
    is not waiting: blocked on the event object, the wait registered. *)
Lemma ev_receive_block_ok os events flags timeout out s :
  Ev.initialized s <> 0 ->
  (0 < length (Ev.event_blocks s))%nat ->
  Ev.EV_IS_VALID_ECB (Ev.get 0 s) = true ->
  Ev.state (Ev.get 0 s) <> Ev.EV_STATE_WAITING ->
  Ev.hw_ops s = Some Ev.ev_hw_generic_ops ->
  malloc_ok os = true -> sync_init_ok os = true ->
  Ev.EV_IS_VALID_EVENT_MASK events = true ->
  Ev.EV_IS_VALID_FLAGS flags = true ->
  Z.land flags Ev.EV_NOWAIT = 0 ->
  exists s1,
    Ev.ev_receive_block os events flags timeout (Some out) s = inr (0%nat, s1) /\
    Ev.initialized s1 <> 0 /\
    (0 < length (Ev.event_blocks s1))%nat /\
    Ev.hw_ops s1 = Some Ev.ev_hw_generic_ops /\
    Ev.EV_IS_VALID_ECB (Ev.get 0 s1) = true /\
    Ev.state (Ev.get 0 s1) = Ev.EV_STATE_WAITING /\
    Ev.hw_context (Ev.get 0 s1) = Some (Ev.mkCtx 0 1 0 (incr 0)) /\
    Ev.pending_events (Ev.get 0 s1) = Ev.pending_events (Ev.get 0 s) /\
    Ev.received_events (Ev.get 0 s1) = Ev.received_events (Ev.get 0 s) /\
    Ev.waiting_events (Ev.get 0 s1) = events /\
    Ev.wait_condition (Ev.get 0 s1)
    = (if truthy (Z.land flags Ev.EV_ANY) then Ev.EV_ANY else Ev.EV_ALL).
Proof.
  intros Hinit Hlen Hvalid Hst Hhw Hm Hsi Hev Hfl Hnw.
  unfold Ev.ev_receive_block. rewrite ev_init_once_initialized by exact Hinit.
  cbn [negb Z.eqb]. rewrite Hev, Hfl. cbn [negb Z.eqb].
  change (Ev.ev_pool_get_task_ecb Ev.ev_get_current_task_id) with (Some 0%nat).
  cbv iota beta.
  set (c := if truthy (Z.land flags Ev.EV_ANY) then Ev.EV_ANY else Ev.EV_ALL).
  set (s1 := Ev.upd 0 _ s).
  assert (G1 : Ev.get 0 s1
               = Ev.set_wait_condition c (Ev.set_waiting_events events (Ev.get 0 s))).
  { unfold s1. now rewrite ev_get_upd_same. }
  rewrite ev_check_conditions_not_waiting
    by (rewrite G1; destruct (Ev.get 0 s); exact Hst).
  change (truthy 0) with false. cbv iota. rewrite Hnw.
  change (truthy 0) with false. cbv iota.
  assert (Hlen1 : (0 < length (Ev.event_blocks s1))%nat)
    by (unfold s1; now rewrite ev_length_upd).
  assert (V1 : Ev.EV_IS_VALID_ECB (Ev.get 0 s1) = true)
    by (rewrite G1; destruct (Ev.get 0 s); exact Hvalid).
  assert (P1 : Ev.pending_events (Ev.get 0 s1) = Ev.pending_events (Ev.get 0 s))
    by (rewrite G1; now destruct (Ev.get 0 s)).
  assert (R1 : Ev.received_events (Ev.get 0 s1) = Ev.received_events (Ev.get 0 s))
    by (rewrite G1; now destruct (Ev.get 0 s)).
  assert (I1 : Ev.initialized s1 = Ev.initialized s) by reflexivity.
  assert (H1 : Ev.hw_ops s1 = Some Ev.ev_hw_generic_ops) by exact Hhw.
  clearbody s1. clear G1.
  pose proof (ev_start_wait_received os 0%nat events flags timeout s1 0%nat) as R2.
  destruct (ev_start_wait_ok os 0%nat events flags timeout s1 Hm Hsi Hlen1 V1 H1)
    as (s2 & E2 & H2 & I2 & L2 & M2 & S2 & P2 & W2 & C2 & X2).
  rewrite E2 in R2 |- *. cbn [snd] in R2. cbn [negb Z.eqb]. rewrite H2, H1.
  unfold Ev.ev_hw_generic_wait_event_enter. rewrite X2.
  cbn [Ev.signaled Ev.waiting Ev.signal_count Ev.ctx_wait_count].
  set (ctx1 := Ev.mkCtx 0 1 0 (incr 0)).
  set (s3 := Ev.set_hw_total_waits _ (Ev.upd 0 (Ev.set_hw_context (Some ctx1)) s2)).
  assert (G3 : Ev.get 0 s3 = Ev.set_hw_context (Some ctx1) (Ev.get 0 s2)).
  { unfold s3. change (Ev.get 0 (Ev.set_hw_total_waits ?v ?x)) with (Ev.get 0 x).
    rewrite ev_get_upd_same; [reflexivity | rewrite L2; exact Hlen1]. }
  exists s3. split; [reflexivity |].
  split; [change (Ev.initialized s3) with (Ev.initialized s2); now rewrite I2, I1 |].
  split; [unfold s3; cbn; rewrite length_insert, L2; exact Hlen1 |].
  split; [change (Ev.hw_ops s3) with (Ev.hw_ops s2); now rewrite H2 |].
  rewrite G3.
  split; [unfold Ev.EV_IS_VALID_ECB in *; rewrite <- V1, <- M2; now destruct (Ev.get 0 s2) |].
  split; [rewrite <- S2; now destruct (Ev.get 0 s2) |].
  split; [now destruct (Ev.get 0 s2) |].
  split; [rewrite <- P1, <- P2; now destruct (Ev.get 0 s2) |].
  split; [rewrite <- R1, <- R2; now destruct (Ev.get 0 s2) |].
  split; [rewrite <- W2; now destruct (Ev.get 0 s2) |].
  unfold c. rewrite <- C2. now destruct (Ev.get 0 s2).
Qed.

(** [ev_send] up to the return of [signal_event], for a task that waits
    and whose condition the events now pending satisfy: the events are
    pending, the event object is signalled, and the block is otherwise
    as the waiting task left it. *)
Lemma ev_send_signal_satisfies os tid events s ctx :
  Ev.initialized s <> 0 ->
  0 <= tid < Ev.MAX_TASK ->
  (Z.to_nat tid < length (Ev.event_blocks s))%nat ->
  Ev.EV_IS_VALID_ECB (Ev.get (Z.to_nat tid) s) = true ->
  Ev.state (Ev.get (Z.to_nat tid) s) = Ev.EV_STATE_WAITING ->
  Ev.hw_ops s = Some Ev.ev_hw_generic_ops ->
  Ev.hw_context (Ev.get (Z.to_nat tid) s) = Some ctx ->
  Ev.EV_IS_VALID_EVENT_MASK events = true ->
  let p := Z.lor (Ev.pending_events (Ev.get (Z.to_nat tid) s)) events in
  let w := Ev.waiting_events (Ev.get (Z.to_nat tid) s) in
  (if Ev.wait_condition (Ev.get (Z.to_nat tid) s) =? Ev.EV_ALL
   then Z.land p w = w else Z.land p w <> 0) ->
  exists s',
    Ev.ev_send_signal os tid events s = (0, Some (Z.to_nat tid), s') /\
    (Z.to_nat tid < length (Ev.event_blocks s'))%nat /\
    Ev.EV_IS_VALID_ECB (Ev.get (Z.to_nat tid) s') = true /\
    Ev.pending_events (Ev.get (Z.to_nat tid) s') = p /\
    Ev.received_events (Ev.get (Z.to_nat tid) s')
    = Ev.received_events (Ev.get (Z.to_nat tid) s) /\
    Ev.hw_context (Ev.get (Z.to_nat tid) s')
    = Some (Ev.mkCtx 1 (Ev.waiting ctx) (incr (Ev.signal_count ctx)) (Ev.ctx_wait_count ctx)).
Proof.
  intros Hinit Htid Hlen Hvalid Hst Hhw Hctx Hev p w Hsat.
  unfold Ev.ev_send_signal. rewrite ev_init_once_initialized by exact Hinit.
  cbn [negb Z.eqb].
  unfold Ev.ev_pool_validate_task_id, Ev.ev_pool_get_task_ecb, Ev.EV_IS_VALID_TASK_ID.
  destruct (Z.ltb_spec tid Ev.MAX_TASK) as [_ | ?]; [| lia].
  cbn [negb Z.eqb]. rewrite Hev. cbn [negb Z.eqb].
  set (i := Z.to_nat tid) in *.
  unfold Ev.ev_update_pending. rewrite Hvalid. cbn [negb snd].
  set (s0 := Ev.upd i _ s).
  assert (G0 : Ev.get i s0 = Ev.set_pending_events p (Ev.get i s)).
  { unfold s0. now rewrite ev_get_upd_same. }
  set (s1 := Ev.ev_update_statistics i Ev.EV_STAT_SEND s0).
  destruct (ev_update_statistics_frame i Ev.EV_STAT_SEND s0) as (F1 & F2 & F3).
  fold s1 in F1, F2, F3.
  assert (Hlen1 : (i < length (Ev.event_blocks s1))%nat).
  { rewrite F3. unfold s0. now rewrite ev_length_upd. }
  assert (M1 : Ev.magic (Ev.get i s1) = Ev.magic (Ev.get i s)).
  { unfold s1. rewrite ev_update_statistics_field by (intros; reflexivity).
    rewrite G0. now destruct (Ev.get i s). }
  assert (S1 : Ev.state (Ev.get i s1) = Ev.EV_STATE_WAITING).
  { unfold s1. rewrite ev_update_statistics_field by (intros; reflexivity).
    rewrite G0. destruct (Ev.get i s); exact Hst. }
  assert (P1 : Ev.pending_events (Ev.get i s1) = p).
  { unfold s1. rewrite ev_update_statistics_field by (intros; reflexivity).
    rewrite G0. now destruct (Ev.get i s). }
  assert (R1 : Ev.received_events (Ev.get i s1) = Ev.received_events (Ev.get i s)).
  { unfold s1. rewrite ev_update_statistics_field by (intros; reflexivity).
    rewrite G0. now destruct (Ev.get i s). }
  assert (W1 : Ev.waiting_events (Ev.get i s1) = w).
  { unfold s1. rewrite ev_update_statistics_field by (intros; reflexivity).
    rewrite G0. now destruct (Ev.get i s). }
  assert (C1 : Ev.wait_condition (Ev.get i s1) = Ev.wait_condition (Ev.get i s)).
  { unfold s1. rewrite ev_update_statistics_field by (intros; reflexivity).
    rewrite G0. now destruct (Ev.get i s). }
  assert (X1 : Ev.hw_context (Ev.get i s1) = Some ctx).
  { unfold s1. rewrite ev_update_statistics_field by (intros; reflexivity).
    rewrite G0. destruct (Ev.get i s); exact Hctx. }
  assert (V1 : Ev.EV_IS_VALID_ECB (Ev.get i s1) = true).
  { unfold Ev.EV_IS_VALID_ECB. rewrite M1. exact Hvalid. }
  assert (H0 : Ev.hw_ops s0 = Some Ev.ev_hw_generic_ops) by exact Hhw.
  clearbody s1. clear G0. clearbody s0.
  rewrite S1. change (Ev.EV_STATE_WAITING =? Ev.EV_STATE_WAITING) with true. cbv iota.
  assert (Hchk : truthy (Ev.ev_check_conditions (Ev.get i s1)) = true).
  { unfold Ev.ev_check_conditions. rewrite V1, S1, P1, W1, C1.
    change (Ev.EV_STATE_WAITING =? Ev.EV_STATE_WAITING) with true. cbn [negb orb].
    destruct (Ev.wait_condition (Ev.get i s) =? Ev.EV_ALL).
    - unfold Ev.EV_CHECK_ALL_CONDITION. rewrite Hsat, Z.eqb_refl. reflexivity.
    - unfold Ev.EV_CHECK_ANY_CONDITION, truthy. now apply negb_true_iff, Z.eqb_neq. }
  rewrite Hchk. rewrite F1, H0.
  unfold Ev.ev_hw_generic_signal_event. rewrite X1. cbn [snd].
  set (ctx' := Ev.mkCtx 1 (Ev.waiting ctx) (incr (Ev.signal_count ctx)) (Ev.ctx_wait_count ctx)).
  eexists. split; [reflexivity |].
  split; [cbn; now rewrite length_insert |].
  change (Ev.get i (Ev.set_hw_total_signals ?v ?x)) with (Ev.get i x).
  rewrite ev_get_upd_same by exact Hlen1.
  split; [unfold Ev.EV_IS_VALID_ECB in *; rewrite <- V1; now destruct (Ev.get i s1) |].
  split; [rewrite <- P1; now destruct (Ev.get i s1) |].
  split; [rewrite <- R1; now destruct (Ev.get i s1) |].
  now destruct (Ev.get i s1).
Qed.

(** X23: task 0 calls [ev_receive] with [EV_WAIT] and no timeout while
    its block is not waiting, and blocks on its event object; another
    task then calls [ev_send (0, sent)], and the events then pending
    satisfy the request.  What the waiter gets depends on when it runs
    again.  If the sender has returned from [ev_send] by then,
    [ev_receive] returns 0 with the requested events that are pending,
    which are no longer pending afterwards.  If the waiter runs again
    when the sender has returned from [signal_event] and has not yet
    made the stores that follow it, [ev_receive] returns 0 with the
    received events that the block held before the call, none of the
    events sent; the sender's stores then find the wait cleared, leave
    all the events pending and mark the block as signalled. *)
Theorem ev_receive_result_depends_on_schedule os events flags out sent s :
  Ev.initialized s <> 0 ->
  (0 < length (Ev.event_blocks s))%nat ->
  Ev.EV_IS_VALID_ECB (Ev.get 0 s) = true ->
  Ev.state (Ev.get 0 s) <> Ev.EV_STATE_WAITING ->
  Ev.hw_ops s = Some Ev.ev_hw_generic_ops ->
  malloc_ok os = true -> sync_init_ok os = true ->
  Ev.EV_IS_VALID_EVENT_MASK events = true ->
  Ev.EV_IS_VALID_FLAGS flags = true ->
  Z.land flags Ev.EV_NOWAIT = 0 ->
  Ev.EV_IS_VALID_EVENT_MASK sent = true ->
  let p := Z.lor (Ev.pending_events (Ev.get 0 s)) sent in
  (if truthy (Z.land flags Ev.EV_ANY) then Z.land p events <> 0
   else Z.land p events = events) ->
  exists s1,
    Ev.ev_receive_block os events flags Ev.EV_INFINITE_TIMEOUT (Some out) s
    = inr (0%nat, s1) /\
    (exists sa s',
       Ev.ev_send os 0 sent s1 = (0, sa) /\
       Ev.ev_receive_resume os 0 Ev.EV_INFINITE_TIMEOUT (Some out) sa
       = Returns (0, Some (Z.land p events), s') /\
       Ev.pending_events (Ev.get 0 s') = Z.land p (ulnot (Z.land p events)) /\
       Ev.state (Ev.get 0 s') = Ev.EV_STATE_FREE) /\
    (exists sb s2 s3,
       Ev.ev_send_signal os 0 sent s1 = (0, Some 0%nat, sb) /\
       Ev.ev_receive_resume os 0 Ev.EV_INFINITE_TIMEOUT (Some out) sb
       = Returns (0, Some (Ev.received_events (Ev.get 0 s)), s2) /\
       Ev.ev_send_stores 0 s2 = (0, s3) /\
       Ev.received_events (Ev.get 0 s3) = 0 /\
       Ev.pending_events (Ev.get 0 s3) = Z.land p (ulnot 0) /\
       Ev.state (Ev.get 0 s3) = Ev.EV_STATE_SIGNALED).
Proof.
  intros Hinit Hlen Hvalid Hst Hhw Hm Hsi Hev Hfl Hnw Hsent p Hsat.
  destruct (ev_receive_block_ok os events flags Ev.EV_INFINITE_TIMEOUT out s
              Hinit Hlen Hvalid Hst Hhw Hm Hsi Hev Hfl Hnw)
    as (s1 & E1 & I1 & L1 & H1 & V1 & S1 & X1 & P1 & R1 & W1 & C1).
  exists s1. split; [exact E1 |].
  assert (Hsat1 : if Ev.wait_condition (Ev.get (Z.to_nat 0) s1) =? Ev.EV_ALL
                  then Z.land (Z.lor (Ev.pending_events (Ev.get (Z.to_nat 0) s1)) sent)
                         (Ev.waiting_events (Ev.get (Z.to_nat 0) s1))
                       = Ev.waiting_events (Ev.get (Z.to_nat 0) s1)
                  else Z.land (Z.lor (Ev.pending_events (Ev.get (Z.to_nat 0) s1)) sent)
                         (Ev.waiting_events (Ev.get (Z.to_nat 0) s1)) <> 0).
  { change (Z.to_nat 0) with 0%nat. rewrite P1, W1, C1. fold p.
    destruct (truthy (Z.land flags Ev.EV_ANY)); exact Hsat. }
  split.
  - (* the sender returns first *)
    destruct (ev_send_satisfies_wait os 0 sent s1 (Ev.mkCtx 0 1 0 (incr 0)) I1
                ltac:(unfold Ev.MAX_TASK; lia) L1 V1 S1 H1 X1 Hsent Hsat1)
      as (sa & Ea & Ha & Ia & La & Ma & Sa & Pa & Ra & Xa).
    change (Z.to_nat 0) with 0%nat in *. rewrite P1, W1 in Pa, Ra. fold p in Pa, Ra.
    exists sa.
    cut (exists s',
           Ev.ev_receive_resume os 0 Ev.EV_INFINITE_TIMEOUT (Some out) sa
           = Returns (0, Some (Z.land p events), s') /\
           Ev.pending_events (Ev.get 0 s') = Z.land p (ulnot (Z.land p events)) /\
           Ev.state (Ev.get 0 s') = Ev.EV_STATE_FREE).
    { intros (s' & A1 & A2 & A3). exists s'. repeat split; assumption. }
    unfold Ev.ev_receive_resume, Ev.ev_hw_generic_wait_event_leave. rewrite Xa.
    cbn [Ev.signaled Ev.waiting Ev.signal_count Ev.ctx_wait_count].
    change (truthy 1) with true. cbv iota.
    unfold Ev.ev_receive_after_wait.
    change (0 =? ERR_TIMEOUT) with false. cbv iota.
    set (s5 := Ev.upd 0 _ sa).
    assert (G5 : Ev.get 0 s5
                 = Ev.set_hw_context (Some (Ev.mkCtx 0 0 (incr 0) (incr 0))) (Ev.get 0 sa)).
    { unfold s5. rewrite ev_get_upd_same; [reflexivity | rewrite La; exact L1]. }
    assert (L5 : (0 < length (Ev.event_blocks s5))%nat).
    { unfold s5. rewrite ev_length_upd, La. exact L1. }
    assert (V5 : Ev.EV_IS_VALID_ECB (Ev.get 0 s5) = true).
    { rewrite G5. unfold Ev.EV_IS_VALID_ECB in *. rewrite <- V1, <- Ma.
      now destruct (Ev.get 0 sa). }
    assert (R5 : Ev.received_events (Ev.get 0 s5) = Z.land p events).
    { rewrite G5, <- Ra. now destruct (Ev.get 0 sa). }
    assert (P5 : Ev.pending_events (Ev.get 0 s5) = Z.land p (ulnot (Z.land p events))).
    { rewrite G5, <- Pa. now destruct (Ev.get 0 sa). }
    clearbody s5. clear G5.
    unfold Ev.ev_complete_wait. rewrite V5. cbn [negb]. rewrite R5.
    eexists. split; [reflexivity |].
    rewrite !ev_update_statistics_field by (intros; reflexivity).
    rewrite ev_get_upd_same by exact L5.
    rewrite <- P5. destruct (Ev.get 0 s5). split; reflexivity.
  - (* the waiter runs again between the signal and the stores *)
    destruct (ev_send_signal_satisfies os 0 sent s1 (Ev.mkCtx 0 1 0 (incr 0)) I1
                ltac:(unfold Ev.MAX_TASK; lia) L1 V1 S1 H1 X1 Hsent Hsat1)
      as (sb & Eb & Lb & Vb & Pb & Rb & Xb).
    change (Z.to_nat 0) with 0%nat in *. rewrite P1 in Pb. fold p in Pb. rewrite R1 in Rb.
    exists sb.
    cut (exists s2 s3,
           Ev.ev_receive_resume os 0 Ev.EV_INFINITE_TIMEOUT (Some out) sb
           = Returns (0, Some (Ev.received_events (Ev.get 0 s)), s2) /\
           Ev.ev_send_stores 0 s2 = (0, s3) /\
           Ev.received_events (Ev.get 0 s3) = 0 /\
           Ev.pending_events (Ev.get 0 s3) = Z.land p (ulnot 0) /\
           Ev.state (Ev.get 0 s3) = Ev.EV_STATE_SIGNALED).
    { intros (s2 & s3 & A1 & A2 & A3 & A4 & A5). exists s2, s3. repeat split; assumption. }
    unfold Ev.ev_receive_resume, Ev.ev_hw_generic_wait_event_leave. rewrite Xb.
    cbn [Ev.signaled Ev.waiting Ev.signal_count Ev.ctx_wait_count].
    change (truthy 1) with true. cbv iota.
    unfold Ev.ev_receive_after_wait.
    change (0 =? ERR_TIMEOUT) with false. cbv iota.
    set (s5 := Ev.upd 0 _ sb).
    assert (G5 : Ev.get 0 s5
                 = Ev.set_hw_context (Some (Ev.mkCtx 0 0 (incr 0) (incr 0))) (Ev.get 0 sb)).
    { unfold s5. now rewrite ev_get_upd_same. }
    assert (L5 : (0 < length (Ev.event_blocks s5))%nat).
    { unfold s5. now rewrite ev_length_upd. }
    assert (V5 : Ev.EV_IS_VALID_ECB (Ev.get 0 s5) = true).
    { rewrite G5. unfold Ev.EV_IS_VALID_ECB in *. rewrite <- Vb.
      now destruct (Ev.get 0 sb). }
    assert (R5 : Ev.received_events (Ev.get 0 s5) = Ev.received_events (Ev.get 0 s)).
    { rewrite G5, <- Rb. now destruct (Ev.get 0 sb). }
    assert (P5 : Ev.pending_events (Ev.get 0 s5) = p).
    { rewrite G5, <- Pb. now destruct (Ev.get 0 sb). }
    clearbody s5. clear G5.
    unfold Ev.ev_complete_wait. rewrite V5. cbn [negb]. rewrite R5.
    set (s6 := Ev.ev_update_statistics 0 Ev.EV_STAT_WAIT_COMPLETE
                 (Ev.upd 0 Ev.clear_wait_state s5)).
    destruct (ev_update_statistics_frame 0 Ev.EV_STAT_WAIT_COMPLETE
                (Ev.upd 0 Ev.clear_wait_state s5)) as (_ & _ & F3).
    fold s6 in F3.
    assert (L6 : (0 < length (Ev.event_blocks s6))%nat).
    { rewrite F3, ev_length_upd. exact L5. }
    assert (K6 : forall {B} (q : Ev.EV_ECB -> B),
               (forall v t, q (Ev.set_events_sent v t) = q t) ->
               (forall v t, q (Ev.set_events_received v t) = q t) ->
               (forall v t, q (Ev.set_wait_count v t) = q t) ->
               (forall v t, q (Ev.set_timeout_count v t) = q t) ->
               q (Ev.get 0 s6) = q (Ev.clear_wait_state (Ev.get 0 s5))).
    { intros B q Q1 Q2 Q3 Q4. unfold s6.
      rewrite ev_update_statistics_field by assumption.
      now rewrite ev_get_upd_same. }
    assert (M6 : Ev.EV_IS_VALID_ECB (Ev.get 0 s6) = true).
    { unfold Ev.EV_IS_VALID_ECB in *.
      rewrite (K6 _ Ev.magic) by (intros; reflexivity).
      rewrite <- V5. now destruct (Ev.get 0 s5). }
    assert (C6 : Ev.wait_condition (Ev.get 0 s6) = 0).
    { rewrite (K6 _ Ev.wait_condition) by (intros; reflexivity). reflexivity. }
    assert (W6 : Ev.waiting_events (Ev.get 0 s6) = 0).
    { rewrite (K6 _ Ev.waiting_events) by (intros; reflexivity). reflexivity. }
    assert (P6 : Ev.pending_events (Ev.get 0 s6) = p).
    { rewrite (K6 _ Ev.pending_events) by (intros; reflexivity).
      rewrite <- P5. now destruct (Ev.get 0 s5). }
    clearbody s6.
    exists s6.
    cut (exists s3,
           Ev.ev_send_stores 0 s6 = (0, s3) /\
           Ev.received_events (Ev.get 0 s3) = 0 /\
           Ev.pending_events (Ev.get 0 s3) = Z.land p (ulnot 0) /\
           Ev.state (Ev.get 0 s3) = Ev.EV_STATE_SIGNALED).
    { intros (s3 & A2 & A3 & A4 & A5). exists s3. repeat split; assumption. }
    unfold Ev.ev_send_stores. rewrite C6.
    change (0 =? Ev.EV_ALL) with true. cbv iota.
    set (s7 := Ev.upd 0 _ s6).
    assert (G7 : Ev.get 0 s7
                 = Ev.set_received_events
                     (Z.land (Ev.pending_events (Ev.get 0 s6)) (Ev.waiting_events (Ev.get 0 s6)))
                     (Ev.get 0 s6)).
    { unfold s7. now rewrite ev_get_upd_same. }
    assert (L7 : (0 < length (Ev.event_blocks s7))%nat).
    { unfold s7. now rewrite ev_length_upd. }
    assert (V7 : Ev.EV_IS_VALID_ECB (Ev.get 0 s7) = true).
    { rewrite G7. unfold Ev.EV_IS_VALID_ECB in *. rewrite <- M6. now destruct (Ev.get 0 s6). }
    assert (W7 : Ev.waiting_events (Ev.get 0 s7) = 0).
    { rewrite G7, <- W6. now destruct (Ev.get 0 s6). }
    assert (P7 : Ev.pending_events (Ev.get 0 s7) = p).
    { rewrite G7, <- P6. now destruct (Ev.get 0 s6). }
    clearbody s7. clear G7.
    unfold Ev.ev_clear_received. rewrite V7, W7. cbn [negb snd].
    eexists. split; [reflexivity |].
    rewrite ev_upd_upd by exact L7.
    rewrite ev_get_upd_same by exact L7.
    rewrite <- P7. destruct (Ev.get 0 s7). repeat split.
Qed.

(** X24: [ev_receive] with [EV_WAIT] and a timeout other than
    [EV_INFINITE_TIMEOUT], when no task sends during the wait: the call
    returns [ERR_TIMEOUT], writes nothing to [*events_r], keeps the
    pending events and leaves the block free. *)
Theorem ev_receive_timeout_keeps_pending os events flags timeout out s :
  Ev.initialized s <> 0 ->
  (0 < length (Ev.event_blocks s))%nat ->
  Ev.EV_IS_VALID_ECB (Ev.get 0 s) = true ->
  Ev.state (Ev.get 0 s) <> Ev.EV_STATE_WAITING ->
  Ev.hw_ops s = Some Ev.ev_hw_generic_ops ->
  malloc_ok os = true -> sync_init_ok os = true -> sync_wait_ok os = true ->
  Ev.EV_IS_VALID_EVENT_MASK events = true ->
  Ev.EV_IS_VALID_FLAGS flags = true ->
  Z.land flags Ev.EV_NOWAIT = 0 ->
  timeout <> Ev.EV_INFINITE_TIMEOUT ->
  exists s',
    Ev.ev_receive os [] events flags timeout (Some out) s
    = Returns (ERR_TIMEOUT, Some out, s') /\
    Ev.pending_events (Ev.get 0 s') = Ev.pending_events (Ev.get 0 s) /\
    Ev.state (Ev.get 0 s') = Ev.EV_STATE_FREE.
Proof.
  intros Hinit Hlen Hvalid Hst Hhw Hm Hsi Hsw Hev Hfl Hnw Hto.
  unfold Ev.ev_receive. rewrite ev_init_once_initialized by exact Hinit.
  cbn [negb Z.eqb]. rewrite Hev, Hfl. cbn [negb Z.eqb].
  change (Ev.ev_pool_get_task_ecb Ev.ev_get_current_task_id) with (Some 0%nat).
  cbv iota beta.
  set (c := if truthy (Z.land flags Ev.EV_ANY) then Ev.EV_ANY else Ev.EV_ALL).
  set (s1 := Ev.upd 0 _ s).
  assert (G1 : Ev.get 0 s1
               = Ev.set_wait_condition c (Ev.set_waiting_events events (Ev.get 0 s))).
  { unfold s1. now rewrite ev_get_upd_same. }
  rewrite ev_check_conditions_not_waiting
    by (rewrite G1; destruct (Ev.get 0 s); exact Hst).
  change (truthy 0) with false. cbv iota. rewrite Hnw.
  change (truthy 0) with false. cbv iota.
  assert (Hlen1 : (0 < length (Ev.event_blocks s1))%nat)
    by (unfold s1; now rewrite ev_length_upd).
  assert (V1 : Ev.EV_IS_VALID_ECB (Ev.get 0 s1) = true)
    by (rewrite G1; destruct (Ev.get 0 s); exact Hvalid).
  assert (P1 : Ev.pending_events (Ev.get 0 s1) = Ev.pending_events (Ev.get 0 s))
    by (rewrite G1; now destruct (Ev.get 0 s)).
  assert (H1 : Ev.hw_ops s1 = Some Ev.ev_hw_generic_ops) by exact Hhw.
  clearbody s1. clear G1.
  destruct (ev_start_wait_ok os 0%nat events flags timeout s1 Hm Hsi Hlen1 V1 H1)
    as (s2 & E2 & H2 & I2 & L2 & M2 & S2 & P2 & W2 & C2 & X2).
  rewrite E2. cbn [negb Z.eqb]. rewrite H2, H1.
  unfold Ev.ev_hw_generic_wait_event. rewrite X2.
  cbn [Ev.signaled Ev.waiting Ev.signal_count Ev.ctx_wait_count fold_left].
  set (ctx1 := Ev.mkCtx 0 1 0 (incr 0)).
  set (s3 := Ev.set_hw_total_waits _ (Ev.upd 0 (Ev.set_hw_context (Some ctx1)) s2)).
  assert (G3 : Ev.get 0 s3 = Ev.set_hw_context (Some ctx1) (Ev.get 0 s2)).
  { unfold s3. change (Ev.get 0 (Ev.set_hw_total_waits ?v ?x)) with (Ev.get 0 x).
    rewrite ev_get_upd_same; [reflexivity | rewrite L2; exact Hlen1]. }
  assert (L3 : (0 < length (Ev.event_blocks s3))%nat).
  { unfold s3. cbn. rewrite length_insert, L2. exact Hlen1. }
  assert (H3 : Ev.hw_ops s3 = Some Ev.ev_hw_generic_ops).
  { change (Ev.hw_ops s3) with (Ev.hw_ops s2). now rewrite H2. }
  assert (X3 : Ev.hw_context (Ev.get 0 s3) = Some ctx1).
  { rewrite G3. now destruct (Ev.get 0 s2). }
  assert (M3 : Ev.magic (Ev.get 0 s3) = Ev.magic (Ev.get 0 s1)).
  { rewrite G3, <- M2. now destruct (Ev.get 0 s2). }
  assert (P3 : Ev.pending_events (Ev.get 0 s3) = Ev.pending_events (Ev.get 0 s)).
  { rewrite G3, <- P1, <- P2. now destruct (Ev.get 0 s2). }
  clearbody s3. clear G3.
  rewrite X3. change (truthy (Ev.signaled ctx1)) with false. cbv iota.
  destruct (Z.eqb_spec timeout Ev.EV_INFINITE_TIMEOUT) as [? | _]; [contradiction |].
  rewrite Hsw. change (ERR_TIMEOUT =? ERR_TIMEOUT) with true. cbv iota.
  cbn [Ev.signaled Ev.waiting Ev.signal_count Ev.ctx_wait_count].
  set (s4 := Ev.upd 0 _ s3).
  assert (G4 : Ev.get 0 s4
               = Ev.set_hw_context (Some (Ev.mkCtx 0 0 0 (incr 0))) (Ev.get 0 s3)).
  { unfold s4. now rewrite ev_get_upd_same. }
  assert (L4 : (0 < length (Ev.event_blocks s4))%nat).
  { unfold s4. now rewrite ev_length_upd. }
  assert (H4 : Ev.hw_ops s4 = Some Ev.ev_hw_generic_ops) by exact H3.
  clearbody s4.
  set (s5 := Ev.ev_update_statistics 0 Ev.EV_STAT_TIMEOUT s4).
  destruct (ev_update_statistics_frame 0 Ev.EV_STAT_TIMEOUT s4) as (F1 & F2 & F3).
  fold s5 in F1, F2, F3.
  assert (M5 : Ev.magic (Ev.get 0 s5) = Ev.magic (Ev.get 0 s1)).
  { unfold s5. rewrite ev_update_statistics_field by (intros; reflexivity).
    rewrite G4, <- M3. now destruct (Ev.get 0 s3). }
  assert (P5 : Ev.pending_events (Ev.get 0 s5) = Ev.pending_events (Ev.get 0 s)).
  { unfold s5. rewrite ev_update_statistics_field by (intros; reflexivity).
    rewrite G4, <- P3. now destruct (Ev.get 0 s3). }
  assert (X5 : Ev.hw_context (Ev.get 0 s5) = Some (Ev.mkCtx 0 0 0 (incr 0))).
  { unfold s5. rewrite ev_update_statistics_field by (intros; reflexivity).
    rewrite G4. now destruct (Ev.get 0 s3). }
  assert (L5 : (0 < length (Ev.event_blocks s5))%nat) by (rewrite F3; exact L4).
  clearbody s5.
  unfold Ev.ev_cancel_wait.
  assert (V5 : Ev.EV_IS_VALID_ECB (Ev.get 0 s5) = true).
  { unfold Ev.EV_IS_VALID_ECB in *. now rewrite M5. }
  rewrite V5, F1, H4. cbn [negb snd].
  unfold Ev.ev_hw_generic_clear_event. rewrite X5. cbn [snd].
  eexists. split; [reflexivity |].
  rewrite ev_upd_upd by exact L5.
  rewrite ev_get_upd_same by exact L5.
  rewrite <- P5. destruct (Ev.get 0 s5). split; reflexivity.
Qed.

(** X21: two [ev_send] calls to a task that is not waiting both return
    0; the events of both are pending afterwards, on top of those that
    were, the state of the block is as before and no other block is
    written. *)
Theorem ev_send_accumulates_pending os tid e1 e2 s :
  Ev.initialized s <> 0 ->
  0 <= tid < Ev.MAX_TASK ->
  (Z.to_nat tid < length (Ev.event_blocks s))%nat ->
  Ev.EV_IS_VALID_ECB (Ev.get (Z.to_nat tid) s) = true ->
  Ev.state (Ev.get (Z.to_nat tid) s) <> Ev.EV_STATE_WAITING ->
  Ev.EV_IS_VALID_EVENT_MASK e1 = true ->
  Ev.EV_IS_VALID_EVENT_MASK e2 = true ->
  let r1 := Ev.ev_send os tid e1 s in
  let r2 := Ev.ev_send os tid e2 (snd r1) in
  fst r1 = 0 /\ fst r2 = 0 /\
  Ev.pending_events (Ev.get (Z.to_nat tid) (snd r2))
  = Z.lor (Z.lor (Ev.pending_events (Ev.get (Z.to_nat tid) s)) e1) e2 /\
  Ev.state (Ev.get (Z.to_nat tid) (snd r2)) = Ev.state (Ev.get (Z.to_nat tid) s) /\
  (forall j, j <> Z.to_nat tid -> Ev.get j (snd r2) = Ev.get j s).
Proof.
  intros Hinit Htid Hlen Hvalid Hst He1 He2 r1 r2.
  assert (E1 := ev_send_not_waiting_step os tid e1 s Hinit Htid Hlen Hvalid Hst He1).
  set (i := Z.to_nat tid) in *.
  set (s1 := Ev.set_total_events_sent _ _) in E1.
  assert (G1 : Ev.get i s1
               = Ev.set_events_sent (incr (Ev.events_sent (Ev.get i s)))
                   (Ev.set_pending_events (Z.lor (Ev.pending_events (Ev.get i s)) e1)
                      (Ev.get i s))).
  { unfold s1. change (Ev.get i (Ev.set_total_events_sent ?v ?x)) with (Ev.get i x).
    now rewrite ev_get_upd_same. }
  assert (N1 : forall j, j <> i -> Ev.get j s1 = Ev.get j s).
  { intros j Hj. unfold s1.
    change (Ev.get j (Ev.set_total_events_sent ?v ?x)) with (Ev.get j x).
    apply ev_get_upd_ne. congruence. }
  assert (L1 : (i < length (Ev.event_blocks s1))%nat).
  { unfold s1. cbn. now rewrite length_insert. }
  assert (I1 : Ev.initialized s1 <> 0) by exact Hinit.
  assert (V1 : Ev.EV_IS_VALID_ECB (Ev.get i s1) = true).
  { rewrite G1. destruct (Ev.get i s); exact Hvalid. }
  assert (S1 : Ev.state (Ev.get i s1) = Ev.state (Ev.get i s)).
  { rewrite G1. now destruct (Ev.get i s). }
  assert (P1 : Ev.pending_events (Ev.get i s1)
               = Z.lor (Ev.pending_events (Ev.get i s)) e1).
  { rewrite G1. now destruct (Ev.get i s). }
  clearbody s1. clear G1.
  assert (E2 := ev_send_not_waiting_step os tid e2 s1 I1 Htid L1 V1
                  ltac:(fold i; rewrite S1; exact Hst) He2).
  fold i in E2.
  subst r2 r1. rewrite E1. cbn [fst snd]. rewrite E2. cbn [fst snd].
  split; [reflexivity |]. split; [reflexivity |].
  change (Ev.get ?j (Ev.set_total_events_sent ?v ?x)) with (Ev.get j x).
  rewrite ev_get_upd_same by exact L1.
  split; [rewrite <- P1; now destruct (Ev.get i s1) |].
  split; [rewrite <- S1; now destruct (Ev.get i s1) |].
  intros j Hj.
  change (Ev.get ?j (Ev.set_total_events_sent ?v ?x)) with (Ev.get j x).
  rewrite ev_get_upd_ne by congruence. now apply N1.
Qed.

(** X22: [ev_send] returns 0 exactly when the task identifier is below
    [MAX_TASK] and the event mask is neither 0 nor above 0xFFFFFFFF; a
    rejected call leaves the state of an initialised event system as it
    was. *)
Theorem ev_send_rejects_bad_arguments os tid events s :
  ERR_BADPARAM <> 0 ->
  Ev.initialized s <> 0 ->
  (fst (Ev.ev_send os tid events s) = 0
   <-> tid < Ev.MAX_TASK /\ events <> 0 /\ events <= Ev.EV_ALL_EVENTS) /\
  (fst (Ev.ev_send os tid events s) <> 0 -> snd (Ev.ev_send os tid events s) = s).
Proof.
  intros Hbp Hinit.
  unfold Ev.ev_send. rewrite ev_init_once_initialized by exact Hinit.
  cbn [negb Z.eqb].
  unfold Ev.ev_pool_validate_task_id, Ev.ev_pool_get_task_ecb, Ev.EV_IS_VALID_TASK_ID,
    Ev.EV_IS_VALID_EVENT_MASK.
  destruct (Z.ltb_spec tid Ev.MAX_TASK) as [Hlt | Hge].
  - cbn [negb Z.eqb].
    destruct (Z.eqb_spec events 0) as [E0 | Hne]; cbn [negb andb].
    + destruct (Z.eqb_spec ERR_BADPARAM 0) as [? | _]; [contradiction |]. cbn [negb fst snd].
      split; [| reflexivity]. split; [contradiction | lia].
    + destruct (Z.leb_spec events Ev.EV_ALL_EVENTS) as [Hle | Hgt].
      * cbn [negb Z.eqb].
        assert (Hr : forall (b c : bool) (x y z : Ev.EV_STATE),
                  fst (if b then if c then (0, x) else (0, y) else (0, z)) = 0).
        { intros [] [] x y z; reflexivity. }
        split; [| intros Hn; exfalso; apply Hn; apply Hr].
        split; [intros _; auto | intros _; apply Hr].
      * destruct (Z.eqb_spec ERR_BADPARAM 0) as [? | _]; [contradiction |]. cbn [negb fst snd].
        split; [| reflexivity]. split; [contradiction | lia].
  - change (negb (ERR_OBJID =? 0)) with true. cbn [fst snd].
    split; [| reflexivity]. split; [discriminate | lia].
Qed.

End EvMore.

(** ** The theorems on examples *)

(** Task 0, with the events 0x3 pending, waits for event 0x4, which
    another task sends. *)
Lemma ev_receive_result_depends_on_schedule_witness :
  exists s1,
    @Ev.ev_receive_block example_codes os_ok 0x4 Ev.EV_WAIT Ev.EV_INFINITE_TIMEOUT (Some 0)
      ev_ready
    = inr (0%nat, s1) /\
    (exists sa s',
       @Ev.ev_send example_codes os_ok 0 0x4 s1 = (0, sa) /\
       @Ev.ev_receive_resume example_codes os_ok 0 Ev.EV_INFINITE_TIMEOUT (Some 0) sa
       = Returns (0, Some 0x4, s') /\
       Ev.pending_events (Ev.get 0 s') = 0x3 /\
       Ev.state (Ev.get 0 s') = Ev.EV_STATE_FREE) /\
    (exists sb s2 s3,
       @Ev.ev_send_signal example_codes os_ok 0 0x4 s1 = (0, Some 0%nat, sb) /\
       @Ev.ev_receive_resume example_codes os_ok 0 Ev.EV_INFINITE_TIMEOUT (Some 0) sb
       = Returns (0, Some 0, s2) /\
       @Ev.ev_send_stores example_codes 0 s2 = (0, s3) /\
       Ev.received_events (Ev.get 0 s3) = 0 /\
       Ev.pending_events (Ev.get 0 s3) = 0x7 /\
       Ev.state (Ev.get 0 s3) = Ev.EV_STATE_SIGNALED).
Proof.
  refine (@ev_receive_result_depends_on_schedule example_codes os_ok 0x4 Ev.EV_WAIT 0 0x4
            ev_ready _ _ eq_refl _ eq_refl eq_refl eq_refl eq_refl eq_refl eq_refl eq_refl _).
  - vm_compute. discriminate.
  - vm_compute. lia.
  - vm_compute. discriminate.
  - vm_compute. reflexivity.
Defined.

(** Task 0 waits ten ticks for event 0x4, which nobody sends. *)
Lemma ev_receive_timeout_keeps_pending_witness :
  exists s',
    @Ev.ev_receive example_codes os_ok [] 0x4 Ev.EV_WAIT 10 (Some 0) ev_ready
    = Returns (ERR_TIMEOUT, Some 0, s') /\
    Ev.pending_events (Ev.get 0 s') = Ev.pending_events (Ev.get 0 ev_ready) /\
    Ev.state (Ev.get 0 s') = Ev.EV_STATE_FREE.
Proof.
  refine (@ev_receive_timeout_keeps_pending example_codes os_ok 0x4 Ev.EV_WAIT 10 0 ev_ready
            _ _ eq_refl _ eq_refl eq_refl eq_refl eq_refl eq_refl eq_refl eq_refl _).
  - vm_compute. discriminate.
  - vm_compute. lia.
  - vm_compute. discriminate.
  - vm_compute. discriminate.
Defined.

(** Events 0x1 and then 0x2 for task 1. *)
Lemma ev_send_accumulates_pending_witness :
  let r1 := @Ev.ev_send example_codes os_ok 1 0x1 ev_ready in
  let r2 := @Ev.ev_send example_codes os_ok 1 0x2 (snd r1) in
  fst r1 = 0 /\ fst r2 = 0 /\
  Ev.pending_events (Ev.get (Z.to_nat 1) (snd r2))
  = Z.lor (Z.lor (Ev.pending_events (Ev.get (Z.to_nat 1) ev_ready)) 0x1) 0x2 /\
  Ev.state (Ev.get (Z.to_nat 1) (snd r2)) = Ev.state (Ev.get (Z.to_nat 1) ev_ready) /\
  (forall j, j <> Z.to_nat 1 -> Ev.get j (snd r2) = Ev.get j ev_ready).
Proof.
  refine (@ev_send_accumulates_pending example_codes os_ok 1 0x1 0x2 ev_ready
            _ _ _ eq_refl _ eq_refl eq_refl).
  - vm_compute. discriminate.
  - vm_compute. split; [discriminate | reflexivity].
  - vm_compute. lia.
  - vm_compute. discriminate.
Defined.

(** Task identifier 64 is rejected. *)
Lemma ev_send_rejects_bad_arguments_witness :
  (fst (@Ev.ev_send example_codes os_ok 64 0x1 ev_ready) = 0
   <-> 64 < Ev.MAX_TASK /\ 0x1 <> 0 /\ 0x1 <= Ev.EV_ALL_EVENTS) /\
  (fst (@Ev.ev_send example_codes os_ok 64 0x1 ev_ready) <> 0 ->
   snd (@Ev.ev_send example_codes os_ok 64 0x1 ev_ready) = ev_ready).
Proof.
  refine (@ev_send_rejects_bad_arguments example_codes os_ok 64 0x1 ev_ready _ _).
  - vm_compute. discriminate.
  - vm_compute. discriminate.
Defined.

(** * More about the scheduler and the task mode *)

Lemma t_get_upd_same i f s :
  (i < length (T.tasks s))%nat -> T.get i (T.upd i f s) = f (T.get i s).
Proof.
  intros Hi. unfold T.get, T.upd. simpl. now rewrite list_lookup_insert_eq.
Qed.

Lemma t_get_upd_ne i j f s : i <> j -> T.get j (T.upd i f s) = T.get j s.
Proof.
  intros Hne. unfold T.get, T.upd. simpl. now rewrite list_lookup_insert_ne.
Qed.

Lemma t_valid_in_range i s :
  T.T_IS_VALID_TCB (T.get i s) = true -> (i < length (T.tasks s))%nat.
Proof.
  unfold T.get. intros Hv.
  destruct (T.tasks s !! i) as [t |] eqn:E.
  - eapply lookup_lt_Some. exact E.
  - discriminate.
Qed.

(** A 32-bit value is a non-negative number without bits from 32 on. *)
Lemma ulong_bits m :
  0 <= m < 2 ^ 32 <-> 0 <= m /\ forall j, 32 <= j -> Z.testbit m j = false.
Proof.
  split.
  - intros [H0 H1]. split; [exact H0 |]. intros j Hj.
    destruct (Z.eq_dec m 0) as [-> | Hne]; [apply Z.bits_0 |].
    apply Z.bits_above_log2; [exact H0 |].
    assert (Z.log2 m < 32) by (apply Z.log2_lt_pow2; lia). lia.
  - intros [H0 Hb]. split; [exact H0 |].
    destruct (Z.lt_ge_cases m (2 ^ 32)) as [Hlt | Hge]; [exact Hlt |].
    assert (Hpos : 0 < m) by lia.
    assert (Hl : 32 <= Z.log2 m) by (apply Z.log2_le_pow2; lia).
    pose proof (Z.bit_log2 m Hpos) as Ht. rewrite Hb in Ht by exact Hl. discriminate.
Qed.

Lemma ulnot_bits x j : 0 <= j < 32 -> Z.testbit (ulnot x) j = negb (Z.testbit x j).
Proof.
  intros Hj. unfold ulnot, wrap, ULONG_BITS.
  rewrite Z.mod_pow2_bits_low by lia. apply Z.lnot_spec. lia.
Qed.

Lemma ulnot_range x : 0 <= ulnot x < 2 ^ 32.
Proof. unfold ulnot, wrap, ULONG_BITS. apply Z.mod_pos_bound. lia. Qed.

Lemma lor_bit_range m p : 0 <= m < 2 ^ 32 -> 0 <= p < 32 -> 0 <= Z.lor m (2 ^ p) < 2 ^ 32.
Proof.
  intros Hm Hp. apply ulong_bits. apply ulong_bits in Hm as [H0 Hb]. split.
  - apply Z.lor_nonneg. split; [exact H0 | apply Z.pow_nonneg; lia].
  - intros j Hj. rewrite Z.lor_spec, Hb by exact Hj.
    rewrite Z.pow2_bits_false by lia. reflexivity.
Qed.


Lemma t_ready_list_mask p v s : T.ready_list p (T.st_ready_mask v s) = T.ready_list p s.
Proof. reflexivity. Qed.

Section TMore.
Context `{ErrCodes}.

Lemma index_small pri : 0 <= pri < 32 -> T.T_PRIORITY_TO_INDEX pri = pri.
Proof.
  intros Hp. unfold T.T_PRIORITY_TO_INDEX, T.T_MAX_PRIORITY.
  destruct (Z.leb_spec pri 255); [reflexivity | lia].
Qed.

(** [t_scheduler_add_ready] for a valid block in the ready state, of a
    priority that has a bit in the mask. *)
Lemma t_scheduler_add_ready_step tcb s :
  T.T_IS_VALID_TCB (T.get tcb s) = true ->
  T.state (T.get tcb s) = T.T_STATE_READY ->
  0 <= T.priority (T.get tcb s) < 32 ->
  let p := T.priority (T.get tcb s) in
  T.t_scheduler_add_ready tcb s
  = T.st_ready_mask (Z.lor (T.ready_mask s) (2 ^ p))
      (T.set_ready_list p (tcb :: T.ready_list p s) s).
Proof.
  intros Hv Hst Hp p. unfold T.t_scheduler_add_ready. rewrite Hv, Hst.
  change (negb true || negb (T.T_STATE_READY =? T.T_STATE_READY)) with false. cbv iota zeta.
  unfold T.T_SET_READY_BIT. rewrite !index_small by (rewrite ?index_small; exact Hp).
  rewrite bit_small by exact Hp. reflexivity.
Qed.

(** [t_scheduler_remove_ready] for a valid block of a priority that has
    a bit in the mask. *)
Lemma t_scheduler_remove_ready_step tcb s :
  T.T_IS_VALID_TCB (T.get tcb s) = true ->
  0 <= T.priority (T.get tcb s) < 32 ->
  length (T.ready_lists s) = 256%nat ->
  let p := T.priority (T.get tcb s) in
  let l := T.ready_list p s in
  let l' := if bool_decide (tcb ∈ l) then filter (fun i => i <> tcb) l else [] in
  T.t_scheduler_remove_ready tcb s
  = match l' with
    | [] => T.st_ready_mask (Z.land (T.ready_mask s) (ulnot (2 ^ p)))
              (T.set_ready_list p l' s)
    | _ => T.set_ready_list p l' s
    end.
Proof.
  intros Hv Hp Hlen p l l'. unfold T.t_scheduler_remove_ready. rewrite Hv.
  cbn [negb]. cbv zeta. rewrite !index_small by exact Hp. fold p. fold l.
  assert (Hs : (if bool_decide (tcb ∈ l)
                then T.set_ready_list p (filter (fun i => i <> tcb) l) s
                else T.set_ready_list p [] s) = T.set_ready_list p l' s).
  { unfold l'. now destruct (bool_decide (tcb ∈ l)). }
  rewrite Hs. rewrite t_ready_list_set_same by (rewrite Hlen; unfold p; lia).
  destruct l'; [| reflexivity].
  unfold T.T_CLEAR_READY_BIT. rewrite index_small by exact Hp.
  rewrite bit_small by exact Hp. reflexivity.
Qed.


Lemma t_sched_ok_ext s s' :
  T.ready_lists s' = T.ready_lists s -> T.ready_mask s' = T.ready_mask s ->
  t_sched_ok s -> t_sched_ok s'.
Proof.
  intros Hl Hm (A & B & C). unfold t_sched_ok, T.ready_list. rewrite Hl, Hm.
  split; [exact A |]. split; [exact B |]. exact C.
Qed.

Lemma t_sched_ok_add p tcb s :
  t_sched_ok s -> 0 <= p < 32 ->
  t_sched_ok (T.st_ready_mask (Z.lor (T.ready_mask s) (2 ^ p))
                (T.set_ready_list p (tcb :: T.ready_list p s) s)).
Proof.
  intros (A & B & C) Hp. split; [| split].
  - cbn. now rewrite length_insert.
  - cbn. now apply lor_bit_range.
  - intros q Hq. rewrite t_ready_list_mask.
    change (T.ready_mask (T.st_ready_mask ?v ?x)) with v.
    rewrite Z.lor_spec. destruct (Z.eq_dec q p) as [-> | Hne].
    + rewrite t_ready_list_set_same by (rewrite A; lia).
      rewrite Z.pow2_bits_true by lia. rewrite orb_true_r. split; [discriminate | reflexivity].
    + rewrite t_ready_list_set_other by lia.
      rewrite Z.pow2_bits_false by lia. rewrite orb_false_r. now apply C.
Qed.



(** X26: what [t_scheduler_get_highest_ready] chooses when the ready
    mask is in step with the ready lists: nothing when the levels 0 to
    31 are all empty, and otherwise the head of the ready list of the
    lowest level that is not empty. *)
Theorem t_scheduler_get_highest_ready_lowest_level s :
  t_sched_ok s ->
  ((forall j, 0 <= j < 32 -> T.ready_list j s = []) ->
   T.t_scheduler_get_highest_ready s = None) /\
  (forall p h r, 0 <= p < 32 ->
     T.ready_list p s = h :: r ->
     (forall j, 0 <= j < p -> T.ready_list j s = []) ->
     T.t_scheduler_get_highest_ready s = Some h).
Proof.
  intros (A & B & C). split.
  - intros Hall. unfold T.t_scheduler_get_highest_ready.
    assert (E : T.ready_mask s = 0).
    { apply Z.bits_inj'. intros j Hj. rewrite Z.bits_0.
      destruct (Z.lt_ge_cases j 32) as [Hlt | Hge].
      - destruct (Z.testbit (T.ready_mask s) j) eqn:Hb; [| reflexivity].
        apply C in Hb; [| lia]. now rewrite Hall in Hb by lia.
      - apply ulong_bits in B as [_ Hhigh]. now apply Hhigh. }
    now rewrite E.
  - intros p h r Hp Hl Hlow. unfold T.t_scheduler_get_highest_ready.
    assert (Hbit : Z.testbit (T.ready_mask s) p = true).
    { apply C; [exact Hp |]. rewrite Hl. discriminate. }
    destruct (Z.eqb_spec (T.ready_mask s) 0) as [E0 | _].
    { rewrite E0, Z.bits_0 in Hbit. discriminate. }
    unfold T.T_FIND_HIGHEST_PRIORITY, T.builtin_ctz. rewrite wrap_small by exact B.
    rewrite (ctz_scan_lowest _ p); [| lia | cbn; lia | exact Hbit |].
    + now rewrite Hl.
    + intros j Hj. destruct (Z.testbit (T.ready_mask s) j) eqn:Hb; [| reflexivity].
      apply C in Hb; [| lia]. now rewrite Hlow in Hb by lia.
Qed.

(** X27: a task that becomes ready and then leaves the ready state
    (running, suspended, blocked or deleted) leaves the ready lists and
    the ready mask as they were before; its state is the new one and no
    other block is written. *)
Theorem t_set_state_ready_round_trip tcb new_state s :
  t_sched_ok s ->
  T.T_IS_VALID_TCB (T.get tcb s) = true ->
  T.state (T.get tcb s) <> T.T_STATE_READY ->
  0 <= T.priority (T.get tcb s) < 32 ->
  (tcb ∉ T.ready_list (T.priority (T.get tcb s)) s) ->
  new_state = T.T_STATE_RUNNING \/ new_state = T.T_STATE_SUSPENDED \/
  new_state = T.T_STATE_BLOCKED \/ new_state = T.T_STATE_DELETED ->
  let s2 := T.t_set_state tcb new_state (T.t_set_state tcb T.T_STATE_READY s) in
  T.ready_lists s2 = T.ready_lists s /\
  T.ready_mask s2 = T.ready_mask s /\
  T.state (T.get tcb s2) = new_state /\
  (forall j, j <> tcb -> T.get j s2 = T.get j s).
Proof.
  intros Hok Hv Hst Hp Hnin Hnew s2.
  pose proof (t_valid_in_range _ _ Hv) as Hi.
  pose proof Hok as (A & B & C).
  set (p := T.priority (T.get tcb s)) in *.
  set (l0 := T.ready_list p s) in *.
  (* becoming ready *)
  assert (E1 : T.t_set_state tcb T.T_STATE_READY s
               = T.st_ready_mask (Z.lor (T.ready_mask s) (2 ^ p))
                   (T.set_ready_list p (tcb :: l0)
                      (T.upd tcb (T.set_state T.T_STATE_READY) s))).
  { unfold T.t_set_state. rewrite Hv. cbn [negb].
    change (T.T_STATE_READY =? T.T_STATE_READY) with true. cbv iota.
    destruct (Z.eqb_spec (T.state (T.get tcb s)) T.T_STATE_READY) as [? | _];
      [contradiction |]. cbn [negb].
    assert (G : T.get tcb (T.upd tcb (T.set_state T.T_STATE_READY) s)
                = T.set_state T.T_STATE_READY (T.get tcb s))
      by (apply t_get_upd_same; exact Hi).
    rewrite t_scheduler_add_ready_step; rewrite G.
    - replace (T.priority (T.set_state T.T_STATE_READY (T.get tcb s))) with p
        by (unfold p; now destruct (T.get tcb s)).
      reflexivity.
    - destruct (T.get tcb s); exact Hv.
    - now destruct (T.get tcb s).
    - replace (T.priority (T.set_state T.T_STATE_READY (T.get tcb s))) with p
        by (unfold p; now destruct (T.get tcb s)).
      exact Hp. }
  set (s1 := T.t_set_state tcb T.T_STATE_READY s) in *.
  assert (G1 : T.get tcb s1 = T.set_state T.T_STATE_READY (T.get tcb s)).
  { rewrite E1.
    change (T.get tcb (T.st_ready_mask ?v (T.set_ready_list ?a ?b ?x))) with (T.get tcb x).
    apply t_get_upd_same; exact Hi. }
  assert (N1 : forall j, j <> tcb -> T.get j s1 = T.get j s).
  { intros j Hj. rewrite E1.
    change (T.get j (T.st_ready_mask ?v (T.set_ready_list ?a ?b ?x))) with (T.get j x).
    apply t_get_upd_ne. congruence. }
  assert (L1 : T.ready_lists s1 = <[Z.to_nat p := tcb :: l0]> (T.ready_lists s))
    by (rewrite E1; reflexivity).
  assert (M1 : T.ready_mask s1 = Z.lor (T.ready_mask s) (2 ^ p))
    by (rewrite E1; reflexivity).
  assert (T1 : length (T.tasks s1) = length (T.tasks s)).
  { rewrite E1. cbn. now rewrite length_insert. }
  clearbody s1. clear E1.
  (* leaving the ready state *)
  assert (Hne : new_state <> T.T_STATE_READY)
    by (destruct Hnew as [-> | [-> | [-> | ->]]]; discriminate).
  assert (Hin : (new_state =? T.T_STATE_RUNNING) || (new_state =? T.T_STATE_SUSPENDED)
                || (new_state =? T.T_STATE_BLOCKED) || (new_state =? T.T_STATE_DELETED)
                = true)
    by (destruct Hnew as [-> | [-> | [-> | ->]]]; reflexivity).
  set (s1' := T.upd tcb (T.set_state new_state) s1).
  assert (G1' : T.get tcb s1' = T.set_state new_state (T.get tcb s1))
    by (apply t_get_upd_same; rewrite T1; exact Hi).
  assert (E2 : s2 = T.t_scheduler_remove_ready tcb s1').
  { unfold s2, T.t_set_state.
    replace (T.T_IS_VALID_TCB (T.get tcb s1)) with true
      by (rewrite G1; destruct (T.get tcb s); symmetry; exact Hv).
    cbn [negb].
    destruct (Z.eqb_spec new_state T.T_STATE_READY) as [? | _]; [contradiction |].
    rewrite Hin.
    replace (T.state (T.get tcb s1)) with T.T_STATE_READY
      by (rewrite G1; now destruct (T.get tcb s)).
    reflexivity. }
  assert (P1' : T.priority (T.get tcb s1') = p).
  { rewrite G1', G1. unfold p. now destruct (T.get tcb s). }
  assert (V1' : T.T_IS_VALID_TCB (T.get tcb s1') = true).
  { rewrite G1', G1. destruct (T.get tcb s); exact Hv. }
  assert (S1' : T.state (T.get tcb s1') = new_state).
  { rewrite G1', G1. now destruct (T.get tcb s). }
  assert (R1' : T.ready_list p s1' = tcb :: l0).
  { change (T.ready_list p s1') with (T.ready_list p s1).
    unfold T.ready_list. rewrite L1.
    rewrite list_lookup_insert_eq; [reflexivity | rewrite A; lia]. }
  rewrite t_scheduler_remove_ready_step in E2;
    [| exact V1' | rewrite P1'; exact Hp
     | change (T.ready_lists s1') with (T.ready_lists s1); rewrite L1, length_insert;
       exact A].
  rewrite P1', R1' in E2.
  rewrite bool_decide_eq_true_2 in E2 by apply list_elem_of_here.
  rewrite filter_cons_False in E2 by (intros Hc; now apply Hc).
  assert (Hf : filter (fun i => i <> tcb) l0 = l0).
  { clear -Hnin. induction l0 as [| a l IH]; [reflexivity |].
    apply not_elem_of_cons in Hnin as [Hna Hnl].
    rewrite filter_cons_True by congruence. now rewrite IH. }
  rewrite Hf in E2.
  assert (Hlk : T.ready_lists s !! Z.to_nat p = Some l0).
  { unfold l0, T.ready_list.
    destruct (T.ready_lists s !! Z.to_nat p) as [x |] eqn:E; [reflexivity |].
    apply lookup_ge_None in E. lia. }
  assert (Hlists : <[Z.to_nat p := l0]> (T.ready_lists s1') = T.ready_lists s).
  { change (T.ready_lists s1') with (T.ready_lists s1). rewrite L1.
    rewrite list_insert_insert_eq. now apply list_insert_id. }
  assert (Hget : forall j x, T.get j (match l0 with
                     | [] => T.st_ready_mask x (T.set_ready_list p l0 s1')
                     | _ => T.set_ready_list p l0 s1'
                     end) = T.get j s1').
  { intros j x. now destruct l0. }
  rewrite E2. split; [| split; [| split]].
  - destruct l0; exact Hlists.
  - destruct l0 as [| a l] eqn:El.
    + change (T.ready_mask (T.st_ready_mask ?v ?x)) with v.
      change (T.ready_mask s1') with (T.ready_mask s1). rewrite M1.
      assert (Hb : Z.testbit (T.ready_mask s) p = false).
      { destruct (Z.testbit (T.ready_mask s) p) eqn:Hb; [| reflexivity].
        apply C in Hb; [| exact Hp]. fold l0 in Hb. now rewrite El in Hb. }
      apply Z.bits_inj'. intros j Hj. rewrite Z.land_spec, Z.lor_spec.
      destruct (Z.lt_ge_cases j 32) as [Hlt | Hge].
      * rewrite ulnot_bits by lia. destruct (Z.eq_dec j p) as [-> | Hjp].
        -- rewrite Z.pow2_bits_true by lia. now rewrite Hb.
        -- rewrite Z.pow2_bits_false by lia. now rewrite orb_false_r, andb_true_r.
      * apply ulong_bits in B as [_ Hhigh]. rewrite (Hhigh j Hge).
        rewrite Z.pow2_bits_false by lia. reflexivity.
    + change (T.ready_mask (T.set_ready_list ?a ?b ?x)) with (T.ready_mask x).
      change (T.ready_mask s1') with (T.ready_mask s1). rewrite M1.
      assert (Hb : Z.testbit (T.ready_mask s) p = true).
      { apply C; [exact Hp |]. fold l0. rewrite El. discriminate. }
      apply Z.bits_inj'. intros j Hj. rewrite Z.lor_spec.
      destruct (Z.eq_dec j p) as [-> | Hjp].
      * now rewrite Hb.
      * rewrite Z.pow2_bits_false by lia. apply orb_false_r.
  - rewrite Hget. exact S1'.
  - intros j Hj. rewrite Hget. unfold s1'. rewrite t_get_upd_ne by congruence.
    now apply N1.
Qed.


Lemma land_tslice x : Z.land x T.T_TSLICE = if Z.testbit x 1 then 2 else 0.
Proof.
  apply Z.bits_inj'. intros j Hj. rewrite Z.land_spec.
  change T.T_TSLICE with (2 ^ 1). rewrite Z.pow2_bits_eqb by lia.
  destruct (Z.eqb_spec 1 j) as [<- | Hne].
  - rewrite andb_true_r. destruct (Z.testbit x 1); reflexivity.
  - rewrite andb_false_r. destruct (Z.testbit x 1).
    + change 2 with (2 ^ 1). rewrite Z.pow2_bits_false by lia. reflexivity.
    + now rewrite Z.bits_0.
Qed.

Lemma truthy_land_tslice x : truthy (Z.land x T.T_TSLICE) = Z.testbit x 1.
Proof. rewrite land_tslice. now destruct (Z.testbit x 1). Qed.

(** X28: [t_mode] called by the current task with a place for the old
    mode returns 0 and the mode as it was.  Afterwards the [T_TSLICE] bit
    of the mode is that of [new_mode] when [mask] selects it, and every
    other bit of the mode is as before, whatever [mask] and [new_mode]
    are; the blocks of the other tasks are not written. *)
Theorem t_mode_changes_only_tslice mask new_mode old s cur :
  T.initialized s <> 0 ->
  T.current_task s = Some cur ->
  (cur < length (T.tasks s))%nat ->
  0 <= T.mode (T.get cur s) < 2 ^ 32 ->
  exists s',
    T.t_mode mask new_mode (Some old) s = (0, Some (T.mode (T.get cur s)), s') /\
    Z.testbit (T.mode (T.get cur s')) 1
    = (if Z.testbit mask 1 then Z.testbit new_mode 1
       else Z.testbit (T.mode (T.get cur s)) 1) /\
    (forall j, 0 <= j -> j <> 1 ->
       Z.testbit (T.mode (T.get cur s')) j = Z.testbit (T.mode (T.get cur s)) j) /\
    (forall i, i <> cur -> T.get i s' = T.get i s).
Proof.
  intros Hinit Hcur Hlen Hm.
  rewrite (t_mode_only_tslice mask new_mode old s cur Hinit Hcur).
  rewrite !truthy_land_tslice.
  eexists. split; [reflexivity |].
  destruct (Z.testbit mask 1).
  - destruct (Z.testbit new_mode 1) eqn:Hn.
    + unfold T.T_MODE_SET. rewrite t_get_upd_same by exact Hlen.
      replace (T.mode (T.set_mode (Z.lor (T.mode (T.get cur s)) T.T_TSLICE) (T.get cur s)))
        with (Z.lor (T.mode (T.get cur s)) (2 ^ 1)) by now destruct (T.get cur s).
      split; [| split].
      * rewrite Z.lor_spec, Z.pow2_bits_true by lia. apply orb_true_r.
      * intros j Hj Hne. rewrite Z.lor_spec, Z.pow2_bits_false by lia. apply orb_false_r.
      * intros i Hi. apply t_get_upd_ne. congruence.
    + unfold T.T_MODE_CLEAR. rewrite t_get_upd_same by exact Hlen.
      replace (T.mode (T.set_mode (Z.land (T.mode (T.get cur s)) (ulnot T.T_TSLICE))
                         (T.get cur s)))
        with (Z.land (T.mode (T.get cur s)) (ulnot (2 ^ 1))) by now destruct (T.get cur s).
      split; [| split].
      * rewrite Z.land_spec, ulnot_bits by lia.
        rewrite Z.pow2_bits_true by lia. apply andb_false_r.
      * intros j Hj Hne. rewrite Z.land_spec.
        destruct (Z.lt_ge_cases j 32) as [Hlt | Hge].
        -- rewrite ulnot_bits by lia. rewrite Z.pow2_bits_false by lia. apply andb_true_r.
        -- apply ulong_bits in Hm as [_ Hhigh]. now rewrite (Hhigh j Hge).
      * intros i Hi. apply t_get_upd_ne. congruence.
  - split; [reflexivity |]. split; reflexivity.
Qed.

End TMore.

(** ** The theorems on examples *)

Lemma t_sched_ok_t_two_created : t_sched_ok T.t_two_created.
Proof.
  split; [reflexivity |]. split; [cbn; lia |].
  intros p Hp. change (T.ready_mask T.t_two_created) with 0. rewrite Z.bits_0.
  split; [discriminate |]. intros Hl. exfalso. apply Hl.
  unfold T.ready_list. change (T.ready_lists T.t_two_created) with (replicate 256 (@nil nat)).
  destruct (replicate 256 [] !! Z.to_nat p) as [x |] eqn:E; [| reflexivity].
  apply lookup_replicate in E as [-> _]. reflexivity.
Qed.

Lemma t_sched_ok_one_ready :
  t_sched_ok (T.t_set_state 0 T.T_STATE_READY T.t_two_created).
Proof.
  set (s1 := T.upd 0 (T.set_state T.T_STATE_READY) T.t_two_created).
  assert (Hok1 : t_sched_ok s1).
  { generalize t_sched_ok_t_two_created. apply t_sched_ok_ext; reflexivity. }
  change (T.t_set_state 0 T.T_STATE_READY T.t_two_created)
    with (T.st_ready_mask (Z.lor (T.ready_mask s1) (2 ^ 10))
            (T.set_ready_list 10 (0%nat :: T.ready_list 10 s1) s1)).
  apply t_sched_ok_add; [exact Hok1 | lia].
Qed.


(** With that task alone in the ready lists, it is the one chosen. *)
Lemma t_scheduler_get_highest_ready_lowest_level_witness :
  T.t_scheduler_get_highest_ready (T.t_set_state 0 T.T_STATE_READY T.t_two_created)
  = Some 0%nat.
Proof.
  refine (proj2 (t_scheduler_get_highest_ready_lowest_level
                   (T.t_set_state 0 T.T_STATE_READY T.t_two_created) _)
            10 0%nat [] _ eq_refl _).
  - exact t_sched_ok_one_ready.
  - lia.
  - intros j Hj.
    assert (Hc : j = 0 \/ j = 1 \/ j = 2 \/ j = 3 \/ j = 4 \/ j = 5 \/ j = 6 \/ j = 7
                 \/ j = 8 \/ j = 9) by lia.
    destruct Hc as [-> | [-> | [-> | [-> | [-> | [-> | [-> | [-> | [-> | ->]]]]]]]]];
      reflexivity.
Defined.

(** The first of the two tasks becomes ready and is then blocked. *)
Lemma t_set_state_ready_round_trip_witness :
  let s2 := T.t_set_state 0 T.T_STATE_BLOCKED
              (T.t_set_state 0 T.T_STATE_READY T.t_two_created) in
  T.ready_lists s2 = T.ready_lists T.t_two_created /\
  T.ready_mask s2 = T.ready_mask T.t_two_created /\
  T.state (T.get 0 s2) = T.T_STATE_BLOCKED /\
  (forall j, j <> 0%nat -> T.get j s2 = T.get j T.t_two_created).
Proof.
  refine (t_set_state_ready_round_trip 0 T.T_STATE_BLOCKED T.t_two_created
            t_sched_ok_t_two_created eq_refl _ _ _ _).
  - vm_compute. discriminate.
  - vm_compute. split; [discriminate | reflexivity].
  - change (0%nat ∉ @nil nat). apply not_elem_of_nil.
  - right. right. left. reflexivity.
Defined.

(** The running task of [t_one_running] asks for time slicing and, with
    the same call, for no preemption. *)
Lemma t_mode_changes_only_tslice_witness :
  exists s',
    @T.t_mode example_codes (Z.lor T.T_TSLICE T.T_NOPREEMPT) (Z.lor T.T_TSLICE T.T_NOPREEMPT)
      (Some 0) T.t_one_running
    = (0, Some (T.mode (T.get 0 T.t_one_running)), s') /\
    Z.testbit (T.mode (T.get 0 s')) 1
    = (if Z.testbit (Z.lor T.T_TSLICE T.T_NOPREEMPT) 1
       then Z.testbit (Z.lor T.T_TSLICE T.T_NOPREEMPT) 1
       else Z.testbit (T.mode (T.get 0 T.t_one_running)) 1) /\
    (forall j, 0 <= j -> j <> 1 ->
       Z.testbit (T.mode (T.get 0 s')) j = Z.testbit (T.mode (T.get 0 T.t_one_running)) j) /\
    (forall i, i <> 0%nat -> T.get i s' = T.get i T.t_one_running).
Proof.
  refine (@t_mode_changes_only_tslice example_codes _ _ 0 T.t_one_running 0%nat
            _ eq_refl _ _).
  - vm_compute. discriminate.
  - vm_compute. lia.
  - vm_compute. split; [discriminate | reflexivity].
Defined.

(** * Deleting a semaphore *)

Lemma find_none_all {A} (f : A -> bool) l :
  (forall x, x ∈ l -> f x = false) -> List.find f l = None.
Proof.
  induction l as [| a l IH]; intros Hall; [reflexivity |].
  cbn. rewrite Hall by apply list_elem_of_here.
  apply IH. intros x Hx. apply Hall. now apply list_elem_of_further.
Qed.

Section SmDelete.
Context `{ErrCodes}.

(** What the loop of [sm_delete] keeps: it writes the wait queue and the
    wait count of [scb] and nothing else. *)
Lemma drain_wait_queue_ind (P : Sm.SM_STATE -> Prop) n scb s :
  (forall s rest, P s ->
     P (Sm.upd scb (fun b => Sm.set_wait_count (decr (Sm.wait_count b))
                               (Sm.set_wait_queue rest b)) s)) ->
  P s -> P (Sm.drain_wait_queue n scb s).
Proof.
  intros Hstep. revert s. induction n as [| n IH]; intros s Hs; [exact Hs |].
  cbn [Sm.drain_wait_queue].
  destruct (Sm.wait_queue (Sm.get scb s)) as [| node rest] eqn:Hq; [exact Hs |].
  apply IH. unfold Sm.sm_wait_queue_get_next.
  destruct (negb _); [exact Hs |]. rewrite Hq. cbn [snd]. now apply Hstep.
Qed.

Lemma drain_wait_queue_keeps n scb s :
  let s' := Sm.drain_wait_queue n scb s in
  Sm.active_list s' = Sm.active_list s /\
  Sm.free_list s' = Sm.free_list s /\
  Sm.initialized s' = Sm.initialized s /\
  length (Sm.semaphores s') = length (Sm.semaphores s) /\
  Sm.magic (Sm.get scb s') = Sm.magic (Sm.get scb s) /\
  (forall j, j <> scb -> Sm.get j s' = Sm.get j s).
Proof.
  apply (drain_wait_queue_ind
           (fun s' => Sm.active_list s' = Sm.active_list s /\
                      Sm.free_list s' = Sm.free_list s /\
                      Sm.initialized s' = Sm.initialized s /\
                      length (Sm.semaphores s') = length (Sm.semaphores s) /\
                      Sm.magic (Sm.get scb s') = Sm.magic (Sm.get scb s) /\
                      (forall j, j <> scb -> Sm.get j s' = Sm.get j s))).
  - intros s1 rest (A & B & C & D & E & F).
    split; [exact A |]. split; [exact B |]. split; [exact C |].
    split; [now rewrite sm_length_upd |].
    split; [rewrite (sm_get_upd_field Sm.magic) by reflexivity; exact E |].
    intros j Hj. rewrite sm_get_upd_ne by exact Hj. now apply F.
  - repeat split; reflexivity.
Qed.

(** [sm_pool_free] of a valid block: the block leaves the active list,
    is cleared and heads the free list. *)
Lemma sm_pool_free_ok scb s :
  Sm.SM_IS_VALID_SCB (Sm.get scb s) = true ->
  exists s',
    Sm.sm_pool_free scb s = (0, s') /\
    Sm.active_list s' = filter (fun i => i <> scb) (Sm.active_list s) /\
    Sm.free_list s' = scb :: Sm.free_list s /\
    Sm.initialized s' = Sm.initialized s /\
    (forall j, j <> scb -> Sm.get j s' = Sm.get j s).
Proof.
  intros Hv. unfold Sm.sm_pool_free. rewrite Hv. cbn [negb].
  set (s1 := Sm.st_active_list _ s).
  unfold Sm.sm_wait_queue_clear.
  change (Sm.get scb s1) with (Sm.get scb s). rewrite Hv. cbn [negb snd].
  set (s2 := Sm.upd scb _ s1).
  set (s3 := match Sm.hw_ops s2 with
             | Some Sm.sm_hw_generic_ops => snd (Sm.sm_hw_generic_delete_semaphore scb s2)
             | None => s2
             end).
  assert (K3 : Sm.active_list s3 = Sm.active_list s2 /\
               Sm.free_list s3 = Sm.free_list s2 /\
               Sm.initialized s3 = Sm.initialized s2 /\
               (forall j, j <> scb -> Sm.get j s3 = Sm.get j s2)).
  { unfold s3. destruct (Sm.hw_ops s2) as [[] |]; [| repeat split; reflexivity].
    unfold Sm.sm_hw_generic_delete_semaphore.
    destruct (Sm.hw_context (Sm.get scb s2)); [| repeat split; reflexivity].
    cbn [snd]. repeat split. intros j Hj. now apply sm_get_upd_ne. }
  destruct K3 as (A3 & B3 & C3 & D3). clearbody s3.
  eexists. split; [reflexivity |].
  split; [exact A3 |]. split; [cbn; now rewrite B3 |]. split; [exact C3 |].
  intros j Hj.
  change (Sm.get j (Sm.st_active_count ?v (Sm.st_free_list ?l ?x))) with (Sm.get j x).
  rewrite sm_get_upd_ne by exact Hj. rewrite D3 by exact Hj.
  unfold s2. rewrite sm_get_upd_ne by exact Hj. reflexivity.
Qed.

(** X29: [sm_delete] of an active semaphore whose identifier no other
    active block carries returns 0; the block heads the free list,
    [sm_pool_find] no longer finds the identifier, and [sm_v] on it
    returns [ERR_OBJID] and changes nothing. *)
Theorem sm_delete_forgets_semaphore os smid s scb :
  sm_sem s smid scb ->
  (forall j, j ∈ Sm.active_list s -> j <> scb ->
     Sm.semaphore_id (Sm.get j s) <> smid) ->
  exists s',
    Sm.sm_delete smid s = (0, s') /\
    Sm.free_list s' = scb :: Sm.free_list s /\
    Sm.active_list s' = filter (fun i => i <> scb) (Sm.active_list s) /\
    Sm.sm_pool_find smid s' = None /\
    Sm.sm_v os smid s' = (ERR_OBJID, s').
Proof.
  intros (S1 & S2 & S3 & S4) Huniq.
  destruct (sm_pool_find_valid _ _ _ S2) as [_ Hvalid].
  unfold Sm.sm_delete. rewrite sm_init_once_initialized by exact S1. cbn [snd].
  rewrite S2, S4. change (Sm.SM_STATE_ACTIVE =? Sm.SM_STATE_FREE) with false. cbv iota.
  set (n := length _).
  destruct (drain_wait_queue_keeps n scb s) as (A1 & B1 & C1 & D1 & E1 & F1).
  set (s1 := Sm.drain_wait_queue n scb s) in *. clearbody s1.
  assert (V1 : Sm.SM_IS_VALID_SCB (Sm.get scb s1) = true).
  { unfold Sm.SM_IS_VALID_SCB in *. now rewrite E1. }
  destruct (sm_pool_free_ok scb s1 V1) as (s2 & E2 & A2 & B2 & C2 & F2).
  rewrite E2. cbn [snd].
  set (s3 := Sm.st_total_deleted _ s2).
  assert (Hfind : Sm.sm_pool_find smid s3 = None).
  { unfold Sm.sm_pool_find. destruct (negb _); [reflexivity |].
    apply find_none_all. intros x Hx.
    change (Sm.active_list s3) with (Sm.active_list s2) in Hx.
    rewrite A2, A1 in Hx. apply list_elem_of_filter in Hx as [Hne Hin].
    change (Sm.get x s3) with (Sm.get x s2).
    rewrite F2, F1 by exact Hne.
    apply andb_false_iff. left. apply Z.eqb_neq. now apply Huniq. }
  exists s3. split; [reflexivity |].
  split; [change (Sm.free_list s3) with (Sm.free_list s2); now rewrite B2, B1 |].
  split; [change (Sm.active_list s3) with (Sm.active_list s2); now rewrite A2, A1 |].
  split; [exact Hfind |].
  unfold Sm.sm_v. rewrite sm_init_once_initialized.
  - cbn [snd]. now rewrite Hfind.
  - change (Sm.initialized s3) with (Sm.initialized s2). now rewrite C2, C1.
Qed.

End SmDelete.

(** The semaphore of [sm_two] is deleted. *)
Lemma sm_delete_forgets_semaphore_witness :
  exists s',
    @Sm.sm_delete example_codes 1 sm_two = (0, s') /\
    Sm.free_list s' = 0%nat :: Sm.free_list sm_two /\
    Sm.active_list s' = filter (fun i => i <> 0%nat) (Sm.active_list sm_two) /\
    Sm.sm_pool_find 1 s' = None /\
    @Sm.sm_v example_codes os_ok 1 s' = (ERR_OBJID, s').
Proof.
  refine (@sm_delete_forgets_semaphore example_codes os_ok 1 sm_two 0%nat sm_sem_sm_two _).
  intros j Hj Hne. change (Sm.active_list sm_two) with [0%nat] in Hj.
  apply list_elem_of_singleton in Hj. contradiction.
Defined.
